(** * rorefcat.Utilities.createjobs: job discovery, job iteration and batching

    A shallow embedding of [createjobs.py] (definejobs, DASKjobs,
    define_batchprocess_jobs, writeOutputJSONfile) together with the parts of
    the Python runtime the module leans on (dynamic values, [str] and
    [os.path] helpers, the [json] encoder and decoder), and the properties
    the specification states about them. *)

From Stdlib Require Import ZArith List String Ascii Bool Arith Lia.
From Stdlib Require Import DecimalString DecimalZ DecimalPos.
Import ListNotations.
#[local] Set Warnings "-register-all".
Local Open Scope string_scope.
Local Open Scope list_scope.

(* ===================================================================== *)
(** ** Python values, exceptions and effects *)
(* ===================================================================== *)

(** The values that flow through the module: what [json] can carry.  A
    [dict] keeps its insertion order and has [str] keys; a [str] is a
    sequence of characters with code points below 256. *)
Inductive pyval : Type :=
| PNone
| PInt (n : Z)
| PStr (s : string)
| PList (l : list pyval)
| PDict (d : list (string * pyval)).

Inductive exn : Type :=
| DASKjobsError (message comment : string)
| StopIteration
| KeyError (key : string)
| TypeError (what : string)
| IndexError (what : string)
| AttributeError (what : string)
| UnboundLocalError (name : string)
| ZeroDivisionError
| FileNotFoundError (path : string).

Inductive loglevel : Type := INFO | WARNING | ERROR.

(** Everything the code does to the outside world, in the order it happens. *)
Inductive event : Type :=
| Log (level : loglevel) (msg : string)
| Ls (path : string)                          (* s3.ls( path ) *)
| IsDir (path : string)                       (* os.path.isdir( path ) *)
| ListDir (path : string)                     (* os.listdir( path ) *)
| FileWrite (name : string) (text : string)   (* open( name, 'w' ) + json.dump *)
| S3Upload (name bucket key : string)         (* s3.upload_file *)
| FileUnlink (name : string).                 (* os.unlink *)

Inductive result (A : Type) : Type :=
| Ok (a : A)
| Raise (e : exn).
Arguments Ok {A} a.
Arguments Raise {A} e.

(** A computation returns or raises, and leaves a trace of events. *)
Definition M (A : Type) : Type := (result A * list event)%type.

Definition ret {A} (a : A) : M A := (Ok a, []).
Definition raise {A} (e : exn) : M A := (Raise e, []).
Definition emit (ev : event) : M unit := (Ok tt, [ev]).
Definition bind {A B} (m : M A) (k : A -> M B) : M B :=
  match m with
  | (Ok a, t) => let '(r, t') := k a in (r, t ++ t')
  | (Raise e, t) => (Raise e, t)
  end.

Notation "x <- m ;; k" := (bind m (fun x => k))
  (at level 61, m at next level, right associativity).
Notation "m ;;; k" := (bind m (fun _ => k))
  (at level 61, right associativity).

(** [try: m except: h] with a bare [except], which catches everything. *)
Definition try_except {A} (m : M A) (h : M A) : M A :=
  match m with
  | (Ok a, t) => (Ok a, t)
  | (Raise _, t) => let '(r, t') := h in (r, t ++ t')
  end.

Definition LOGGER_error (msg : string) : M unit := emit (Log ERROR msg).
Definition LOGGER_info (msg : string) : M unit := emit (Log INFO msg).
Definition LOGGER_warning (msg : string) : M unit := emit (Log WARNING msg).

(* ===================================================================== *)
(** ** [str], [list] and [os.path] helpers *)
(* ===================================================================== *)

Infix "+++" := String.append (right associativity, at level 60).

(** [s[n:]] *)
Fixpoint str_from (n : nat) (s : string) : string :=
  match n, s with
  | O, _ => s
  | S n', String _ s' => str_from n' s'
  | S _, EmptyString => EmptyString
  end.

(** [s[:n]] *)
Fixpoint str_upto (n : nat) (s : string) : string :=
  match n, s with
  | S n', String c s' => String c (str_upto n' s')
  | _, _ => EmptyString
  end.

(** [s.split( sep )] for a one-character separator: never the empty list. *)
Fixpoint str_split (sep : ascii) (s : string) : list string :=
  match s with
  | EmptyString => [EmptyString]
  | String c s' =>
      if Ascii.eqb c sep then EmptyString :: str_split sep s'
      else match str_split sep s' with
           | w :: ws => String c w :: ws
           | [] => [String c EmptyString]
           end
  end.

(** [sep.join( l )] *)
Fixpoint str_join (sep : string) (l : list string) : string :=
  match l with
  | [] => EmptyString
  | [w] => w
  | w :: ws => w +++ sep +++ str_join sep ws
  end.

(** [s.startswith( p )], and [re.search] of a literal anchored by [^]. *)
Fixpoint str_startswith (p s : string) : bool :=
  match p with
  | EmptyString => true
  | String a p' =>
      match s with
      | String b s' => Ascii.eqb a b && str_startswith p' s'
      | EmptyString => false
      end
  end.

(** [needle in s] *)
Fixpoint str_contains (needle s : string) : bool :=
  str_startswith needle s ||
  match s with
  | EmptyString => false
  | String _ s' => str_contains needle s'
  end.

Definition str_endswith (suffix s : string) : bool :=
  let n := String.length s - String.length suffix in
  (String.length suffix <=? String.length s)%nat && String.eqb (str_from n s) suffix.

Definition os_sep : ascii := "/"%char.

(** The last component of [os.path.split( p )]: what follows the last
    slash.  The module never uses the head. *)
Definition os_path_tail (p : string) : string :=
  last (str_split os_sep p) EmptyString.

(** [os.path.join( a, b )] (posixpath) *)
Definition os_path_join (a b : string) : string :=
  if str_startswith "/" b then b
  else if String.eqb a EmptyString || str_endswith "/" a then a +++ b
  else a +++ "/" +++ b.

Definition os_path_join_all (a : string) (ps : list string) : string :=
  fold_left os_path_join ps a.

(** [re.search( "[._]nc$", f )]: [$] also matches before one final newline. *)
Definition re_search_nc (f : string) : bool :=
  let nl := String "010"%char EmptyString in
  str_endswith ".nc" f || str_endswith "_nc" f ||
  str_endswith (".nc" +++ nl) f || str_endswith ("_nc" +++ nl) f.

(** [l[n:]] is [skipn n l]; [l.pop(0)] is the head and the tail. *)


(* ===================================================================== *)
(** ** Python containers and the [json] encoder *)
(* ===================================================================== *)

Definition dict_get (k : string) (d : list (string * pyval)) : option pyval :=
  option_map snd (find (fun kv => String.eqb (fst kv) k) d).

Definition dict_has (k : string) (d : list (string * pyval)) : bool :=
  existsb (fun kv => String.eqb (fst kv) k) d.

(** [d[k] = v]: an existing key keeps its place. *)
Fixpoint dict_set (k : string) (v : pyval) (d : list (string * pyval))
  : list (string * pyval) :=
  match d with
  | [] => [(k, v)]
  | (k', v') :: d' =>
      if String.eqb k' k then (k, v) :: d' else (k', v') :: dict_set k v d'
  end.

(** [l[i]] for a Python index, negative ones counting from the end. *)
Definition list_index {A} (l : list A) (i : Z) : option A :=
  let n := Z.of_nat (List.length l) in
  if (0 <=? i)%Z && (i <? n)%Z then nth_error l (Z.to_nat i)
  else if (- n <=? i)%Z && (i <? 0)%Z then nth_error l (Z.to_nat (n + i))
  else None.

(** [container[key]] *)
Definition py_getitem (container key : pyval) : M pyval :=
  match container, key with
  | PDict d, PStr k =>
      match dict_get k d with
      | Some v => ret v
      | None => raise (KeyError k)
      end
  | PDict _, PInt _ => raise (KeyError "<int>")
  | PDict _, PNone => raise (KeyError "None")
  | PDict _, _ => raise (TypeError "unhashable type")
  | PList l, PInt i =>
      match list_index l i with
      | Some v => ret v
      | None => raise (IndexError "list index out of range")
      end
  | PList _, _ => raise (TypeError "list indices must be integers or slices")
  | PStr s, PInt i =>
      match list_index (list_ascii_of_string s) i with
      | Some c => ret (PStr (String c EmptyString))
      | None => raise (IndexError "string index out of range")
      end
  | PStr _, _ => raise (TypeError "string indices must be integers")
  | _, _ => raise (TypeError "object is not subscriptable")
  end.

(** [a == b] *)
Fixpoint py_eqb (a b : pyval) : bool :=
  match a, b with
  | PNone, PNone => true
  | PInt m, PInt n => Z.eqb m n
  | PStr s, PStr t => String.eqb s t
  | PList l, PList l' =>
      (fix all2 (l : list pyval) (l' : list pyval) : bool :=
         match l, l' with
         | [], [] => true
         | x :: xs, y :: ys => py_eqb x y && all2 xs ys
         | _, _ => false
         end) l l'
  | PDict d, PDict d' =>
      Nat.eqb (List.length d) (List.length d') &&
      forallb (fun kv => match dict_get (fst kv) d' with
                         | Some v' => py_eqb (snd kv) v'
                         | None => false
                         end) d
  | _, _ => false
  end.

(** [os.fspath] on an argument of [os.path.join]. *)
Definition os_fspath (v : pyval) : M string :=
  match v with
  | PStr s => ret s
  | _ => raise (TypeError "expected str, bytes or os.PathLike object")
  end.

Definition dquote : ascii := "034"%char.

Definition hex_digit (n : nat) : ascii :=
  nth n ["0"; "1"; "2"; "3"; "4"; "5"; "6"; "7"; "8"; "9";
         "a"; "b"; "c"; "d"; "e"; "f"]%char "0"%char.

(** One character under [json.encoder.ESCAPE_ASCII] and [ESCAPE_DCT]. *)
Definition escape_char (c : ascii) : string :=
  let n := nat_of_ascii c in
  if Ascii.eqb c "\"%char then "\\"
  else if Ascii.eqb c dquote then String "\"%char (String dquote EmptyString)
  else if Ascii.eqb c "008"%char then "\b"
  else if Ascii.eqb c "012"%char then "\f"
  else if Ascii.eqb c "010"%char then "\n"
  else if Ascii.eqb c "013"%char then "\r"
  else if Ascii.eqb c "009"%char then "\t"
  else if (32 <=? n)%nat && (n <=? 126)%nat then String c EmptyString
  else "\u00" +++ String (hex_digit (n / 16)) (String (hex_digit (n mod 16)) EmptyString).

Fixpoint escape_string (s : string) : string :=
  match s with
  | EmptyString => EmptyString
  | String c s' => escape_char c +++ escape_string s'
  end.

(** [json.encoder.encode_basestring_ascii] *)
Definition encode_basestring_ascii (s : string) : string :=
  String dquote (escape_string s +++ String dquote EmptyString).

(** [int.__repr__] *)
Definition int_repr (n : Z) : string := NilZero.string_of_int (Z.to_int n).

Fixpoint str_repeat (s : string) (n : nat) : string :=
  match n with
  | O => EmptyString
  | S n' => s +++ str_repeat s n'
  end.

Definition newline : string := String "010"%char EmptyString.

(** ['\n' + indent * level], or nothing without an indent. *)
Definition newline_indent (indent : option string) (level : nat) : string :=
  match indent with
  | Some i => newline +++ str_repeat i level
  | None => EmptyString
  end.

Definition item_separator (indent : option string) : string :=
  match indent with
  | Some _ => ","
  | None => ", "
  end.

Definition key_separator : string := ": ".

(** [json.encoder._make_iterencode], the chunks joined: [level] is
    [_current_indent_level]. *)
Fixpoint json_encode (indent : option string) (level : nat) (v : pyval) : string :=
  match v with
  | PNone => "null"
  | PInt n => int_repr n
  | PStr s => encode_basestring_ascii s
  | PList [] => "[]"
  | PList (x :: xs) =>
      "[" +++ newline_indent indent (S level)
          +++ json_encode indent (S level) x
          +++ (fix items (l : list pyval) : string :=
                match l with
                | [] => EmptyString
                | y :: ys =>
                    item_separator indent +++ newline_indent indent (S level)
                      +++ json_encode indent (S level) y +++ items ys
                end) xs
          +++ newline_indent indent level +++ "]"
  | PDict [] => "{}"
  | PDict ((k, x) :: kxs) =>
      "{" +++ newline_indent indent (S level)
          +++ encode_basestring_ascii k +++ key_separator
          +++ json_encode indent (S level) x
          +++ (fix items (l : list (string * pyval)) : string :=
                match l with
                | [] => EmptyString
                | (k', y) :: kys =>
                    item_separator indent +++ newline_indent indent (S level)
                      +++ encode_basestring_ascii k' +++ key_separator
                      +++ json_encode indent (S level) y +++ items kys
                end) kxs
          +++ newline_indent indent level +++ "}"
  end.

(** A value in a format field of an f-string.  Only [str], [int] and [None]
    reach one in this module; a container is shown in its JSON form. *)
Definition py_str (v : pyval) : string :=
  match v with
  | PStr s => s
  | PInt n => int_repr n
  | PNone => "None"
  | _ => json_encode None 0 v
  end.

(** [json.dumps( v, indent=indent )], also what [json.dump] writes. *)
Definition json_dumps (indent : option string) (v : pyval) : string :=
  json_encode indent 0 v.

(* ===================================================================== *)
(** ** The storage listing service and the session *)
(* ===================================================================== *)

(** A boto3 session, as far as the module looks into it. *)
Record Session : Type := { profile_name : string; region_name : string }.

(** [Session.region_name] on the [session] argument, whose default is [None]. *)
Definition session_region_name (session : option Session) : M string :=
  match session with
  | Some s => ret (region_name s)
  | None => raise (AttributeError "'NoneType' object has no attribute 'region_name'")
  end.

(** The s3fs set-up shared by [definejobs] and [DASKjobs.__init__]: both
    branches read [session.region_name]. *)
Definition establish_s3fs (session : option Session) : M unit :=
  _ <- session_region_name session ;; ret tt.

Section Listing.

(** What [s3.ls] answers for a path: the children, or [None] when it
    raises. *)
Variable ls : string -> option (list string).

Definition s3_ls (path : string) : M (list string) :=
  emit (Ls path) ;;;
  match ls path with
  | Some files => ret files
  | None => raise (FileNotFoundError path)
  end.

(* ===================================================================== *)
(** ** DASKjobs *)
(* ===================================================================== *)

Record DASKjobs : Type := {
  jobs : list pyval;
  prefixes : pyval;
  inputfiles : list string
}.

(** What [__next__] returns:
    ( file_type, processing_center, input_root_path, input_relative_path ). *)
Record job_tuple : Type := {
  file_type : pyval;
  processing_center : pyval;
  input_root_path : string;
  input_relative_path : string
}.

Definition loadfiles (self_prefixes : pyval) (job : pyval) : M (list string) :=
  file_type <- py_getitem job (PStr "file_type") ;;
  processing_center <- py_getitem job (PStr "processing_center") ;;
  input_root_path <- py_getitem self_prefixes processing_center ;;
  input_relative_dir <- py_getitem job (PStr "input_relative_dir") ;;
  root <- os_fspath input_root_path ;;
  rel <- os_fspath input_relative_dir ;;
  let input_path := os_path_join root rel in
  files <- s3_ls input_path ;;
  let inputfiles := filter re_search_nc files in
  let inputfiles :=
    if Nat.eqb (List.length inputfiles) 0 then filter re_search_nc files
    else inputfiles in
  (if Nat.eqb (List.length inputfiles) 0
   then LOGGER_error ("No files in s3://" +++ input_path)
   else ret tt) ;;;
  ret inputfiles.

Definition DASKjobs_init (job_definitions : pyval) (session : option Session)
  : M DASKjobs :=
  match job_definitions with
  | PDict d =>
      (fix check_keys (keys : list string) : M unit :=
         match keys with
         | [] => ret tt
         | key :: keys' =>
             if negb (dict_has key d) then
               let comment := "job_definitions does not have key " +++ key in
               LOGGER_error comment ;;;
               raise (DASKjobsError "InvalidJobDefinitionsKeys" comment)
             else check_keys keys'
         end) ["prefixes"; "jobs"] ;;;
      the_jobs <- py_getitem job_definitions (PStr "jobs") ;;
      match the_jobs with
      | PList l =>
          if Nat.eqb (List.length l) 0 then
            let comment := "no jobs in job_definitions['jobs']" in
            LOGGER_error comment ;;;
            raise (DASKjobsError "NoJobDefinitionsJobs" comment)
          else
            establish_s3fs session ;;;
            the_prefixes <- py_getitem job_definitions (PStr "prefixes") ;;
            job0 <- py_getitem (PList l) (PInt 0) ;;
            files <- loadfiles the_prefixes job0 ;;
            ret {| jobs := l; prefixes := the_prefixes; inputfiles := files |}
      | _ =>
          let comment := "job_definitions['jobs'] is not a list" in
          LOGGER_error comment ;;;
          raise (DASKjobsError "InvalidJobDefinitionsJobs" comment)
      end
  | _ =>
      let comment := "job_definitions is not a dictionary" in
      LOGGER_error comment ;;;
      raise (DASKjobsError "InvalidJobDefinitions" comment)
  end.

(** [input_root_path[5:].split( os.path.sep )] on whatever the prefixes
    hold. *)
Definition rootpath_split (input_root_path : pyval) : M (list string) :=
  match input_root_path with
  | PStr s => ret (str_split os_sep (str_from 5 s))
  | PList _ => raise (AttributeError "'list' object has no attribute 'split'")
  | _ => raise (TypeError "object is not subscriptable")
  end.

(** The part of [__next__] after the job has been identified; it pops the
    input file only when everything before succeeded. *)
Definition next_tuple (self : DASKjobs) : DASKjobs * M job_tuple :=
  let m :=
    job <- py_getitem (PList (jobs self)) (PInt 0) ;;
    file_type <- py_getitem job (PStr "file_type") ;;
    processing_center <- py_getitem job (PStr "processing_center") ;;
    input_root_path <- py_getitem (prefixes self) processing_center ;;
    inputfile <- match inputfiles self with
                 | f :: _ => ret f
                 | [] => raise (IndexError "list index out of range")
                 end ;;
    let pathsplit := str_split os_sep inputfile in
    rootpathsplit <- rootpath_split input_root_path ;;
    let input_relative_path :=
      str_join "/" (skipn (List.length rootpathsplit) pathsplit) in
    root <- match input_root_path with
            | PStr s => ret s
            | _ => raise (TypeError "object is not subscriptable")
            end ;;
    ret {| file_type := file_type; processing_center := processing_center;
           input_root_path := root; input_relative_path := input_relative_path |} in
  match m with
  | (Ok x, t) =>
      ({| jobs := jobs self; prefixes := prefixes self;
          inputfiles := tl (inputfiles self) |}, (Ok x, t))
  | (Raise e, t) => (self, (Raise e, t))
  end.

(** [DASKjobs.__next__]: the iterator after the call, and what the call
    returned or raised. *)
Definition DASKjobs_next (self : DASKjobs) : DASKjobs * M job_tuple :=
  if Nat.eqb (List.length (inputfiles self)) 0 then
    match jobs self with
    | [] => (self, raise (IndexError "pop from empty list"))
    | last_job :: rest =>
        let self1 := {| jobs := rest; prefixes := prefixes self;
                        inputfiles := inputfiles self |} in
        if Nat.eqb (List.length rest) 0 then (self1, raise StopIteration)
        else
          match (job0 <- py_getitem (PList rest) (PInt 0) ;;
                 loadfiles (prefixes self) job0) with
          | (Ok files, t) =>
              let self2 := {| jobs := rest; prefixes := prefixes self;
                              inputfiles := files |} in
              let '(self3, (r, t')) := next_tuple self2 in
              (self3, (r, t ++ t'))
          | (Raise e, t) => (self1, (Raise e, t))
          end
    end
  else next_tuple self.

(* ===================================================================== *)
(** ** define_batchprocess_jobs and writeOutputJSONfile *)
(* ===================================================================== *)

(** The output structure [out] of the batch splitter. *)
Record manifest : Type := {
  InputPrefix : string;
  ProcessingCenter : pyval;
  InputFiles : list string
}.

Definition manifest_dict (m : manifest) : pyval :=
  PDict [("InputPrefix", PStr (InputPrefix m));
         ("ProcessingCenter", ProcessingCenter m);
         ("InputFiles", PList (map PStr (InputFiles m)))].

(** Storage operations themselves are taken to succeed. *)
Definition writeOutputJSONfile (output_structure : pyval) (output_file : string)
    (session : option Session) : M string :=
  LOGGER_info ("Writing to " +++ output_file) ;;;
  if String.eqb (str_upto 5 output_file) "s3://" then
    match session with
    | None =>
        LOGGER_error "Session needs to be defined for access to S3" ;;;
        ret "fail"
    | Some _ =>
        let tail := os_path_tail (str_from 5 output_file) in
        emit (FileWrite tail (json_dumps (Some "    ") output_structure)) ;;;
        let file_split := str_split "/"%char (str_from 5 output_file) in
        let bucketName := hd EmptyString file_split in
        let bucketPath := str_join "/" (tl file_split) in
        emit (S3Upload tail bucketName bucketPath) ;;;
        emit (FileUnlink tail) ;;;
        ret output_file
    end
  else
    emit (FileWrite output_file (json_dumps (Some "    ") output_structure)) ;;;
    ret output_file.

(** [template.format( i )] *)
Variable template : Z -> string.

(** The local variables of [define_batchprocess_jobs]; [out] is unbound
    until the loop body binds it. *)
Record locals : Type := {
  njobs : Z;
  nfiles : Z;
  last_input_root_path : option string;
  last_processing_center : option pyval;
  out : option manifest
}.

Definition initial_locals : locals :=
  {| njobs := 0; nfiles := 0; last_input_root_path := None;
     last_processing_center := None; out := None |}.

(** How a loop body hands control back. *)
Inductive control : Type := Next | Return.

(** [a % b] *)
Definition py_mod (a b : Z) : M Z :=
  if Z.eqb b 0 then raise ZeroDivisionError else ret (Z.modulo a b).

(** [nfiles += 1], the file name from the template, and the write. *)
Definition flush (session : option Session) (st : locals) : M locals :=
  let nfiles' := (nfiles st + 1)%Z in
  let outputJSONfile := template nfiles' in
  o <- match out st with
       | Some o => ret o
       | None => raise (UnboundLocalError "out")
       end ;;
  _ <- writeOutputJSONfile (manifest_dict o) outputJSONfile session ;;
  ret {| njobs := njobs st; nfiles := nfiles';
         last_input_root_path := last_input_root_path st;
         last_processing_center := last_processing_center st;
         out := out st |}.

(** The body of the [for] loop over the iterator. *)
Definition loop_body (jobsperfile : Z) (session : option Session)
    (x : job_tuple) (st : locals) : M (control * locals) :=
  let root_differs :=
    match last_input_root_path st with
    | Some last => negb (String.eqb (input_root_path x) last)
    | None => false
    end in
  if root_differs then
    LOGGER_error ("Last input_root_path ("
                  +++ match last_input_root_path st with
                      | Some s => s
                      | None => EmptyString
                      end
                  +++ ") must be the same as the new input_root_path ("
                  +++ input_root_path x +++ ")") ;;;
    ret (Return, st)
  else
    let center_differs :=
      match last_processing_center st with
      | Some last => negb (py_eqb (processing_center x) last)
      | None => false
      end in
    if center_differs then
      LOGGER_error ("Last processing_center ("
                    +++ match last_processing_center st with
                        | Some c => py_str c
                        | None => EmptyString
                        end
                    +++ ") must be the same as the new processing_center ("
                    +++ py_str (processing_center x) +++ ")") ;;;
      ret (Return, st)
    else
      r <- py_mod (njobs st) jobsperfile ;;
      let out1 :=
        if Z.eqb r 0 then
          Some {| InputPrefix := input_root_path x;
                  ProcessingCenter := processing_center x;
                  InputFiles := [] |}
        else out st in
      o <- match out1 with
           | Some o => ret o
           | None => raise (UnboundLocalError "out")
           end ;;
      let out2 := {| InputPrefix := InputPrefix o;
                     ProcessingCenter := ProcessingCenter o;
                     InputFiles := InputFiles o ++ [input_relative_path x] |} in
      let st1 := {| njobs := (njobs st + 1)%Z; nfiles := nfiles st;
                    last_input_root_path := Some (input_root_path x);
                    last_processing_center := Some (processing_center x);
                    out := Some out2 |} in
      r' <- py_mod (njobs st1) jobsperfile ;;
      if Z.eqb r' 0 then
        st2 <- flush session st1 ;;
        ret (Next, st2)
      else ret (Next, st1).

(** [for ... in myIter: body].  [None] only when [fuel] requests of the
    iterator were not enough to exhaust it. *)
Fixpoint for_loop (fuel : nat) (jobsperfile : Z) (session : option Session)
    (it : DASKjobs) (st : locals) : option (M (control * locals)) :=
  match fuel with
  | O => None
  | S fuel' =>
      match DASKjobs_next it with
      | (_, (Raise StopIteration, t)) => Some (Ok (Next, st), t)
      | (_, (Raise e, t)) => Some (Raise e, t)
      | (it', (Ok x, t)) =>
          match loop_body jobsperfile session x st with
          | (Ok (Next, st'), t') =>
              match for_loop fuel' jobsperfile session it' st' with
              | Some (r, t'') => Some (r, t ++ t' ++ t'')
              | None => None
              end
          | (Ok (Return, st'), t') => Some (Ok (Return, st'), t ++ t')
          | (Raise e, t') => Some (Raise e, t ++ t')
          end
      end
  end.

(** What follows the loop: the flush of what is left in [out]. *)
Definition after_loop (session : option Session) (st : locals) : M unit :=
  o <- match out st with
       | Some o => ret o
       | None => raise (UnboundLocalError "out")
       end ;;
  if (0 <? Z.of_nat (List.length (InputFiles o)))%Z then
    _ <- flush session st ;; ret tt
  else ret tt.

Definition define_batchprocess_jobs (fuel : nat) (job_definitions : pyval)
    (jobsperfile : Z) (session : option Session) : option (M unit) :=
  match DASKjobs_init job_definitions session with
  | (Raise e, t) => Some (Raise e, t)
  | (Ok myIter, t) =>
      match for_loop fuel jobsperfile session myIter initial_locals with
      | None => None
      | Some (Raise e, t') => Some (Raise e, t ++ t')
      | Some (Ok (Return, _), t') => Some (Ok tt, t ++ t')
      | Some (Ok (Next, st), t') =>
          let '(r, t'') := after_loop session st in
          Some (r, t ++ t' ++ t'')
      end
  end.

End Listing.

(* ===================================================================== *)
(** ** Dates and number formats *)
(* ===================================================================== *)

(** The calendar day of a [datetime]. *)
Record date : Type := { year : nat; month : nat; day : nat }.

Definition is_leap (y : nat) : bool :=
  Nat.eqb (y mod 4) 0 && (negb (Nat.eqb (y mod 100) 0) || Nat.eqb (y mod 400) 0).

Definition days_in_month (y m : nat) : nat :=
  match m with
  | 2 => if is_leap y then 29 else 28
  | 4 | 6 | 9 | 11 => 30
  | _ => 31
  end.

(** [( date - datetime( year, 1, 1 ) ).days + 1] *)
Definition day_of_year (d : date) : nat :=
  list_sum (map (days_in_month (year d)) (seq 1 (month d - 1))) + day d.

(** [date + timedelta( days=1 )] *)
Definition next_day (d : date) : date :=
  if (day d <? days_in_month (year d) (month d))%nat
  then {| year := year d; month := month d; day := S (day d) |}
  else if (month d <? 12)%nat
  then {| year := year d; month := S (month d); day := 1 |}
  else {| year := S (year d); month := 1; day := 1 |}.

(** [date <= last] for a [date] at midnight: the days decide. *)
Definition date_leb (d last : date) : bool :=
  (year d <? year last)%nat
  || (Nat.eqb (year d) (year last)
      && ((month d <? month last)%nat
          || (Nat.eqb (month d) (month last) && (day d <=? day last)%nat))).

Definition nat_repr (n : nat) : string := NilZero.string_of_uint (Nat.to_uint n).

Definition pad_left (c : ascii) (width : nat) (s : string) : string :=
  str_repeat (String c EmptyString) (width - String.length s) +++ s.

(** [f"{n:4d}"], [f"{n:03d}"], [f"{n:02d}"] *)
Definition fmt_4d (n : nat) : string := pad_left " "%char 4 (nat_repr n).
Definition fmt_03d (n : nat) : string := pad_left "0"%char 3 (nat_repr n).
Definition fmt_02d (n : nat) : string := pad_left "0"%char 2 (nat_repr n).
Definition fmt_04d (n : nat) : string := pad_left "0"%char 4 (nat_repr n).

(** [date.strftime( "%Y-%m-%d" )] and [date.isoformat()[:10]] *)
Definition date_iso (d : date) : string :=
  fmt_04d (year d) +++ "-" +++ fmt_02d (month d) +++ "-" +++ fmt_02d (day d).

(* ===================================================================== *)
(** ** Loops and small helpers *)
(* ===================================================================== *)

(** How a loop body ends: it falls through or executes [continue], or it
    executes [break]. *)
Inductive flow : Type := Continue | Break.

(** [for x in l: body] over a state of local variables. *)
Fixpoint for_each {A S : Type} (l : list A) (body : A -> S -> M (flow * S)) (s : S)
  : M S :=
  match l with
  | [] => ret s
  | x :: l' =>
      fs <- body x s ;;
      match fst fs with
      | Break => ret (snd fs)
      | Continue => for_each l' body (snd fs)
      end
  end.

Definition str_in (s : string) (l : list string) : bool :=
  existsb (String.eqb s) l.

Fixpoint assoc {A : Type} (k : string) (d : list (string * A)) : option A :=
  match d with
  | [] => None
  | (k', v) :: d' => if String.eqb k' k then Some v else assoc k d'
  end.

Fixpoint insert_sorted (s : string) (l : list string) : list string :=
  match l with
  | [] => [s]
  | x :: l' =>
      match String.compare s x with
      | Lt => s :: l
      | Eq => l
      | Gt => x :: insert_sorted s l'
      end
  end.

(** [sorted( list( set( l ) ) )] *)
Definition sorted_set (l : list string) : list string :=
  fold_right insert_sorted [] l.

(** A local variable that may not have been bound yet. *)
Definition bound {A : Type} (name : string) (v : option A) : M A :=
  match v with
  | Some a => ret a
  | None => raise (UnboundLocalError name)
  end.

(** [l[0]] *)
Definition first_item {A : Type} (l : list A) : M A :=
  match l with
  | x :: _ => ret x
  | [] => raise (IndexError "list index out of range")
  end.

(** A job dictionary as the UCAR and EUMETSAT branches write it. *)
Definition job_dict_ucar_order (file_type processing_center mission the_date path : string)
    (nfiles : nat) : pyval :=
  PDict [("file_type", PStr file_type); ("processing_center", PStr processing_center);
         ("mission", PStr mission); ("date", PStr the_date);
         ("input_relative_dir", PStr path); ("nfiles", PInt (Z.of_nat nfiles))].

(** A job dictionary as the ROM SAF and JPL branches write it. *)
Definition job_dict_romsaf_order (the_date mission processing_center file_type path : string)
    (nfiles : nat) : pyval :=
  PDict [("date", PStr the_date); ("mission", PStr mission);
         ("processing_center", PStr processing_center); ("file_type", PStr file_type);
         ("input_relative_dir", PStr path); ("nfiles", PInt (Z.of_nat nfiles))].

(* ===================================================================== *)
(** ** The UCAR choice of subdirectories *)
(* ===================================================================== *)

(** The level2b loop: a wetPf2 entry is always taken, a wetPrf entry only
    while nothing has been taken. *)
Fixpoint select_level2b (subdirs type_subdirs : list string) : list string :=
  match subdirs with
  | [] => type_subdirs
  | subdir :: rest =>
      let tail := os_path_tail subdir in
      if str_startswith "wetPf2" tail then select_level2b rest (type_subdirs ++ [subdir])
      else if str_startswith "wetPrf" tail && Nat.eqb (List.length type_subdirs) 0
           then select_level2b rest (type_subdirs ++ [subdir])
           else select_level2b rest type_subdirs
  end.

Definition ucar_type_subdirs (file_type : string) (subdirs : list string)
  : list string :=
  if String.eqb file_type "level1b" then
    filter (fun subdir => let tail := os_path_tail subdir in
                          str_startswith "atmPhs" tail || str_startswith "conPhs" tail) subdirs
  else if String.eqb file_type "level2a" then
    filter (fun subdir => str_startswith "atmPrf" (os_path_tail subdir)) subdirs
  else if String.eqb file_type "level2b" then select_level2b subdirs []
  else [].

(* ===================================================================== *)
(** ** definejobs *)
(* ===================================================================== *)

(** [try: m except Exception as e: h( e )] *)
Definition try_except_as {A} (m : M A) (h : exn -> M A) : M A :=
  match m with
  | (Ok a, t) => (Ok a, t)
  | (Raise e, t) => let '(r, t') := h e in (r, t ++ t')
  end.

(** [json.dumps( excpt.args )] for what the listing raises. *)
Definition exn_args_json (e : exn) : string :=
  match e with
  | FileNotFoundError path => json_dumps None (PList [PStr path])
  | KeyError k => json_dumps None (PList [PStr k])
  | _ => "[]"
  end.

(** The local variables of [definejobs] that outlive one loop iteration:
    the four prefixes, the job list, and [level], [subdirs] and
    [jpl_file_type], which the branches bind on some paths only. *)
Record dj_locals : Type := {
  UCARprefix : option string;
  ROMSAFprefix : option string;
  JPLprefix : option string;
  EUMETSATprefix : option string;
  dj_jobs : list pyval;
  level : option string;
  subdirs : option (list string);
  jpl_file_type : option string
}.

Definition set_UCARprefix (st : dj_locals) (p : string) : dj_locals :=
  {| UCARprefix := Some p; ROMSAFprefix := ROMSAFprefix st; JPLprefix := JPLprefix st;
     EUMETSATprefix := EUMETSATprefix st; dj_jobs := dj_jobs st; level := level st;
     subdirs := subdirs st; jpl_file_type := jpl_file_type st |}.
Definition set_ROMSAFprefix (st : dj_locals) (p : string) : dj_locals :=
  {| UCARprefix := UCARprefix st; ROMSAFprefix := Some p; JPLprefix := JPLprefix st;
     EUMETSATprefix := EUMETSATprefix st; dj_jobs := dj_jobs st; level := level st;
     subdirs := subdirs st; jpl_file_type := jpl_file_type st |}.
Definition set_JPLprefix (st : dj_locals) (p : string) : dj_locals :=
  {| UCARprefix := UCARprefix st; ROMSAFprefix := ROMSAFprefix st; JPLprefix := Some p;
     EUMETSATprefix := EUMETSATprefix st; dj_jobs := dj_jobs st; level := level st;
     subdirs := subdirs st; jpl_file_type := jpl_file_type st |}.
Definition set_EUMETSATprefix (st : dj_locals) (p : string) : dj_locals :=
  {| UCARprefix := UCARprefix st; ROMSAFprefix := ROMSAFprefix st; JPLprefix := JPLprefix st;
     EUMETSATprefix := Some p; dj_jobs := dj_jobs st; level := level st;
     subdirs := subdirs st; jpl_file_type := jpl_file_type st |}.
Definition append_job (st : dj_locals) (job : pyval) : dj_locals :=
  {| UCARprefix := UCARprefix st; ROMSAFprefix := ROMSAFprefix st; JPLprefix := JPLprefix st;
     EUMETSATprefix := EUMETSATprefix st; dj_jobs := dj_jobs st ++ [job]; level := level st;
     subdirs := subdirs st; jpl_file_type := jpl_file_type st |}.
Definition set_level (st : dj_locals) (l : string) : dj_locals :=
  {| UCARprefix := UCARprefix st; ROMSAFprefix := ROMSAFprefix st; JPLprefix := JPLprefix st;
     EUMETSATprefix := EUMETSATprefix st; dj_jobs := dj_jobs st; level := Some l;
     subdirs := subdirs st; jpl_file_type := jpl_file_type st |}.
Definition set_subdirs (st : dj_locals) (l : list string) : dj_locals :=
  {| UCARprefix := UCARprefix st; ROMSAFprefix := ROMSAFprefix st; JPLprefix := JPLprefix st;
     EUMETSATprefix := EUMETSATprefix st; dj_jobs := dj_jobs st; level := level st;
     subdirs := Some l; jpl_file_type := jpl_file_type st |}.
Definition set_jpl_file_type (st : dj_locals) (l : string) : dj_locals :=
  {| UCARprefix := UCARprefix st; ROMSAFprefix := ROMSAFprefix st; JPLprefix := JPLprefix st;
     EUMETSATprefix := EUMETSATprefix st; dj_jobs := dj_jobs st; level := level st;
     subdirs := subdirs st; jpl_file_type := Some l |}.

Section Definejobs.

(** The collaborators: the storage listing service ([s3.ls]; [None] when it
    raises), the local file system of the JPL branch, the center registry
    [reformatters] (per center, its keys: the buckets and the file types), the
    mission registry ([valid_missions['aws']] and, per AWS mission, the
    satellites of [get_receiver_satellites] as maps from center to mission
    name), and the regular expression engine on the pattern built from a
    prefix ([re.search( pattern, s ).group(1)]; [None] when nothing
    matches). *)
Variable ls : string -> option (list string).
Variable isdir : string -> bool.
Variable listdir : string -> list string.
Variable reformatters : list (string * list (string * string)).
Variable valid_missions_aws : list string.
Variable get_receiver_satellites : string -> list (list (string * string)).
Variable re_search_group1 : string -> string -> option string.

(** The arguments of the call. *)
Variable missions processing_centers file_types : list string.
Variable nonnominal liveupdate : bool.

(** [reformatters[center][key]] *)
Definition registry (center key : string) : M string :=
  match assoc center reformatters with
  | None => raise (KeyError center)
  | Some r =>
      match assoc key r with
      | None => raise (KeyError key)
      | Some v => ret v
      end
  end.

(** [sorted( list( { sat[center]['mission'] for sat in sats } ) )] *)
Definition center_missions (center mission : string) : M (list string) :=
  names <- (fix collect (sats : list (list (string * string))) : M (list string) :=
              match sats with
              | [] => ret []
              | sat :: sats' =>
                  match assoc center sat with
                  | None => raise (KeyError center)
                  | Some m => ms <- collect sats' ;; ret (m :: ms)
                  end
              end) (get_receiver_satellites mission) ;;
  ret (sorted_set names).

(** [m = re.search( pattern, s ); path = m.group(1)] *)
Definition group1 (pattern s : string) : M string :=
  match re_search_group1 pattern s with
  | Some g => ret g
  | None => raise (AttributeError "'NoneType' object has no attribute 'group'")
  end.

(** [s3.ls( path )] under [try], the handler logging [msg] at [lvl]. *)
Definition try_ls (path : string) (lvl : loglevel) (msg : string)
  : M (option (list string)) :=
  try_except (l <- s3_ls ls path ;; ret (Some l)) (emit (Log lvl msg) ;;; ret None).

(** *** UCAR *)

(** The second half of the body of [for processingVersion in
    processingVersions]: from the listing of the day directory to the job. *)
Definition ucar_day_job (d : date) (mission file_type the_prefix : string)
    (the_subdirs : list string) (st : dj_locals) : M (flow * dj_locals) :=
  let st := set_subdirs st the_subdirs in
  let type_subdirs := ucar_type_subdirs file_type the_subdirs in
  if negb (Nat.eqb (List.length type_subdirs) 1) then
    LOGGER_info "type_subdirs !=1" ;;; ret (Continue, st)
  else
    the_dir <- first_item type_subdirs ;;
    path <- group1 (str_from 5 the_prefix +++ "/(.*)$") the_dir ;;
    listed <- try_ls the_dir INFO ("*** s3://" +++ the_dir +++ " does not exist.") ;;
    match listed with
    | None => ret (Continue, st)
    | Some filepaths =>
        let job := job_dict_ucar_order file_type "ucar" mission (date_iso d)
                     path (List.length filepaths) in
        LOGGER_info (json_dumps None job) ;;;
        ret (Break, append_job st job)
    end.

(** The body of [for processingVersion in processingVersions]. *)
Definition ucar_version (d : date) (mission file_type the_prefix : string)
    (processingVersion : string) (st : dj_locals) : M (flow * dj_locals) :=
  subdir_list <- s3_ls ls processingVersion ;;
  first <- first_item subdir_list ;;
  let tail := os_path_tail first in
  lvl <- bound "level" (level st) ;;
  found <-
    (if negb (str_contains "level" tail) then
       l <- s3_ls ls (os_path_join_all processingVersion
                        [tail; lvl; fmt_4d (year d); fmt_03d (day_of_year d)]) ;;
       ret (Some l)
     else
       let dir := os_path_join_all processingVersion
                    [lvl; fmt_4d (year d); fmt_03d (day_of_year d)] in
       try_ls dir INFO ("*** s3://" +++ dir +++ " does not exist.")) ;;
  match found with
  | None => ret (Continue, st)
  | Some the_subdirs => ucar_day_job d mission file_type the_prefix the_subdirs st
  end.

(** The body of [for UCARmission in UCARmissions]. *)
Definition ucar_mission (d : date) (mission file_type the_prefix : string)
    (UCARmission : string) (st : dj_locals) : M (flow * dj_locals) :=
  let dir := os_path_join the_prefix UCARmission in
  versions <- try_ls dir ERROR ("*** " +++ dir +++ " does not exist.") ;;
  match versions with
  | None => ret (Continue, st)
  | Some processingVersions =>
      st' <- for_each processingVersions
               (ucar_version d mission file_type the_prefix) st ;;
      ret (Continue, st')
  end.

(** The body of [for file_type in file_types] of the UCAR branch. *)
Definition ucar_file_type (d : date) (mission the_prefix : string)
    (file_type : string) (st : dj_locals) : M (flow * dj_locals) :=
  let st := if String.eqb file_type "level1b" then set_level st "level1b"
            else if str_in file_type ["level2a"; "level2b"] then set_level st "level2"
            else st in
  UCARmissions <- center_missions "ucar" mission ;;
  st' <- for_each UCARmissions (ucar_mission d mission file_type the_prefix) st ;;
  ret (Continue, st').

Definition ucar_branch (d : date) (mission : string) (st : dj_locals) : M dj_locals :=
  if str_in "ucar" processing_centers && str_in mission valid_missions_aws then
    the_prefix <- match UCARprefix st with
                  | Some p => ret p
                  | None =>
                      if liveupdate then
                        b <- registry "ucar" "liveupdateBucket" ;;
                        ret ("s3://" +++ b +++ "/untarred")
                      else
                        b <- registry "ucar" "archiveBucket" ;;
                        ret ("s3://" +++ b)
                  end ;;
    for_each file_types (ucar_file_type d mission the_prefix)
      (set_UCARprefix st the_prefix)
  else ret st.

(** *** ROM SAF *)

(** The listing of one day directory and the job it gives, if any. *)
Definition romsaf_day (d : date) (mission file_type : string)
    (fullpath path : string) (paths : list string) (st : dj_locals) : M dj_locals :=
  let filepaths := filter re_search_nc paths in
  let nfilepaths := List.length filepaths in
  if (0 <? nfilepaths)%nat then
    let job := job_dict_romsaf_order (date_iso d) mission "romsaf" file_type
                 path nfilepaths in
    LOGGER_info (json_dumps None job) ;;;
    ret (append_job st job)
  else
    LOGGER_info ("No files found in s3://" +++ fullpath) ;;; ret st.

(** The body of [for file_type in file_types] of the ROM SAF branch. *)
Definition romsaf_file_type (d : date) (mission the_prefix : string)
    (file_type : string) (st : dj_locals) : M (flow * dj_locals) :=
  let ymd := fmt_4d (year d) +++ fmt_02d (month d) +++ fmt_02d (day d) in
  let search :=
    if String.eqb file_type "level2a" then Some ("atm_" +++ ymd)
    else if String.eqb file_type "level2b" then Some ("wet_" +++ ymd)
    else None in
  match search with
  | None => ret (Continue, st)
  | Some search_string =>
      the_subdirs <- bound "subdirs" (subdirs st) ;;
      let type_subdirs :=
        filter (fun subdir => str_startswith search_string (os_path_tail subdir)) the_subdirs in
      if negb (Nat.eqb (List.length type_subdirs) 1) then
        LOGGER_info "type_subdirs != 1" ;;; ret (Continue, st)
      else
        the_dir <- first_item type_subdirs ;;
        let fullpath := os_path_join the_dir
              (fmt_4d (year d) +++ "-" +++ fmt_02d (month d) +++ "-" +++ fmt_02d (day d)) in
        path <- group1 (str_from 5 the_prefix +++ "/(.*)$") fullpath ;;
        listed <- try_ls fullpath INFO ("*** " +++ fullpath +++ " does not exist.") ;;
        match listed with
        | None => ret (Continue, st)
        | Some paths =>
            st1 <- romsaf_day d mission file_type fullpath path paths st ;;
            if nonnominal then
              let fullpath := os_path_join fullpath "non-nominal" in
              path <- group1 (the_prefix +++ "/(.*)$") fullpath ;;
              listed <- try_except_as
                          (l <- s3_ls ls fullpath ;; ret (Some l))
                          (fun excpt =>
                             LOGGER_error (fullpath +++ " does not exist.") ;;;
                             LOGGER_error (exn_args_json excpt) ;;;
                             ret None) ;;
              match listed with
              | None => ret (Continue, st1)
              | Some paths =>
                  st2 <- romsaf_day d mission file_type fullpath path paths st1 ;;
                  ret (Continue, st2)
              end
            else ret (Continue, st1)
        end
  end.

(** The body of [for ROMSAFmission in ROMSAFmissions]. *)
Definition romsaf_mission (d : date) (mission the_prefix : string)
    (ROMSAFmission : string) (st : dj_locals) : M (flow * dj_locals) :=
  let dir := if liveupdate
             then os_path_join_all the_prefix [ROMSAFmission; fmt_4d (year d)]
             else os_path_join_all the_prefix
                    ["romsaf"; "download"; ROMSAFmission; fmt_4d (year d)] in
  st1 <- try_except (l <- s3_ls ls dir ;; ret (set_subdirs st l))
           (LOGGER_info ("*** " +++ dir +++ " does not exist.") ;;; ret st) ;;
  st2 <- for_each file_types (romsaf_file_type d mission the_prefix) st1 ;;
  ret (Continue, st2).

Definition romsaf_branch (d : date) (mission : string) (st : dj_locals) : M dj_locals :=
  if str_in "romsaf" processing_centers && str_in mission valid_missions_aws then
    the_prefix <- match ROMSAFprefix st with
                  | Some p => ret p
                  | None =>
                      if liveupdate then
                        b <- registry "romsaf" "liveupdateBucket" ;;
                        ret ("s3://" +++ b +++ "/untarred")
                      else
                        b <- registry "romsaf" "archiveBucket" ;;
                        ret ("s3://" +++ b)
                  end ;;
    ROMSAFmissions <- center_missions "romsaf" mission ;;
    for_each ROMSAFmissions (romsaf_mission d mission the_prefix)
      (set_ROMSAFprefix st the_prefix)
  else ret st.

(** *** JPL *)

(** The body of [for file_type in file_types] of the JPL branch. *)
Definition jpl_file_type_body (d : date) (mission the_prefix : string)
    (file_type : string) (st : dj_locals) : M (flow * dj_locals) :=
  st <- (if String.eqb file_type "level1b" then ret (set_jpl_file_type st "calibratedPhase")
         else if String.eqb file_type "level2a"
              then ret (set_jpl_file_type st "refractivityRetrieval")
         else if String.eqb file_type "level2b"
              then ret (set_jpl_file_type st "atmosphericRetrieval")
         else LOGGER_error ("File type " +++ String dquote file_type
                            +++ String dquote " for processing center "
                            +++ String dquote "jpl" +++ String dquote " is unrecognized.") ;;;
              ret st) ;;
  the_type <- bound "jpl_file_type" (jpl_file_type st) ;;
  let path := str_join "/" [the_prefix; mission; the_type;
                            fmt_4d (year d) +++ "/" +++ fmt_02d (month d)
                              +++ "/" +++ fmt_02d (day d)] in
  let on_s3 := String.eqb (str_upto 5 the_prefix) "s3://" in
  listed <- (if on_s3 then
               try_ls path INFO ("*** " +++ path +++ " does not exist.")
             else
               emit (IsDir path) ;;;
               if negb (isdir path) then
                 LOGGER_info ("*** " +++ path +++ " does not exist.") ;;; ret None
               else emit (ListDir path) ;;; ret (Some (listdir path))) ;;
  match listed with
  | None => ret (Continue, st)
  | Some files =>
      let files := filter re_search_nc files in
      let n := List.length files in
      if (0 <? n)%nat then
        let path_split := if on_s3 then str_split "/"%char (str_from 5 path)
                          else str_split "/"%char path in
        let prefix_split := if on_s3 then str_split "/"%char (str_from 5 the_prefix)
                            else str_split "/"%char the_prefix in
        let input_relative_dir :=
          str_join "/" (skipn (List.length prefix_split) path_split) in
        let job := job_dict_romsaf_order (date_iso d) mission "jpl" the_type
                     input_relative_dir n in
        LOGGER_info (json_dumps None job) ;;;
        ret (Continue, append_job st job)
      else
        LOGGER_info ("*** No files found in " +++ path) ;;; ret (Continue, st)
  end.

(** [Break] leaves the loop over the missions. *)
Definition jpl_branch (d : date) (mission : string) (st : dj_locals)
  : M (flow * dj_locals) :=
  if str_in "jpl" processing_centers && str_in mission valid_missions_aws then
    match JPLprefix st with
    | Some p =>
        st' <- for_each file_types (jpl_file_type_body d mission p) st ;;
        ret (Continue, st')
    | None =>
        if liveupdate then
          LOGGER_error "no liveupdate option for jpl yet" ;;; ret (Break, st)
        else
          b <- registry "jpl" "archiveBucket" ;;
          let p := "s3://" +++ b in
          st' <- for_each file_types (jpl_file_type_body d mission p)
                   (set_JPLprefix st p) ;;
          ret (Continue, st')
    end
  else ret (Continue, st).

(** *** EUMETSAT *)

(** The body of [for processingVersion in processingVersions]. *)
Definition eumetsat_version (d : date) (mission file_type the_prefix : string)
    (processingVersion : string) (st : dj_locals) : M (flow * dj_locals) :=
  lvl <- bound "level" (level st) ;;
  let dir := os_path_join_all processingVersion
               [lvl; fmt_4d (year d); fmt_03d (day_of_year d)] in
  found <- try_ls dir INFO ("*** s3://" +++ dir +++ " does not exist.") ;;
  match found with
  | None => ret (Continue, st)
  | Some the_subdirs =>
      let st := set_subdirs st the_subdirs in
      let type_subdirs := the_subdirs in
      if negb (Nat.eqb (List.length type_subdirs) 1) then
        LOGGER_info "type_subdirs !=1" ;;; ret (Continue, st)
      else
        the_dir <- first_item type_subdirs ;;
        path <- group1 (str_from 5 the_prefix +++ "/(.*)$") the_dir ;;
        listed <- try_ls the_dir INFO ("*** s3://" +++ the_dir +++ " does not exist.") ;;
        match listed with
        | None => ret (Continue, st)
        | Some filepaths =>
            let job := job_dict_ucar_order file_type "eumetsat" mission (date_iso d)
                         path (List.length filepaths) in
            LOGGER_info (json_dumps None job) ;;;
            ret (Continue, append_job st job)
        end
  end.

(** The body of [for EUMETSATmission in EUMETSATmissions]. *)
Definition eumetsat_mission (d : date) (mission file_type the_prefix : string)
    (EUMETSATmission : string) (st : dj_locals) : M (flow * dj_locals) :=
  let dir := os_path_join the_prefix EUMETSATmission in
  versions <- try_ls dir ERROR ("*** " +++ dir +++ " does not exist.") ;;
  match versions with
  | None => ret (Continue, st)
  | Some processingVersions =>
      st' <- for_each processingVersions
               (eumetsat_version d mission file_type the_prefix) st ;;
      ret (Continue, st')
  end.

(** The body of [for file_type in file_types] of the EUMETSAT branch. *)
Definition eumetsat_file_type (d : date) (mission the_prefix : string)
    (file_type : string) (st : dj_locals) : M (flow * dj_locals) :=
  if String.eqb file_type "level1b" then
    let st := set_level st "level1b" in
    EUMETSATmissions <- center_missions "eumetsat" mission ;;
    st' <- for_each EUMETSATmissions
             (eumetsat_mission d mission file_type the_prefix) st ;;
    ret (Continue, st')
  else
    LOGGER_error "only level1b exists for eumetstat" ;;; ret (Break, st).

(** [Break] leaves the loop over the missions. *)
Definition eumetsat_branch (d : date) (mission : string) (st : dj_locals)
  : M (flow * dj_locals) :=
  if str_in "eumetsat" processing_centers && str_in mission valid_missions_aws then
    match EUMETSATprefix st with
    | Some p =>
        st' <- for_each file_types (eumetsat_file_type d mission p) st ;;
        ret (Continue, st')
    | None =>
        if liveupdate then
          b <- registry "eumetsat" "liveupdateBucket" ;;
          let p := "s3://" +++ b +++ "/untarred" in
          st' <- for_each file_types (eumetsat_file_type d mission p)
                   (set_EUMETSATprefix st p) ;;
          ret (Continue, st')
        else
          LOGGER_error "only liveupdate option for eumetstat" ;;; ret (Break, st)
    end
  else ret (Continue, st).

(** *** The sweep *)

(** The body of [for mission in missions]. *)
Definition mission_body (d : date) (mission : string) (st : dj_locals)
  : M (flow * dj_locals) :=
  st1 <- ucar_branch d mission st ;;
  st2 <- romsaf_branch d mission st1 ;;
  fs <- jpl_branch d mission st2 ;;
  match fst fs with
  | Break => ret (Break, snd fs)
  | Continue => eumetsat_branch d mission (snd fs)
  end.

(** [while date <= daterange[1]].  [None] only when [fuel] days were not
    enough to pass the last day. *)
Fixpoint while_dates (fuel : nat) (d last : date) (st : dj_locals)
  : option (M dj_locals) :=
  match fuel with
  | O => None
  | S fuel' =>
      if date_leb d last then
        match for_each missions (mission_body d) st with
        | (Ok st', t) =>
            match while_dates fuel' (next_day d) last st' with
            | Some (r, t') => Some (r, t ++ t')
            | None => None
            end
        | (Raise e, t) => Some (Raise e, t)
        end
      else Some (ret st)
  end.

Definition prefix_value (p : option string) : pyval :=
  match p with
  | Some s => PStr s
  | None => PNone
  end.

(** The [prefixes] dictionary of the returned value. *)
Definition returned_prefixes (st : dj_locals) : list (string * pyval) :=
  let prefixes := [] in
  let prefixes := if str_in "ucar" processing_centers
                  then dict_set "ucar" (prefix_value (UCARprefix st)) prefixes
                  else prefixes in
  let prefixes := if str_in "romsaf" processing_centers
                  then dict_set "romsaf" (prefix_value (ROMSAFprefix st)) prefixes
                  else prefixes in
  let prefixes := if str_in "jpl" processing_centers
                  then dict_set "jpl" (prefix_value (JPLprefix st)) prefixes
                  else prefixes in
  let prefixes := if str_in "eumetsat" processing_centers
                  then dict_set "eumetsat" (prefix_value (EUMETSATprefix st)) prefixes
                  else prefixes in
  prefixes.

(** The returned dictionary. *)
Definition returned_dict (st : dj_locals) : pyval :=
  PDict [("prefixes", PDict (returned_prefixes st)); ("jobs", PList (dj_jobs st))].

(** The input check: the first offending value and its message, if any. *)
Definition check_input : option string :=
  match find (fun c => negb (str_in c (map fst reformatters))) processing_centers with
  | Some c =>
      Some ("Processing center " +++ String dquote c
            +++ String dquote " is not a valid processing center")
  | None =>
      match find (fun f => negb (str_in f (flat_map (fun cr => map fst (snd cr))
                                                    reformatters))) file_types with
      | Some f =>
          Some ("File type " +++ String dquote f
                +++ String dquote " is not a valid file type")
      | None =>
          match find (fun m => negb (str_in m valid_missions_aws)) missions with
          | Some m =>
              Some ("Mission " +++ String dquote m
                    +++ String dquote " is not a valid mission")
          | None => None
          end
      end
  end.

(** [definejobs]: the failure value [1], or the dictionary of prefixes and
    jobs.  The [version] argument is not used by the function. *)
Definition definejobs (fuel : nat) (daterange : date * date)
    (UCARprefix0 ROMSAFprefix0 JPLprefix0 EUMETSATprefix0 : option string)
    (session : option Session) : option (M pyval) :=
  match check_input with
  | Some msg => Some (LOGGER_error msg ;;; ret (PInt 1))
  | None =>
      match establish_s3fs session with
      | (Raise e, t) => Some (Raise e, t)
      | (Ok _, t) =>
          let st0 := {| UCARprefix := UCARprefix0; ROMSAFprefix := ROMSAFprefix0;
                        JPLprefix := JPLprefix0; EUMETSATprefix := EUMETSATprefix0;
                        dj_jobs := []; level := None; subdirs := None;
                        jpl_file_type := None |} in
          match while_dates fuel (fst daterange) (snd daterange) st0 with
          | None => None
          | Some (Raise e, t') => Some (Raise e, t ++ t')
          | Some (Ok st, t') =>
              Some (Ok (returned_dict st),
                    t ++ t' ++
                    [Log INFO ("prefixes="
                               +++ json_dumps None (PDict (returned_prefixes st))
                               +++ ", njobs=" +++ nat_repr (List.length (dj_jobs st)))])
          end
      end
  end.

End Definejobs.

(** [createjobdefinitionsjson]: the file is opened for writing, definejobs
    runs with its defaults for [nonnominal] and [liveupdate], and what it
    returns is dumped into the file with an indent of two spaces. *)
Definition createjobdefinitionsjson
    (ls : string -> option (list string)) (isdir : string -> bool)
    (listdir : string -> list string)
    (reformatters : list (string * list (string * string)))
    (valid_missions_aws : list string)
    (get_receiver_satellites : string -> list (list (string * string)))
    (re_search_group1 : string -> string -> option string)
    (fuel : nat) (daterange : date * date)
    (missions processing_centers file_types : list string) (jsonfile : string)
    (UCARprefix0 ROMSAFprefix0 JPLprefix0 EUMETSATprefix0 : option string)
    (session : option Session) : option (M unit) :=
  match definejobs ls isdir listdir reformatters valid_missions_aws
          get_receiver_satellites re_search_group1 missions processing_centers
          file_types false false fuel daterange UCARprefix0 ROMSAFprefix0
          JPLprefix0 EUMETSATprefix0 session with
  | None => None
  | Some (Raise e, t) => Some (Raise e, FileWrite jsonfile EmptyString :: t)
  | Some (Ok job_definitions, t) =>
      Some (Ok tt,
            FileWrite jsonfile EmptyString :: t
            ++ [Log INFO ("Writing to JSON file " +++ jsonfile +++ ".");
                FileWrite jsonfile (json_dumps (Some "  ") job_definitions)])
  end.

(* ===================================================================== *)
(** ** The [json] decoder *)
(* ===================================================================== *)

(** [json.decoder] and [json.scanner], on the remaining text instead of an
    index into it.  [None] stands for JSONDecodeError, and also for the
    documents whose values are outside [pyval]: floats, true and false, and
    escapes of characters above 255. *)

(** [WHITESPACE_STR = ' \t\n\r'] *)
Definition is_ws (c : ascii) : bool :=
  Ascii.eqb c " "%char || Ascii.eqb c "009"%char
  || Ascii.eqb c "010"%char || Ascii.eqb c "013"%char.

Fixpoint skip_ws (s : string) : string :=
  match s with
  | String c s' => if is_ws c then skip_ws s' else s
  | EmptyString => s
  end.

Definition is_digit (c : ascii) : bool :=
  let n := nat_of_ascii c in (48 <=? n)%nat && (n <=? 57)%nat.

Definition hex_value (c : ascii) : option nat :=
  let n := nat_of_ascii c in
  if (48 <=? n)%nat && (n <=? 57)%nat then Some (n - 48)
  else if (97 <=? n)%nat && (n <=? 102)%nat then Some (n - 87)
  else if (65 <=? n)%nat && (n <=? 70)%nat then Some (n - 55)
  else None.

(** [json.decoder.BACKSLASH] *)
Definition backslash (esc : ascii) : option ascii :=
  if Ascii.eqb esc dquote then Some dquote
  else if Ascii.eqb esc "\"%char then Some "\"%char
  else if Ascii.eqb esc "/"%char then Some "/"%char
  else if Ascii.eqb esc "b"%char then Some "008"%char
  else if Ascii.eqb esc "f"%char then Some "012"%char
  else if Ascii.eqb esc "n"%char then Some "010"%char
  else if Ascii.eqb esc "r"%char then Some "013"%char
  else if Ascii.eqb esc "t"%char then Some "009"%char
  else None.

(** [_decode_uXXXX] and [chr], for a code point below 256. *)
Definition decode_uXXXX (h1 h2 h3 h4 : ascii) : option ascii :=
  match hex_value h1, hex_value h2, hex_value h3, hex_value h4 with
  | Some a, Some b, Some c, Some d =>
      if Nat.eqb a 0 && Nat.eqb b 0 then Some (ascii_of_nat (16 * c + d)) else None
  | _, _, _, _ => None
  end.

Definition cons_char (c : ascii) (r : option (string * string))
  : option (string * string) :=
  match r with
  | Some (s, rest) => Some (String c s, rest)
  | None => None
  end.

(** [py_scanstring], strict, from just after the opening quote: the string
    and what follows its closing quote. *)
Fixpoint scanstring (s : string) : option (string * string) :=
  match s with
  | EmptyString => None
  | String c s' =>
      if Ascii.eqb c dquote then Some (EmptyString, s')
      else if Ascii.eqb c "\"%char then
        match s' with
        | String "u"%char (String h1 (String h2 (String h3 (String h4 s'')))) =>
            match decode_uXXXX h1 h2 h3 h4 with
            | Some ch => cons_char ch (scanstring s'')
            | None => None
            end
        | String esc s'' =>
            match backslash esc with
            | Some ch => cons_char ch (scanstring s'')
            | None => None
            end
        | EmptyString => None
        end
      else if (nat_of_ascii c <? 32)%nat then None
      else cons_char c (scanstring s')
  end.

(** The longest run of digits at the head. *)
Fixpoint span_digits (s : string) : string * string :=
  match s with
  | String c s' =>
      if is_digit c then let '(ds, rest) := span_digits s' in (String c ds, rest)
      else (EmptyString, s)
  | EmptyString => (EmptyString, s)
  end.

(** What may not follow the integer part for the number to be an [int]:
    a fraction or an exponent. *)
Definition starts_fraction_or_exponent (s : string) : bool :=
  match s with
  | String "."%char (String d _) => is_digit d
  | String e s' =>
      (Ascii.eqb e "e"%char || Ascii.eqb e "E"%char)
      && match s' with
         | String sign (String d _) =>
             is_digit sign
             || ((Ascii.eqb sign "+"%char || Ascii.eqb sign "-"%char) && is_digit d)
         | String d EmptyString => is_digit d
         | EmptyString => false
         end
  | EmptyString => false
  end.

(** [NUMBER_RE] and [int]: an optional minus sign, then a single 0 or a
    run of digits that starts with 1 to 9, not followed by a fraction or an
    exponent. *)
Definition scan_number (s : string) : option (Z * string) :=
  let negative := str_startswith "-" s in
  let s1 := if negative then str_from 1 s else s in
  match s1 with
  | String c s2 =>
      if negb (is_digit c) then None
      else
        let '(ds, rest) := if Ascii.eqb c "0"%char then ("0", s2) else span_digits s1 in
        if starts_fraction_or_exponent rest then None
        else match NilZero.uint_of_string ds with
             | Some u =>
                 let n := Z.of_uint u in
                 Some (if negative then (- n)%Z else n, rest)
             | None => None
             end
  | EmptyString => None
  end.

(** The loop of [JSONArray], from the first value on. *)
Fixpoint array_items (scan_once : string -> option (pyval * string)) (fuel : nat)
    (s : string) : option (list pyval * string) :=
  match fuel with
  | O => None
  | S fuel' =>
      match scan_once s with
      | None => None
      | Some (value, s1) =>
          match skip_ws s1 with
          | String nextchar s2 =>
              if Ascii.eqb nextchar "]"%char then Some ([value], s2)
              else if Ascii.eqb nextchar ","%char then
                match array_items scan_once fuel' (skip_ws s2) with
                | Some (values, s3) => Some (value :: values, s3)
                | None => None
                end
              else None
          | EmptyString => None
          end
      end
  end.

(** [JSONArray], from just after the opening bracket. *)
Definition JSONArray (scan_once : string -> option (pyval * string)) (fuel : nat)
    (s : string) : option (list pyval * string) :=
  match skip_ws s with
  | String nextchar s1 =>
      if Ascii.eqb nextchar "]"%char then Some ([], s1)
      else array_items scan_once fuel (String nextchar s1)
  | EmptyString => None
  end.

(** The loop of [JSONObject], from just after the opening quote of a key:
    the pairs in the order read. *)
Fixpoint object_pairs (scan_once : string -> option (pyval * string)) (fuel : nat)
    (s : string) : option (list (string * pyval) * string) :=
  match fuel with
  | O => None
  | S fuel' =>
      match scanstring s with
      | None => None
      | Some (key, s1) =>
          match skip_ws s1 with
          | String colon s2 =>
              if negb (Ascii.eqb colon ":"%char) then None
              else
                match scan_once (skip_ws s2) with
                | None => None
                | Some (value, s3) =>
                    match skip_ws s3 with
                    | String nextchar s4 =>
                        if Ascii.eqb nextchar "}"%char then Some ([(key, value)], s4)
                        else if Ascii.eqb nextchar ","%char then
                          match skip_ws s4 with
                          | String q s5 =>
                              if Ascii.eqb q dquote then
                                match object_pairs scan_once fuel' s5 with
                                | Some (pairs, s6) => Some ((key, value) :: pairs, s6)
                                | None => None
                                end
                              else None
                          | EmptyString => None
                          end
                        else None
                    | EmptyString => None
                    end
                end
          | EmptyString => None
          end
      end
  end.

(** [dict( pairs )]: a repeated key keeps its first place and its last
    value. *)
Definition dict_of_pairs (pairs : list (string * pyval)) : list (string * pyval) :=
  fold_left (fun d kv => dict_set (fst kv) (snd kv) d) pairs [].

(** [JSONObject], from just after the opening brace. *)
Definition JSONObject (scan_once : string -> option (pyval * string)) (fuel : nat)
    (s : string) : option (list (string * pyval) * string) :=
  match skip_ws s with
  | String nextchar s1 =>
      if Ascii.eqb nextchar "}"%char then Some ([], s1)
      else if Ascii.eqb nextchar dquote then
        match object_pairs scan_once fuel s1 with
        | Some (pairs, s2) => Some (dict_of_pairs pairs, s2)
        | None => None
        end
      else None
  | EmptyString => None
  end.

(** [scan_once]: one value at the head of the text, and the rest.  [fuel]
    bounds the nesting and the number of items of a container. *)
Fixpoint scan_once (fuel : nat) (s : string) : option (pyval * string) :=
  match fuel with
  | O => None
  | S fuel' =>
      match s with
      | EmptyString => None
      | String c s' =>
          if Ascii.eqb c dquote then
            match scanstring s' with
            | Some (str, rest) => Some (PStr str, rest)
            | None => None
            end
          else if Ascii.eqb c "{"%char then
            match JSONObject (scan_once fuel') fuel' s' with
            | Some (d, rest) => Some (PDict d, rest)
            | None => None
            end
          else if Ascii.eqb c "["%char then
            match JSONArray (scan_once fuel') fuel' s' with
            | Some (l, rest) => Some (PList l, rest)
            | None => None
            end
          else if str_startswith "null" s then Some (PNone, str_from 4 s)
          else
            match scan_number s with
            | Some (n, rest) => Some (PInt n, rest)
            | None => None
            end
      end
  end.

(** [json.loads( s )], which is what [json.load] applies to the text of a
    file: one value, with only whitespace around it. *)
Definition json_loads (s : string) : option pyval :=
  let s := skip_ws s in
  match scan_once (S (String.length s)) s with
  | Some (obj, rest) =>
      match skip_ws rest with
      | EmptyString => Some obj
      | _ => None
      end
  | None => None
  end.

(* ===================================================================== *)
(** ** Vocabulary of the properties *)
(* ===================================================================== *)

(** The four error kinds of the [DASKjobs] constructor. *)
Definition InvalidJobDefinitions : string := "InvalidJobDefinitions".
Definition InvalidJobDefinitionsKeys : string := "InvalidJobDefinitionsKeys".
Definition InvalidJobDefinitionsJobs : string := "InvalidJobDefinitionsJobs".
Definition NoJobDefinitionsJobs : string := "NoJobDefinitionsJobs".

(** [DASKjobs( job_definitions )] raises [DASKjobsError] with this kind. *)
Definition init_raises (ls : string -> option (list string))
    (job_definitions : pyval) (session : option Session) (kind : string) : Prop :=
  exists comment t,
    DASKjobs_init ls job_definitions session
    = (Raise (DASKjobsError kind comment), t).

(** The events that touch storage: manifests written, uploaded, removed. *)
Definition is_storage (ev : event) : bool :=
  match ev with
  | FileWrite _ _ | S3Upload _ _ _ | FileUnlink _ => true
  | _ => false
  end.

Definition storage_effects (t : list event) : list event := filter is_storage t.

(** The documents handed to [json.dump], in order: one per manifest written. *)
Fixpoint documents_written (t : list event) : list string :=
  match t with
  | [] => []
  | FileWrite _ text :: t' => text :: documents_written t'
  | _ :: t' => documents_written t'
  end.

(** What one call [writeOutputJSONfile( m, output_file, session )] does to
    storage. *)
Definition flush_effects (session : option Session) (output_file : string)
    (m : manifest) : list event :=
  storage_effects (snd (writeOutputJSONfile (manifest_dict m) output_file session)).

(** Successive successful [__next__] calls: the tuples they return and the
    iterator they leave. *)
Inductive produces (ls : string -> option (list string))
  : DASKjobs -> list job_tuple -> DASKjobs -> Prop :=
| produces_nil : forall it, produces ls it [] it
| produces_cons : forall it it' it'' x t l,
    DASKjobs_next ls it = (it', (Ok x, t)) ->
    produces ls it' l it'' ->
    produces ls it (x :: l) it''.

(** The next [__next__] call raises [StopIteration]. *)
Definition exhausted (ls : string -> option (list string)) (it : DASKjobs) : Prop :=
  exists it' t, DASKjobs_next ls it = (it', (Raise StopIteration, t)).

(** All tuples come from one input root and one processing center. *)
Definition homogeneous (root center : string) (l : list job_tuple) : Prop :=
  Forall (fun x => input_root_path x = root /\ processing_center x = PStr center) l.

(** The error the splitter logs for a tuple that does not belong to the
    family of the tuples before it. *)
Definition mismatch_message (root center : string) (x : job_tuple) : string :=
  if negb (String.eqb (input_root_path x) root) then
    "Last input_root_path (" +++ root
      +++ ") must be the same as the new input_root_path ("
      +++ input_root_path x +++ ")"
  else
    "Last processing_center (" +++ center
      +++ ") must be the same as the new processing_center ("
      +++ py_str (processing_center x) +++ ")".

(** A small archive for the concrete runs below. *)
Definition a_session : Session :=
  {| profile_name := "default"; region_name := "us-east-1" |}.

Definition a_job (dir : string) (n : Z) : pyval :=
  PDict [("file_type", PStr "level1b"); ("processing_center", PStr "ucar");
         ("mission", PStr "cosmic1"); ("date", PStr "2009-02-01");
         ("input_relative_dir", PStr dir); ("nfiles", PInt n)].

Definition a_job_set (l : list pyval) : pyval :=
  PDict [("prefixes", PDict [("ucar", PStr "s3://bucket")]); ("jobs", PList l)].

Definition an_archive (path : string) : option (list string) :=
  if String.eqb path "s3://bucket/empty1" then Some []
  else if String.eqb path "s3://bucket/empty2" then Some ["bucket/empty2/readme.txt"]
  else if String.eqb path "s3://bucket/three"
       then Some ["bucket/three/a_nc"; "bucket/three/b_nc"; "bucket/three/c_nc"]
  else if String.eqb path "s3://bucket/four"
       then Some ["bucket/four/d_nc"; "bucket/four/e_nc"; "bucket/four/f_nc";
                  "bucket/four/g_nc"]
  else None.

(** Two jobs of different processing centers under one input root. *)
Definition a_mixed_job_set : pyval :=
  PDict [("prefixes", PDict [("ucar", PStr "s3://bucket"); ("jpl", PStr "s3://bucket")]);
         ("jobs", PList [a_job "four" 4;
                         PDict [("file_type", PStr "level1b");
                                ("processing_center", PStr "jpl");
                                ("input_relative_dir", PStr "three")]])].

Definition a_template (i : Z) : string := "batch." +++ int_repr i +++ ".json".

(** The loop body run over a list of tuples, as the [for] loop does over
    what the iterator returns. *)
Fixpoint run_bodies (template : Z -> string) (jobsperfile : Z)
    (session : option Session) (l : list job_tuple) (st : locals)
  : M (control * locals) :=
  match l with
  | [] => ret (Next, st)
  | x :: l' =>
      match loop_body template jobsperfile session x st with
      | (Ok (Next, st'), t) =>
          let '(r, t') := run_bodies template jobsperfile session l' st' in
          (r, t ++ t')
      | other => other
      end
  end.

(** [files[i*k : (i+1)*k]] *)
Definition chunk_at (k i : nat) (files : list string) : list string :=
  firstn k (skipn (k * i) files).

Definition mk_manifest (root center : string) (files : list string) : manifest :=
  {| InputPrefix := root; ProcessingCenter := PStr center; InputFiles := files |}.

(** The storage effects of writing the first [count] full batches of
    [files], batch [i] (from 0) going to [template.format( i + 1 )]. *)
Definition full_batches (template : Z -> string) (session : option Session)
    (k : nat) (root center : string) (files : list string) (count : nat)
  : list event :=
  flat_map (fun i => flush_effects session (template (Z.of_nat (S i)))
                       (mk_manifest root center (chunk_at k i files)))
           (seq 0 count).

(** The local variables after the loop has consumed the tuples [l] of one
    family: [out] still holds the batch of the last tuple. *)
Definition locals_after (k : nat) (root center : string) (l : list job_tuple)
  : locals :=
  match l with
  | [] => initial_locals
  | _ =>
      let n := List.length l in
      {| njobs := Z.of_nat n;
         nfiles := Z.of_nat (n / k);
         last_input_root_path := Some root;
         last_processing_center := Some (PStr center);
         out := Some (mk_manifest root center
                        (skipn (k * ((n - 1) / k)) (map input_relative_path l))) |}
  end.

(** A small UCAR and EUMETSAT archive, its registries, and the one pattern
    the runs below hand to the regular expression engine. *)
Definition some_reformatters : list (string * list (string * string)) :=
  [("ucar", [("archiveBucket", "ucar-bucket"); ("liveupdateBucket", "ucar-live");
             ("level1b", "level1b2aws"); ("level2a", "level2a2aws");
             ("level2b", "level2b2aws")]);
   ("eumetsat", [("liveupdateBucket", "eum-live"); ("level1b", "level1b2aws")])].

Definition some_missions : list string := ["cosmic1"; "metop"].

Definition some_satellites (mission : string) : list (list (string * string)) :=
  if String.eqb mission "cosmic1"
  then [[("ucar", "cosmic1"); ("eumetsat", "cosmic1")]]
  else if String.eqb mission "metop"
  then [[("ucar", "metopa"); ("eumetsat", "metopa")]]
  else [].

Definition some_re (pattern s : string) : option string :=
  if String.eqb pattern "ucar-bucket/(.*)$" && str_startswith "ucar-bucket/" s
  then Some (str_from 12 s)
  else if String.eqb pattern "eum-live/untarred/(.*)$" && str_startswith "eum-live/untarred/" s
  then Some (str_from 18 s)
  else None.

Definition ucar_archive (path : string) : option (list string) :=
  if String.eqb path "s3://ucar-bucket/cosmic1" then Some ["ucar-bucket/cosmic1/repro2013"]
  else if String.eqb path "ucar-bucket/cosmic1/repro2013"
       then Some ["ucar-bucket/cosmic1/repro2013/level1b";
                  "ucar-bucket/cosmic1/repro2013/level2"]
  else if String.eqb path "ucar-bucket/cosmic1/repro2013/level1b/2009/032"
       then Some ["ucar-bucket/cosmic1/repro2013/level1b/2009/032/atmPhs_repro2013_2009_032"]
  else if String.eqb path
            "ucar-bucket/cosmic1/repro2013/level1b/2009/032/atmPhs_repro2013_2009_032"
       then Some []
  else if String.eqb path "ucar-bucket/cosmic1/repro2013/level2/2009/032"
       then Some ["ucar-bucket/cosmic1/repro2013/level2/2009/032/wetPrf_repro2013_2009_032";
                  "ucar-bucket/cosmic1/repro2013/level2/2009/032/wetPf2_repro2013_2009_032"]
  else if String.eqb path
            "ucar-bucket/cosmic1/repro2013/level2/2009/032/wetPf2_repro2013_2009_032"
       then Some ["ucar-bucket/cosmic1/repro2013/level2/2009/032/wetPf2_repro2013_2009_032/wetPf2_C001.2009.032.00.05.G05_2013.3520_nc"]
  else if String.eqb path "s3://eum-live/untarred/metopa"
       then Some ["eum-live/untarred/metopa/v1"]
  else if String.eqb path "eum-live/untarred/metopa/v1/level1b/2009/032"
       then Some ["eum-live/untarred/metopa/v1/level1b/2009/032/atmPhs_x"]
  else if String.eqb path "eum-live/untarred/metopa/v1/level1b/2009/032/atmPhs_x"
       then Some []
  else None.

Definition feb_1_2009 : date := {| year := 2009; month := 2; day := 1 |}.

(** definejobs( [2009-02-01, 2009-02-01], ... ) over that archive. *)
Definition some_definejobs (missions processing_centers file_types : list string)
    (liveupdate : bool) : option (M pyval) :=
  definejobs ucar_archive (fun _ => false) (fun _ => []) some_reformatters
    some_missions some_satellites some_re missions processing_centers file_types
    false liveupdate 2 (feb_1_2009, feb_1_2009) None None None None (Some a_session).

(** The names the level2b rule looks for. *)
Definition is_wetPf2 (subdir : string) : bool := str_startswith "wetPf2" (os_path_tail subdir).
Definition is_wetPrf (subdir : string) : bool := str_startswith "wetPrf" (os_path_tail subdir).

(** The level2b rule as the specification words it: the wetPf2
    subdirectories, else the first wetPrf one if there is no wetPf2. *)
Definition level2b_by_rule (subdirs : list string) : list string :=
  match filter is_wetPf2 subdirs with
  | [] => firstn 1 (filter is_wetPrf subdirs)
  | found => found
  end.

(** The entries listed before the first wetPf2 one. *)
Fixpoint before_wetPf2 (subdirs : list string) : list string :=
  match subdirs with
  | [] => []
  | subdir :: rest => if is_wetPf2 subdir then [] else subdir :: before_wetPf2 rest
  end.

(** No wetPrf entry is listed before a wetPf2 one, as in a listing sorted
    by name. *)
Definition wetPf2_listed_first (subdirs : list string) : bool :=
  match filter is_wetPf2 subdirs with
  | [] => true
  | _ => match filter is_wetPrf (before_wetPf2 subdirs) with
         | [] => true
         | _ => false
         end
  end.

(** Some requested value is unknown to its registry. *)
Definition invalid_request (reformatters : list (string * list (string * string)))
    (valid_missions_aws missions processing_centers file_types : list string) : Prop :=
  (exists c, In c processing_centers /\ ~ In c (map fst reformatters))
  \/ (exists f, In f file_types
        /\ ~ In f (flat_map (fun cr => map fst (snd cr)) reformatters))
  \/ (exists m, In m missions /\ ~ In m valid_missions_aws).

(** Two listings of a level2 day directory, and the locals before the sweep. *)
Definition a_level2_listing : list string :=
  ["ucar-bucket/cosmic1/repro2013/level2/2009/032/wetPrf_repro2013_2009_032";
   "ucar-bucket/cosmic1/repro2013/level2/2009/032/wetPf2_repro2013_2009_032"].

Definition a_sorted_level2_listing : list string :=
  ["ucar-bucket/cosmic1/repro2013/level2/2009/032/atmPrf_repro2013_2009_032";
   "ucar-bucket/cosmic1/repro2013/level2/2009/032/wetPf2_repro2013_2009_032";
   "ucar-bucket/cosmic1/repro2013/level2/2009/032/wetPrf_repro2013_2009_032"].

Definition no_locals : dj_locals :=
  {| UCARprefix := None; ROMSAFprefix := None; JPLprefix := None;
     EUMETSATprefix := None; dj_jobs := []; level := None; subdirs := None;
     jpl_file_type := None |}.

(** *** JSON round trips *)

(** Every dictionary has distinct keys, as Python dictionaries do. *)
Fixpoint distinct_keys (v : pyval) : Prop :=
  match v with
  | PList l =>
      (fix all (l : list pyval) : Prop :=
         match l with
         | [] => True
         | x :: xs => distinct_keys x /\ all xs
         end) l
  | PDict d =>
      NoDup (map fst d)
      /\ (fix all (d : list (string * pyval)) : Prop :=
            match d with
            | [] => True
            | kx :: kxs => distinct_keys (snd kx) /\ all kxs
            end) d
  | _ => True
  end.

(** The text is made of whitespace only. *)
Fixpoint all_ws (s : string) : bool :=
  match s with
  | EmptyString => true
  | String c s' => is_ws c && all_ws s'
  end.

(** What follows a number ends it as an integer: not a digit, a point or an
    exponent mark. *)
Definition number_stop (s : string) : bool :=
  match s with
  | EmptyString => true
  | String c _ =>
      negb (is_digit c || Ascii.eqb c "."%char || Ascii.eqb c "e"%char
            || Ascii.eqb c "E"%char)
  end.

(** The items of a list after the first, as the encoder writes them. *)
Fixpoint encode_more_items (indent : option string) (level : nat) (l : list pyval)
  : string :=
  match l with
  | [] => EmptyString
  | y :: ys =>
      item_separator indent +++ newline_indent indent (S level)
        +++ json_encode indent (S level) y +++ encode_more_items indent level ys
  end.

(** The items of a dictionary after the first, as the encoder writes them. *)
Fixpoint encode_more_pairs (indent : option string) (level : nat)
    (d : list (string * pyval)) : string :=
  match d with
  | [] => EmptyString
  | (k, y) :: kys =>
      item_separator indent +++ newline_indent indent (S level)
        +++ encode_basestring_ascii k +++ key_separator
        +++ json_encode indent (S level) y +++ encode_more_pairs indent level kys
  end.

(** The fuel that decoding the encoding of a value takes. *)
Fixpoint fuel_needed (v : pyval) : nat :=
  match v with
  | PList l => S (List.length l + list_sum (map fuel_needed l))
  | PDict d => S (List.length d + list_sum (map (fun kx => fuel_needed (snd kx)) d))
  | _ => 1
  end.

(** The indent is whitespace, as in [indent="  "]. *)
Definition ws_indent (indent : option string) : Prop :=
  match indent with
  | Some i => all_ws i = true
  | None => True
  end.

(** The characters an encoded value can start with. *)
Definition value_start (c : ascii) : bool :=
  Ascii.eqb c "n"%char || is_digit c || Ascii.eqb c "-"%char
  || Ascii.eqb c dquote || Ascii.eqb c "["%char || Ascii.eqb c "{"%char.

(** The decoder with fuel [f] reads the encoding of [y] at [level] back,
    whatever text follows it that does not continue a number. *)
Definition decodes (indent : option string) (f level : nat) (y : pyval) : Prop :=
  forall rest, number_stop rest = true ->
    scan_once f (json_encode indent level y +++ rest) = Some (y, rest).

(** The jobs gathered so far are dictionaries with distinct keys. *)
Definition jobs_ok (st : dj_locals) : Prop := Forall distinct_keys (dj_jobs st).

(** Whatever the computation returns, the jobs it carries are well formed. *)
Definition keeps {A : Type} (proj : A -> dj_locals) (m : M A) : Prop :=
  forall a t, m = (Ok a, t) -> jobs_ok (proj a).

(** Induction on values, through the items of lists and dictionaries. *)
Section PyvalInduction.

Variable P : pyval -> Prop.
Hypothesis P_None : P PNone.
Hypothesis P_Int : forall n, P (PInt n).
Hypothesis P_Str : forall s, P (PStr s).
Hypothesis P_List : forall l, Forall P l -> P (PList l).
Hypothesis P_Dict : forall d, Forall (fun kx => P (snd kx)) d -> P (PDict d).

Fixpoint pyval_induction (v : pyval) : P v :=
  match v with
  | PNone => P_None
  | PInt n => P_Int n
  | PStr s => P_Str s
  | PList l =>
      P_List l ((fix all (l : list pyval) : Forall P l :=
                   match l with
                   | [] => Forall_nil P
                   | x :: xs => Forall_cons x (pyval_induction x) (all xs)
                   end) l)
  | PDict d =>
      P_Dict d ((fix all (d : list (string * pyval))
                   : Forall (fun kx => P (snd kx)) d :=
                   match d with
                   | [] => Forall_nil _
                   | kx :: kxs => Forall_cons kx (pyval_induction (snd kx)) (all kxs)
                   end) d)
  end.

End PyvalInduction.

From Stdlib Require Import Sorted.

(* ===================================================================== *)
(** ** Vocabulary of the further properties *)
(* ===================================================================== *)

(** *** The iterator over listed jobs *)

(** A job as the iterator meets it: its fields, the root its center has
    among the prefixes, and what the listing of its directory answers. *)
Record listed_job : Type := {
  lj_file_type : pyval;
  lj_center : string;
  lj_root : string;
  lj_dir : string;
  lj_files : list string
}.

Definition describes (ls : string -> option (list string))
    (the_prefixes : list (string * pyval)) (job : pyval) (j : listed_job) : Prop :=
  exists d,
    job = PDict d
    /\ dict_get "file_type" d = Some (lj_file_type j)
    /\ dict_get "processing_center" d = Some (PStr (lj_center j))
    /\ dict_get "input_relative_dir" d = Some (PStr (lj_dir j))
    /\ dict_get (lj_center j) the_prefixes = Some (PStr (lj_root j))
    /\ ls (os_path_join (lj_root j) (lj_dir j)) = Some (lj_files j).

(** The input file with as many leading components dropped as the root has
    after its scheme. *)
Definition relative_to (root inputfile : string) : string :=
  str_join "/" (skipn (List.length (str_split os_sep (str_from 5 root)))
                      (str_split os_sep inputfile)).

(** The tuple of one input file of a listed job. *)
Definition tuple_of (j : listed_job) (f : string) : job_tuple :=
  {| file_type := lj_file_type j;
     processing_center := PStr (lj_center j);
     input_root_path := lj_root j;
     input_relative_path := relative_to (lj_root j) f |}.

(** The tuples a listed job stands for: one per NetCDF file, in the order
    of the listing. *)
Definition tuples_of (j : listed_job) : list job_tuple :=
  map (tuple_of j) (filter re_search_nc (lj_files j)).

(** The separator does not occur in the name. *)
Definition no_sep (s : string) : bool := negb (str_contains "/" s).

(** The two listed jobs of the small archive. *)
Definition three_listed : listed_job :=
  {| lj_file_type := PStr "level1b"; lj_center := "ucar"; lj_root := "s3://bucket";
     lj_dir := "three";
     lj_files := ["bucket/three/a_nc"; "bucket/three/b_nc"; "bucket/three/c_nc"] |}.

Definition four_listed : listed_job :=
  {| lj_file_type := PStr "level1b"; lj_center := "ucar"; lj_root := "s3://bucket";
     lj_dir := "four";
     lj_files := ["bucket/four/d_nc"; "bucket/four/e_nc"; "bucket/four/f_nc";
                  "bucket/four/g_nc"] |}.

(** The same job under a root written with a slash at its end. *)
Definition three_listed_slash : listed_job :=
  {| lj_file_type := PStr "level1b"; lj_center := "ucar"; lj_root := "s3://bucket/";
     lj_dir := "three";
     lj_files := ["bucket/three/a_nc"; "bucket/three/b_nc"; "bucket/three/c_nc"] |}.

(** A job whose directory the listing service does not answer for. *)
Definition unlisted (ls : string -> option (list string))
    (the_prefixes : list (string * pyval)) (job : pyval) (path : string) : Prop :=
  exists d ft center root dir,
    job = PDict d
    /\ dict_get "file_type" d = Some ft
    /\ dict_get "processing_center" d = Some (PStr center)
    /\ dict_get "input_relative_dir" d = Some (PStr dir)
    /\ dict_get center the_prefixes = Some (PStr root)
    /\ path = os_path_join root dir
    /\ ls path = None.

(** What reading [region_name] off a session that is [None] raises. *)
Definition no_session_error : exn :=
  AttributeError "'NoneType' object has no attribute 'region_name'".

(** *** What the splitter writes *)

(** The batches the splitter writes for the relative paths [files] with [k]
    per file, each with the number its file name is made from: the full
    ones as the loop meets them, then what [out] holds when the loop ends. *)
Definition numbered_batches (k : nat) (files : list string)
  : list (nat * list string) :=
  let n := List.length files in
  map (fun i => (S i, chunk_at k i files)) (seq 0 (n / k))
  ++ [(S (n / k), skipn (k * ((n - 1) / k)) files)].

(** The manifests read back from the documents written, in order. *)
Definition manifests_read (t : list event) : list (option pyval) :=
  map json_loads (documents_written t).

(** A manifest of the family with at least one and at most [k] input files. *)
Definition batch_of (root center : string) (k : nat) (m : manifest) : Prop :=
  InputPrefix m = root /\ ProcessingCenter m = PStr center
  /\ InputFiles m <> [] /\ List.length (InputFiles m) <= k.

(** *** Requests to definejobs *)

(** Every requested value is known to its registry. *)
Definition valid_request (reformatters : list (string * list (string * string)))
    (valid_missions_aws missions processing_centers file_types : list string) : Prop :=
  Forall (fun c => In c (map fst reformatters)) processing_centers
  /\ Forall (fun f => In f (flat_map (fun cr => map fst (snd cr)) reformatters))
       file_types
  /\ Forall (fun m => In m valid_missions_aws) missions.

(** The locals of definejobs before the sweep over the dates. *)
Definition dj_initial (p1 p2 p3 p4 : option string) : dj_locals :=
  {| UCARprefix := p1; ROMSAFprefix := p2; JPLprefix := p3; EUMETSATprefix := p4;
     dj_jobs := []; level := None; subdirs := None; jpl_file_type := None |}.

Definition feb_2_2009 : date := {| year := 2009; month := 2; day := 2 |}.

(** *** Dates *)

(** A day of the calendar, as every [datetime] is. *)
Definition valid_date (d : date) : Prop :=
  1 <= month d <= 12 /\ 1 <= day d <= days_in_month (year d) (month d).

(** A number that grows with the date. *)
Definition date_rank (d : date) : nat :=
  (year d * 12 + (month d - 1)) * 31 + (day d - 1).

(** The days the sweep can visit: those reached from the first day that are
    not after the last. *)
Definition visited (first last d : date) : Prop :=
  exists i, d = Nat.iter i next_day first /\ date_leb d last = true.

(** *** How long the iterator can run *)

(** The number of files a job brings when the iterator loads it. *)
Definition files_of (ls : string -> option (list string))
    (the_prefixes job : pyval) : nat :=
  match loadfiles ls the_prefixes job with
  | (Ok fs, _) => List.length fs
  | _ => 0
  end.

(** A bound on the requests the iterator can still answer with a tuple: one
    per file at hand, and for every job behind the current one, one per file
    it brings (and two to spare). *)
Definition requests_left (ls : string -> option (list string)) (it : DASKjobs) : nat :=
  List.length (inputfiles it)
  + list_sum (map (fun job => 2 + files_of ls (prefixes it) job) (tl (jobs it))).

(** *** What the sweep of definejobs keeps *)

(** The file types the JPL branch writes into its jobs. *)
Definition jpl_file_types : list string :=
  ["calibratedPhase"; "refractivityRetrieval"; "atmosphericRetrieval"].

Definition aws_levels : list string := ["level1b"; "level2a"; "level2b"].

(** A job that answers the request: of a requested mission and center, for
    a day of the range, with the fields each branch writes. *)
Inductive requested_job (first last : date)
    (missions processing_centers file_types : list string) : pyval -> Prop :=
| ucar_job : forall d m ft path n,
    visited first last d -> In m missions -> In "ucar" processing_centers ->
    In ft file_types -> In ft aws_levels ->
    requested_job first last missions processing_centers file_types
      (job_dict_ucar_order ft "ucar" m (date_iso d) path n)
| eumetsat_job : forall d m path n,
    visited first last d -> In m missions -> In "eumetsat" processing_centers ->
    In "level1b" file_types ->
    requested_job first last missions processing_centers file_types
      (job_dict_ucar_order "level1b" "eumetsat" m (date_iso d) path n)
| romsaf_job : forall d m ft path n,
    visited first last d -> In m missions -> In "romsaf" processing_centers ->
    In ft file_types -> ft = "level2a" \/ ft = "level2b" -> 0 < n ->
    requested_job first last missions processing_centers file_types
      (job_dict_romsaf_order (date_iso d) m "romsaf" ft path n)
| jpl_job : forall d m jt path n,
    visited first last d -> In m missions -> In "jpl" processing_centers ->
    In jt jpl_file_types -> 0 < n ->
    requested_job first last missions processing_centers file_types
      (job_dict_romsaf_order (date_iso d) m "jpl" jt path n).

(** Whatever the computation returns, the locals it carries satisfy [P]. *)
Definition preserves {A : Type} (P : dj_locals -> Prop) (proj : A -> dj_locals)
    (m : M A) : Prop :=
  forall a t, m = (Ok a, t) -> P (proj a).

(** The jobs gathered so far answer the request, and the JPL file type, if
    bound, is one of the three. *)
Definition jobs_requested (first last : date)
    (missions processing_centers file_types : list string) (st : dj_locals) : Prop :=
  Forall (requested_job first last missions processing_centers file_types) (dj_jobs st)
  /\ (forall ty, jpl_file_type st = Some ty -> In ty jpl_file_types).

(** What definejobs returns for cosmic1, UCAR and level1b on the first of
    February 2009 over the small UCAR archive. *)
Definition a_ucar_result : pyval :=
  PDict [("prefixes", PDict [("ucar", PStr "s3://ucar-bucket")]);
         ("jobs",
          PList [job_dict_ucar_order "level1b" "ucar" "cosmic1" "2009-02-01"
                   "cosmic1/repro2013/level1b/2009/032/atmPhs_repro2013_2009_032" 0])].

(** A registry with the four centers. *)
Definition four_reformatters : list (string * list (string * string)) :=
  [("ucar", [("archiveBucket", "ucar-bucket"); ("liveupdateBucket", "ucar-live");
             ("level1b", "level1b2aws"); ("level2a", "level2a2aws");
             ("level2b", "level2b2aws")]);
   ("romsaf", [("archiveBucket", "romsaf-bucket"); ("liveupdateBucket", "romsaf-live");
               ("level2a", "level2a2aws"); ("level2b", "level2b2aws")]);
   ("jpl", [("archiveBucket", "jpl-bucket");
            ("level1b", "level1b2aws"); ("level2a", "level2a2aws");
            ("level2b", "level2b2aws")]);
   ("eumetsat", [("liveupdateBucket", "eum-live"); ("level1b", "level1b2aws")])].

Definition four_satellites (mission : string) : list (list (string * string)) :=
  if String.eqb mission "cosmic1"
  then [[("ucar", "cosmic1"); ("romsaf", "cosmic"); ("jpl", "cosmic1");
         ("eumetsat", "cosmic1")]]
  else if String.eqb mission "metop"
  then [[("ucar", "metopa"); ("romsaf", "metop"); ("jpl", "metopa");
         ("eumetsat", "metopa")];
        [("ucar", "metopb"); ("romsaf", "metop"); ("jpl", "metopb");
         ("eumetsat", "metopb")]]
  else [].

(** An archive in which nothing can be listed. *)
Definition no_archive (path : string) : option (list string) := None.

(** *** Directories and file types the branches stumble on *)

(** The year directory the ROM SAF branch lists in the archive. *)
Definition romsaf_year_directory (the_prefix ROMSAFmission : string) (d : date)
  : string :=
  os_path_join_all the_prefix ["romsaf"; "download"; ROMSAFmission; fmt_4d (year d)].

(** What the JPL branch logs for a file type it has no name for. *)
Definition jpl_unrecognized (file_type : string) : string :=
  "File type " +++ String dquote file_type
    +++ String dquote " for processing center "
    +++ String dquote "jpl" +++ String dquote " is unrecognized.".

(** *** Sorted sets of names *)

(** The order of [str]: by code points, a proper prefix first. *)
Definition str_lt (a b : string) : Prop := String.compare a b = Lt.

(** *** The directory of a JPL job *)

(** A name that is not empty and does not begin with a slash. *)
Definition relative_name (s : string) : bool :=
  match s with
  | EmptyString => false
  | String c _ => negb (Ascii.eqb "/"%char c)
  end.

(** [mission/jpl_file_type/YYYY/MM/DD] *)
Definition jpl_relative_dir (mission the_type : string) (d : date) : string :=
  mission +++ "/" +++ the_type +++ "/"
    +++ fmt_4d (year d) +++ "/" +++ fmt_02d (month d) +++ "/" +++ fmt_02d (day d).

(** The JPL job of a day directory, as the iterator will meet it. *)
Definition jpl_listed (the_prefix mission the_type : string) (d : date)
    (files : list string) : listed_job :=
  {| lj_file_type := PStr the_type; lj_center := "jpl"; lj_root := the_prefix;
     lj_dir := jpl_relative_dir mission the_type d; lj_files := files |}.

(** A JPL archive with one day directory. *)
Definition jpl_archive (path : string) : option (list string) :=
  if String.eqb path "s3://jpl-bucket/cosmic1/calibratedPhase/2009/02/01"
  then Some ["jpl-bucket/cosmic1/calibratedPhase/2009/02/01/a.nc";
             "jpl-bucket/cosmic1/calibratedPhase/2009/02/01/b.nc";
             "jpl-bucket/cosmic1/calibratedPhase/2009/02/01/notes.txt"]
  else None.

(* ===================================================================== *)
(** ** find_mission_year_range *)
(* ===================================================================== *)

(** The function prints and can end the program, besides listing: what it
    leaves on the console and at the listing service, in order, and the
    three ways it can end. *)
Inductive console : Type :=
| Printed (line : string)                     (* print( line ) *)
| Listing (path : string).                    (* s3fs_client.ls( path ) *)

Inductive outcome (A : Type) : Type :=
| Returned (a : A)
| Raised (e : exn)
| Exited (code : Z).                          (* exit( code ) *)
Arguments Returned {A} a.
Arguments Raised {A} e.
Arguments Exited {A} code.

Definition F (A : Type) : Type := (outcome A * list console)%type.

Definition f_ret {A} (a : A) : F A := (Returned a, []).
Definition f_raise {A} (e : exn) : F A := (Raised e, []).
Definition f_exit {A} (code : Z) : F A := (Exited code, []).
Definition f_print (line : string) : F unit := (Returned tt, [Printed line]).
Definition f_bind {A B} (m : F A) (k : A -> F B) : F B :=
  match m with
  | (Returned a, t) => let '(r, t') := k a in (r, t ++ t')
  | (Raised e, t) => (Raised e, t)
  | (Exited c, t) => (Exited c, t)
  end.

Notation "x <~ m ;; k" := (f_bind m (fun x => k))
  (at level 61, m at next level, right associativity).
Notation "m ;;~ k" := (f_bind m (fun _ => k))
  (at level 61, right associativity).

(** [for x in l: body], the body falling through or executing [continue]. *)
Fixpoint f_for {A S : Type} (l : list A) (body : A -> S -> F S) (s : S) : F S :=
  match l with
  | [] => f_ret s
  | x :: l' => s' <~ body x s ;; f_for l' body s'
  end.

Section YearRange.

Variable ls : string -> option (list string).
Variable reformatters : list (string * list (string * string)).

Definition f_ls (path : string) : F (list string) :=
  match ls path with
  | Some l => (Returned l, [Listing path])
  | None => (Raised (FileNotFoundError path), [Listing path])
  end.

(** [reformatters[center][key]] *)
Definition f_registry (center key : string) : F string :=
  match assoc center reformatters with
  | None => f_raise (KeyError center)
  | Some r =>
      match assoc key r with
      | None => f_raise (KeyError key)
      | Some v => f_ret v
      end
  end.

(** The first part of the function: the prefix of the center, or the end
    of the program where the center has no such bucket. *)
Definition center_prefix_of (processing_center : string) (liveupdate : bool)
  : F string :=
  if liveupdate then
    b <~ f_registry processing_center "liveupdateBucket" ;;
    let center_prefix := "s3://" +++ b in
    if str_in processing_center ["ucar"; "romsaf"; "eumetsat"] then
      f_ret (center_prefix +++ "/untarred")
    else if String.eqb processing_center "jpl" then
      f_print "jpl has no liveupdate yet" ;;~ f_exit 0
    else f_ret center_prefix
  else
    b <~ f_registry processing_center "archiveBucket" ;;
    let center_prefix := "s3://" +++ b in
    if str_in processing_center ["romsaf"] then
      f_ret (center_prefix +++ "/romsaf/download")
    else if str_in processing_center ["ucar"; "jpl"] then f_ret center_prefix
    else if String.eqb processing_center "eumetsat" then
      f_print "eumetsat is liveupdate only" ;;~ f_exit 0
    else f_ret center_prefix.

(** The directory of a level under a processing version. *)
Definition level_directory (mission : string) (liveupdate : bool)
    (processingVersion level : string) : string :=
  if String.eqb mission "geoopt" && liveupdate
  then os_path_join_all processingVersion ["postProc"; level]
  else if String.eqb mission "spire" && liveupdate
  then os_path_join_all processingVersion ["nrt"; level]
  else if String.eqb mission "planetiq" && liveupdate
  then os_path_join_all processingVersion ["nrt"; level]
  else os_path_join_all processingVersion [level].

(** [for subdir in subdirs: year_list.append( tail )] *)
Definition append_tails (year_list subdirs : list string) : list string :=
  year_list ++ map os_path_tail subdirs.

(** The body of [for level in ["level1b","level2"]]. *)
Definition level_body (mission processing_center : string) (liveupdate : bool)
    (processingVersion level : string) (year_list : list string)
  : F (list string) :=
  if String.eqb level "level2" && String.eqb processing_center "eumetsat"
  then f_ret year_list
  else
    the_subdirs <~ f_ls (level_directory mission liveupdate processingVersion level) ;;
    f_ret (append_tails year_list the_subdirs).

(** The body of [for receiver in receiver_list]. *)
Definition receiver_body (center_prefix mission processing_center : string)
    (liveupdate : bool) (receiver : string) (year_list : list string)
  : F (list string) :=
  processingVersions <~ f_ls (os_path_join center_prefix receiver) ;;
  f_for processingVersions
    (fun processingVersion year_list =>
       f_for ["level1b"; "level2"]
         (level_body mission processing_center liveupdate processingVersion)
         year_list)
    year_list.

(** [find_mission_year_range]; its [version] argument is not used. *)
Definition find_mission_year_range (version : pyval)
    (mission processing_center : string) (liveupdate : bool) : F (list string) :=
  center_prefix <~ center_prefix_of processing_center liveupdate ;;
  year_list <~
    (if String.eqb processing_center "romsaf" then
       let mission := if String.eqb mission "cosmic1" then "cosmic" else mission in
       f_print (os_path_join center_prefix mission) ;;~
       the_subdirs <~ f_ls (os_path_join center_prefix mission) ;;
       f_ret (append_tails [] the_subdirs)
     else if String.eqb processing_center "jpl" then
       the_subdirs <~ f_ls (os_path_join_all center_prefix [mission; "calibratedPhase"]) ;;
       f_ret (append_tails [] the_subdirs)
     else
       let receiver_list :=
         if String.eqb mission "metop" then ["metopa"; "metopb"; "metopc"]
         else if String.eqb mission "gpsmet" then ["gpsmet"; "gpsmetas"]
         else [mission] in
       f_for receiver_list
         (receiver_body center_prefix mission processing_center liveupdate) []) ;;
  f_ret (sorted_set year_list).

End YearRange.

(** The name is the last component of an entry of a listing that the trace
    records. *)
Definition from_a_listing (ls : string -> option (list string))
    (t : list console) (y : string) : Prop :=
  exists path l entry,
    In (Listing path) t /\ ls path = Some l /\ In entry l /\ os_path_tail entry = y.

(** A UCAR archive with the years of two receivers. *)
Definition years_archive (path : string) : option (list string) :=
  if String.eqb path "s3://ucar-bucket/gpsmet" then Some ["ucar-bucket/gpsmet/v1"]
  else if String.eqb path "s3://ucar-bucket/gpsmetas" then Some ["ucar-bucket/gpsmetas/v1"]
  else if String.eqb path "ucar-bucket/gpsmet/v1/level1b"
       then Some ["ucar-bucket/gpsmet/v1/level1b/1996"; "ucar-bucket/gpsmet/v1/level1b/1995"]
  else if String.eqb path "ucar-bucket/gpsmet/v1/level2"
       then Some ["ucar-bucket/gpsmet/v1/level2/1995"]
  else if String.eqb path "ucar-bucket/gpsmetas/v1/level1b"
       then Some ["ucar-bucket/gpsmetas/v1/level1b/1997"]
  else if String.eqb path "ucar-bucket/gpsmetas/v1/level2" then Some []
  else None.

(** *** What a computation never does *)

(** The computation never raises StopIteration of its own. *)
Definition never_stops {A : Type} (m : M A) : Prop :=
  forall e t, m = (Raise e, t) -> e <> StopIteration.

(** The computation touches no file and no bucket. *)
Definition quiet {A : Type} (m : M A) : Prop := storage_effects (snd m) = [].

(** *** One UCAR job at most *)

(** The state has the jobs of [st] and one UCAR job more, which counts all
    the entries of a directory that the trace shows listed. *)
Definition one_ucar_job_more (ls : string -> option (list string)) (d : date)
    (mission file_type : string) (st st' : dj_locals) (t : list event) : Prop :=
  exists dir files path,
    dj_jobs st' = dj_jobs st ++ [job_dict_ucar_order file_type "ucar" mission
                                   (date_iso d) path (List.length files)]
    /\ ls dir = Some files /\ In (Ls dir) t.

(* ===================================================================== *)
(** ** Properties of DASKjobs *)
(* ===================================================================== *)

Lemma bind_Ok {A B} (a : A) (t : list event) (k : A -> M B) :
  bind (Ok a, t) k = (fst (k a), t ++ snd (k a)).
Proof. unfold bind. destruct (k a); reflexivity. Qed.

Lemma bind_ret_l {A B} (a : A) (k : A -> M B) : bind (ret a) k = k a.
Proof. unfold bind, ret. destruct (k a). reflexivity. Qed.

Lemma bind_ret_l_raw {A B} (a : A) (k : A -> M B) : bind (Ok a, []) k = k a.
Proof. apply bind_ret_l. Qed.

Lemma dict_has_get (k : string) (d : list (string * pyval)) :
  dict_has k d = true -> exists v, dict_get k d = Some v.
Proof.
  unfold dict_has, dict_get. induction d as [|[k' v'] d IH]; simpl.
  - discriminate.
  - destruct (String.eqb k' k); simpl; eauto.
Qed.

Lemma dict_get_has (k : string) (d : list (string * pyval)) (v : pyval) :
  dict_get k d = Some v -> dict_has k d = true.
Proof.
  unfold dict_has, dict_get. induction d as [|[k' v'] d IH]; simpl.
  - discriminate.
  - destruct (String.eqb k' k); simpl; auto.
Qed.

(** C7. Constructing the iterator from something that is not a dictionary,
    from a dictionary without the key 'prefixes' or 'jobs', from one whose
    'jobs' is not a list, or from one whose 'jobs' is the empty list raises
    DASKjobsError with the kind InvalidJobDefinitions,
    InvalidJobDefinitionsKeys, InvalidJobDefinitionsJobs and
    NoJobDefinitionsJobs respectively, and the four kinds are pairwise
    different. *)
Theorem DASKjobs_init_error_kinds :
  forall (ls : string -> option (list string)) (job_definitions : pyval)
         (session : option Session),
    ((forall d, job_definitions <> PDict d) ->
       init_raises ls job_definitions session InvalidJobDefinitions)
    /\ (forall d, job_definitions = PDict d ->
          dict_has "prefixes" d = false \/ dict_has "jobs" d = false ->
          init_raises ls job_definitions session InvalidJobDefinitionsKeys)
    /\ (forall d v, job_definitions = PDict d ->
          dict_has "prefixes" d = true -> dict_get "jobs" d = Some v ->
          (forall l, v <> PList l) ->
          init_raises ls job_definitions session InvalidJobDefinitionsJobs)
    /\ (forall d, job_definitions = PDict d ->
          dict_has "prefixes" d = true -> dict_get "jobs" d = Some (PList []) ->
          init_raises ls job_definitions session NoJobDefinitionsJobs)
    /\ NoDup [InvalidJobDefinitions; InvalidJobDefinitionsKeys;
              InvalidJobDefinitionsJobs; NoJobDefinitionsJobs].
Proof.
  intros ls jd session. unfold init_raises. repeat split.
  - intros Hnd. destruct jd; try (eexists; eexists; reflexivity).
    exfalso. eapply Hnd. reflexivity.
  - intros d -> [H | H]; unfold DASKjobs_init.
    + simpl. rewrite H. simpl. eexists; eexists; reflexivity.
    + simpl. destruct (dict_has "prefixes" d); simpl.
      * rewrite H. simpl. eexists; eexists; reflexivity.
      * eexists; eexists; reflexivity.
  - intros d v -> Hp Hj Hnl. pose proof (dict_get_has _ _ _ Hj) as Hj'.
    unfold DASKjobs_init. simpl. rewrite Hp, Hj'. simpl. rewrite Hj. simpl.
    destruct v; try (eexists; eexists; reflexivity).
    exfalso. eapply Hnl. reflexivity.
  - intros d -> Hp Hj. pose proof (dict_get_has _ _ _ Hj) as Hj'.
    unfold DASKjobs_init. simpl. rewrite Hp, Hj'. simpl. rewrite Hj. simpl.
    eexists; eexists; reflexivity.
  - repeat constructor; simpl; intuition discriminate.
Qed.

Example init_of_int_sentinel :
  fst (DASKjobs_init an_archive (PInt 1) (Some a_session))
  = Raise (DASKjobsError "InvalidJobDefinitions" "job_definitions is not a dictionary").
Proof. reflexivity. Qed.

(** The iterator only lists and logs: it never touches the output storage. *)
Lemma storage_effects_app (t1 t2 : list event) :
  storage_effects (t1 ++ t2) = storage_effects t1 ++ storage_effects t2.
Proof. apply filter_app. Qed.

Ltac step_M :=
  match goal with
  | |- context [match ?x with _ => _ end] =>
      match type of x with
      | pyval => destruct x
      | option _ => destruct x
      | list _ => destruct x
      | bool => destruct x
      | prod _ _ => destruct x
      | result _ => destruct x
      | exn => destruct x
      end
  | |- context [if ?b then _ else _] => destruct b
  end; simpl.

Ltac crush_M := simpl; repeat step_M; try reflexivity.

Lemma py_getitem_no_events (c k : pyval) : snd (py_getitem c k) = [].
Proof. unfold py_getitem, ret, raise. crush_M. Qed.

Lemma py_getitem_cases (c k : pyval) :
  (exists v, py_getitem c k = (Ok v, [])) \/ (exists e, py_getitem c k = (Raise e, [])).
Proof.
  pose proof (py_getitem_no_events c k) as H.
  destruct (py_getitem c k) as [[v|e] t]; simpl in H; subst; eauto.
Qed.

Lemma os_fspath_cases (v : pyval) :
  (exists s, os_fspath v = (Ok s, [])) \/ (exists e, os_fspath v = (Raise e, [])).
Proof. destruct v; simpl; unfold ret, raise; eauto. Qed.

Lemma loadfiles_no_storage ls (p job : pyval) :
  storage_effects (snd (loadfiles ls p job)) = [].
Proof.
  unfold loadfiles.
  destruct (py_getitem_cases job (PStr "file_type")) as [[v ->]|[e ->]]; [|reflexivity].
  rewrite bind_Ok; cbn [fst snd app].
  destruct (py_getitem_cases job (PStr "processing_center")) as [[v1 ->]|[e ->]];
    [|reflexivity].
  rewrite bind_Ok; cbn [fst snd app].
  destruct (py_getitem_cases p v1) as [[v2 ->]|[e ->]]; [|reflexivity].
  rewrite bind_Ok; cbn [fst snd app].
  destruct (py_getitem_cases job (PStr "input_relative_dir")) as [[v3 ->]|[e ->]];
    [|reflexivity].
  rewrite bind_Ok; cbn [fst snd app].
  destruct (os_fspath_cases v2) as [[s2 ->]|[e ->]]; [|reflexivity].
  rewrite bind_Ok; cbn [fst snd app].
  destruct (os_fspath_cases v3) as [[s3 ->]|[e ->]]; [|reflexivity].
  rewrite bind_Ok; cbn [fst snd app].
  unfold s3_ls, emit, ret, raise, LOGGER_error, bind.
  destruct (ls (os_path_join s2 s3)) as [files|]; [|reflexivity].
  destruct (filter re_search_nc files); reflexivity.
Qed.

Lemma bind_no_storage {A B} (m : M A) (k : A -> M B) :
  storage_effects (snd m) = [] ->
  (forall a, storage_effects (snd (k a)) = []) ->
  storage_effects (snd (bind m k)) = [].
Proof.
  intros Hm Hk. destruct m as [[a|e] t]; simpl in *; [|assumption].
  specialize (Hk a). destruct (k a) as [r t']; simpl in *.
  rewrite storage_effects_app, Hm, Hk. reflexivity.
Qed.

Lemma py_getitem_no_storage (c k : pyval) :
  storage_effects (snd (py_getitem c k)) = [].
Proof. rewrite py_getitem_no_events. reflexivity. Qed.

Lemma DASKjobs_init_no_storage ls (jd : pyval) (session : option Session) :
  storage_effects (snd (DASKjobs_init ls jd session)) = [].
Proof.
  unfold DASKjobs_init. destruct jd; try reflexivity.
  apply bind_no_storage.
  - simpl. destruct (dict_has "prefixes" d); [|reflexivity]. simpl.
    destruct (dict_has "jobs" d); reflexivity.
  - intros _. apply bind_no_storage; [apply py_getitem_no_storage|].
    intros jobs0. destruct jobs0; try reflexivity.
    destruct (Nat.eqb (List.length l) 0); [reflexivity|].
    apply bind_no_storage; [destruct session; reflexivity|]. intros _.
    apply bind_no_storage; [apply py_getitem_no_storage|]. intros p.
    apply bind_no_storage; [apply py_getitem_no_storage|]. intros j.
    apply bind_no_storage; [apply loadfiles_no_storage|]. intros f.
    reflexivity.
Qed.

Lemma next_tuple_no_storage (self : DASKjobs) :
  storage_effects (snd (snd (next_tuple self))) = [].
Proof.
  unfold next_tuple.
  match goal with
  | |- context [match ?m with _ => _ end] =>
      assert (H : storage_effects (snd m) = []); [|destruct m as [[x|e] t]; exact H]
  end.
  apply bind_no_storage; [apply py_getitem_no_storage|]. intros job.
  apply bind_no_storage; [apply py_getitem_no_storage|]. intros ft.
  apply bind_no_storage; [apply py_getitem_no_storage|]. intros pc.
  apply bind_no_storage; [apply py_getitem_no_storage|]. intros root.
  apply bind_no_storage; [destruct (inputfiles self); reflexivity|]. intros f.
  apply bind_no_storage; [destruct root; reflexivity|]. intros rs.
  apply bind_no_storage; [destruct root; reflexivity|]. intros r.
  reflexivity.
Qed.

Lemma DASKjobs_next_no_storage ls (self : DASKjobs) :
  storage_effects (snd (snd (DASKjobs_next ls self))) = [].
Proof.
  unfold DASKjobs_next.
  destruct (Nat.eqb (List.length (inputfiles self)) 0);
    [|apply next_tuple_no_storage].
  destruct (jobs self) as [|last_job rest]; [reflexivity|].
  destruct (Nat.eqb (List.length rest) 0); [reflexivity|].
  match goal with
  | |- context [match ?m with _ => _ end] =>
      assert (H : storage_effects (snd m) = []);
        [|destruct m as [[files|e] t]; simpl in H]
  end.
  - apply bind_no_storage; [apply py_getitem_no_storage|]. intros j.
    apply loadfiles_no_storage.
  - match goal with
    | |- context [next_tuple ?s] =>
        pose proof (next_tuple_no_storage s) as H2;
          destruct (next_tuple s) as [s3 [r t']]
    end.
    simpl in *. rewrite storage_effects_app, H, H2. reflexivity.
  - exact H.
Qed.

(** C4, at the failing inputs. A job whose file list resolves empty is
    consumed without a tuple only when it is the first job and its successor
    has files: the request that loads an empty file list goes on to index it
    and raises IndexError, whether the empty job follows another empty job or
    a job whose files have all been returned. *)
Theorem next_on_empty_job_raises_IndexError :
  (exists it t0 it' t,
     DASKjobs_init an_archive (a_job_set [a_job "empty1" 2; a_job "empty2" 1])
       (Some a_session) = (Ok it, t0)
     /\ inputfiles it = []
     /\ DASKjobs_next an_archive it
        = (it', (Raise (IndexError "list index out of range"), t)))
  /\ (exists it t0 l it3 it' t,
        DASKjobs_init an_archive (a_job_set [a_job "three" 3; a_job "empty1" 0])
          (Some a_session) = (Ok it, t0)
        /\ produces an_archive it l it3 /\ List.length l = 3%nat
        /\ DASKjobs_next an_archive it3
           = (it', (Raise (IndexError "list index out of range"), t))).
Proof.
  split.
  - do 4 eexists. split; [vm_compute; reflexivity|].
    split; [reflexivity|]. vm_compute. reflexivity.
  - do 6 eexists. split; [vm_compute; reflexivity|]. split.
    + eapply produces_cons; [vm_compute; reflexivity|].
      eapply produces_cons; [vm_compute; reflexivity|].
      eapply produces_cons; [vm_compute; reflexivity|].
      apply produces_nil.
    + split; [reflexivity|]. vm_compute. reflexivity.
Qed.

Lemma DASKjobs_init_error_kinds_witness :
  init_raises an_archive (PInt 1) None InvalidJobDefinitions
  /\ init_raises an_archive (PDict [("prefixes", PDict [])]) None
       InvalidJobDefinitionsKeys
  /\ init_raises an_archive (PDict [("prefixes", PDict []); ("jobs", PInt 3)]) None
       InvalidJobDefinitionsJobs
  /\ init_raises an_archive (PDict [("prefixes", PDict []); ("jobs", PList [])]) None
       NoJobDefinitionsJobs.
Proof.
  split; [|split; [|split]].
  - apply (proj1 (DASKjobs_init_error_kinds an_archive (PInt 1) None)).
    intros d. discriminate.
  - apply (proj1 (proj2 (DASKjobs_init_error_kinds an_archive
                           (PDict [("prefixes", PDict [])]) None))
             [("prefixes", PDict [])] eq_refl).
    right. reflexivity.
  - apply (proj1 (proj2 (proj2 (DASKjobs_init_error_kinds an_archive
                                  (PDict [("prefixes", PDict []); ("jobs", PInt 3)])
                                  None)))
             [("prefixes", PDict []); ("jobs", PInt 3)] (PInt 3) eq_refl).
    + reflexivity.
    + reflexivity.
    + intros l. discriminate.
  - apply (proj1 (proj2 (proj2 (proj2 (DASKjobs_init_error_kinds an_archive
                                         (PDict [("prefixes", PDict []); ("jobs", PList [])])
                                         None))))
             [("prefixes", PDict []); ("jobs", PList [])] eq_refl).
    + reflexivity.
    + reflexivity.
Defined.

(* ===================================================================== *)
(** ** Properties of define_batchprocess_jobs *)
(* ===================================================================== *)

Section Batching.

Variable ls : string -> option (list string).
Variable template : Z -> string.
Variable session : option Session.
Variable K : nat.
Hypothesis K_pos : 0 < K.

Let k : Z := Z.of_nat K.

Lemma py_mod_K (n : nat) : py_mod (Z.of_nat n) k = ret (Z.of_nat (n mod K)).
Proof.
  unfold py_mod, k. destruct (Z.eqb_spec (Z.of_nat K) 0) as [E|_]; [lia|].
  rewrite Nat2Z.inj_mod. reflexivity.
Qed.

Lemma writeOutputJSONfile_returns (doc : pyval) (output_file : string) :
  exists s t, writeOutputJSONfile doc output_file session = (Ok s, t).
Proof.
  unfold writeOutputJSONfile, LOGGER_info, LOGGER_error, emit, ret, bind.
  destruct (String.eqb _ _); [destruct session|]; eauto.
Qed.

Lemma run_bodies_app (l1 l2 : list job_tuple) (st : locals) :
  run_bodies template k session (l1 ++ l2) st
  = match run_bodies template k session l1 st with
    | (Ok (Next, st'), t) =>
        let '(r, t') := run_bodies template k session l2 st' in (r, t ++ t')
    | other => other
    end.
Proof.
  revert st. induction l1 as [|x l1 IH]; intros st; simpl.
  - destruct (run_bodies template k session l2 st). reflexivity.
  - destruct (loop_body template k session x st) as [[[[|] st']|e] t];
      try reflexivity.
    rewrite IH.
    destruct (run_bodies template k session l1 st') as [[[[|] st'']|e] t'];
      try reflexivity.
    destruct (run_bodies template k session l2 st'') as [r t''].
    rewrite app_assoc. reflexivity.
Qed.

(** One tuple of the family, consumed in a state the family left. *)
Lemma loop_body_family (root center : string) (x : job_tuple) (st : locals)
    (n : nat) :
  input_root_path x = root -> processing_center x = PStr center ->
  njobs st = Z.of_nat n ->
  (last_input_root_path st = None \/ last_input_root_path st = Some root) ->
  (last_processing_center st = None
   \/ last_processing_center st = Some (PStr center)) ->
  (n mod K <> 0 -> exists o, out st = Some o) ->
  let o1 := if Nat.eqb (n mod K) 0 then mk_manifest root center []
            else match out st with Some o => o | None => mk_manifest root center [] end in
  let o2 := {| InputPrefix := InputPrefix o1; ProcessingCenter := ProcessingCenter o1;
               InputFiles := InputFiles o1 ++ [input_relative_path x] |} in
  let full := Nat.eqb (S n mod K) 0 in
  exists t,
    loop_body template k session x st
    = (Ok (Next, {| njobs := Z.of_nat (S n);
                    nfiles := if full then (nfiles st + 1)%Z else nfiles st;
                    last_input_root_path := Some root;
                    last_processing_center := Some (PStr center);
                    out := Some o2 |}), t)
    /\ storage_effects t
       = if full then flush_effects session (template (nfiles st + 1)%Z) o2 else [].
Proof.
  intros Hr Hc Hn Hlr Hlc Hout o1 o2 full.
  unfold loop_body. rewrite Hr, Hc, Hn.
  assert (E1 : match last_input_root_path st with
               | Some last => negb (String.eqb root last)
               | None => false
               end = false).
  { destruct Hlr as [-> | ->]; [reflexivity|]. now rewrite String.eqb_refl. }
  rewrite E1.
  assert (E2 : match last_processing_center st with
               | Some last => negb (py_eqb (PStr center) last)
               | None => false
               end = false).
  { destruct Hlc as [-> | ->]; [reflexivity|]. simpl. now rewrite String.eqb_refl. }
  rewrite E2.
  rewrite py_mod_K, bind_ret_l.
  assert (E3 : (if Z.eqb (Z.of_nat (n mod K)) 0
                then Some {| InputPrefix := root; ProcessingCenter := PStr center;
                             InputFiles := [] |}
                else out st) = Some o1).
  { unfold o1. destruct (Nat.eqb_spec (n mod K) 0) as [E|E].
    - rewrite E. reflexivity.
    - destruct (Z.eqb_spec (Z.of_nat (n mod K)) 0) as [E'|_]; [lia|].
      destruct (Hout E) as [o ->]. reflexivity. }
  rewrite E3, bind_ret_l. cbn [njobs]. fold o2.
  replace (Z.of_nat n + 1)%Z with (Z.of_nat (S n)) by lia.
  rewrite py_mod_K, bind_ret_l. unfold full.
  destruct (Nat.eqb_spec (S n mod K) 0) as [E|E].
  - rewrite E. cbn [Z.of_nat Z.eqb].
    unfold flush. cbn [nfiles out njobs last_input_root_path last_processing_center].
    rewrite bind_ret_l. unfold flush_effects.
    destruct (writeOutputJSONfile_returns (manifest_dict o2)
                (template (nfiles st + 1)%Z)) as (s & tw & ->).
    unfold bind, ret. cbn [snd]. eexists. split; [reflexivity|].
    now rewrite !app_nil_r.
  - destruct (Z.eqb_spec (Z.of_nat (S n mod K)) 0) as [E'|_]; [lia|].
    eexists. split; reflexivity.
Qed.

Lemma div_pred_same (n : nat) : n mod K <> 0 -> (n - 1) / K = n / K.
Proof.
  intros H. pose proof (Nat.div_mod_eq n K) as E.
  symmetry. apply (Nat.div_unique (n - 1) K (n / K) (n mod K - 1)).
  - pose proof (Nat.mod_upper_bound n K). lia.
  - lia.
Qed.

Lemma div_succ_full (n : nat) :
  S n mod K = 0 -> S n / K = S (n / K) /\ K * (n / K) + K = S n.
Proof.
  intros H. pose proof (Nat.div_mod_eq (S n) K) as E. rewrite H in E.
  pose proof (Nat.div_mod_eq n K) as E'.
  pose proof (Nat.mod_upper_bound n K ltac:(lia)) as B.
  assert (Q : S n / K = S (n / K)) by nia.
  split; [exact Q|]. rewrite Q in E. lia.
Qed.

Lemma div_succ_part (n : nat) : S n mod K <> 0 -> S n / K = n / K.
Proof.
  intros H. pose proof (Nat.div_mod_eq (S n) K) as E.
  pose proof (Nat.div_mod_eq n K) as E'.
  pose proof (Nat.mod_upper_bound n K ltac:(lia)) as B.
  pose proof (Nat.mod_upper_bound (S n) K ltac:(lia)) as B'.
  nia.
Qed.

Lemma chunk_at_app (i : nat) (files more : list string) :
  K * i + K <= List.length files ->
  chunk_at K i (files ++ more) = chunk_at K i files.
Proof.
  intros H. unfold chunk_at. rewrite skipn_app, firstn_app.
  rewrite length_skipn.
  replace (K - (List.length files - K * i)) with 0 by lia.
  rewrite firstn_O, app_nil_r. reflexivity.
Qed.

Lemma full_batches_app (root center : string) (files more : list string)
    (count : nat) :
  K * count <= List.length files ->
  full_batches template session K root center (files ++ more) count
  = full_batches template session K root center files count.
Proof.
  intros H. unfold full_batches. rewrite !flat_map_concat_map. f_equal.
  apply map_ext_in. intros i Hi. apply in_seq in Hi. rewrite chunk_at_app; [reflexivity|nia].
Qed.

Lemma full_batches_S (root center : string) (files : list string) (count : nat) :
  full_batches template session K root center files (S count)
  = full_batches template session K root center files count
    ++ flush_effects session (template (Z.of_nat (S count)))
         (mk_manifest root center (chunk_at K count files)).
Proof.
  unfold full_batches. rewrite seq_S, flat_map_app. simpl.
  now rewrite app_nil_r.
Qed.

Lemma locals_after_nonempty (root center : string) (l : list job_tuple) :
  l <> [] ->
  locals_after K root center l
  = {| njobs := Z.of_nat (List.length l);
       nfiles := Z.of_nat (List.length l / K);
       last_input_root_path := Some root;
       last_processing_center := Some (PStr center);
       out := Some (mk_manifest root center
                      (skipn (K * ((List.length l - 1) / K))
                             (map input_relative_path l))) |}.
Proof. destruct l; [congruence|reflexivity]. Qed.

(** The loop over the tuples of one family: it never stops early, it leaves
    [locals_after], and it has written the full batches and nothing else. *)
Lemma run_bodies_family (root center : string) (l : list job_tuple) :
  homogeneous root center l ->
  exists t,
    run_bodies template k session l initial_locals
    = (Ok (Next, locals_after K root center l), t)
    /\ storage_effects t
       = full_batches template session K root center
           (map input_relative_path l) (List.length l / K).
Proof.
  induction l as [|x l IH] using rev_ind; intros H.
  - exists []. split; [reflexivity|].
    rewrite Nat.Div0.div_0_l. reflexivity.
  - apply Forall_app in H. destruct H as [Hl Hx].
    inversion Hx as [|? ? [Hr Hc] _]; subst.
    destruct (IH Hl) as (t & Erun & Est). clear IH.
    set (n := List.length l).
    assert (Hlen : List.length (l ++ [x]) = S n)
      by (rewrite length_app; simpl; unfold n; lia).
    assert (Hfl : List.length (map input_relative_path l) = n)
      by (unfold n; apply length_map).
    destruct (loop_body_family (input_root_path x) center x
                (locals_after K (input_root_path x) center l) n)
      as (t1 & Ebody & Est1); [reflexivity|exact Hc| | | | |].
    + destruct l; reflexivity.
    + destruct l; [left|right]; reflexivity.
    + destruct l; [left|right]; reflexivity.
    + intros Hn. destruct l; [|eexists; reflexivity].
      exfalso. apply Hn. unfold n. simpl. apply Nat.Div0.mod_0_l.
    + rewrite run_bodies_app, Erun. cbn [run_bodies]. rewrite Ebody.
      unfold ret. exists (t ++ t1 ++ []).
      assert (Hmod := Nat.div_mod_eq n K).
      assert (HB := Nat.mod_upper_bound n K ltac:(lia)).
      split.
      * f_equal. f_equal. f_equal.
        rewrite (locals_after_nonempty _ _ (l ++ [x]))
          by (destruct l; simpl; discriminate).
        rewrite Hlen. replace (S n - 1) with n by lia.
        rewrite map_app. cbn [map].
        f_equal.
        -- destruct (Nat.eqb_spec (S n mod K) 0) as [E|E].
           ++ destruct (div_succ_full n E) as [-> _].
              destruct l; [simpl; unfold n; simpl; rewrite Nat.Div0.div_0_l|
                           rewrite locals_after_nonempty by discriminate];
                cbn [nfiles]; fold n; lia.
           ++ rewrite (div_succ_part n E).
              destruct l; [simpl; unfold n; simpl; now rewrite Nat.Div0.div_0_l|
                           rewrite locals_after_nonempty by discriminate];
                cbn [nfiles]; fold n; lia.
        -- f_equal. unfold mk_manifest.
           destruct (Nat.eqb_spec (n mod K) 0) as [E|E].
           ++ cbn [InputPrefix ProcessingCenter InputFiles app].
              f_equal.
              rewrite skipn_app, Hfl.
              replace (K * (n / K)) with n by lia.
              rewrite <- Hfl at 1. rewrite skipn_all. rewrite Nat.sub_diag.
              reflexivity.
           ++ rewrite locals_after_nonempty
                by (intros ->; apply E; unfold n; simpl; apply Nat.Div0.mod_0_l).
              cbn [out mk_manifest InputPrefix ProcessingCenter InputFiles].
              f_equal. fold n. rewrite (div_pred_same n E).
              rewrite skipn_app, Hfl.
              replace (K * (n / K) - n) with 0 by lia. reflexivity.
      * rewrite !storage_effects_app, Est, Est1. cbn [storage_effects filter].
        rewrite app_nil_r, Hlen, map_app. cbn [map].
        assert (Hnf : nfiles (locals_after K (input_root_path x) center l)
                      = Z.of_nat (n / K)).
        { destruct l; [unfold n; simpl; now rewrite Nat.Div0.div_0_l|].
          rewrite locals_after_nonempty by discriminate. reflexivity. }
        destruct (Nat.eqb_spec (S n mod K) 0) as [E|E].
        -- destruct (div_succ_full n E) as [-> Hfull].
           rewrite full_batches_S, full_batches_app by (rewrite Hfl; lia).
           f_equal. rewrite Hnf.
           replace (Z.of_nat (n / K) + 1)%Z with (Z.of_nat (S (n / K))) by lia.
           f_equal. unfold mk_manifest, chunk_at.
           assert (Hsk : List.length (skipn (K * (n / K))
                            (map input_relative_path l ++ [input_relative_path x]))
                         = K).
           { rewrite length_skipn, length_app, Hfl. simpl. lia. }
           rewrite firstn_all2 by lia.
           destruct (Nat.eqb_spec (n mod K) 0) as [E0|E0].
           ++ cbn [InputPrefix ProcessingCenter InputFiles app]. f_equal.
              rewrite skipn_app, Hfl.
              replace (K * (n / K)) with n by lia.
              rewrite <- Hfl at 1. rewrite skipn_all, Nat.sub_diag. reflexivity.
           ++ rewrite locals_after_nonempty
                by (intros ->; apply E0; unfold n; simpl; apply Nat.Div0.mod_0_l).
              cbn [out mk_manifest InputPrefix ProcessingCenter InputFiles].
              f_equal. fold n. rewrite (div_pred_same n E0).
              rewrite skipn_app, Hfl.
              replace (K * (n / K) - n) with 0 by lia. reflexivity.
        -- rewrite (div_succ_part n E), app_nil_r.
           rewrite full_batches_app by (rewrite Hfl; lia). reflexivity.
Qed.

End Batching.

Section ForLoop.

Variable ls : string -> option (list string).
Variable template : Z -> string.
Variable session : option Session.
Variable jobsperfile : Z.

(** The [for] loop is the loop body run over what the iterator returns; the
    iterator adds listings and log entries to the trace, nothing else. *)
Lemma for_loop_produces (it it' : DASKjobs) (l : list job_tuple) :
  produces ls it l it' ->
  forall (st : locals) (fuel : nat),
    match run_bodies template jobsperfile session l st with
    | (Ok (Next, st'), t) =>
        exists T,
          storage_effects T = storage_effects t /\ incl t T /\
          for_loop ls template (List.length l + fuel) jobsperfile session it st
          = match for_loop ls template fuel jobsperfile session it' st' with
            | Some (r, t'') => Some (r, T ++ t'')
            | None => None
            end
    | (r, t) =>
        exists T,
          storage_effects T = storage_effects t /\ incl t T /\
          for_loop ls template (List.length l + fuel) jobsperfile session it st
          = Some (r, T)
    end.
Proof.
  induction 1 as [it|it it1 it2 x tn l Hnext Hprod IH]; intros st fuel.
  - simpl. exists []. split; [reflexivity|]. split; [apply incl_refl|].
    destruct (for_loop ls template fuel jobsperfile session it st) as [[r t]|];
      reflexivity.
  - pose proof (DASKjobs_next_no_storage ls it) as Hns.
    rewrite Hnext in Hns. simpl in Hns.
    cbn [run_bodies List.length Nat.add for_loop]. rewrite Hnext.
    destruct (loop_body template jobsperfile session x st)
      as [[[[|] st1]|e] tb] eqn:Eb.
    + specialize (IH st1 fuel).
      destruct (run_bodies template jobsperfile session l st1)
        as [[[[|] st2]|e] tr] eqn:Er.
      * destruct IH as (T & HT & Hin & ->).
        exists (tn ++ tb ++ T). split; [|split].
        -- rewrite !storage_effects_app, Hns, HT. reflexivity.
        -- apply incl_app; [|]; intros ev Hev; apply in_or_app; right;
             apply in_or_app; [left|right]; auto.
        -- destruct (for_loop ls template fuel jobsperfile session it2 st2)
             as [[r t'']|]; [|reflexivity].
           now rewrite <- !app_assoc.
      * destruct IH as (T & HT & Hin & ->).
        exists (tn ++ tb ++ T). split; [|split; [|reflexivity]].
        -- rewrite !storage_effects_app, Hns, HT. reflexivity.
        -- apply incl_app; [|]; intros ev Hev; apply in_or_app; right;
             apply in_or_app; [left|right]; auto.
      * destruct IH as (T & HT & Hin & ->).
        exists (tn ++ tb ++ T). split; [|split; [|reflexivity]].
        -- rewrite !storage_effects_app, Hns, HT. reflexivity.
        -- apply incl_app; [|]; intros ev Hev; apply in_or_app; right;
             apply in_or_app; [left|right]; auto.
    + exists (tn ++ tb). split; [|split; [|reflexivity]].
      * rewrite !storage_effects_app, Hns. reflexivity.
      * apply incl_appr, incl_refl.
    + exists (tn ++ tb). split; [|split; [|reflexivity]].
      * rewrite !storage_effects_app, Hns. reflexivity.
      * apply incl_appr, incl_refl.
Qed.

Lemma for_loop_exhausted (it : DASKjobs) (st : locals) (fuel : nat) :
  exhausted ls it ->
  exists t,
    for_loop ls template (S fuel) jobsperfile session it st = Some (Ok (Next, st), t)
    /\ storage_effects t = [].
Proof.
  intros (it' & t & H). exists t. simpl. rewrite H. split; [reflexivity|].
  pose proof (DASKjobs_next_no_storage ls it) as Hns. now rewrite H in Hns.
Qed.

End ForLoop.

Section BatchingRuns.

Variable ls : string -> option (list string).
Variable template : Z -> string.
Variable session : option Session.
Variable K : nat.
Hypothesis K_pos : 0 < K.

(** After the loop, [out] is whatever batch the last tuple went into, full
    or not, and it is written (again, when it was full). *)
Lemma after_loop_family (root center : string) (l : list job_tuple) :
  l <> [] ->
  exists t,
    after_loop template session (locals_after K root center l) = (Ok tt, t)
    /\ storage_effects t
       = flush_effects session (template (Z.of_nat (S (List.length l / K))))
           (mk_manifest root center
              (skipn (K * ((List.length l - 1) / K)) (map input_relative_path l))).
Proof.
  intros Hl. rewrite (locals_after_nonempty K root center l Hl).
  unfold after_loop. cbn [out]. rewrite bind_ret_l.
  set (n := List.length l).
  assert (Hn : 0 < n) by (unfold n; destruct l; [congruence|simpl; lia]).
  assert (Hlen : List.length (skipn (K * ((n - 1) / K)) (map input_relative_path l)) > 0).
  { rewrite length_skipn, length_map. fold n.
    pose proof (Nat.div_mod_eq (n - 1) K). lia. }
  cbn [mk_manifest InputFiles].
  destruct (Z.ltb_spec 0 (Z.of_nat (List.length
              (skipn (K * ((n - 1) / K)) (map input_relative_path l))))) as [_|H];
    [|lia].
  unfold flush. cbn [out nfiles]. rewrite bind_ret_l.
  replace (Z.of_nat (n / K) + 1)%Z with (Z.of_nat (S (n / K))) by lia.
  unfold flush_effects.
  destruct (writeOutputJSONfile_returns session
              (manifest_dict (mk_manifest root center
                 (skipn (K * ((n - 1) / K)) (map input_relative_path l))))
              (template (Z.of_nat (S (n / K))))) as (s & tw & E).
  unfold mk_manifest in E |- *. rewrite E.
  unfold bind, ret. cbn [snd]. eexists. split; [reflexivity|].
  now rewrite !app_nil_r.
Qed.

(** A whole run over the tuples of one family: every full batch is written
    when it fills, and the batch of the last tuple is written after the loop. *)
Lemma define_batchprocess_jobs_family
    (job_definitions : pyval) (it it' : DASKjobs) (t0 : list event)
    (root center : string) (l : list job_tuple) (fuel : nat) :
  DASKjobs_init ls job_definitions session = (Ok it, t0) ->
  produces ls it l it' -> exhausted ls it' ->
  l <> [] -> homogeneous root center l ->
  exists t,
    define_batchprocess_jobs ls template (List.length l + S fuel) job_definitions
      (Z.of_nat K) session = Some (Ok tt, t)
    /\ storage_effects t
       = full_batches template session K root center
           (map input_relative_path l) (List.length l / K)
         ++ flush_effects session (template (Z.of_nat (S (List.length l / K))))
              (mk_manifest root center
                 (skipn (K * ((List.length l - 1) / K))
                        (map input_relative_path l))).
Proof.
  intros Hinit Hprod Hex Hl Hhom.
  pose proof (DASKjobs_init_no_storage ls job_definitions session) as H0.
  rewrite Hinit in H0. simpl in H0.
  destruct (run_bodies_family template session K K_pos root center l Hhom)
    as (tb & Erun & Estb).
  pose proof (for_loop_produces ls template session (Z.of_nat K) it it' l Hprod
                initial_locals (S fuel)) as Hfor.
  rewrite Erun in Hfor. destruct Hfor as (T & HT & _ & Efor).
  destruct (for_loop_exhausted ls template session (Z.of_nat K) it'
              (locals_after K root center l) fuel Hex) as (ts & Es & Hts).
  rewrite Es in Efor.
  destruct (after_loop_family root center l Hl) as (ta & Ea & Hta).
  unfold define_batchprocess_jobs. rewrite Hinit, Efor, Ea.
  eexists. split; [reflexivity|].
  rewrite !storage_effects_app, H0, HT, Estb, Hts, Hta. simpl.
  now rewrite app_nil_r.
Qed.

End BatchingRuns.

Lemma documents_written_app (t1 t2 : list event) :
  documents_written (t1 ++ t2) = documents_written t1 ++ documents_written t2.
Proof.
  induction t1 as [|ev t1 IH]; [reflexivity|].
  destruct ev; simpl; rewrite IH; reflexivity.
Qed.

Lemma documents_written_storage (t : list event) :
  documents_written (storage_effects t) = documents_written t.
Proof.
  induction t as [|ev t IH]; [reflexivity|].
  destruct ev; simpl; rewrite ?IH; reflexivity.
Qed.

(** With a session, one call of [writeOutputJSONfile] dumps one document. *)
Lemma documents_written_flush (s : Session) (output_file : string) (m : manifest) :
  documents_written (flush_effects (Some s) output_file m)
  = [json_dumps (Some "    ") (manifest_dict m)].
Proof.
  unfold flush_effects, writeOutputJSONfile, LOGGER_info, emit, ret, bind.
  destruct (String.eqb _ _); reflexivity.
Qed.

Lemma DASKjobs_init_session ls (jd : pyval) (session : option Session)
    (it : DASKjobs) (t : list event) :
  DASKjobs_init ls jd session = (Ok it, t) -> exists s, session = Some s.
Proof.
  destruct session as [s|]; [eauto|]. intros H. exfalso. revert H.
  unfold DASKjobs_init. destruct jd; try discriminate.
  match goal with |- context [bind ?m _] => destruct m as [[[]|e] t1] end;
    [|discriminate].
  unfold bind at 1.
  destruct (py_getitem_cases (PDict d) (PStr "jobs")) as [[v ->]|[e ->]];
    [|discriminate].
  rewrite bind_ret_l_raw.
  destruct v; try discriminate.
  destruct (Nat.eqb (List.length l) 0); discriminate.
Qed.

Lemma py_eqb_PStr_false (a : pyval) (c : string) :
  a <> PStr c -> py_eqb a (PStr c) = false.
Proof.
  destruct a; simpl; try reflexivity. intros H.
  apply String.eqb_neq. congruence.
Qed.

(** A tuple of another family, met after tuples of the family: the body
    logs the mismatch and returns, and writes nothing. *)
Lemma loop_body_mismatch (template : Z -> string) (jobsperfile : Z)
    (session : option Session) (K : nat) (root center : string)
    (pre : list job_tuple) (bad : job_tuple) :
  pre <> [] ->
  input_root_path bad <> root \/ processing_center bad <> PStr center ->
  loop_body template jobsperfile session bad (locals_after K root center pre)
  = (Ok (Return, locals_after K root center pre),
     [Log ERROR (mismatch_message root center bad)]).
Proof.
  intros Hpre Hbad. rewrite (locals_after_nonempty K root center pre Hpre).
  unfold loop_body, mismatch_message.
  cbn [last_input_root_path last_processing_center].
  destruct (String.eqb_spec (input_root_path bad) root) as [E|E]; cbn [negb].
  - destruct Hbad as [Hbad|Hbad]; [congruence|].
    rewrite (py_eqb_PStr_false _ _ Hbad). cbn [negb]. reflexivity.
  - reflexivity.
Qed.

Lemma produces_snoc ls (it it' : DASKjobs) (l : list job_tuple) (x : job_tuple) :
  produces ls it (l ++ [x]) it' ->
  exists it1 tn,
    produces ls it l it1 /\ DASKjobs_next ls it1 = (it', (Ok x, tn)).
Proof.
  revert it. induction l as [|y l IH]; intros it H; cbn [app] in H.
  - inversion H as [|? it1 ? ? tn ? Hnext Hrest]; subst.
    inversion Hrest; subst. exists it, tn. split; [constructor|exact Hnext].
  - inversion H as [|? it1 ? ? tn ? Hnext Hrest]; subst.
    destruct (IH it1 Hrest) as (it2 & tn2 & Hp & Hn).
    exists it2, tn2. split; [|exact Hn].
    econstructor; [exact Hnext|exact Hp].
Qed.

Lemma documents_written_full_batches (template : Z -> string) (s : Session)
    (K : nat) (root center : string) (files : list string) (count : nat) :
  List.length (documents_written
                 (full_batches template (Some s) K root center files count))
  = count.
Proof.
  induction count as [|count IH]; [reflexivity|].
  rewrite full_batches_S, documents_written_app, length_app, IH.
  rewrite documents_written_flush. simpl. lia.
Qed.

(** The number of manifests a run over [n > 0] tuples of one family writes:
    one per full batch, and always one more after the loop. *)
Lemma manifests_written_count
    (ls : string -> option (list string)) (template : Z -> string)
    (session : option Session) (K : nat) (job_definitions : pyval)
    (it it' : DASKjobs) (t0 : list event) (root center : string)
    (l : list job_tuple) (fuel : nat) :
  0 < K ->
  DASKjobs_init ls job_definitions session = (Ok it, t0) ->
  produces ls it l it' -> exhausted ls it' ->
  l <> [] -> homogeneous root center l ->
  exists t,
    define_batchprocess_jobs ls template (List.length l + S fuel) job_definitions
      (Z.of_nat K) session = Some (Ok tt, t)
    /\ List.length (documents_written t) = List.length l / K + 1.
Proof.
  intros HK Hinit Hprod Hex Hl Hhom.
  destruct (define_batchprocess_jobs_family ls template session K HK
              job_definitions it it' t0 root center l fuel
              Hinit Hprod Hex Hl Hhom) as (t & E & Hst).
  exists t. split; [exact E|].
  destruct (DASKjobs_init_session _ _ _ _ _ Hinit) as [s ->].
  rewrite <- documents_written_storage, Hst, documents_written_app, length_app.
  rewrite documents_written_full_batches, documents_written_flush. reflexivity.
Qed.

(** C8. With jobsperfile = 3 and an iterator that returns exactly seven
    tuples of one input root and one processing center, the call returns
    after writing exactly three manifests: the first three relative paths to
    template.format(1), the next three to template.format(2) and the seventh
    to template.format(3). *)
Theorem seven_tuples_in_batches_of_three :
  forall (ls : string -> option (list string)) (template : Z -> string)
         (s : Session) (job_definitions : pyval) (it it' : DASKjobs)
         (t0 : list event) (root center : string) (l : list job_tuple)
         (p1 p2 p3 p4 p5 p6 p7 : string) (fuel : nat),
    DASKjobs_init ls job_definitions (Some s) = (Ok it, t0) ->
    produces ls it l it' -> exhausted ls it' ->
    homogeneous root center l ->
    map input_relative_path l = [p1; p2; p3; p4; p5; p6; p7] ->
    exists t,
      define_batchprocess_jobs ls template (8 + fuel) job_definitions 3 (Some s)
      = Some (Ok tt, t)
      /\ storage_effects t
         = flush_effects (Some s) (template 1%Z) (mk_manifest root center [p1; p2; p3])
           ++ flush_effects (Some s) (template 2%Z) (mk_manifest root center [p4; p5; p6])
           ++ flush_effects (Some s) (template 3%Z) (mk_manifest root center [p7])
      /\ documents_written t
         = [json_dumps (Some "    ") (manifest_dict (mk_manifest root center [p1; p2; p3]));
            json_dumps (Some "    ") (manifest_dict (mk_manifest root center [p4; p5; p6]));
            json_dumps (Some "    ") (manifest_dict (mk_manifest root center [p7]))].
Proof.
  intros ls template s jd it it' t0 root center l p1 p2 p3 p4 p5 p6 p7 fuel
         Hinit Hprod Hex Hhom Hfiles.
  assert (Hlen : List.length l = 7%nat).
  { rewrite <- (length_map input_relative_path), Hfiles. reflexivity. }
  assert (Hl : l <> []) by (intros ->; discriminate).
  destruct (define_batchprocess_jobs_family ls template (Some s) 3 ltac:(lia)
              jd it it' t0 root center l fuel Hinit Hprod Hex Hl Hhom)
    as (t & E & Hst).
  rewrite Hlen, Hfiles in *.
  exists t. split; [exact E|].
  assert (Hst' : storage_effects t
         = flush_effects (Some s) (template 1%Z) (mk_manifest root center [p1; p2; p3])
           ++ flush_effects (Some s) (template 2%Z) (mk_manifest root center [p4; p5; p6])
           ++ flush_effects (Some s) (template 3%Z) (mk_manifest root center [p7])).
  { rewrite Hst. unfold full_batches. cbn. rewrite app_nil_r, <- app_assoc.
    reflexivity. }
  split; [exact Hst'|].
  rewrite <- documents_written_storage, Hst', !documents_written_app,
    !documents_written_flush. reflexivity.
Qed.

Ltac next_steps :=
  repeat (eapply produces_cons; [vm_compute; reflexivity|]);
  apply produces_nil.

Lemma seven_tuples_in_batches_of_three_witness :
  exists t,
    define_batchprocess_jobs an_archive a_template 8
      (a_job_set [a_job "three" 3; a_job "four" 4]) 3 (Some a_session)
    = Some (Ok tt, t)
    /\ storage_effects t
       = flush_effects (Some a_session) (a_template 1)
           (mk_manifest "s3://bucket" "ucar" ["three/a_nc"; "three/b_nc"; "three/c_nc"])
         ++ flush_effects (Some a_session) (a_template 2)
              (mk_manifest "s3://bucket" "ucar" ["four/d_nc"; "four/e_nc"; "four/f_nc"])
         ++ flush_effects (Some a_session) (a_template 3)
              (mk_manifest "s3://bucket" "ucar" ["four/g_nc"])
    /\ documents_written t
       = [json_dumps (Some "    ") (manifest_dict
            (mk_manifest "s3://bucket" "ucar" ["three/a_nc"; "three/b_nc"; "three/c_nc"]));
          json_dumps (Some "    ") (manifest_dict
            (mk_manifest "s3://bucket" "ucar" ["four/d_nc"; "four/e_nc"; "four/f_nc"]));
          json_dumps (Some "    ") (manifest_dict
            (mk_manifest "s3://bucket" "ucar" ["four/g_nc"]))].
Proof.
  eapply (seven_tuples_in_batches_of_three an_archive a_template a_session
            (a_job_set [a_job "three" 3; a_job "four" 4]) _ _ _
            "s3://bucket" "ucar" _ _ _ _ _ _ _ _ 0).
  - vm_compute. reflexivity.
  - next_steps.
  - eexists. eexists. vm_compute. reflexivity.
  - repeat constructor.
  - reflexivity.
Defined.

(** C1, at the failing input. With jobsperfile = 3 and a job of exactly
    three files, the batch is written when the third tuple fills it, and the
    same batch is written a second time after the loop, to the next file
    name: two manifests, where ceiling(3/3) is one. *)
Theorem full_last_batch_written_twice :
  exists t,
    define_batchprocess_jobs an_archive a_template 4
      (a_job_set [a_job "three" 3]) 3 (Some a_session) = Some (Ok tt, t)
    /\ storage_effects t
       = [FileWrite "batch.1.json"
            (json_dumps (Some "    ") (manifest_dict
               (mk_manifest "s3://bucket" "ucar"
                  ["three/a_nc"; "three/b_nc"; "three/c_nc"])));
          FileWrite "batch.2.json"
            (json_dumps (Some "    ") (manifest_dict
               (mk_manifest "s3://bucket" "ucar"
                  ["three/a_nc"; "three/b_nc"; "three/c_nc"])))]
    /\ List.length (documents_written t) = 2%nat.
Proof.
  eexists. split; [vm_compute; reflexivity|]. split; vm_compute; reflexivity.
Qed.

(** C2. When the iterator returns tuples of one input root and processing
    center and then a tuple whose input root or processing center differs,
    the call stops there: the last thing it does is log the mismatch as an
    error, and it returns.  What it has written by then is exactly what the
    loop wrote while consuming the tuples before the offending one: the full
    batches of their relative paths, each under the one input root and
    processing center, to template.format(1), template.format(2), ...; no
    manifest holds the offending tuple, and nothing written is undone. *)
Theorem mismatch_aborts_before_mixed_manifest :
  forall (ls : string -> option (list string)) (template : Z -> string)
         (session : option Session) (K : nat) (job_definitions : pyval)
         (it it' : DASKjobs) (t0 : list event) (root center : string)
         (pre : list job_tuple) (bad : job_tuple) (fuel : nat),
    0 < K ->
    DASKjobs_init ls job_definitions session = (Ok it, t0) ->
    produces ls it (pre ++ [bad]) it' ->
    pre <> [] -> homogeneous root center pre ->
    input_root_path bad <> root \/ processing_center bad <> PStr center ->
    exists t,
      define_batchprocess_jobs ls template (List.length (pre ++ [bad]) + fuel)
        job_definitions (Z.of_nat K) session
      = Some (Ok tt, t ++ [Log ERROR (mismatch_message root center bad)])
      /\ storage_effects (t ++ [Log ERROR (mismatch_message root center bad)])
         = storage_effects
             (snd (run_bodies template (Z.of_nat K) session pre initial_locals))
      /\ storage_effects (t ++ [Log ERROR (mismatch_message root center bad)])
         = full_batches template session K root center
             (map input_relative_path pre) (List.length pre / K).
Proof.
  intros ls template session K jd it it' t0 root center pre bad fuel
         HK Hinit Hprod Hpre Hhom Hbad.
  pose proof (DASKjobs_init_no_storage ls jd session) as H0.
  rewrite Hinit in H0. simpl in H0.
  destruct (run_bodies_family template session K HK root center pre Hhom)
    as (tb & Erun & Estb).
  pose proof (loop_body_mismatch template (Z.of_nat K) session K root center
                pre bad Hpre Hbad) as Ebad.
  destruct (produces_snoc ls it it' pre bad Hprod) as (it1 & tn & Hpp & Hnext).
  pose proof (DASKjobs_next_no_storage ls it1) as Hn.
  rewrite Hnext in Hn. simpl in Hn.
  pose proof (for_loop_produces ls template session (Z.of_nat K) it it1
                pre Hpp initial_locals (S fuel)) as Hfor.
  rewrite Erun in Hfor. destruct Hfor as (T & HT & _ & Efor).
  cbn [for_loop] in Efor. rewrite Hnext, Ebad in Efor.
  replace (List.length (pre ++ [bad]) + fuel) with (List.length pre + S fuel)
    by (rewrite length_app; simpl; lia).
  unfold define_batchprocess_jobs. rewrite Hinit, Efor.
  exists (t0 ++ T ++ tn). split; [now rewrite <- !app_assoc|].
  assert (Hst : storage_effects
                  ((t0 ++ T ++ tn) ++ [Log ERROR (mismatch_message root center bad)])
                = storage_effects tb).
  { rewrite !storage_effects_app, H0, HT, Hn. simpl. now rewrite !app_nil_r. }
  split.
  - rewrite Erun. exact Hst.
  - rewrite Hst. exact Estb.
Qed.

Lemma mismatch_aborts_before_mixed_manifest_witness :
  exists t,
    define_batchprocess_jobs an_archive a_template 5 a_mixed_job_set 3 (Some a_session)
    = Some (Ok tt,
            t ++ [Log ERROR
                    (mismatch_message "s3://bucket" "ucar"
                       {| file_type := PStr "level1b"; processing_center := PStr "jpl";
                          input_root_path := "s3://bucket";
                          input_relative_path := "three/a_nc" |})])
    /\ storage_effects
         (t ++ [Log ERROR
                  (mismatch_message "s3://bucket" "ucar"
                     {| file_type := PStr "level1b"; processing_center := PStr "jpl";
                        input_root_path := "s3://bucket";
                        input_relative_path := "three/a_nc" |})])
       = storage_effects
           (snd (run_bodies a_template 3 (Some a_session)
                   (map (fun p => {| file_type := PStr "level1b";
                                     processing_center := PStr "ucar";
                                     input_root_path := "s3://bucket";
                                     input_relative_path := p |})
                        ["four/d_nc"; "four/e_nc"; "four/f_nc"; "four/g_nc"])
                   initial_locals))
    /\ storage_effects
         (t ++ [Log ERROR
                  (mismatch_message "s3://bucket" "ucar"
                     {| file_type := PStr "level1b"; processing_center := PStr "jpl";
                        input_root_path := "s3://bucket";
                        input_relative_path := "three/a_nc" |})])
       = full_batches a_template (Some a_session) 3 "s3://bucket" "ucar"
           ["four/d_nc"; "four/e_nc"; "four/f_nc"; "four/g_nc"] 1.
Proof.
  eapply (mismatch_aborts_before_mixed_manifest an_archive a_template
            (Some a_session) 3 a_mixed_job_set _ _ _ "s3://bucket" "ucar"
            (map (fun p => {| file_type := PStr "level1b";
                              processing_center := PStr "ucar";
                              input_root_path := "s3://bucket";
                              input_relative_path := p |})
                 ["four/d_nc"; "four/e_nc"; "four/f_nc"; "four/g_nc"])
            {| file_type := PStr "level1b"; processing_center := PStr "jpl";
               input_root_path := "s3://bucket";
               input_relative_path := "three/a_nc" |} 0).
  - lia.
  - vm_compute. reflexivity.
  - simpl. next_steps.
  - discriminate.
  - repeat constructor.
  - right. discriminate.
Defined.

(* ===================================================================== *)
(** ** Properties of definejobs *)
(* ===================================================================== *)

Lemma str_in_In (s : string) (l : list string) : str_in s l = true <-> In s l.
Proof.
  unfold str_in. rewrite existsb_exists. split.
  - intros (x & Hx & E). apply String.eqb_eq in E. now subst.
  - intros H. exists s. split; [exact H|apply String.eqb_refl].
Qed.

Lemma find_not_in (l valid : list string) :
  (exists x, In x l /\ ~ In x valid) ->
  exists x, find (fun x => negb (str_in x valid)) l = Some x.
Proof.
  intros (x & Hx & Hn).
  destruct (find (fun x => negb (str_in x valid)) l) as [y|] eqn:E; [eauto|].
  exfalso. pose proof (find_none _ _ E x Hx) as H. simpl in H.
  apply negb_false_iff, str_in_In in H. contradiction.
Qed.

(** C6. When a requested processing center is not a key of the reformatters
    registry, or a requested file type is not among the keys registered for
    the centers, or a requested mission is not in valid_missions['aws'],
    definejobs returns the value 1 at once: it does not raise, the only thing
    it does is log one error (no archive is listed), and what it returns is
    not a dictionary of jobs.  This holds whatever the archive, the session
    and the other arguments are. *)
Theorem definejobs_invalid_request_returns_1 :
  forall (ls : string -> option (list string)) (isdir : string -> bool)
         (listdir : string -> list string)
         (reformatters : list (string * list (string * string)))
         (valid_missions_aws : list string)
         (get_receiver_satellites : string -> list (list (string * string)))
         (re_search_group1 : string -> string -> option string)
         (missions processing_centers file_types : list string)
         (nonnominal liveupdate : bool) (fuel : nat) (daterange : date * date)
         (UCARprefix ROMSAFprefix JPLprefix EUMETSATprefix : option string)
         (session : option Session),
    invalid_request reformatters valid_missions_aws missions processing_centers
      file_types ->
    exists msg,
      definejobs ls isdir listdir reformatters valid_missions_aws
        get_receiver_satellites re_search_group1 missions processing_centers
        file_types nonnominal liveupdate fuel daterange
        UCARprefix ROMSAFprefix JPLprefix EUMETSATprefix session
      = Some (Ok (PInt 1), [Log ERROR msg]).
Proof.
  intros ls isdir listdir reformatters valid get_sats re missions pcs fts
         nonnominal liveupdate fuel daterange p1 p2 p3 p4 session Hinv.
  assert (Hc : exists msg, check_input reformatters valid missions pcs fts = Some msg).
  { unfold check_input.
    destruct (find (fun c => negb (str_in c (map fst reformatters))) pcs)
      as [c|] eqn:Ec; [eauto|].
    destruct (find (fun f => negb (str_in f (flat_map (fun cr => map fst (snd cr))
                                                     reformatters))) fts)
      as [f|] eqn:Ef; [eauto|].
    destruct (find (fun m => negb (str_in m valid)) missions) as [m|] eqn:Em;
      [eauto|].
    exfalso. destruct Hinv as [H|[H|H]];
      apply find_not_in in H; destruct H as [x H]; congruence. }
  destruct Hc as [msg Hc]. exists msg.
  unfold definejobs. rewrite Hc. reflexivity.
Qed.

Lemma definejobs_invalid_request_returns_1_witness :
  exists msg,
    some_definejobs ["cosmic1"] ["jpl"] ["level1b"] false
    = Some (Ok (PInt 1), [Log ERROR msg]).
Proof.
  apply (definejobs_invalid_request_returns_1 ucar_archive (fun _ => false)
           (fun _ => []) some_reformatters some_missions some_satellites some_re
           ["cosmic1"] ["jpl"] ["level1b"] false false 2 (feb_1_2009, feb_1_2009)
           None None None None (Some a_session)).
  left. exists "jpl". split; [simpl; auto|].
  simpl. intros [H|[H|H]]; [discriminate H|discriminate H|exact H].
Defined.

(** *** The UCAR level2b choice *)

Lemma select_level2b_started (subdirs acc : list string) :
  acc <> [] ->
  select_level2b subdirs acc = acc ++ filter is_wetPf2 subdirs.
Proof.
  revert acc. induction subdirs as [|x rest IH]; intros acc Hacc;
    cbn [select_level2b filter].
  - now rewrite app_nil_r.
  - change (str_startswith "wetPf2" (os_path_tail x)) with (is_wetPf2 x).
    destruct (is_wetPf2 x).
    + rewrite IH by (destruct acc; discriminate).
      now rewrite <- app_assoc.
    + destruct acc as [|a acc]; [congruence|]. cbn [List.length Nat.eqb].
      rewrite andb_false_r. now apply IH.
Qed.

(** What the loop selects, for every listing: the first wetPrf entry that
    comes before every wetPf2 entry, if there is one, and all the wetPf2
    entries. *)
Lemma select_level2b_spec (subdirs : list string) :
  select_level2b subdirs []
  = firstn 1 (filter is_wetPrf (before_wetPf2 subdirs)) ++ filter is_wetPf2 subdirs.
Proof.
  induction subdirs as [|x rest IH]; [reflexivity|].
  cbn [select_level2b before_wetPf2 filter app List.length Nat.eqb].
  change (str_startswith "wetPf2" (os_path_tail x)) with (is_wetPf2 x).
  change (str_startswith "wetPrf" (os_path_tail x)) with (is_wetPrf x).
  destruct (is_wetPf2 x).
  - rewrite select_level2b_started by discriminate. reflexivity.
  - rewrite andb_true_r. cbn [filter]. destruct (is_wetPrf x).
    + rewrite select_level2b_started by discriminate. reflexivity.
    + exact IH.
Qed.

Lemma before_wetPf2_all (subdirs : list string) :
  filter is_wetPf2 subdirs = [] -> before_wetPf2 subdirs = subdirs.
Proof.
  induction subdirs as [|x rest IH]; [reflexivity|].
  cbn [filter before_wetPf2].
  destruct (is_wetPf2 x); [discriminate|]. intros H. now rewrite IH.
Qed.

Lemma ucar_day_job_skip (ls : string -> option (list string))
    (re : string -> string -> option string) (d : date)
    (mission file_type the_prefix : string) (L : list string) (st : dj_locals) :
  List.length (ucar_type_subdirs file_type L) <> 1 ->
  ucar_day_job ls re d mission file_type the_prefix L st
  = (Ok (Continue, set_subdirs st L), [Log INFO "type_subdirs !=1"]).
Proof.
  intros H. unfold ucar_day_job.
  destruct (Nat.eqb_spec (List.length (ucar_type_subdirs file_type L)) 1) as [E|_];
    [contradiction|].
  reflexivity.
Qed.

(** C5, as amended. For file type level2b the UCAR resolver selects, from the
    listing of the day directory, the first wetPrf subdirectory listed before
    every wetPf2 one, if there is one, and all the wetPf2 subdirectories.  When
    no wetPrf entry is listed before a wetPf2 entry this is the rule of the
    specification: the wetPf2 subdirectories, else the first wetPrf one.  When
    the selection does not have exactly one element the processing version is
    skipped with a log entry and no job, so a job is appended only for a
    selection of exactly one. *)
Theorem ucar_level2b_selection :
  forall (ls : string -> option (list string))
         (re : string -> string -> option string) (d : date)
         (mission the_prefix : string) (L : list string) (st : dj_locals),
    ucar_type_subdirs "level2b" L
    = firstn 1 (filter is_wetPrf (before_wetPf2 L)) ++ filter is_wetPf2 L
    /\ (wetPf2_listed_first L = true ->
        ucar_type_subdirs "level2b" L = level2b_by_rule L)
    /\ (List.length (ucar_type_subdirs "level2b" L) <> 1 ->
        ucar_day_job ls re d mission "level2b" the_prefix L st
        = (Ok (Continue, set_subdirs st L), [Log INFO "type_subdirs !=1"]))
    /\ (forall fl st' t,
          ucar_day_job ls re d mission "level2b" the_prefix L st = (Ok (fl, st'), t) ->
          dj_jobs st' <> dj_jobs st ->
          List.length (ucar_type_subdirs "level2b" L) = 1).
Proof.
  intros ls re d mission the_prefix L st.
  assert (Hsel : ucar_type_subdirs "level2b" L
                 = firstn 1 (filter is_wetPrf (before_wetPf2 L)) ++ filter is_wetPf2 L)
    by (unfold ucar_type_subdirs; cbn [String.eqb Ascii.eqb Bool.eqb];
        apply select_level2b_spec).
  split; [exact Hsel|]. split; [|split].
  - intros Hord. rewrite Hsel. unfold wetPf2_listed_first in Hord.
    unfold level2b_by_rule.
    destruct (filter is_wetPf2 L) as [|p ps] eqn:Ep.
    + rewrite (before_wetPf2_all L Ep). now rewrite app_nil_r.
    + destruct (filter is_wetPrf (before_wetPf2 L)); [reflexivity|discriminate].
  - apply ucar_day_job_skip.
  - intros fl st' t Hrun Hjobs.
    destruct (Nat.eq_dec (List.length (ucar_type_subdirs "level2b" L)) 1) as [E|E];
      [exact E|].
    rewrite (ucar_day_job_skip ls re d mission "level2b" the_prefix L st E) in Hrun.
    inversion Hrun; subst. exfalso. apply Hjobs. reflexivity.
Qed.

Lemma ucar_level2b_selection_witness :
  wetPf2_listed_first a_sorted_level2_listing = true
  /\ ucar_type_subdirs "level2b" a_sorted_level2_listing
     = level2b_by_rule a_sorted_level2_listing
  /\ List.length (ucar_type_subdirs "level2b" a_level2_listing) <> 1
  /\ ucar_day_job ucar_archive some_re feb_1_2009 "cosmic1" "level2b"
       "s3://ucar-bucket" a_level2_listing no_locals
     = (Ok (Continue, set_subdirs no_locals a_level2_listing),
        [Log INFO "type_subdirs !=1"])
  /\ List.length (ucar_type_subdirs "level2b" a_sorted_level2_listing) = 1.
Proof.
  split; [reflexivity|]. split.
  - apply (proj1 (proj2 (ucar_level2b_selection ucar_archive some_re feb_1_2009
                           "cosmic1" "s3://ucar-bucket" a_sorted_level2_listing
                           no_locals))).
    reflexivity.
  - split; [vm_compute; discriminate|]. split.
    + apply (proj1 (proj2 (proj2 (ucar_level2b_selection ucar_archive some_re
                                    feb_1_2009 "cosmic1" "s3://ucar-bucket"
                                    a_level2_listing no_locals)))).
      vm_compute. discriminate.
    + eapply (proj2 (proj2 (proj2 (ucar_level2b_selection ucar_archive some_re
                                     feb_1_2009 "cosmic1" "s3://ucar-bucket"
                                     a_sorted_level2_listing no_locals)))).
      * vm_compute. reflexivity.
      * vm_compute. discriminate.
Defined.

(** C5, the counterexample. In a listing where the wetPrf subdirectory comes
    before the wetPf2 one, the rule of the specification selects the wetPf2
    subdirectory alone, which would give a job; the resolver selects both,
    and skips. *)
Lemma ucar_level2b_order_matters :
  level2b_by_rule a_level2_listing
  = ["ucar-bucket/cosmic1/repro2013/level2/2009/032/wetPf2_repro2013_2009_032"]
  /\ ucar_type_subdirs "level2b" a_level2_listing = a_level2_listing
  /\ ucar_type_subdirs "level2b" a_level2_listing <> level2b_by_rule a_level2_listing
  /\ some_definejobs ["cosmic1"] ["ucar"] ["level2b"] false
     = Some (Ok (PDict [("prefixes", PDict [("ucar", PStr "s3://ucar-bucket")]);
                        ("jobs", PList [])]),
             [Ls "s3://ucar-bucket/cosmic1"; Ls "ucar-bucket/cosmic1/repro2013";
              Ls "ucar-bucket/cosmic1/repro2013/level2/2009/032";
              Log INFO "type_subdirs !=1";
              Log INFO (String.append "prefixes="
                          (String.append
                             (json_dumps None (PDict [("ucar", PStr "s3://ucar-bucket")]))
                             ", njobs=0"))]).
Proof.
  split; [reflexivity|]. split; [reflexivity|]. split; [vm_compute; discriminate|].
  vm_compute. reflexivity.
Qed.


(* ===================================================================== *)
(** ** The JSON round trip *)
(* ===================================================================== *)

Lemma str_app_assoc (a b c : string) : (a +++ b) +++ c = a +++ b +++ c.
Proof. induction a as [|x a IH]; simpl; [reflexivity|now rewrite IH]. Qed.

Lemma str_app_nil_r (a : string) : a +++ EmptyString = a.
Proof. induction a as [|x a IH]; simpl; [reflexivity|now rewrite IH]. Qed.

Lemma str_length_app (a b : string) :
  String.length (a +++ b) = String.length a + String.length b.
Proof. induction a as [|x a IH]; simpl; [reflexivity|now rewrite IH]. Qed.

(** *** Whitespace *)

Lemma skip_ws_app (w s : string) : all_ws w = true -> skip_ws (w +++ s) = skip_ws s.
Proof.
  induction w as [|c w IH]; simpl; [reflexivity|].
  intros H. apply andb_true_iff in H. destruct H as [Hc Hw].
  rewrite Hc. now apply IH.
Qed.

Lemma skip_ws_stop (c : ascii) (s : string) :
  is_ws c = false -> skip_ws (String c s) = String c s.
Proof. intros H. simpl. now rewrite H. Qed.

Lemma all_ws_app (a b : string) : all_ws (a +++ b) = all_ws a && all_ws b.
Proof.
  induction a as [|c a IH]; simpl; [reflexivity|].
  rewrite IH. now rewrite andb_assoc.
Qed.

Lemma all_ws_repeat (i : string) (n : nat) :
  all_ws i = true -> all_ws (str_repeat i n) = true.
Proof.
  intros Hi. induction n as [|n IH]; simpl; [reflexivity|].
  now rewrite all_ws_app, Hi, IH.
Qed.

Lemma all_ws_newline_indent (indent : option string) (level : nat) :
  ws_indent indent -> all_ws (newline_indent indent level) = true.
Proof.
  destruct indent as [i|]; simpl; [|reflexivity].
  intros H. now apply all_ws_repeat.
Qed.

(** *** Strings *)

Ltac each_char c :=
  destruct c as [[] [] [] [] [] [] [] []].

Lemma scanstring_escape_char (c : ascii) (rest : string) :
  scanstring (escape_char c +++ rest) = cons_char c (scanstring rest).
Proof. each_char c; reflexivity. Qed.

Lemma scanstring_escape_string (s rest : string) :
  scanstring (escape_string s +++ String dquote rest) = Some (s, rest).
Proof.
  induction s as [|c s IH]; [reflexivity|].
  cbn [escape_string]. rewrite str_app_assoc, scanstring_escape_char, IH.
  reflexivity.
Qed.

Lemma encode_basestring_ascii_app (s rest : string) :
  encode_basestring_ascii s +++ rest
  = String dquote (escape_string s +++ String dquote rest).
Proof.
  unfold encode_basestring_ascii. cbn [String.append]. now rewrite str_app_assoc.
Qed.

(** *** Numbers *)

Lemma span_digits_uint (d : Decimal.uint) (rest : string) :
  number_stop rest = true ->
  span_digits (NilEmpty.string_of_uint d +++ rest)
  = (NilEmpty.string_of_uint d, rest).
Proof.
  intros Hrest.
  induction d as [|d IH|d IH|d IH|d IH|d IH|d IH|d IH|d IH|d IH|d IH];
    cbn [NilEmpty.string_of_uint String.append span_digits];
    try (change (is_digit "0") with true; change (is_digit "1") with true;
         change (is_digit "2") with true; change (is_digit "3") with true;
         change (is_digit "4") with true; change (is_digit "5") with true;
         change (is_digit "6") with true; change (is_digit "7") with true;
         change (is_digit "8") with true; change (is_digit "9") with true;
         cbv iota; rewrite IH; reflexivity).
  destruct rest as [|c rest]; [reflexivity|]. simpl.
  unfold number_stop in Hrest. destruct (is_digit c); [discriminate|reflexivity].
Qed.

Lemma nzhead_not_D0 (d u : Decimal.uint) : Decimal.nzhead d <> Decimal.D0 u.
Proof. induction d; simpl; try discriminate. exact IHd. Qed.

(** The decimal digits of a positive number do not start with 0. *)
Lemma to_uint_head (p : positive) :
  match Pos.to_uint p with
  | Decimal.Nil | Decimal.D0 _ => False
  | _ => True
  end.
Proof.
  pose proof (DecimalPos.Unsigned.to_of (Pos.to_uint p)) as H.
  rewrite DecimalPos.Unsigned.of_to in H. simpl in H.
  pose proof (DecimalPos.Unsigned.to_uint_nonzero p) as Hz.
  destruct (Pos.to_uint p) as [|u|u|u|u|u|u|u|u|u|u]; try exact I.
  - discriminate H.
  - unfold Decimal.unorm in H. simpl in H.
    destruct (Decimal.nzhead u) eqn:E; try discriminate H.
    + injection H as ->. apply Hz. reflexivity.
    + exact (nzhead_not_D0 _ _ E).
Qed.

Lemma number_stop_not_float (rest : string) :
  number_stop rest = true -> starts_fraction_or_exponent rest = false.
Proof.
  destruct rest as [|c rest]; [reflexivity|].
  unfold number_stop. each_char c; simpl; try discriminate; reflexivity.
Qed.

Lemma scan_digits_pos (p : positive) (rest : string) :
  number_stop rest = true ->
  exists c s',
    NilEmpty.string_of_uint (Pos.to_uint p) = String c s'
    /\ is_digit c = true /\ Ascii.eqb c "0"%char = false
    /\ NilZero.string_of_uint (Pos.to_uint p) = String c s'
    /\ span_digits (String c (s' +++ rest)) = (String c s', rest)
    /\ NilZero.uint_of_string (String c s') = Some (Pos.to_uint p).
Proof.
  intros Hrest.
  pose proof (to_uint_head p) as Hh.
  pose proof (span_digits_uint (Pos.to_uint p) rest Hrest) as Hs.
  pose proof (NilZero.usu (Pos.to_uint p) (DecimalPos.Unsigned.to_uint_nonnil p)) as Hu.
  destruct (Pos.to_uint p) as [|u|u|u|u|u|u|u|u|u|u] eqn:E; try contradiction;
    (eexists; eexists; split; [reflexivity|];
     split; [reflexivity|]; split; [reflexivity|]; split; [reflexivity|];
     split; [exact Hs|exact Hu]).
Qed.

Lemma Z_of_uint_pos (p : positive) : Z.of_uint (Pos.to_uint p) = Z.pos p.
Proof. unfold Z.of_uint. now rewrite DecimalPos.Unsigned.of_to. Qed.

Lemma scan_number_int_repr (n : Z) (rest : string) :
  number_stop rest = true ->
  scan_number (int_repr n +++ rest) = Some (n, rest).
Proof.
  intros Hrest. pose proof (number_stop_not_float rest Hrest) as Hf.
  unfold int_repr. destruct n as [|p|p]; cbn [Z.to_int NilZero.string_of_int].
  - unfold scan_number. simpl. rewrite Hf. reflexivity.
  - destruct (scan_digits_pos p rest Hrest)
      as (c & s' & _ & Hd & H0 & -> & Hs & Hu).
    unfold scan_number. cbn [String.append].
    assert (Hm : str_startswith "-" (String c (s' +++ rest)) = false).
    { cbn [str_startswith]. revert Hd. clear. each_char c; simpl; intros H;
        try discriminate H; reflexivity. }
    rewrite Hm, Hd, H0. cbn [negb]. rewrite Hs, Hf, Hu, Z_of_uint_pos. reflexivity.
  - destruct (scan_digits_pos p rest Hrest)
      as (c & s' & _ & Hd & H0 & -> & Hs & Hu).
    unfold scan_number.
    cbn [String.append str_startswith str_from Ascii.eqb Bool.eqb andb].
    rewrite Hd, H0. cbn [negb]. rewrite Hs, Hf, Hu, Z_of_uint_pos. reflexivity.
Qed.

(** The first character of a number: a digit or the minus sign. *)
Lemma int_repr_head (n : Z) :
  exists c s', int_repr n = String c s'
               /\ (is_digit c = true \/ c = "-"%char).
Proof.
  unfold int_repr. destruct n as [|p|p]; cbn [Z.to_int NilZero.string_of_int].
  - eexists; eexists; split; [reflexivity|left; reflexivity].
  - destruct (scan_digits_pos p EmptyString eq_refl)
      as (c & s' & _ & Hd & _ & -> & _).
    eexists; eexists; split; [reflexivity|left; exact Hd].
  - eexists; eexists; split; [reflexivity|right; reflexivity].
Qed.

(** *** Values *)


Lemma json_encode_list (indent : option string) (level : nat) (x : pyval)
    (xs : list pyval) :
  json_encode indent level (PList (x :: xs))
  = "[" +++ newline_indent indent (S level) +++ json_encode indent (S level) x
        +++ encode_more_items indent level xs
        +++ newline_indent indent level +++ "]".
Proof.
  cbn [json_encode]. do 3 f_equal. f_equal.
  induction xs as [|y ys IH]; [reflexivity|].
  cbn [encode_more_items]. now rewrite <- IH.
Qed.

Lemma json_encode_dict (indent : option string) (level : nat) (k : string)
    (x : pyval) (kxs : list (string * pyval)) :
  json_encode indent level (PDict ((k, x) :: kxs))
  = "{" +++ newline_indent indent (S level)
        +++ encode_basestring_ascii k +++ key_separator
        +++ json_encode indent (S level) x
        +++ encode_more_pairs indent level kxs
        +++ newline_indent indent level +++ "}".
Proof.
  cbn [json_encode]. do 5 f_equal. f_equal.
  induction kxs as [|[k' y] kys IH]; [reflexivity|].
  cbn [encode_more_pairs]. now rewrite <- IH.
Qed.

Lemma value_start_facts (c : ascii) :
  value_start c = true ->
  is_ws c = false /\ Ascii.eqb c "]"%char = false /\ Ascii.eqb c "}"%char = false.
Proof. each_char c; simpl; intros H; try discriminate H; repeat split. Qed.

Lemma digit_or_minus_facts (c : ascii) :
  is_digit c = true \/ c = "-"%char ->
  value_start c = true /\ Ascii.eqb c dquote = false
  /\ Ascii.eqb c "{"%char = false /\ Ascii.eqb c "["%char = false
  /\ Ascii.eqb "n"%char c = false.
Proof.
  intros [H| ->]; [|repeat split].
  revert H. each_char c; simpl; intros H; try discriminate H; repeat split.
Qed.

(** An encoded value starts with a character that only a value starts with. *)
Lemma json_encode_head (indent : option string) (level : nat) (v : pyval) :
  exists c s', json_encode indent level v = String c s' /\ value_start c = true.
Proof.
  destruct v as [|n|s|[|x xs]|[|[k x] kxs]];
    try (eexists; eexists; split; [reflexivity|reflexivity]).
  destruct (int_repr_head n) as (c & s' & E & H).
  exists c, s'. split; [exact E|]. now apply digit_or_minus_facts.
Qed.

Lemma skip_ws_before_value (indent : option string) (level : nat) (v : pyval)
    (w rest : string) :
  all_ws w = true ->
  skip_ws (w +++ json_encode indent level v +++ rest)
  = json_encode indent level v +++ rest.
Proof.
  intros Hw. rewrite skip_ws_app by exact Hw.
  destruct (json_encode_head indent level v) as (c & s' & -> & Hc).
  apply skip_ws_stop. now apply value_start_facts.
Qed.

(** The separator between two items: a comma, then whitespace. *)
Lemma separator_shape (indent : option string) (level : nat) :
  ws_indent indent ->
  exists w, all_ws w = true
            /\ forall s, item_separator indent +++ newline_indent indent level +++ s
                         = String ","%char (w +++ s).
Proof.
  intros Hws. destruct indent as [i|].
  - exists (newline_indent (Some i) level). split.
    + now apply all_ws_newline_indent.
    + reflexivity.
  - exists " ". split; reflexivity.
Qed.

(** What closes a container: whitespace, then the bracket. *)
Lemma closing_shape (indent : option string) (level : nat) (c : ascii)
    (rest : string) :
  ws_indent indent -> is_ws c = false -> number_stop (String c rest) = true ->
  skip_ws (newline_indent indent level +++ String c rest) = String c rest
  /\ number_stop (newline_indent indent level +++ String c rest) = true.
Proof.
  intros Hws Hc Hn. split.
  - rewrite skip_ws_app by now apply all_ws_newline_indent.
    now apply skip_ws_stop.
  - destruct indent as [i|]; [reflexivity|exact Hn].
Qed.

Section Decode.

Variable indent : option string.
Hypothesis Hws : ws_indent indent.

Lemma array_items_encode (f level : nat) (rest : string) :
  forall (xs : list pyval) (x : pyval) (g : nat),
    Forall (decodes indent f (S level)) (x :: xs) ->
    List.length (x :: xs) <= g ->
    array_items (scan_once f) g
      (json_encode indent (S level) x +++ encode_more_items indent level xs
         +++ newline_indent indent level +++ String "]"%char rest)
    = Some (x :: xs, rest).
Proof.
  induction xs as [|y ys IH]; intros x g HF Hg;
    (destruct g as [|g]; [simpl in Hg; lia|]);
    inversion HF as [|? ? Hx HF']; subst; cbn [array_items encode_more_items].
  - cbn [String.append].
    destruct (closing_shape indent level "]"%char rest Hws eq_refl eq_refl)
      as [Hskip Hstop].
    rewrite (Hx _ Hstop), Hskip. reflexivity.
  - destruct (separator_shape indent (S level) Hws) as (w & Hw & Hsep).
    rewrite !str_app_assoc, Hsep.
    rewrite Hx by reflexivity. cbn [skip_ws is_ws Ascii.eqb Bool.eqb orb].
    cbn [Ascii.eqb Bool.eqb].
    rewrite skip_ws_before_value by exact Hw.
    rewrite IH; [reflexivity|exact HF'|simpl in Hg |- *; lia].
Qed.

Lemma skip_key_separator (s : string) :
  skip_ws (key_separator +++ s) = String ":"%char (String " "%char s).
Proof. reflexivity. Qed.

Lemma skip_space_value (level : nat) (v : pyval) (rest : string) :
  skip_ws (String " "%char (json_encode indent level v +++ rest))
  = json_encode indent level v +++ rest.
Proof. apply (skip_ws_before_value indent level v " " rest). reflexivity. Qed.

Lemma object_pairs_encode (f level : nat) (rest : string) :
  forall (kxs : list (string * pyval)) (k : string) (x : pyval) (g : nat),
    Forall (fun kx => decodes indent f (S level) (snd kx)) ((k, x) :: kxs) ->
    List.length ((k, x) :: kxs) <= g ->
    object_pairs (scan_once f) g
      (escape_string k +++ String dquote
         (key_separator +++ json_encode indent (S level) x
            +++ encode_more_pairs indent level kxs
            +++ newline_indent indent level +++ String "}"%char rest))
    = Some ((k, x) :: kxs, rest).
Proof.
  induction kxs as [|[k' y] kys IH]; intros k x g HF Hg;
    (destruct g as [|g]; [simpl in Hg; lia|]);
    inversion HF as [|? ? Hx HF']; subst; cbn [snd] in Hx;
    cbn [object_pairs encode_more_pairs]; rewrite scanstring_escape_string,
      skip_key_separator; cbn [negb Ascii.eqb Bool.eqb].
  - cbn [String.append]. rewrite skip_space_value.
    destruct (closing_shape indent level "}"%char rest Hws eq_refl eq_refl)
      as [Hskip Hstop].
    rewrite (Hx _ Hstop), Hskip. reflexivity.
  - destruct (separator_shape indent (S level) Hws) as (w & Hw & Hsep).
    rewrite !str_app_assoc, Hsep, skip_space_value.
    rewrite Hx by reflexivity.
    rewrite skip_ws_stop by reflexivity.
    change (Ascii.eqb "," "}") with false. change (Ascii.eqb "," ",") with true.
    cbv iota.
    rewrite skip_ws_app by exact Hw.
    rewrite encode_basestring_ascii_app.
    rewrite skip_ws_stop by reflexivity.
    rewrite Ascii.eqb_refl.
    rewrite IH; [reflexivity|exact HF'|simpl in Hg |- *; lia].
Qed.

(** *** dict( pairs ) on distinct keys *)

Lemma dict_set_fresh (k : string) (v : pyval) (d : list (string * pyval)) :
  ~ In k (map fst d) -> dict_set k v d = d ++ [(k, v)].
Proof.
  induction d as [|[k' v'] d IH]; intros H; cbn [dict_set app]; [reflexivity|].
  destruct (String.eqb_spec k' k) as [E|E].
  - exfalso. apply H. left. exact E.
  - rewrite IH; [reflexivity|]. intros Hin. apply H. right. exact Hin.
Qed.

Lemma fold_dict_set (pairs acc : list (string * pyval)) :
  NoDup (map fst (acc ++ pairs)) ->
  fold_left (fun d kv => dict_set (fst kv) (snd kv) d) pairs acc = acc ++ pairs.
Proof.
  revert acc. induction pairs as [|[k v] pairs IH]; intros acc H; cbn [fold_left].
  - now rewrite app_nil_r.
  - cbn [fst snd]. rewrite dict_set_fresh.
    + rewrite IH; rewrite <- app_assoc; [reflexivity|exact H].
    + rewrite map_app in H. cbn [map fst] in H.
      apply NoDup_remove_2 in H. intros Hin. apply H.
      apply in_or_app. left. exact Hin.
Qed.

Lemma dict_of_pairs_distinct (pairs : list (string * pyval)) :
  NoDup (map fst pairs) -> dict_of_pairs pairs = pairs.
Proof. intros H. unfold dict_of_pairs. now rewrite fold_dict_set. Qed.

(** *** The fuel *)

Lemma fuel_needed_in_list (x : pyval) (l : list pyval) :
  In x l -> fuel_needed x <= list_sum (map fuel_needed l).
Proof.
  unfold list_sum. induction l as [|y l IH]; [contradiction|]. cbn [map fold_right].
  intros [->|H]; [lia|]. specialize (IH H). lia.
Qed.

Lemma fuel_needed_in_dict (kx : string * pyval) (d : list (string * pyval)) :
  In kx d -> fuel_needed (snd kx) <= list_sum (map (fun kx => fuel_needed (snd kx)) d).
Proof.
  unfold list_sum. induction d as [|ky d IH]; [contradiction|]. cbn [map fold_right].
  intros [->|H]; [lia|]. specialize (IH H). lia.
Qed.

Lemma distinct_keys_list (l : list pyval) :
  distinct_keys (PList l) -> Forall distinct_keys l.
Proof.
  induction l as [|x l IH]; [constructor|].
  intros [Hx Hl]. constructor; [exact Hx|]. apply IH. exact Hl.
Qed.

Lemma distinct_keys_dict (d : list (string * pyval)) :
  distinct_keys (PDict d) ->
  NoDup (map fst d) /\ Forall (fun kx => distinct_keys (snd kx)) d.
Proof.
  intros [Hn Hd]. split; [exact Hn|]. clear Hn.
  induction d as [|kx d IH]; [constructor|].
  destruct Hd as [Hx Hd]. constructor; [exact Hx|]. apply IH. exact Hd.
Qed.

(** *** The decoder reads back what the encoder writes *)

Theorem scan_once_json_encode (v : pyval) :
  distinct_keys v ->
  forall level fuel, fuel_needed v <= fuel -> decodes indent fuel level v.
Proof.
  induction v as [|n|s|l IH|d IH] using pyval_induction;
    intros Hkeys level fuel Hfuel;
    (destruct fuel as [|f]; [cbn [fuel_needed] in Hfuel; lia|]);
    intros rest Hstop.
  - reflexivity.
  - cbn [json_encode].
    pose proof (scan_number_int_repr n rest Hstop) as Hn.
    destruct (int_repr_head n) as (c & s' & E & H).
    rewrite E in Hn |- *. cbn [String.append] in Hn |- *.
    destruct (digit_or_minus_facts c H) as (_ & H1 & H2 & H3 & H4).
    cbn [scan_once str_startswith]. rewrite H1, H2, H3, H4, Hn. reflexivity.
  - cbn [json_encode]. rewrite encode_basestring_ascii_app.
    cbn [scan_once]. rewrite Ascii.eqb_refl, scanstring_escape_string.
    reflexivity.
  - destruct l as [|x xs]; [reflexivity|].
    rewrite json_encode_list, !str_app_assoc.
    cbn [String.append scan_once].
    change (Ascii.eqb "[" dquote) with false. change (Ascii.eqb "[" "{") with false.
    change (Ascii.eqb "[" "[") with true. cbv iota.
    unfold JSONArray.
    rewrite skip_ws_before_value by now apply all_ws_newline_indent.
    assert (HF : Forall (decodes indent f (S level)) (x :: xs)).
    { apply distinct_keys_list in Hkeys. rewrite Forall_forall in *.
      intros y Hy. apply IH; [exact Hy|now apply Hkeys|].
      pose proof (fuel_needed_in_list y (x :: xs) Hy).
      cbn [fuel_needed] in Hfuel. lia. }
    assert (Hg : List.length (x :: xs) <= f) by (cbn [fuel_needed] in Hfuel; lia).
    pose proof (array_items_encode f level rest xs x f HF Hg) as HA.
    destruct (json_encode_head indent (S level) x) as (c & s' & E & Hc).
    rewrite E in HA |- *. cbn [String.append] in HA |- *.
    destruct (value_start_facts c Hc) as (_ & -> & _).
    rewrite HA. reflexivity.
  - destruct d as [|[k x] kxs]; [reflexivity|].
    rewrite json_encode_dict, !str_app_assoc.
    cbn [String.append scan_once].
    change (Ascii.eqb "{" dquote) with false. change (Ascii.eqb "{" "{") with true.
    cbv iota.
    unfold JSONObject.
    rewrite skip_ws_app by now apply all_ws_newline_indent.
    rewrite encode_basestring_ascii_app.
    rewrite skip_ws_stop by reflexivity.
    change (Ascii.eqb dquote "}") with false. rewrite Ascii.eqb_refl. cbv iota.
    apply distinct_keys_dict in Hkeys. destruct Hkeys as [Hnd Hkeys].
    assert (HF : Forall (fun kx => decodes indent f (S level) (snd kx))
                   ((k, x) :: kxs)).
    { rewrite Forall_forall in *.
      intros ky Hy. apply IH; [exact Hy|now apply Hkeys|].
      pose proof (fuel_needed_in_dict ky ((k, x) :: kxs) Hy).
      cbn [fuel_needed] in Hfuel. lia. }
    assert (Hg : List.length ((k, x) :: kxs) <= f)
      by (cbn [fuel_needed] in Hfuel; lia).
    rewrite (object_pairs_encode f level rest kxs k x f HF Hg).
    rewrite dict_of_pairs_distinct by exact Hnd. reflexivity.
Qed.

End Decode.

(** *** The length of the text is fuel enough *)

Lemma item_separator_length (indent : option string) :
  1 <= String.length (item_separator indent).
Proof. destruct indent; simpl; lia. Qed.

Lemma fuel_needed_le_length (indent : option string) (v : pyval) :
  forall level, fuel_needed v <= String.length (json_encode indent level v).
Proof.
  induction v as [|n|s|l IH|d IH] using pyval_induction; intros level.
  - simpl. lia.
  - cbn [json_encode fuel_needed].
    destruct (int_repr_head n) as (c & s' & -> & _). simpl. lia.
  - simpl. lia.
  - destruct l as [|x xs]; [simpl; lia|].
    rewrite json_encode_list. inversion IH as [|? ? Hx Hxs]; subst.
    assert (Hmore : List.length xs + list_sum (map fuel_needed xs)
                    <= String.length (encode_more_items indent level xs)).
    { clear -Hxs. unfold list_sum.
      induction Hxs as [|y ys Hy _ IHys]; [simpl; lia|].
      cbn [encode_more_items map fold_right List.length].
      rewrite !str_length_app. specialize (Hy (S level)).
      pose proof (item_separator_length indent). lia. }
    cbn [fuel_needed map List.length]. unfold list_sum in *. cbn [fold_right].
    rewrite !str_length_app. specialize (Hx (S level)). simpl String.length. lia.
  - destruct d as [|[k x] kxs]; [simpl; lia|].
    rewrite json_encode_dict. inversion IH as [|? ? Hx Hxs]; subst.
    assert (Hmore : List.length kxs
                    + list_sum (map (fun kx => fuel_needed (snd kx)) kxs)
                    <= String.length (encode_more_pairs indent level kxs)).
    { clear -Hxs. unfold list_sum.
      induction Hxs as [|[k' y] ys Hy _ IHys]; [simpl; lia|].
      cbn [encode_more_pairs map fold_right List.length snd].
      rewrite !str_length_app. cbn [snd] in Hy. specialize (Hy (S level)).
      pose proof (item_separator_length indent). lia. }
    cbn [fuel_needed map List.length snd]. unfold list_sum in *. cbn [fold_right].
    rewrite !str_length_app. cbn [snd] in Hx. specialize (Hx (S level)).
    simpl String.length. lia.
Qed.

(** Serializing a value whose dictionaries have distinct keys, with no
    indent or with a whitespace indent, and parsing the text back gives the
    value. *)
Theorem json_loads_dumps (indent : option string) (v : pyval) :
  ws_indent indent -> distinct_keys v ->
  json_loads (json_dumps indent v) = Some v.
Proof.
  intros Hws Hkeys. unfold json_loads, json_dumps.
  assert (Hskip : skip_ws (json_encode indent 0 v) = json_encode indent 0 v).
  { destruct (json_encode_head indent 0 v) as (c & s' & -> & Hc).
    apply skip_ws_stop. now apply value_start_facts. }
  rewrite Hskip.
  pose proof (scan_once_json_encode indent Hws v Hkeys 0
                (S (String.length (json_encode indent 0 v)))) as H.
  unfold decodes in H. specialize (H ltac:(pose proof (fuel_needed_le_length indent v 0); lia)
                                     EmptyString eq_refl).
  rewrite str_app_nil_r in H. rewrite H. reflexivity.
Qed.

(* ===================================================================== *)
(** ** What definejobs returns survives the JSON round trip *)
(* ===================================================================== *)

Lemma keeps_ret {A} (proj : A -> dj_locals) (a : A) :
  jobs_ok (proj a) -> keeps proj (ret a).
Proof. intros H b t E. inversion E; subst. exact H. Qed.

Lemma keeps_raise {A} (proj : A -> dj_locals) (e : exn) : keeps proj (raise e).
Proof. intros b t E. discriminate E. Qed.

Lemma keeps_bind {A B} (proj : B -> dj_locals) (m : M A) (k : A -> M B) :
  (forall a t, m = (Ok a, t) -> keeps proj (k a)) -> keeps proj (bind m k).
Proof.
  intros Hk b t E. unfold bind in E. destruct m as [[a|e] t1]; [|discriminate E].
  destruct (k a) as [r t2] eqn:Ek. inversion E; subst.
  exact (Hk a t1 eq_refl b t2 Ek).
Qed.

Lemma keeps_try_except {A} (proj : A -> dj_locals) (m h : M A) :
  keeps proj m -> keeps proj h -> keeps proj (try_except m h).
Proof.
  intros Hm Hh b t E. unfold try_except in E. destruct m as [[a|e] t1].
  - inversion E; subst. exact (Hm b t eq_refl).
  - destruct h as [r t2]. inversion E; subst. exact (Hh b t2 eq_refl).
Qed.

Lemma keeps_for_each {A} (body : A -> dj_locals -> M (flow * dj_locals))
    (l : list A) :
  (forall x st, jobs_ok st -> keeps snd (body x st)) ->
  forall st, jobs_ok st -> keeps (fun s => s) (for_each l body st).
Proof.
  intros Hbody. induction l as [|x l IH]; intros st Hst; cbn [for_each].
  - now apply keeps_ret.
  - apply keeps_bind. intros [fl st'] t E. cbn [fst snd].
    pose proof (Hbody x st Hst _ _ E) as Hst'. cbn [snd] in Hst'.
    destruct fl; [now apply IH|now apply keeps_ret].
Qed.

Lemma job_dict_ucar_order_ok (a b c d e : string) (n : nat) :
  distinct_keys (job_dict_ucar_order a b c d e n).
Proof.
  simpl. split; [|tauto].
  repeat constructor; simpl; intuition discriminate.
Qed.

Lemma job_dict_romsaf_order_ok (a b c d e : string) (n : nat) :
  distinct_keys (job_dict_romsaf_order a b c d e n).
Proof.
  simpl. split; [|tauto].
  repeat constructor; simpl; intuition discriminate.
Qed.

Lemma jobs_ok_append (st : dj_locals) (job : pyval) :
  jobs_ok st -> distinct_keys job -> jobs_ok (append_job st job).
Proof.
  intros H Hj. unfold jobs_ok, append_job. cbn [dj_jobs].
  apply Forall_app. split; [exact H|]. constructor; [exact Hj|constructor].
Qed.

Ltac jobs_done :=
  cbn [fst snd];
  first [ assumption
        | apply jobs_ok_append;
            [assumption
            |first [apply job_dict_ucar_order_ok|apply job_dict_romsaf_order_ok]] ].

(** One step through a computation that does not run a loop or another
    branch: binds, tests and returns. *)
Ltac keeps_step :=
  match goal with
  | |- keeps _ (ret _) => apply keeps_ret; jobs_done
  | |- keeps _ (raise _) => apply keeps_raise
  | |- keeps _ (if ?b then _ else _) => destruct b
  | |- keeps _ (match ?x with _ => _ end) => destruct x
  | |- keeps _ (bind _ _) => apply keeps_bind; intros ? ? ?
  end.

Section DefinejobsKeeps.

Variable ls : string -> option (list string).
Variable isdir : string -> bool.
Variable listdir : string -> list string.
Variable reformatters : list (string * list (string * string)).
Variable valid_missions_aws : list string.
Variable get_receiver_satellites : string -> list (list (string * string)).
Variable re_search_group1 : string -> string -> option string.
Variable missions processing_centers file_types : list string.
Variable nonnominal liveupdate : bool.

Lemma ucar_day_job_keeps d mission file_type the_prefix the_subdirs st :
  jobs_ok st ->
  keeps snd (ucar_day_job ls re_search_group1 d mission file_type the_prefix
               the_subdirs st).
Proof.
  intros Hst. unfold ucar_day_job. repeat keeps_step.
Qed.

Lemma ucar_version_keeps d mission file_type the_prefix pv st :
  jobs_ok st ->
  keeps snd (ucar_version ls re_search_group1 d mission file_type the_prefix pv st).
Proof.
  intros Hst. unfold ucar_version.
  do 3 (apply keeps_bind; intros ? ? ?).
  apply keeps_bind; intros found ? ?.
  destruct found; [now apply ucar_day_job_keeps|now apply keeps_ret].
Qed.

Lemma ucar_mission_keeps d mission file_type the_prefix m st :
  jobs_ok st ->
  keeps snd (ucar_mission ls re_search_group1 d mission file_type the_prefix m st).
Proof.
  intros Hst. unfold ucar_mission.
  apply keeps_bind; intros versions ? ?.
  destruct versions as [pvs|]; [|now apply keeps_ret].
  apply keeps_bind; intros st' tfe Efe.
  apply keeps_ret. cbn [snd].
  exact (keeps_for_each _ pvs
           (fun pv s => ucar_version_keeps d mission file_type the_prefix pv s)
           st Hst st' tfe Efe).
Qed.

Lemma ucar_file_type_keeps d mission the_prefix file_type st :
  jobs_ok st ->
  keeps snd (ucar_file_type ls get_receiver_satellites re_search_group1
               d mission the_prefix file_type st).
Proof.
  intros Hst. unfold ucar_file_type.
  apply keeps_bind; intros ms ? ?.
  apply keeps_bind; intros st' tfe Efe.
  apply keeps_ret. cbn [snd].
  refine (keeps_for_each _ ms
            (fun m s => ucar_mission_keeps d mission file_type the_prefix m s)
            _ _ st' tfe Efe).
  destruct (String.eqb file_type "level1b"); [exact Hst|].
  destruct (str_in file_type ["level2a"; "level2b"]); exact Hst.
Qed.

Lemma ucar_branch_keeps d mission st :
  jobs_ok st ->
  keeps (fun s => s)
    (ucar_branch ls reformatters valid_missions_aws get_receiver_satellites
       re_search_group1 processing_centers file_types liveupdate d mission st).
Proof.
  intros Hst. unfold ucar_branch.
  destruct (_ && _); [|now apply keeps_ret].
  apply keeps_bind; intros p ? ?.
  exact (keeps_for_each _ file_types
           (fun f s => ucar_file_type_keeps d mission p f s)
           (set_UCARprefix st p) Hst).
Qed.

Lemma romsaf_day_keeps d mission file_type fullpath path paths st :
  jobs_ok st ->
  keeps (fun s => s) (romsaf_day d mission file_type fullpath path paths st).
Proof.
  intros Hst. unfold romsaf_day. repeat keeps_step.
Qed.

Lemma romsaf_file_type_keeps d mission the_prefix file_type st :
  jobs_ok st ->
  keeps snd (romsaf_file_type ls re_search_group1 nonnominal d mission the_prefix
               file_type st).
Proof.
  intros Hst. unfold romsaf_file_type.
  match goal with
  | |- keeps _ (match ?x with _ => _ end) => destruct x
  end; [|now apply keeps_ret].
  apply keeps_bind; intros the_subdirs ? ?.
  match goal with
  | |- keeps _ (if ?b then _ else _) => destruct b
  end; [repeat keeps_step|].
  apply keeps_bind; intros the_dir ? ?.
  apply keeps_bind; intros path ? ?.
  apply keeps_bind; intros listed ? ?.
  destruct listed as [paths|]; [|now apply keeps_ret].
  apply keeps_bind; intros st1 tr1 Er1.
  pose proof (romsaf_day_keeps _ _ _ _ _ _ _ Hst _ _ Er1) as Hst1.
  destruct nonnominal; [|now apply keeps_ret].
  apply keeps_bind; intros path2 ? ?.
  apply keeps_bind; intros listed2 ? ?.
  destruct listed2 as [paths2|]; [|now apply keeps_ret].
  apply keeps_bind; intros st2 tr2 Er2.
  pose proof (romsaf_day_keeps _ _ _ _ _ _ _ Hst1 _ _ Er2) as Hst2.
  now apply keeps_ret.
Qed.

Lemma romsaf_mission_keeps d mission the_prefix m st :
  jobs_ok st ->
  keeps snd (romsaf_mission ls re_search_group1 file_types nonnominal liveupdate
               d mission the_prefix m st).
Proof.
  intros Hst. unfold romsaf_mission.
  apply keeps_bind; intros st1 tr1 Er1.
  assert (Hst1 : jobs_ok st1).
  { revert Er1. apply (keeps_try_except (fun s => s)); repeat keeps_step. }
  apply keeps_bind; intros st2 tr2 Er2.
  apply keeps_ret. cbn [snd].
  exact (keeps_for_each _ file_types
           (fun f s => romsaf_file_type_keeps d mission the_prefix f s)
           st1 Hst1 st2 tr2 Er2).
Qed.

Lemma romsaf_branch_keeps d mission st :
  jobs_ok st ->
  keeps (fun s => s)
    (romsaf_branch ls reformatters valid_missions_aws get_receiver_satellites
       re_search_group1 processing_centers file_types nonnominal liveupdate
       d mission st).
Proof.
  intros Hst. unfold romsaf_branch.
  destruct (_ && _); [|now apply keeps_ret].
  apply keeps_bind; intros p ? ?.
  apply keeps_bind; intros ms ? ?.
  exact (keeps_for_each _ ms
           (fun m s => romsaf_mission_keeps d mission p m s)
           (set_ROMSAFprefix st p) Hst).
Qed.

Lemma jpl_file_type_body_keeps d mission the_prefix file_type st :
  jobs_ok st ->
  keeps snd (jpl_file_type_body ls isdir listdir d mission the_prefix file_type st).
Proof.
  intros Hst. unfold jpl_file_type_body.
  apply keeps_bind; intros st1 tr1 Er1.
  assert (Hst1 : jobs_ok st1).
  { revert Er1. generalize tr1. generalize st1.
    change (keeps (fun s => s)
              (if String.eqb file_type "level1b"
               then ret (set_jpl_file_type st "calibratedPhase")
               else if String.eqb file_type "level2a"
                    then ret (set_jpl_file_type st "refractivityRetrieval")
                    else if String.eqb file_type "level2b"
                         then ret (set_jpl_file_type st "atmosphericRetrieval")
                         else LOGGER_error
                                ("File type " +++ String dquote file_type
                                 +++ String dquote " for processing center "
                                 +++ String dquote "jpl"
                                 +++ String dquote " is unrecognized.") ;;;
                              ret st)).
    repeat keeps_step. }
  apply keeps_bind; intros the_type ? ?.
  apply keeps_bind; intros listed ? ?.
  destruct listed as [files|]; [|now apply keeps_ret].
  repeat keeps_step.
Qed.

Lemma jpl_branch_keeps d mission st :
  jobs_ok st ->
  keeps snd
    (jpl_branch ls isdir listdir reformatters valid_missions_aws
       processing_centers file_types liveupdate d mission st).
Proof.
  intros Hst. unfold jpl_branch.
  destruct (_ && _); [|now apply keeps_ret].
  destruct (JPLprefix st) as [p|].
  - apply keeps_bind; intros st' tfe Efe. apply keeps_ret. cbn [snd].
    exact (keeps_for_each _ file_types
             (fun f s => jpl_file_type_body_keeps d mission p f s) st Hst st' tfe Efe).
  - destruct liveupdate; [repeat keeps_step|].
    apply keeps_bind; intros b ? ?.
    apply keeps_bind; intros st' tfe Efe. apply keeps_ret. cbn [snd].
    exact (keeps_for_each _ file_types
             (fun f s => jpl_file_type_body_keeps d mission _ f s)
             (set_JPLprefix st ("s3://" +++ b)) Hst st' tfe Efe).
Qed.

Lemma eumetsat_version_keeps d mission file_type the_prefix pv st :
  jobs_ok st ->
  keeps snd (eumetsat_version ls re_search_group1 d mission file_type the_prefix
               pv st).
Proof.
  intros Hst. unfold eumetsat_version. repeat keeps_step.
Qed.

Lemma eumetsat_mission_keeps d mission file_type the_prefix m st :
  jobs_ok st ->
  keeps snd (eumetsat_mission ls re_search_group1 d mission file_type the_prefix
               m st).
Proof.
  intros Hst. unfold eumetsat_mission.
  apply keeps_bind; intros versions ? ?.
  destruct versions as [pvs|]; [|now apply keeps_ret].
  apply keeps_bind; intros st' tfe Efe.
  apply keeps_ret. cbn [snd].
  exact (keeps_for_each _ pvs
           (fun pv s => eumetsat_version_keeps d mission file_type the_prefix pv s)
           st Hst st' tfe Efe).
Qed.

Lemma eumetsat_file_type_keeps d mission the_prefix file_type st :
  jobs_ok st ->
  keeps snd (eumetsat_file_type ls get_receiver_satellites re_search_group1
               d mission the_prefix file_type st).
Proof.
  intros Hst. unfold eumetsat_file_type.
  destruct (String.eqb file_type "level1b"); [|repeat keeps_step].
  apply keeps_bind; intros ms ? ?.
  apply keeps_bind; intros st' tfe Efe.
  apply keeps_ret. cbn [snd].
  exact (keeps_for_each _ ms
           (fun m s => eumetsat_mission_keeps d mission file_type the_prefix m s)
           (set_level st "level1b") Hst st' tfe Efe).
Qed.

Lemma eumetsat_branch_keeps d mission st :
  jobs_ok st ->
  keeps snd
    (eumetsat_branch ls reformatters valid_missions_aws get_receiver_satellites
       re_search_group1 processing_centers file_types liveupdate d mission st).
Proof.
  intros Hst. unfold eumetsat_branch.
  destruct (_ && _); [|now apply keeps_ret].
  destruct (EUMETSATprefix st) as [p|].
  - apply keeps_bind; intros st' tfe Efe. apply keeps_ret. cbn [snd].
    exact (keeps_for_each _ file_types
             (fun f s => eumetsat_file_type_keeps d mission p f s) st Hst st' tfe Efe).
  - destruct liveupdate; [|repeat keeps_step].
    apply keeps_bind; intros b ? ?.
    apply keeps_bind; intros st' tfe Efe. apply keeps_ret. cbn [snd].
    exact (keeps_for_each _ file_types
             (fun f s => eumetsat_file_type_keeps d mission _ f s)
             (set_EUMETSATprefix st ("s3://" +++ b +++ "/untarred")) Hst
             st' tfe Efe).
Qed.

Lemma mission_body_keeps d mission st :
  jobs_ok st ->
  keeps snd
    (mission_body ls isdir listdir reformatters valid_missions_aws
       get_receiver_satellites re_search_group1 processing_centers file_types
       nonnominal liveupdate d mission st).
Proof.
  intros Hst. unfold mission_body.
  apply keeps_bind; intros st1 tr1 Er1.
  pose proof (ucar_branch_keeps d mission st Hst _ _ Er1) as Hst1.
  apply keeps_bind; intros st2 tr2 Er2.
  pose proof (romsaf_branch_keeps d mission st1 Hst1 _ _ Er2) as Hst2.
  apply keeps_bind; intros [fl st3] tr3 Er3.
  pose proof (jpl_branch_keeps d mission st2 Hst2 _ _ Er3) as Hst3.
  cbn [fst snd] in *.
  destruct fl; [now apply eumetsat_branch_keeps|now apply keeps_ret].
Qed.

Lemma while_dates_keeps (fuel : nat) :
  forall d last st st' t,
    jobs_ok st ->
    while_dates ls isdir listdir reformatters valid_missions_aws
      get_receiver_satellites re_search_group1 missions processing_centers
      file_types nonnominal liveupdate fuel d last st = Some (Ok st', t) ->
    jobs_ok st'.
Proof.
  induction fuel as [|fuel IH]; intros d last st st' t Hst E; [discriminate E|].
  cbn [while_dates] in E.
  destruct (date_leb d last).
  - destruct (for_each missions _ st) as [[st1|e] t1] eqn:E1; [|discriminate E].
    pose proof (keeps_for_each _ missions
                  (fun m s => mission_body_keeps d m s) st Hst st1 t1 E1) as Hst1.
    destruct (while_dates _ _ _ _ _ _ _ _ _ _ _ _ fuel (next_day d) last st1)
      as [[r t2]|] eqn:E2; [|discriminate E].
    inversion E; subst. exact (IH _ _ _ _ _ Hst1 E2).
  - inversion E; subst. exact Hst.
Qed.

End DefinejobsKeeps.

Lemma returned_dict_ok (processing_centers : list string) (st : dj_locals) :
  jobs_ok st -> distinct_keys (returned_dict processing_centers st).
Proof.
  intros Hst. unfold returned_dict, returned_prefixes.
  cbn [distinct_keys map fst snd]. split; [|split; [|split; [|exact I]]].
  - repeat constructor; simpl; intuition discriminate.
  - destruct (str_in "ucar" processing_centers),
             (str_in "romsaf" processing_centers),
             (str_in "jpl" processing_centers),
             (str_in "eumetsat" processing_centers);
      destruct (UCARprefix st), (ROMSAFprefix st), (JPLprefix st),
               (EUMETSATprefix st);
      simpl; (split; [repeat constructor; simpl; intuition discriminate|tauto]).
  - unfold jobs_ok in Hst. induction Hst as [|j js Hj _ IH]; [exact I|].
    split; [exact Hj|exact IH].
Qed.

(** Every dictionary in what definejobs returns has distinct keys. *)
Lemma definejobs_returns_distinct_keys :
  forall (ls : string -> option (list string)) (isdir : string -> bool)
         (listdir : string -> list string)
         (reformatters : list (string * list (string * string)))
         (valid_missions_aws : list string)
         (get_receiver_satellites : string -> list (list (string * string)))
         (re_search_group1 : string -> string -> option string)
         (missions processing_centers file_types : list string)
         (nonnominal liveupdate : bool) (fuel : nat) (daterange : date * date)
         (UCARprefix ROMSAFprefix JPLprefix EUMETSATprefix : option string)
         (session : option Session) (job_definitions : pyval) (t : list event),
    definejobs ls isdir listdir reformatters valid_missions_aws
      get_receiver_satellites re_search_group1 missions processing_centers
      file_types nonnominal liveupdate fuel daterange
      UCARprefix ROMSAFprefix JPLprefix EUMETSATprefix session
    = Some (Ok job_definitions, t) ->
    distinct_keys job_definitions.
Proof.
  intros ls isdir listdir reformatters valid get_sats re missions pcs fts
         nonnominal liveupdate fuel daterange p1 p2 p3 p4 session v t H.
  unfold definejobs in H.
  destruct (check_input reformatters valid missions pcs fts) as [msg|].
  - inversion H; subst. exact I.
  - destruct (establish_s3fs session) as [[[]|e] t0]; [|discriminate H].
    match type of H with
    | match ?w with _ => _ end = _ => destruct w as [[[st|e] t1]|] eqn:Ew
    end; try discriminate H.
    inversion H; subst. apply returned_dict_ok.
    eapply while_dates_keeps; [|exact Ew]. constructor.
Qed.

(** C9. Whatever definejobs returns, the failure value 1 or the dictionary of
    prefixes and jobs, serializing it as createjobdefinitionsjson does
    (json.dump with an indent of two spaces) and parsing the document back
    with json.load gives the same value: the same prefixes, in the same
    order, and the same jobs, field by field and in the same order. *)
Theorem definejobs_json_round_trip :
  forall (ls : string -> option (list string)) (isdir : string -> bool)
         (listdir : string -> list string)
         (reformatters : list (string * list (string * string)))
         (valid_missions_aws : list string)
         (get_receiver_satellites : string -> list (list (string * string)))
         (re_search_group1 : string -> string -> option string)
         (missions processing_centers file_types : list string)
         (nonnominal liveupdate : bool) (fuel : nat) (daterange : date * date)
         (UCARprefix ROMSAFprefix JPLprefix EUMETSATprefix : option string)
         (session : option Session) (job_definitions : pyval) (t : list event),
    definejobs ls isdir listdir reformatters valid_missions_aws
      get_receiver_satellites re_search_group1 missions processing_centers
      file_types nonnominal liveupdate fuel daterange
      UCARprefix ROMSAFprefix JPLprefix EUMETSATprefix session
    = Some (Ok job_definitions, t) ->
    json_loads (json_dumps (Some "  ") job_definitions) = Some job_definitions.
Proof.
  intros ls isdir listdir reformatters valid get_sats re missions pcs fts
         nonnominal liveupdate fuel daterange p1 p2 p3 p4 session v t H.
  apply json_loads_dumps; [reflexivity|].
  exact (definejobs_returns_distinct_keys ls isdir listdir reformatters valid
           get_sats re missions pcs fts nonnominal liveupdate fuel daterange
           p1 p2 p3 p4 session v t H).
Qed.

Lemma definejobs_json_round_trip_witness :
  json_loads
    (json_dumps (Some "  ")
       (PDict
          [("prefixes", PDict [("ucar", PStr "s3://ucar-bucket")]);
           ("jobs",
            PList [job_dict_ucar_order "level1b" "ucar" "cosmic1" "2009-02-01"
                     "cosmic1/repro2013/level1b/2009/032/atmPhs_repro2013_2009_032"
                     0])]))
  = Some
      (PDict
         [("prefixes", PDict [("ucar", PStr "s3://ucar-bucket")]);
          ("jobs",
           PList [job_dict_ucar_order "level1b" "ucar" "cosmic1" "2009-02-01"
                    "cosmic1/repro2013/level1b/2009/032/atmPhs_repro2013_2009_032"
                    0])]).
Proof.
  eapply (definejobs_json_round_trip ucar_archive (fun _ => false) (fun _ => [])
            some_reformatters some_missions some_satellites some_re
            ["cosmic1"] ["ucar"] ["level1b"] false false 2
            (feb_1_2009, feb_1_2009) None None None None (Some a_session)).
  vm_compute. reflexivity.
Defined.

(** The document createjobdefinitionsjson leaves in the file parses back to
    what definejobs returned. *)
Lemma createjobdefinitionsjson_document :
  forall (ls : string -> option (list string)) (isdir : string -> bool)
         (listdir : string -> list string)
         (reformatters : list (string * list (string * string)))
         (valid_missions_aws : list string)
         (get_receiver_satellites : string -> list (list (string * string)))
         (re_search_group1 : string -> string -> option string)
         (fuel : nat) (daterange : date * date)
         (missions processing_centers file_types : list string) (jsonfile : string)
         (UCARprefix ROMSAFprefix JPLprefix EUMETSATprefix : option string)
         (session : option Session) (t : list event),
    createjobdefinitionsjson ls isdir listdir reformatters valid_missions_aws
      get_receiver_satellites re_search_group1 fuel daterange missions
      processing_centers file_types jsonfile
      UCARprefix ROMSAFprefix JPLprefix EUMETSATprefix session = Some (Ok tt, t) ->
    exists job_definitions t0,
      definejobs ls isdir listdir reformatters valid_missions_aws
        get_receiver_satellites re_search_group1 missions processing_centers
        file_types false false fuel daterange
        UCARprefix ROMSAFprefix JPLprefix EUMETSATprefix session
      = Some (Ok job_definitions, t0)
      /\ last t (Ls EmptyString)
         = FileWrite jsonfile (json_dumps (Some "  ") job_definitions)
      /\ json_loads (json_dumps (Some "  ") job_definitions) = Some job_definitions.
Proof.
  intros ls isdir listdir reformatters valid get_sats re fuel daterange missions
         pcs fts jsonfile p1 p2 p3 p4 session t H.
  unfold createjobdefinitionsjson in H.
  destruct (definejobs _ _ _ _ _ _ _ _ _ _ _ _ _ _ _ _ _ _ _)
    as [[[v|e] t0]|] eqn:E; try discriminate H.
  inversion H; subst. exists v, t0. split; [reflexivity|]. split.
  - match goal with
    | |- last (?x :: t0 ++ [?a; ?b]) _ = _ =>
        replace (x :: t0 ++ [a; b]) with ((x :: t0 ++ [a]) ++ [b])
          by (simpl; rewrite <- app_assoc; reflexivity)
    end.
    apply last_last.
  - apply json_loads_dumps; [reflexivity|].
    eapply definejobs_returns_distinct_keys. exact E.
Qed.

(* ===================================================================== *)
(** ** The iterator on listed jobs *)
(* ===================================================================== *)

Lemma py_getitem_first (x : pyval) (l : list pyval) :
  py_getitem (PList (x :: l)) (PInt 0) = ret x.
Proof.
  unfold py_getitem, list_index.
  replace ((0 <=? 0)%Z && (0 <? Z.of_nat (List.length (x :: l)))%Z) with true.
  - reflexivity.
  - symmetry. apply andb_true_intro. split; [reflexivity|].
    apply Z.ltb_lt. simpl List.length. lia.
Qed.

Lemma py_getitem_dict (k : string) (d : list (string * pyval)) (v : pyval) :
  dict_get k d = Some v -> py_getitem (PDict d) (PStr k) = ret v.
Proof. intros H. unfold py_getitem. now rewrite H. Qed.

Lemma str_split_nonempty (sep : ascii) (s : string) : str_split sep s <> [].
Proof.
  destruct s as [|c s]; simpl; [discriminate|].
  destruct (Ascii.eqb c sep); [discriminate|].
  destruct (str_split sep s); discriminate.
Qed.

Lemma str_split_app (sep : ascii) (a b : string) :
  str_split sep (a +++ String sep b) = str_split sep a ++ str_split sep b.
Proof.
  induction a as [|c a IH]; simpl.
  - now rewrite Ascii.eqb_refl.
  - destruct (Ascii.eqb c sep); [now rewrite IH|].
    rewrite IH. destruct (str_split sep a) as [|w ws] eqn:E; [|reflexivity].
    now apply str_split_nonempty in E.
Qed.

Lemma str_join_split (s : string) : str_join "/" (str_split "/"%char s) = s.
Proof.
  induction s as [|c s IH]; [reflexivity|].
  cbn [str_split]. destruct (Ascii.eqb_spec c "/"%char) as [->|Hc].
  - destruct (str_split "/" s) as [|w ws] eqn:E;
      [now apply str_split_nonempty in E|].
    cbn [str_join]. cbn [str_join] in IH. now rewrite IH.
  - destruct (str_split "/" s) as [|w ws] eqn:E;
      [now apply str_split_nonempty in E|].
    destruct ws as [|w' ws]; cbn [str_join] in *; now rewrite <- IH.
Qed.

Lemma str_split_no_sep (s : string) :
  no_sep s = true -> str_split "/"%char s = [s].
Proof.
  unfold no_sep. induction s as [|c s IH]; [reflexivity|].
  cbn [str_contains str_startswith str_split]. intros H.
  apply negb_true_iff in H. apply orb_false_iff in H. destruct H as [H1 H2].
  rewrite andb_true_r in H1. rewrite Ascii.eqb_sym, H1.
  rewrite IH; [reflexivity|]. now rewrite H2.
Qed.

(** A file listed as the root without its scheme, a slash and a relative
    path comes out as that relative path. *)
Lemma relative_to_listed (root rel : string) :
  relative_to root (str_from 5 root +++ "/" +++ rel) = rel.
Proof.
  unfold relative_to, os_sep.
  change (str_from 5 root +++ "/" +++ rel)
    with (str_from 5 root +++ String "/"%char rel).
  rewrite str_split_app, skipn_app, skipn_all, Nat.sub_diag. simpl skipn.
  apply str_join_split.
Qed.

Lemma produces_app ls (it1 it2 it3 : DASKjobs) (l1 l2 : list job_tuple) :
  produces ls it1 l1 it2 -> produces ls it2 l2 it3 -> produces ls it1 (l1 ++ l2) it3.
Proof.
  intros H1 H2. induction H1 as [|it it' it'' x t l Hn _ IH]; [exact H2|].
  simpl. econstructor; [exact Hn|]. now apply IH.
Qed.

Section IteratorRuns.

Variable ls : string -> option (list string).
Variable the_prefixes : list (string * pyval).

Lemma loadfiles_described (job : pyval) (j : listed_job) :
  describes ls the_prefixes job j ->
  exists t,
    loadfiles ls (PDict the_prefixes) job
    = (Ok (filter re_search_nc (lj_files j)), t).
Proof.
  intros (d & -> & Hft & Hc & Hdir & Hroot & Hls).
  unfold loadfiles.
  rewrite (py_getitem_dict _ _ _ Hft), bind_ret_l.
  rewrite (py_getitem_dict _ _ _ Hc), bind_ret_l.
  rewrite (py_getitem_dict _ _ _ Hroot), bind_ret_l.
  rewrite (py_getitem_dict _ _ _ Hdir), bind_ret_l.
  cbn [os_fspath]. rewrite !bind_ret_l.
  unfold s3_ls. rewrite Hls. unfold bind, LOGGER_error, emit, ret.
  destruct (Nat.eqb (List.length (filter re_search_nc (lj_files j))) 0) eqn:E;
    rewrite ?E; eexists; reflexivity.
Qed.

Lemma next_tuple_described (job : pyval) (j : listed_job) (rest : list pyval)
    (f : string) (fs : list string) :
  describes ls the_prefixes job j ->
  next_tuple {| jobs := job :: rest; prefixes := PDict the_prefixes;
                inputfiles := f :: fs |}
  = ({| jobs := job :: rest; prefixes := PDict the_prefixes; inputfiles := fs |},
     (Ok (tuple_of j f), [])).
Proof.
  intros (d & -> & Hft & Hc & Hdir & Hroot & Hls).
  unfold next_tuple. cbn [jobs prefixes inputfiles].
  rewrite py_getitem_first, bind_ret_l.
  rewrite (py_getitem_dict _ _ _ Hft), bind_ret_l.
  rewrite (py_getitem_dict _ _ _ Hc), bind_ret_l.
  rewrite (py_getitem_dict _ _ _ Hroot), bind_ret_l.
  rewrite bind_ret_l. cbn [rootpath_split]. rewrite !bind_ret_l.
  reflexivity.
Qed.

(** The files of the current job come out one by one. *)
Lemma produces_current_job (job : pyval) (j : listed_job) (rest : list pyval)
    (fs : list string) :
  describes ls the_prefixes job j ->
  produces ls
    {| jobs := job :: rest; prefixes := PDict the_prefixes; inputfiles := fs |}
    (map (tuple_of j) fs)
    {| jobs := job :: rest; prefixes := PDict the_prefixes; inputfiles := [] |}.
Proof.
  intros Hj. induction fs as [|f fs IH]; [constructor|].
  cbn [map]. econstructor; [|exact IH].
  unfold DASKjobs_next. cbn [inputfiles List.length Nat.eqb].
  now apply next_tuple_described.
Qed.

(** With the current job used up, the next request drops it and returns the
    first file of the job that follows. *)
Lemma next_job_described (job0 job : pyval) (j : listed_job) (rest : list pyval)
    (f : string) (fs : list string) :
  describes ls the_prefixes job j ->
  filter re_search_nc (lj_files j) = f :: fs ->
  exists t,
    DASKjobs_next ls
      {| jobs := job0 :: job :: rest; prefixes := PDict the_prefixes;
         inputfiles := [] |}
    = ({| jobs := job :: rest; prefixes := PDict the_prefixes; inputfiles := fs |},
       (Ok (tuple_of j f), t)).
Proof.
  intros Hj Hf. destruct (loadfiles_described job j Hj) as (t & El).
  unfold DASKjobs_next. cbn [inputfiles jobs prefixes List.length Nat.eqb].
  rewrite py_getitem_first, bind_ret_l, El, Hf.
  rewrite (next_tuple_described job j rest f fs Hj).
  eexists. reflexivity.
Qed.

Lemma last_job_exhausted (job : pyval) :
  exhausted ls {| jobs := [job]; prefixes := PDict the_prefixes; inputfiles := [] |}.
Proof. eexists; eexists. reflexivity. Qed.

(** From a job that is used up, the iterator runs through the files of all
    the jobs behind it and stops. *)
Lemma produces_remaining_jobs (the_jobs : list pyval) (js : list listed_job) :
  Forall2 (describes ls the_prefixes) the_jobs js ->
  Forall (fun j => filter re_search_nc (lj_files j) <> []) js ->
  forall job0,
  exists it',
    produces ls
      {| jobs := job0 :: the_jobs; prefixes := PDict the_prefixes; inputfiles := [] |}
      (flat_map tuples_of js) it'
    /\ exhausted ls it'.
Proof.
  intros H2. induction H2 as [|job j the_jobs js Hj _ IH]; intros Hne job0.
  - eexists. split; [constructor|apply last_job_exhausted].
  - inversion Hne as [|? ? Hf Hne']; subst.
    destruct (filter re_search_nc (lj_files j)) as [|f fs] eqn:Ef; [congruence|].
    destruct (next_job_described job0 job j the_jobs f fs Hj Ef) as (t & En).
    destruct (IH Hne' job) as (it' & Hp & Hx).
    exists it'. split; [|exact Hx].
    cbn [flat_map]. unfold tuples_of at 1. rewrite Ef. cbn [map app].
    econstructor; [exact En|].
    apply produces_app with
      (it2 := {| jobs := job :: the_jobs; prefixes := PDict the_prefixes;
                 inputfiles := [] |}); [|exact Hp].
    now apply produces_current_job.
Qed.

(** The constructor on a job set whose first job is listed. *)
Lemma DASKjobs_init_described (d : list (string * pyval)) (job : pyval)
    (j : listed_job) (rest : list pyval) (s : Session) :
  dict_get "prefixes" d = Some (PDict the_prefixes) ->
  dict_get "jobs" d = Some (PList (job :: rest)) ->
  describes ls the_prefixes job j ->
  exists t,
    DASKjobs_init ls (PDict d) (Some s)
    = (Ok {| jobs := job :: rest; prefixes := PDict the_prefixes;
             inputfiles := filter re_search_nc (lj_files j) |}, t).
Proof.
  intros Hp Hjobs Hj. destruct (loadfiles_described job j Hj) as (t & El).
  unfold DASKjobs_init.
  rewrite (dict_get_has _ _ _ Hp), (dict_get_has _ _ _ Hjobs). cbn [negb].
  rewrite bind_ret_l.
  rewrite (py_getitem_dict _ _ _ Hjobs), bind_ret_l.
  cbn [List.length Nat.eqb]. unfold establish_s3fs, session_region_name.
  rewrite !bind_ret_l.
  rewrite (py_getitem_dict _ _ _ Hp), bind_ret_l.
  rewrite py_getitem_first, bind_ret_l, El.
  eexists. reflexivity.
Qed.

End IteratorRuns.

(** X1. On a job set in which every job has a directory that the listing
    service answers for, and every job but possibly the first has at least
    one NetCDF file there, the constructor succeeds, successive requests
    return one tuple per NetCDF file, job after job and in the order of each
    listing, and the request after the last tuple raises StopIteration. *)
Theorem iterator_returns_every_listed_file :
  forall (ls : string -> option (list string)) (d the_prefixes : list (string * pyval))
         (the_jobs : list pyval) (js : list listed_job) (s : Session),
    dict_get "prefixes" d = Some (PDict the_prefixes) ->
    dict_get "jobs" d = Some (PList the_jobs) ->
    the_jobs <> [] ->
    Forall2 (describes ls the_prefixes) the_jobs js ->
    Forall (fun j => filter re_search_nc (lj_files j) <> []) (tl js) ->
    exists it t it',
      DASKjobs_init ls (PDict d) (Some s) = (Ok it, t)
      /\ produces ls it (flat_map tuples_of js) it'
      /\ exhausted ls it'.
Proof.
  intros ls d the_prefixes the_jobs js s Hp Hjobs Hne H2 Hfiles.
  destruct H2 as [|job j the_jobs js Hj H2]; [congruence|].
  destruct (DASKjobs_init_described ls the_prefixes d job j the_jobs s Hp Hjobs Hj)
    as (t & Ei).
  destruct (produces_remaining_jobs ls the_prefixes the_jobs js H2 Hfiles job)
    as (it' & Hprod & Hx).
  eexists; exists t, it'. split; [exact Ei|]. split; [|exact Hx].
  cbn [flat_map]. eapply produces_app; [|exact Hprod].
  exact (produces_current_job ls the_prefixes job j the_jobs _ Hj).
Qed.

Lemma iterator_returns_every_listed_file_witness :
  exists it t it',
    DASKjobs_init an_archive (a_job_set [a_job "three" 3; a_job "four" 4])
      (Some a_session) = (Ok it, t)
    /\ produces an_archive it (flat_map tuples_of [three_listed; four_listed]) it'
    /\ exhausted an_archive it'.
Proof.
  apply (iterator_returns_every_listed_file an_archive
           [("prefixes", PDict [("ucar", PStr "s3://bucket")]);
            ("jobs", PList [a_job "three" 3; a_job "four" 4])]
           [("ucar", PStr "s3://bucket")]
           [a_job "three" 3; a_job "four" 4] [three_listed; four_listed] a_session).
  - reflexivity.
  - reflexivity.
  - discriminate.
  - repeat constructor; eexists; repeat split; reflexivity.
  - repeat constructor; discriminate.
Defined.

(** X2. A request on a file that the listing names as the root without its
    scheme, a slash and a relative path returns that relative path: root and
    relative path of the tuple put together give the listed file back. *)
Theorem next_returns_the_path_below_the_root :
  forall (ls : string -> option (list string)) (the_prefixes : list (string * pyval))
         (job : pyval) (j : listed_job) (rest : list pyval) (rel : string)
         (fs : list string),
    describes ls the_prefixes job j ->
    exists it' x t,
      DASKjobs_next ls
        {| jobs := job :: rest; prefixes := PDict the_prefixes;
           inputfiles := (str_from 5 (lj_root j) +++ "/" +++ rel) :: fs |}
      = (it', (Ok x, t))
      /\ inputfiles it' = fs
      /\ input_root_path x = lj_root j
      /\ input_relative_path x = rel
      /\ str_from 5 (input_root_path x) +++ "/" +++ input_relative_path x
         = str_from 5 (lj_root j) +++ "/" +++ rel.
Proof.
  intros ls the_prefixes job j rest rel fs Hj.
  eexists; eexists; eexists. split.
  - unfold DASKjobs_next. cbn [inputfiles List.length Nat.eqb].
    exact (next_tuple_described ls the_prefixes job j rest _ fs Hj).
  - cbn [inputfiles tuple_of input_root_path input_relative_path].
    rewrite relative_to_listed. repeat split.
Qed.

Lemma next_returns_the_path_below_the_root_witness :
  exists it' x t,
    DASKjobs_next an_archive
      {| jobs := [a_job "three" 3]; prefixes := PDict [("ucar", PStr "s3://bucket")];
         inputfiles := [str_from 5 "s3://bucket" +++ "/" +++ "three/a_nc"] |}
    = (it', (Ok x, t))
    /\ inputfiles it' = []
    /\ input_root_path x = "s3://bucket"
    /\ input_relative_path x = "three/a_nc"
    /\ str_from 5 (input_root_path x) +++ "/" +++ input_relative_path x
       = str_from 5 "s3://bucket" +++ "/" +++ "three/a_nc".
Proof.
  apply (next_returns_the_path_below_the_root an_archive
           [("ucar", PStr "s3://bucket")] (a_job "three" 3) three_listed []
           "three/a_nc" []).
  eexists; repeat split; reflexivity.
Defined.

Lemma str_from_app (n : nat) (a b : string) :
  n <= String.length a -> str_from n (a +++ b) = str_from n a +++ b.
Proof.
  revert a. induction n as [|n IH]; intros a H; [reflexivity|].
  destruct a as [|c a]; simpl in H; [lia|].
  simpl. apply IH. lia.
Qed.

(** X3. Under a root written with a slash at its end the count of leading
    components is one too high: the first directory below the root is
    missing from the relative path of the tuple. *)
Theorem next_under_root_with_final_slash_drops_a_directory :
  forall (ls : string -> option (list string)) (the_prefixes : list (string * pyval))
         (job : pyval) (j : listed_job) (rest : list pyval)
         (r dir below : string) (fs : list string),
    describes ls the_prefixes job j ->
    lj_root j = r +++ "/" -> 5 <= String.length r -> no_sep dir = true ->
    exists it' x t,
      DASKjobs_next ls
        {| jobs := job :: rest; prefixes := PDict the_prefixes;
           inputfiles := (str_from 5 r +++ "/" +++ dir +++ "/" +++ below) :: fs |}
      = (it', (Ok x, t))
      /\ input_relative_path x = below.
Proof.
  intros ls the_prefixes job j rest r dir below fs Hj Hroot Hlen Hdir.
  eexists; eexists; eexists. split.
  - unfold DASKjobs_next. cbn [inputfiles List.length Nat.eqb].
    exact (next_tuple_described ls the_prefixes job j rest _ fs Hj).
  - cbn [tuple_of input_relative_path]. unfold relative_to, os_sep.
    rewrite Hroot, (str_from_app 5 r "/" Hlen).
    change (str_from 5 r +++ "/") with (str_from 5 r +++ String "/"%char EmptyString).
    change (str_from 5 r +++ "/" +++ dir +++ "/" +++ below)
      with (str_from 5 r +++ String "/"%char (dir +++ String "/"%char below)).
    rewrite !str_split_app, (str_split_no_sep dir Hdir).
    cbn [str_split]. rewrite length_app. cbn [List.length].
    rewrite skipn_app.
    replace (List.length (str_split "/" (str_from 5 r)) + 1
             - List.length (str_split "/" (str_from 5 r))) with 1 by lia.
    rewrite skipn_all2 by lia. cbn [app skipn].
    apply str_join_split.
Qed.

Lemma next_under_root_with_final_slash_drops_a_directory_witness :
  exists it' x t,
    DASKjobs_next an_archive
      {| jobs := [a_job "three" 3]; prefixes := PDict [("ucar", PStr "s3://bucket/")];
         inputfiles := [str_from 5 "s3://bucket" +++ "/" +++ "three" +++ "/" +++ "a_nc"] |}
    = (it', (Ok x, t))
    /\ input_relative_path x = "a_nc".
Proof.
  apply (next_under_root_with_final_slash_drops_a_directory an_archive
           [("ucar", PStr "s3://bucket/")] (a_job "three" 3) three_listed_slash []
           "s3://bucket" "three" "a_nc" []).
  - eexists; repeat split; reflexivity.
  - reflexivity.
  - simpl; lia.
  - reflexivity.
Defined.

(* ===================================================================== *)
(** ** Failures the iterator and the splitter let through *)
(* ===================================================================== *)

Lemma loadfiles_unlisted ls (the_prefixes : list (string * pyval)) (job : pyval)
    (path : string) :
  unlisted ls the_prefixes job path ->
  loadfiles ls (PDict the_prefixes) job = (Raise (FileNotFoundError path), [Ls path]).
Proof.
  intros (d & ft & c & root & dir & -> & Hft & Hc & Hdir & Hroot & -> & Hls).
  unfold loadfiles.
  rewrite (py_getitem_dict _ _ _ Hft), bind_ret_l.
  rewrite (py_getitem_dict _ _ _ Hc), bind_ret_l.
  rewrite (py_getitem_dict _ _ _ Hroot), bind_ret_l.
  rewrite (py_getitem_dict _ _ _ Hdir), bind_ret_l.
  cbn [os_fspath]. rewrite !bind_ret_l.
  unfold s3_ls. rewrite Hls. reflexivity.
Qed.

(** X4. A directory that cannot be listed is not skipped by the iterator:
    the constructor lets the error of the listing through when it is the
    directory of the first job, and a request does when it is the directory
    of the job it moves on to, having dropped the job before it. *)
Theorem listing_failure_escapes_the_iterator :
  forall (ls : string -> option (list string)) (the_prefixes : list (string * pyval))
         (job : pyval) (path : string),
    unlisted ls the_prefixes job path ->
    (forall d rest s,
        dict_get "prefixes" d = Some (PDict the_prefixes) ->
        dict_get "jobs" d = Some (PList (job :: rest)) ->
        DASKjobs_init ls (PDict d) (Some s)
        = (Raise (FileNotFoundError path), [Ls path]))
    /\ (forall job0 rest,
          DASKjobs_next ls
            {| jobs := job0 :: job :: rest; prefixes := PDict the_prefixes;
               inputfiles := [] |}
          = ({| jobs := job :: rest; prefixes := PDict the_prefixes;
                inputfiles := [] |},
             (Raise (FileNotFoundError path), [Ls path]))).
Proof.
  intros ls the_prefixes job path Hu.
  pose proof (loadfiles_unlisted ls the_prefixes job path Hu) as El. split.
  - intros d rest s Hp Hjobs. unfold DASKjobs_init.
    rewrite (dict_get_has _ _ _ Hp), (dict_get_has _ _ _ Hjobs). cbn [negb].
    rewrite bind_ret_l.
    rewrite (py_getitem_dict _ _ _ Hjobs), bind_ret_l.
    cbn [List.length Nat.eqb]. unfold establish_s3fs, session_region_name.
    rewrite !bind_ret_l.
    rewrite (py_getitem_dict _ _ _ Hp), bind_ret_l.
    rewrite py_getitem_first, bind_ret_l, El. reflexivity.
  - intros job0 rest. unfold DASKjobs_next.
    cbn [inputfiles jobs prefixes List.length Nat.eqb].
    rewrite py_getitem_first, bind_ret_l, El. reflexivity.
Qed.

Lemma listing_failure_escapes_the_iterator_witness :
  DASKjobs_init an_archive (a_job_set [a_job "nowhere" 1]) (Some a_session)
  = (Raise (FileNotFoundError "s3://bucket/nowhere"), [Ls "s3://bucket/nowhere"])
  /\ DASKjobs_next an_archive
       {| jobs := [a_job "three" 3; a_job "nowhere" 1];
          prefixes := PDict [("ucar", PStr "s3://bucket")]; inputfiles := [] |}
     = ({| jobs := [a_job "nowhere" 1];
           prefixes := PDict [("ucar", PStr "s3://bucket")]; inputfiles := [] |},
        (Raise (FileNotFoundError "s3://bucket/nowhere"), [Ls "s3://bucket/nowhere"])).
Proof.
  destruct (listing_failure_escapes_the_iterator an_archive
              [("ucar", PStr "s3://bucket")] (a_job "nowhere" 1) "s3://bucket/nowhere")
    as [H1 H2].
  - exists [("file_type", PStr "level1b"); ("processing_center", PStr "ucar");
            ("mission", PStr "cosmic1"); ("date", PStr "2009-02-01");
            ("input_relative_dir", PStr "nowhere"); ("nfiles", PInt 1)],
           (PStr "level1b"), "ucar", "s3://bucket", "nowhere".
    repeat split; reflexivity.
  - split; [|apply H2].
    apply (H1 [("prefixes", PDict [("ucar", PStr "s3://bucket")]);
               ("jobs", PList [a_job "nowhere" 1])] [] a_session); reflexivity.
Defined.

(** X5. Without a session, the default of the constructor, a job set that
    passes the checks of the constructor makes it raise AttributeError before
    anything is listed, and so does the splitter, which hands its session on:
    the branch of writeOutputJSONfile for a missing session is never reached
    from the splitter. *)
Theorem DASKjobs_without_session_raises :
  forall (ls : string -> option (list string)) (template : Z -> string)
         (d : list (string * pyval)) (job : pyval) (rest : list pyval)
         (jobsperfile : Z) (fuel : nat),
    dict_has "prefixes" d = true ->
    dict_get "jobs" d = Some (PList (job :: rest)) ->
    DASKjobs_init ls (PDict d) None = (Raise no_session_error, [])
    /\ define_batchprocess_jobs ls template fuel (PDict d) jobsperfile None
       = Some (Raise no_session_error, []).
Proof.
  intros ls template d job rest jobsperfile fuel Hp Hjobs.
  assert (E : DASKjobs_init ls (PDict d) None = (Raise no_session_error, [])).
  { unfold DASKjobs_init.
    rewrite Hp, (dict_get_has _ _ _ Hjobs). cbn [negb].
    rewrite bind_ret_l.
    rewrite (py_getitem_dict _ _ _ Hjobs), bind_ret_l.
    reflexivity. }
  split; [exact E|]. unfold define_batchprocess_jobs. now rewrite E.
Qed.

Lemma DASKjobs_without_session_raises_witness :
  DASKjobs_init an_archive (a_job_set [a_job "three" 3]) None
  = (Raise no_session_error, [])
  /\ define_batchprocess_jobs an_archive a_template 4 (a_job_set [a_job "three" 3])
       3 None
     = Some (Raise no_session_error, []).
Proof.
  apply (DASKjobs_without_session_raises an_archive a_template
           [("prefixes", PDict [("ucar", PStr "s3://bucket")]);
            ("jobs", PList [a_job "three" 3])] (a_job "three" 3) [] 3 4);
    reflexivity.
Defined.

(** X6. With jobsperfile = 0 the splitter raises ZeroDivisionError on the
    first tuple the iterator returns, before anything is written. *)
Theorem zero_jobsperfile_raises :
  forall (ls : string -> option (list string)) (template : Z -> string)
         (job_definitions : pyval) (session : option Session)
         (it it' : DASKjobs) (x : job_tuple) (t0 t1 : list event) (fuel : nat),
    DASKjobs_init ls job_definitions session = (Ok it, t0) ->
    DASKjobs_next ls it = (it', (Ok x, t1)) ->
    define_batchprocess_jobs ls template (S fuel) job_definitions 0 session
    = Some (Raise ZeroDivisionError, t0 ++ t1)
    /\ storage_effects (t0 ++ t1) = [].
Proof.
  intros ls template jd session it it' x t0 t1 fuel Hi Hn. split.
  - unfold define_batchprocess_jobs. rewrite Hi. cbn [for_loop]. rewrite Hn.
    unfold loop_body. cbn [initial_locals last_input_root_path
                            last_processing_center njobs].
    unfold py_mod. cbn [Z.eqb]. unfold bind, raise. now rewrite app_nil_r.
  - rewrite storage_effects_app.
    pose proof (DASKjobs_init_no_storage ls jd session) as H0.
    pose proof (DASKjobs_next_no_storage ls it) as H1.
    rewrite Hi in H0. rewrite Hn in H1. cbn [snd] in H0, H1.
    now rewrite H0, H1.
Qed.

Lemma zero_jobsperfile_raises_witness :
  exists t0 t1,
    define_batchprocess_jobs an_archive a_template 1 (a_job_set [a_job "three" 3])
      0 (Some a_session)
    = Some (Raise ZeroDivisionError, t0 ++ t1)
    /\ storage_effects (t0 ++ t1) = [].
Proof.
  eexists; eexists.
  eapply (zero_jobsperfile_raises an_archive a_template
            (a_job_set [a_job "three" 3]) (Some a_session)).
  - vm_compute. reflexivity.
  - vm_compute. reflexivity.
Defined.

(* ===================================================================== *)
(** ** The batches of the splitter, for any stream and batch size *)
(* ===================================================================== *)

Lemma documents_written_flat_map {A} (f : A -> list event) (l : list A) :
  documents_written (flat_map f l) = flat_map (fun a => documents_written (f a)) l.
Proof.
  induction l as [|a l IH]; [reflexivity|].
  cbn [flat_map]. now rewrite documents_written_app, IH.
Qed.

Lemma manifest_dict_distinct_keys (root center : string) (files : list string) :
  distinct_keys (manifest_dict (mk_manifest root center files)).
Proof.
  unfold manifest_dict, mk_manifest. cbn [InputPrefix ProcessingCenter InputFiles].
  cbn [distinct_keys map fst snd]. split.
  - repeat constructor; simpl; intuition discriminate.
  - repeat split. induction files as [|f files IH]; [exact I|].
    cbn [map]. split; [exact I|exact IH].
Qed.

Lemma manifest_read_back (root center : string) (files : list string) :
  json_loads (json_dumps (Some "    ") (manifest_dict (mk_manifest root center files)))
  = Some (manifest_dict (mk_manifest root center files)).
Proof.
  apply json_loads_dumps; [reflexivity|apply manifest_dict_distinct_keys].
Qed.

Lemma firstn_add_skipn {A} (a b : nat) (l : list A) :
  firstn (a + b) l = firstn a l ++ firstn b (skipn a l).
Proof.
  revert l. induction a as [|a IH]; intros l; [reflexivity|].
  destruct l as [|x l]; [now rewrite !firstn_nil|].
  simpl. now rewrite IH.
Qed.

Lemma concat_chunks (k q : nat) (files : list string) :
  List.concat (map (fun i => chunk_at k i files) (seq 0 q)) = firstn (k * q) files.
Proof.
  induction q as [|q IH].
  - now rewrite Nat.mul_0_r.
  - rewrite seq_S, map_app, concat_app, IH. cbn [map List.concat Nat.add].
    rewrite app_nil_r. unfold chunk_at.
    replace (k * S q) with (k * q + k) by lia.
    now rewrite firstn_add_skipn.
Qed.

Section BatchesOfAStream.

Variable ls : string -> option (list string).
Variable template : Z -> string.
Variable session : option Session.
Variable K : nat.
Hypothesis K_pos : 0 < K.
Variable job_definitions : pyval.
Variables it it' : DASKjobs.
Variable t0 : list event.
Variables root center : string.
Variable l : list job_tuple.
Hypothesis Hinit : DASKjobs_init ls job_definitions session = (Ok it, t0).
Hypothesis Hprod : produces ls it l it'.
Hypothesis Hex : exhausted ls it'.
Hypothesis Hl : l <> [].
Hypothesis Hhom : homogeneous root center l.

Lemma splitter_numbered_batches (fuel : nat) :
  exists t,
    define_batchprocess_jobs ls template (List.length l + S fuel) job_definitions
      (Z.of_nat K) session = Some (Ok tt, t)
    /\ storage_effects t
       = flat_map (fun ic => flush_effects session (template (Z.of_nat (fst ic)))
                               (mk_manifest root center (snd ic)))
           (numbered_batches K (map input_relative_path l))
    /\ manifests_read t
       = map (fun ic => Some (manifest_dict (mk_manifest root center (snd ic))))
           (numbered_batches K (map input_relative_path l)).
Proof.
  destruct (define_batchprocess_jobs_family ls template session K K_pos
              job_definitions it it' t0 root center l fuel
              Hinit Hprod Hex Hl Hhom) as (t & E & Hst).
  assert (Hnum : storage_effects t
     = flat_map (fun ic => flush_effects session (template (Z.of_nat (fst ic)))
                             (mk_manifest root center (snd ic)))
         (numbered_batches K (map input_relative_path l))).
  { rewrite Hst. unfold numbered_batches, full_batches.
    rewrite length_map, flat_map_app. cbn [flat_map fst snd]. rewrite app_nil_r.
    f_equal. rewrite !flat_map_concat_map, map_map. reflexivity. }
  exists t. split; [exact E|]. split; [exact Hnum|].
  destruct (DASKjobs_init_session _ _ _ _ _ Hinit) as [s Hs].
  unfold manifests_read.
  rewrite <- documents_written_storage, Hnum, documents_written_flat_map.
  rewrite Hs. clear.
  induction (numbered_batches K (map input_relative_path l)) as [|ic bs IH];
    [reflexivity|].
  cbn [flat_map map]. rewrite documents_written_flush. cbn [app map].
  now rewrite manifest_read_back, IH.
Qed.

End BatchesOfAStream.

(** X7. For every stream of n > 0 tuples of one input root and one processing
    center and every batch size k > 0, the splitter returns having written,
    in this order, the batches of k relative paths each to
    template.format(1), ..., template.format(n div k), and then what its
    manifest variable holds when the stream ends to template.format(n div k
    + 1); every document written reads back as the manifest of its batch. *)
Theorem splitter_writes_numbered_batches :
  forall (ls : string -> option (list string)) (template : Z -> string)
         (session : option Session) (K : nat) (job_definitions : pyval)
         (it it' : DASKjobs) (t0 : list event) (root center : string)
         (l : list job_tuple) (fuel : nat),
    0 < K ->
    DASKjobs_init ls job_definitions session = (Ok it, t0) ->
    produces ls it l it' -> exhausted ls it' ->
    l <> [] -> homogeneous root center l ->
    exists t,
      define_batchprocess_jobs ls template (List.length l + S fuel) job_definitions
        (Z.of_nat K) session = Some (Ok tt, t)
      /\ storage_effects t
         = flat_map (fun ic => flush_effects session (template (Z.of_nat (fst ic)))
                                 (mk_manifest root center (snd ic)))
             (numbered_batches K (map input_relative_path l))
      /\ manifests_read t
         = map (fun ic => Some (manifest_dict (mk_manifest root center (snd ic))))
             (numbered_batches K (map input_relative_path l)).
Proof.
  intros ls template session K jd it it' t0 root center l fuel
         HK Hinit Hprod Hex Hl Hhom.
  exact (splitter_numbered_batches ls template session K HK jd it it' t0
           root center l Hinit Hprod Hex Hl Hhom fuel).
Qed.

Lemma splitter_writes_numbered_batches_witness :
  exists t,
    define_batchprocess_jobs an_archive a_template (7 + 1)
      (a_job_set [a_job "three" 3; a_job "four" 4]) 3 (Some a_session)
    = Some (Ok tt, t)
    /\ storage_effects t
       = flat_map (fun ic => flush_effects (Some a_session) (a_template (Z.of_nat (fst ic)))
                               (mk_manifest "s3://bucket" "ucar" (snd ic)))
           (numbered_batches 3
              (map input_relative_path (flat_map tuples_of [three_listed; four_listed])))
    /\ manifests_read t
       = map (fun ic => Some (manifest_dict (mk_manifest "s3://bucket" "ucar" (snd ic))))
           (numbered_batches 3
              (map input_relative_path (flat_map tuples_of [three_listed; four_listed]))).
Proof.
  eapply (splitter_writes_numbered_batches an_archive a_template (Some a_session) 3
            (a_job_set [a_job "three" 3; a_job "four" 4]) _ _ _ "s3://bucket" "ucar"
            (flat_map tuples_of [three_listed; four_listed]) 0).
  - lia.
  - vm_compute. reflexivity.
  - simpl. next_steps.
  - eexists; eexists. vm_compute. reflexivity.
  - discriminate.
  - repeat constructor.
Defined.

Lemma numbered_batches_partition (K : nat) (files : list string) :
  0 < K -> files <> [] -> List.length files mod K <> 0 ->
  List.concat (map snd (numbered_batches K files)) = files.
Proof.
  intros HK Hne Hmod. unfold numbered_batches.
  set (n := List.length files) in *.
  rewrite map_app, map_map. cbn [map snd]. rewrite concat_app. cbn [List.concat].
  rewrite app_nil_r.
  change (fun x : nat => chunk_at K x files) with (fun i : nat => chunk_at K i files).
  rewrite concat_chunks.
  assert (Hq : (n - 1) / K = n / K).
  { pose proof (Nat.div_mod_eq n K) as Hn.
    assert (Hlt : n mod K < K) by (apply Nat.mod_upper_bound; lia).
    symmetry. apply (Nat.div_unique (n - 1) K (n / K) (n mod K - 1)); lia. }
  rewrite Hq. apply firstn_skipn.
Qed.

Lemma numbered_batches_sizes (K : nat) (files : list string) :
  0 < K -> files <> [] ->
  Forall (fun ic => snd ic <> [] /\ List.length (snd ic) <= K)
    (numbered_batches K files).
Proof.
  intros HK Hne. unfold numbered_batches.
  set (n := List.length files).
  assert (Hn : 0 < n) by (unfold n; destruct files; [congruence|simpl; lia]).
  apply Forall_app. split.
  - apply Forall_forall. intros ic Hin. apply in_map_iff in Hin.
    destruct Hin as (i & <- & Hi). apply in_seq in Hi. cbn [snd].
    assert (Hlen : List.length (chunk_at K i files) = K).
    { unfold chunk_at. rewrite length_firstn, length_skipn. fold n.
      pose proof (Nat.div_mod_eq n K) as Hd.
      assert (K * S i <= K * (n / K)) by (apply Nat.mul_le_mono_l; lia).
      lia. }
    split; [|lia]. intros E. rewrite E in Hlen. simpl in Hlen. lia.
  - constructor; [|constructor]. cbn [snd].
    assert (Hlen : 0 < List.length (skipn (K * ((n - 1) / K)) files)
                   /\ List.length (skipn (K * ((n - 1) / K)) files) <= K).
    { rewrite length_skipn. fold n.
      pose proof (Nat.div_mod_eq (n - 1) K) as Hd.
      assert (Hlt : (n - 1) mod K < K) by (apply Nat.mod_upper_bound; lia).
      lia. }
    split; [|lia]. intros E. rewrite E in Hlen. simpl in Hlen. lia.
Qed.

(** X8. When the number n > 0 of tuples of a stream of one input root and
    one processing center is not a multiple of the batch size k > 0, the
    documents the splitter writes read back as manifests of that root and
    center with between one and k input files each, and their input files,
    taken in order, are exactly the relative paths of the stream: no file is
    left out and none is written twice. *)
Theorem splitter_partitions_the_stream :
  forall (ls : string -> option (list string)) (template : Z -> string)
         (session : option Session) (K : nat) (job_definitions : pyval)
         (it it' : DASKjobs) (t0 : list event) (root center : string)
         (l : list job_tuple) (fuel : nat),
    0 < K ->
    DASKjobs_init ls job_definitions session = (Ok it, t0) ->
    produces ls it l it' -> exhausted ls it' ->
    l <> [] -> homogeneous root center l ->
    List.length l mod K <> 0 ->
    exists t manifests,
      define_batchprocess_jobs ls template (List.length l + S fuel) job_definitions
        (Z.of_nat K) session = Some (Ok tt, t)
      /\ manifests_read t = map (fun m => Some (manifest_dict m)) manifests
      /\ Forall (batch_of root center K) manifests
      /\ List.concat (map InputFiles manifests) = map input_relative_path l.
Proof.
  intros ls template session K jd it it' t0 root center l fuel
         HK Hinit Hprod Hex Hl Hhom Hmod.
  destruct (splitter_numbered_batches ls template session K HK jd it it' t0
              root center l Hinit Hprod Hex Hl Hhom fuel) as (t & E & _ & Hread).
  assert (Hfiles : map input_relative_path l <> [])
    by (destruct l; [congruence|discriminate]).
  exists t, (map (fun ic => mk_manifest root center (snd ic))
               (numbered_batches K (map input_relative_path l))).
  split; [exact E|]. split; [|split].
  - rewrite Hread, map_map. reflexivity.
  - apply Forall_map.
    eapply Forall_impl; [|exact (numbered_batches_sizes K _ HK Hfiles)].
    intros ic [H1 H2]. unfold batch_of. cbn [mk_manifest InputPrefix
      ProcessingCenter InputFiles]. auto.
  - rewrite map_map. cbn [mk_manifest InputFiles].
    apply numbered_batches_partition; [exact HK|exact Hfiles|].
    now rewrite length_map.
Qed.

Lemma splitter_partitions_the_stream_witness :
  exists t manifests,
    define_batchprocess_jobs an_archive a_template (7 + 1)
      (a_job_set [a_job "three" 3; a_job "four" 4]) 3 (Some a_session)
    = Some (Ok tt, t)
    /\ manifests_read t = map (fun m => Some (manifest_dict m)) manifests
    /\ Forall (batch_of "s3://bucket" "ucar" 3) manifests
    /\ List.concat (map InputFiles manifests)
       = map input_relative_path (flat_map tuples_of [three_listed; four_listed]).
Proof.
  eapply (splitter_partitions_the_stream an_archive a_template (Some a_session) 3
            (a_job_set [a_job "three" 3; a_job "four" 4]) _ _ _ "s3://bucket" "ucar"
            (flat_map tuples_of [three_listed; four_listed]) 0).
  - lia.
  - vm_compute. reflexivity.
  - simpl. next_steps.
  - eexists; eexists. vm_compute. reflexivity.
  - discriminate.
  - repeat constructor.
  - discriminate.
Defined.

(* ===================================================================== *)
(** ** writeOutputJSONfile on an S3 target *)
(* ===================================================================== *)

Lemma last_app_nonempty {A} (l1 l2 : list A) (d : A) :
  l2 <> [] -> last (l1 ++ l2) d = last l2 d.
Proof.
  intros H. induction l1 as [|x l1 IH]; [reflexivity|].
  cbn [app]. rewrite <- IH. destruct (l1 ++ l2) as [|y r] eqn:E; [|reflexivity].
  apply app_eq_nil in E. destruct E as [_ E]. congruence.
Qed.

(** X9. For a target s3://bucket/key whose key has a last component (the key
    is not empty and does not end with a slash, so that there is a scratch
    file to open), writeOutputJSONfile with a session writes the document to
    a scratch file named as the last component of the key, uploads it to
    exactly that bucket and key, removes the scratch file and returns the
    target; without a session it logs an error and returns the string fail,
    having written nothing. *)
Theorem writeOutputJSONfile_s3_target :
  forall (output_structure : pyval) (bucket key : string) (s : Session),
    no_sep bucket = true ->
    os_path_tail key <> EmptyString ->
    writeOutputJSONfile output_structure ("s3://" +++ bucket +++ "/" +++ key) (Some s)
    = (Ok ("s3://" +++ bucket +++ "/" +++ key),
       [Log INFO ("Writing to " +++ "s3://" +++ bucket +++ "/" +++ key);
        FileWrite (os_path_tail key) (json_dumps (Some "    ") output_structure);
        S3Upload (os_path_tail key) bucket key;
        FileUnlink (os_path_tail key)])
    /\ writeOutputJSONfile output_structure ("s3://" +++ bucket +++ "/" +++ key) None
       = (Ok "fail",
          [Log INFO ("Writing to " +++ "s3://" +++ bucket +++ "/" +++ key);
           Log ERROR "Session needs to be defined for access to S3"]).
Proof.
  intros doc bucket key s Hb _. unfold writeOutputJSONfile.
  change (str_upto 5 ("s3://" +++ bucket +++ "/" +++ key)) with "s3://".
  change (str_from 5 ("s3://" +++ bucket +++ "/" +++ key))
    with (bucket +++ String "/"%char key).
  cbn [String.eqb Ascii.eqb Bool.eqb]. split; [|reflexivity].
  unfold os_path_tail at 1 2 3, os_sep.
  rewrite str_split_app, (str_split_no_sep bucket Hb).
  rewrite (last_app_nonempty _ _ _ (str_split_nonempty "/" key)).
  cbn [app hd tl]. rewrite str_join_split. reflexivity.
Qed.

Lemma writeOutputJSONfile_s3_target_witness :
  writeOutputJSONfile (PList []) ("s3://" +++ "bucket" +++ "/" +++ "jobs/ucar.000001.json")
    (Some a_session)
  = (Ok ("s3://" +++ "bucket" +++ "/" +++ "jobs/ucar.000001.json"),
     [Log INFO ("Writing to " +++ "s3://" +++ "bucket" +++ "/" +++ "jobs/ucar.000001.json");
      FileWrite (os_path_tail "jobs/ucar.000001.json") (json_dumps (Some "    ") (PList []));
      S3Upload (os_path_tail "jobs/ucar.000001.json") "bucket" "jobs/ucar.000001.json";
      FileUnlink (os_path_tail "jobs/ucar.000001.json")])
  /\ writeOutputJSONfile (PList []) ("s3://" +++ "bucket" +++ "/" +++ "jobs/ucar.000001.json")
       None
     = (Ok "fail",
        [Log INFO ("Writing to " +++ "s3://" +++ "bucket" +++ "/" +++ "jobs/ucar.000001.json");
         Log ERROR "Session needs to be defined for access to S3"]).
Proof.
  apply (writeOutputJSONfile_s3_target (PList []) "bucket" "jobs/ucar.000001.json"
           a_session).
  - reflexivity.
  - vm_compute. discriminate.
Defined.

(* ===================================================================== *)
(** ** definejobs and createjobdefinitionsjson at the edges *)
(* ===================================================================== *)

Lemma find_all_in (l valid : list string) :
  Forall (fun x => In x valid) l ->
  find (fun x => negb (str_in x valid)) l = None.
Proof.
  induction 1 as [|x l Hx _ IH]; [reflexivity|].
  cbn [find]. apply str_in_In in Hx. now rewrite Hx.
Qed.

Lemma check_input_valid (reformatters : list (string * list (string * string)))
    (valid missions pcs fts : list string) :
  valid_request reformatters valid missions pcs fts ->
  check_input reformatters valid missions pcs fts = None.
Proof.
  intros (Hc & Hf & Hm). unfold check_input.
  now rewrite (find_all_in _ _ Hc), (find_all_in _ _ Hf), (find_all_in _ _ Hm).
Qed.

Lemma check_input_invalid (reformatters : list (string * list (string * string)))
    (valid missions pcs fts : list string) :
  invalid_request reformatters valid missions pcs fts ->
  exists msg, check_input reformatters valid missions pcs fts = Some msg.
Proof.
  intros Hinv. unfold check_input.
  destruct (find (fun c => negb (str_in c (map fst reformatters))) pcs)
    as [c|] eqn:Ec; [eauto|].
  destruct (find (fun f => negb (str_in f (flat_map (fun cr => map fst (snd cr))
                                                   reformatters))) fts)
    as [f|] eqn:Ef; [eauto|].
  destruct (find (fun m => negb (str_in m valid)) missions) as [m|] eqn:Em;
    [eauto|].
  exfalso. destruct Hinv as [H|[H|H]];
    apply find_not_in in H; destruct H as [x H]; congruence.
Qed.

Section DefinejobsEdges.

Variable ls : string -> option (list string).
Variable isdir : string -> bool.
Variable listdir : string -> list string.
Variable reformatters : list (string * list (string * string)).
Variable valid_missions_aws : list string.
Variable get_receiver_satellites : string -> list (list (string * string)).
Variable re_search_group1 : string -> string -> option string.
Variable missions processing_centers file_types : list string.

(** X10. Without a session, the default of both functions, a request that
    passes the input check makes definejobs raise AttributeError before any
    archive is listed; createjobdefinitionsjson lets the error through,
    having opened, and so emptied, the JSON file. *)
Theorem definejobs_without_session_raises :
  forall (nonnominal liveupdate : bool) (fuel : nat) (daterange : date * date)
         (UCARprefix ROMSAFprefix JPLprefix EUMETSATprefix : option string)
         (jsonfile : string),
    valid_request reformatters valid_missions_aws missions processing_centers
      file_types ->
    definejobs ls isdir listdir reformatters valid_missions_aws
      get_receiver_satellites re_search_group1 missions processing_centers
      file_types nonnominal liveupdate fuel daterange
      UCARprefix ROMSAFprefix JPLprefix EUMETSATprefix None
    = Some (Raise no_session_error, [])
    /\ createjobdefinitionsjson ls isdir listdir reformatters valid_missions_aws
         get_receiver_satellites re_search_group1 fuel daterange missions
         processing_centers file_types jsonfile
         UCARprefix ROMSAFprefix JPLprefix EUMETSATprefix None
       = Some (Raise no_session_error, [FileWrite jsonfile EmptyString]).
Proof.
  intros nonnominal liveupdate fuel daterange p1 p2 p3 p4 jsonfile Hv.
  pose proof (check_input_valid _ _ _ _ _ Hv) as Hc.
  assert (E : forall nn lu,
             definejobs ls isdir listdir reformatters valid_missions_aws
               get_receiver_satellites re_search_group1 missions processing_centers
               file_types nn lu fuel daterange p1 p2 p3 p4 None
             = Some (Raise no_session_error, [])).
  { intros nn lu. unfold definejobs. rewrite Hc. reflexivity. }
  split; [apply E|]. unfold createjobdefinitionsjson. now rewrite E.
Qed.

(** X11. On a request with an unknown processing center, file type or
    mission, createjobdefinitionsjson still writes the JSON file: the
    document is the failure value 1 of definejobs, which reads back as the
    integer 1, and which the constructor of the iterator rejects as not
    being a dictionary. *)
Theorem createjobdefinitionsjson_writes_failure_value :
  forall (fuel : nat) (daterange : date * date)
         (UCARprefix ROMSAFprefix JPLprefix EUMETSATprefix : option string)
         (session session' : option Session) (jsonfile : string),
    invalid_request reformatters valid_missions_aws missions processing_centers
      file_types ->
    exists msg,
      createjobdefinitionsjson ls isdir listdir reformatters valid_missions_aws
        get_receiver_satellites re_search_group1 fuel daterange missions
        processing_centers file_types jsonfile
        UCARprefix ROMSAFprefix JPLprefix EUMETSATprefix session
      = Some (Ok tt,
              [FileWrite jsonfile EmptyString; Log ERROR msg;
               Log INFO ("Writing to JSON file " +++ jsonfile +++ ".");
               FileWrite jsonfile "1"])
      /\ json_loads "1" = Some (PInt 1)
      /\ init_raises ls (PInt 1) session' InvalidJobDefinitions.
Proof.
  intros fuel daterange p1 p2 p3 p4 session session' jsonfile Hinv.
  destruct (check_input_invalid _ _ _ _ _ Hinv) as [msg Hc].
  exists msg. split; [|split].
  - unfold createjobdefinitionsjson, definejobs. rewrite Hc. reflexivity.
  - reflexivity.
  - eexists; eexists. reflexivity.
Qed.

(** X12. When the first day of the range is after the last, definejobs lists
    nothing and returns a dictionary with no job, whose prefixes hold, for
    each requested center, the prefix given in the call, or None where none
    was given; the constructor of the iterator rejects that dictionary for
    having no jobs. *)
Theorem definejobs_inverted_range :
  forall (nonnominal liveupdate : bool) (fuel : nat) (first last : date)
         (UCARprefix ROMSAFprefix JPLprefix EUMETSATprefix : option string)
         (s : Session) (session' : option Session),
    valid_request reformatters valid_missions_aws missions processing_centers
      file_types ->
    date_leb first last = false ->
    exists the_prefixes msg,
      definejobs ls isdir listdir reformatters valid_missions_aws
        get_receiver_satellites re_search_group1 missions processing_centers
        file_types nonnominal liveupdate (S fuel) (first, last)
        UCARprefix ROMSAFprefix JPLprefix EUMETSATprefix (Some s)
      = Some (Ok (PDict [("prefixes", PDict the_prefixes); ("jobs", PList [])]),
              [Log INFO msg])
      /\ (In "ucar" processing_centers ->
          dict_get "ucar" the_prefixes = Some (prefix_value UCARprefix))
      /\ (In "romsaf" processing_centers ->
          dict_get "romsaf" the_prefixes = Some (prefix_value ROMSAFprefix))
      /\ (In "jpl" processing_centers ->
          dict_get "jpl" the_prefixes = Some (prefix_value JPLprefix))
      /\ (In "eumetsat" processing_centers ->
          dict_get "eumetsat" the_prefixes = Some (prefix_value EUMETSATprefix))
      /\ init_raises ls (PDict [("prefixes", PDict the_prefixes); ("jobs", PList [])])
           session' NoJobDefinitionsJobs.
Proof.
  intros nonnominal liveupdate fuel first last p1 p2 p3 p4 s session' Hv Hd.
  pose proof (check_input_valid _ _ _ _ _ Hv) as Hc.
  eexists; eexists. split.
  - unfold definejobs. rewrite Hc. cbn [establish_s3fs session_region_name].
    unfold establish_s3fs, session_region_name. rewrite bind_ret_l.
    unfold ret at 1. cbn [while_dates fst snd]. rewrite Hd.
    unfold ret, returned_dict. cbn [dj_jobs app]. reflexivity.
  - unfold returned_prefixes. cbn [UCARprefix ROMSAFprefix JPLprefix EUMETSATprefix].
    repeat split; try (intros H; apply str_in_In in H);
      destruct (str_in "ucar" processing_centers),
               (str_in "romsaf" processing_centers),
               (str_in "jpl" processing_centers),
               (str_in "eumetsat" processing_centers);
      try discriminate; try reflexivity.
    all: eexists; eexists; reflexivity.
Qed.

End DefinejobsEdges.

Lemma definejobs_without_session_raises_witness :
  definejobs ucar_archive (fun _ => false) (fun _ => []) some_reformatters
    some_missions some_satellites some_re ["cosmic1"] ["ucar"] ["level1b"]
    false false 2 (feb_1_2009, feb_1_2009) None None None None None
  = Some (Raise no_session_error, [])
  /\ createjobdefinitionsjson ucar_archive (fun _ => false) (fun _ => [])
       some_reformatters some_missions some_satellites some_re 2
       (feb_1_2009, feb_1_2009) ["cosmic1"] ["ucar"] ["level1b"] "jobs.json"
       None None None None None
     = Some (Raise no_session_error, [FileWrite "jobs.json" EmptyString]).
Proof.
  apply (definejobs_without_session_raises ucar_archive (fun _ => false)
           (fun _ => []) some_reformatters some_missions some_satellites some_re
           ["cosmic1"] ["ucar"] ["level1b"] false false 2 (feb_1_2009, feb_1_2009)
           None None None None "jobs.json").
  repeat split; repeat constructor; simpl; tauto.
Defined.

Lemma createjobdefinitionsjson_writes_failure_value_witness :
  exists msg,
    createjobdefinitionsjson ucar_archive (fun _ => false) (fun _ => [])
      some_reformatters some_missions some_satellites some_re 2
      (feb_1_2009, feb_1_2009) ["cosmic1"] ["jpl"] ["level1b"] "jobs.json"
      None None None None (Some a_session)
    = Some (Ok tt,
            [FileWrite "jobs.json" EmptyString; Log ERROR msg;
             Log INFO ("Writing to JSON file " +++ "jobs.json" +++ ".");
             FileWrite "jobs.json" "1"])
    /\ json_loads "1" = Some (PInt 1)
    /\ init_raises ucar_archive (PInt 1) (Some a_session) InvalidJobDefinitions.
Proof.
  apply (createjobdefinitionsjson_writes_failure_value ucar_archive (fun _ => false)
           (fun _ => []) some_reformatters some_missions some_satellites some_re
           ["cosmic1"] ["jpl"] ["level1b"] 2 (feb_1_2009, feb_1_2009)
           None None None None (Some a_session) (Some a_session) "jobs.json").
  left. exists "jpl". split; [now left|].
  simpl. intuition discriminate.
Defined.

Lemma definejobs_inverted_range_witness :
  exists the_prefixes msg,
    definejobs ucar_archive (fun _ => false) (fun _ => []) some_reformatters
      some_missions some_satellites some_re ["cosmic1"] ["ucar"] ["level1b"]
      false false 1 (feb_2_2009, feb_1_2009) None None None None (Some a_session)
    = Some (Ok (PDict [("prefixes", PDict the_prefixes); ("jobs", PList [])]),
            [Log INFO msg])
    /\ (In "ucar" ["ucar"] -> dict_get "ucar" the_prefixes = Some (prefix_value None))
    /\ (In "romsaf" ["ucar"] -> dict_get "romsaf" the_prefixes = Some (prefix_value None))
    /\ (In "jpl" ["ucar"] -> dict_get "jpl" the_prefixes = Some (prefix_value None))
    /\ (In "eumetsat" ["ucar"] ->
        dict_get "eumetsat" the_prefixes = Some (prefix_value None))
    /\ init_raises ucar_archive
         (PDict [("prefixes", PDict the_prefixes); ("jobs", PList [])])
         (Some a_session) NoJobDefinitionsJobs.
Proof.
  apply (definejobs_inverted_range ucar_archive (fun _ => false)
           (fun _ => []) some_reformatters some_missions some_satellites some_re
           ["cosmic1"] ["ucar"] ["level1b"] false false 0 feb_2_2009 feb_1_2009
           None None None None a_session (Some a_session)).
  - repeat split; repeat constructor; simpl; tauto.
  - reflexivity.
Defined.

(* ===================================================================== *)
(** ** The sweep over the dates ends *)
(* ===================================================================== *)

Lemma days_in_month_bounds (y m : nat) : 28 <= days_in_month y m <= 31.
Proof.
  unfold days_in_month.
  do 12 (destruct m as [|m]; [try destruct (is_leap y); lia|]). lia.
Qed.

Lemma next_day_valid (d : date) : valid_date d -> valid_date (next_day d).
Proof.
  unfold valid_date, next_day. intros [Hm Hd].
  destruct (Nat.ltb_spec (day d) (days_in_month (year d) (month d))).
  - cbn [year month day]. lia.
  - destruct (Nat.ltb_spec (month d) 12); cbn [year month day].
    + pose proof (days_in_month_bounds (year d) (S (month d))). lia.
    + pose proof (days_in_month_bounds (S (year d)) 1). lia.
Qed.

Lemma next_day_rank (d : date) : valid_date d -> date_rank d < date_rank (next_day d).
Proof.
  unfold valid_date, next_day, date_rank. intros [Hm Hd].
  pose proof (days_in_month_bounds (year d) (month d)).
  destruct (Nat.ltb_spec (day d) (days_in_month (year d) (month d))).
  - cbn [year month day]. lia.
  - destruct (Nat.ltb_spec (month d) 12); cbn [year month day]; lia.
Qed.

Lemma date_leb_rank (d last : date) :
  valid_date d -> valid_date last -> date_leb d last = true ->
  date_rank d <= date_rank last.
Proof.
  unfold valid_date, date_leb, date_rank. intros [Hm Hd] [Hm' Hd'] H.
  pose proof (days_in_month_bounds (year d) (month d)).
  pose proof (days_in_month_bounds (year last) (month last)).
  apply orb_true_iff in H. destruct H as [H|H].
  - apply Nat.ltb_lt in H. lia.
  - apply andb_true_iff in H. destruct H as [Hy H]. apply Nat.eqb_eq in Hy.
    apply orb_true_iff in H. destruct H as [H|H].
    + apply Nat.ltb_lt in H. lia.
    + apply andb_true_iff in H. destruct H as [Hmm H].
      apply Nat.eqb_eq in Hmm. apply Nat.leb_le in H. lia.
Qed.

Section SweepEnds.

Variable ls : string -> option (list string).
Variable isdir : string -> bool.
Variable listdir : string -> list string.
Variable reformatters : list (string * list (string * string)).
Variable valid_missions_aws : list string.
Variable get_receiver_satellites : string -> list (list (string * string)).
Variable re_search_group1 : string -> string -> option string.
Variable missions processing_centers file_types : list string.
Variable nonnominal liveupdate : bool.

Lemma while_dates_ends (last : date) :
  valid_date last ->
  forall n d st,
    valid_date d -> date_rank last + 1 - date_rank d < n ->
    exists r,
      while_dates ls isdir listdir reformatters valid_missions_aws
        get_receiver_satellites re_search_group1 missions processing_centers
        file_types nonnominal liveupdate n d last st = Some r.
Proof.
  intros Hlast. induction n as [|n IH]; intros d st Hd Hn; [lia|].
  cbn [while_dates]. destruct (date_leb d last) eqn:E; [|eauto].
  destruct (for_each missions _ st) as [[st'|e] t]; [|eauto].
  pose proof (date_leb_rank d last Hd Hlast E).
  pose proof (next_day_rank d Hd).
  destruct (IH (next_day d) st' (next_day_valid d Hd)) as [[r t'] Er]; [lia|].
  rewrite Er. eauto.
Qed.

Lemma while_dates_more_fuel (last : date) :
  forall n d st r,
    while_dates ls isdir listdir reformatters valid_missions_aws
      get_receiver_satellites re_search_group1 missions processing_centers
      file_types nonnominal liveupdate n d last st = Some r ->
    forall m, n <= m ->
      while_dates ls isdir listdir reformatters valid_missions_aws
        get_receiver_satellites re_search_group1 missions processing_centers
        file_types nonnominal liveupdate m d last st = Some r.
Proof.
  induction n as [|n IH]; intros d st r E m Hm; [discriminate E|].
  destruct m as [|m]; [lia|]. cbn [while_dates] in E |- *.
  destruct (date_leb d last); [|exact E].
  destruct (for_each missions _ st) as [[st'|e] t]; [|exact E].
  destruct (while_dates _ _ _ _ _ _ _ _ _ _ _ _ n (next_day d) last st')
    as [[r' t']|] eqn:E'; [|discriminate E].
  rewrite (IH _ _ _ E' m) by lia. exact E.
Qed.

(** X13. definejobs ends on every range of calendar days, whatever the
    archive answers: from a number of loop rounds on that the two days of the
    range bound, it returns a value or raises, and more rounds do not change
    the outcome. *)
Theorem definejobs_ends :
  forall (first last : date)
         (UCARprefix ROMSAFprefix JPLprefix EUMETSATprefix : option string)
         (session : option Session),
    valid_date first -> valid_date last ->
    exists r,
      forall fuel, S (date_rank last + 1 - date_rank first) <= fuel ->
        definejobs ls isdir listdir reformatters valid_missions_aws
          get_receiver_satellites re_search_group1 missions processing_centers
          file_types nonnominal liveupdate fuel (first, last)
          UCARprefix ROMSAFprefix JPLprefix EUMETSATprefix session
        = Some r.
Proof.
  intros first last p1 p2 p3 p4 session Hf Hl.
  unfold definejobs.
  destruct (check_input _ _ _ _ _) as [msg|]; [eauto|].
  destruct (establish_s3fs session) as [[[]|e] t0]; [|eauto].
  cbn [fst snd].
  destruct (while_dates_ends last Hl (S (date_rank last + 1 - date_rank first)) first
              (dj_initial p1 p2 p3 p4) Hf) as [r Er]; [lia|].
  unfold dj_initial in Er.
  destruct r as [[st|e] t1].
  - eexists. intros fuel Hfuel.
    rewrite (while_dates_more_fuel last _ _ _ _ Er fuel Hfuel). reflexivity.
  - eexists. intros fuel Hfuel.
    rewrite (while_dates_more_fuel last _ _ _ _ Er fuel Hfuel). reflexivity.
Qed.

End SweepEnds.

Lemma definejobs_ends_witness :
  exists r,
    forall fuel, S (date_rank feb_2_2009 + 1 - date_rank feb_1_2009) <= fuel ->
      definejobs ucar_archive (fun _ => false) (fun _ => []) some_reformatters
        some_missions some_satellites some_re ["cosmic1"] ["ucar"] ["level1b"]
        false false fuel (feb_1_2009, feb_2_2009) None None None None
        (Some a_session)
      = Some r.
Proof.
  apply (definejobs_ends ucar_archive (fun _ => false) (fun _ => [])
           some_reformatters some_missions some_satellites some_re
           ["cosmic1"] ["ucar"] ["level1b"] false false feb_1_2009 feb_2_2009
           None None None None (Some a_session)).
  - unfold valid_date. simpl. lia.
  - unfold valid_date. simpl. lia.
Defined.

(* ===================================================================== *)
(** ** The loop over the iterator ends *)
(* ===================================================================== *)

Lemma next_tuple_ok (self self' : DASKjobs) (x : job_tuple) (t : list event) :
  next_tuple self = (self', (Ok x, t)) ->
  exists f fs,
    inputfiles self = f :: fs
    /\ self' = {| jobs := jobs self; prefixes := prefixes self; inputfiles := fs |}.
Proof.
  unfold next_tuple. intros H.
  destruct (inputfiles self) as [|f fs] eqn:Ef.
  - exfalso. revert H. unfold bind.
    destruct (py_getitem (PList (jobs self)) (PInt 0)) as [[job|e] t1];
      [|discriminate].
    destruct (py_getitem job (PStr "file_type")) as [[ft|e] t2]; [|discriminate].
    destruct (py_getitem job (PStr "processing_center")) as [[c|e] t3];
      [|discriminate].
    destruct (py_getitem (prefixes self) c) as [[r|e] t4]; [|discriminate].
    cbn. discriminate.
  - match type of H with
    | match ?m with _ => _ end = _ => destruct m as [[y|e] t']
    end; inversion H; subst. exists f, fs. split; reflexivity.
Qed.

Lemma DASKjobs_next_decreases ls (it it' : DASKjobs) (x : job_tuple)
    (t : list event) :
  DASKjobs_next ls it = (it', (Ok x, t)) ->
  requests_left ls it' < requests_left ls it.
Proof.
  unfold DASKjobs_next, requests_left. intros H.
  destruct (Nat.eqb (List.length (inputfiles it)) 0) eqn:E0.
  - destruct (jobs it) as [|job0 rest] eqn:Ej; [discriminate H|].
    destruct rest as [|job1 rest]; [discriminate H|].
    cbn [List.length Nat.eqb] in H.
    rewrite py_getitem_first, bind_ret_l in H.
    destruct (loadfiles ls (prefixes it) job1) as [[files|e] t1] eqn:El;
      [|discriminate H].
    destruct (next_tuple _) as [self3 [r t']] eqn:En. inversion H; subst.
    apply next_tuple_ok in En. destruct En as (f & fs & Ef & ->).
    cbn [inputfiles jobs prefixes] in *. subst files.
    apply Nat.eqb_eq in E0. rewrite E0.
    cbn [tl map list_sum fold_right]. unfold files_of at 2. rewrite El.
    cbn [List.length]. unfold list_sum. lia.
  - destruct (next_tuple_ok _ _ _ _ H) as (f & fs & Ef & ->).
    cbn [inputfiles jobs prefixes]. rewrite Ef. cbn [List.length]. lia.
Qed.

Section LoopEnds.

Variable ls : string -> option (list string).
Variable template : Z -> string.
Variable jobsperfile : Z.
Variable session : option Session.

Lemma for_loop_ends :
  forall n it st,
    requests_left ls it < n ->
    exists r, for_loop ls template n jobsperfile session it st = Some r.
Proof.
  induction n as [|n IH]; intros it st Hn; [lia|].
  cbn [for_loop].
  destruct (DASKjobs_next ls it) as [it' [[x|e] t]] eqn:En.
  - destruct (loop_body template jobsperfile session x st) as [[[[] st']|e] t'];
      [|eauto|eauto].
    pose proof (DASKjobs_next_decreases ls it it' x t En).
    destruct (IH it' st') as [[r t''] Er]; [lia|]. rewrite Er. eauto.
  - destruct e; eauto.
Qed.

Lemma for_loop_more_fuel :
  forall n it st r,
    for_loop ls template n jobsperfile session it st = Some r ->
    forall m, n <= m -> for_loop ls template m jobsperfile session it st = Some r.
Proof.
  induction n as [|n IH]; intros it st r E m Hm; [discriminate E|].
  destruct m as [|m]; [lia|]. cbn [for_loop] in E |- *.
  destruct (DASKjobs_next ls it) as [it' [[x|e] t]].
  - destruct (loop_body template jobsperfile session x st) as [[[[] st']|e] t'];
      [|exact E|exact E].
    destruct (for_loop ls template n jobsperfile session it' st')
      as [[r' t'']|] eqn:E'; [|discriminate E].
    rewrite (IH _ _ _ E' m) by lia. exact E.
  - destruct e; exact E.
Qed.

(** X14. define_batchprocess_jobs ends on every input: there is a number of
    requests to the iterator from which on the call has returned or raised,
    and allowing more requests does not change the outcome.  One request per
    listed file and two per job are enough. *)
Theorem define_batchprocess_jobs_ends :
  forall (job_definitions : pyval),
    exists bound r,
      (forall it t, DASKjobs_init ls job_definitions session = (Ok it, t) ->
                    bound = S (requests_left ls it))
      /\ forall fuel, bound <= fuel ->
           define_batchprocess_jobs ls template fuel job_definitions jobsperfile
             session = Some r.
Proof.
  intros jd. unfold define_batchprocess_jobs.
  destruct (DASKjobs_init ls jd session) as [[it|e] t0].
  - destruct (for_loop_ends (S (requests_left ls it)) it initial_locals)
      as [r Er]; [lia|].
    exists (S (requests_left ls it)).
    destruct r as [[[[] st]|e] t1].
    + destruct (after_loop template session st) as [r' t2] eqn:Ea.
      eexists. split; [intros ? ? E; now inversion E|].
      intros fuel Hf. rewrite (for_loop_more_fuel _ _ _ _ Er fuel Hf), Ea.
      reflexivity.
    + eexists. split; [intros ? ? E; now inversion E|].
      intros fuel Hf. rewrite (for_loop_more_fuel _ _ _ _ Er fuel Hf). reflexivity.
    + eexists. split; [intros ? ? E; now inversion E|].
      intros fuel Hf. rewrite (for_loop_more_fuel _ _ _ _ Er fuel Hf). reflexivity.
  - exists 0. eexists. split; [intros ? ? E; discriminate E|]. reflexivity.
Qed.

End LoopEnds.

(* ===================================================================== *)
(** ** What the sweep of definejobs keeps, for any property of its locals *)
(* ===================================================================== *)

Lemma preserves_ret {A} (P : dj_locals -> Prop) (proj : A -> dj_locals) (a : A) :
  P (proj a) -> preserves P proj (ret a).
Proof. intros H b t E. inversion E; subst. exact H. Qed.

Lemma preserves_raise {A} (P : dj_locals -> Prop) (proj : A -> dj_locals) (e : exn) :
  preserves P proj (raise e).
Proof. intros b t E. discriminate E. Qed.

Lemma preserves_bind {A B} (P : dj_locals -> Prop) (proj : B -> dj_locals)
    (m : M A) (k : A -> M B) :
  (forall a t, m = (Ok a, t) -> preserves P proj (k a)) -> preserves P proj (bind m k).
Proof.
  intros Hk b t E. unfold bind in E. destruct m as [[a|e] t1]; [|discriminate E].
  destruct (k a) as [r t2] eqn:Ek. inversion E; subst.
  exact (Hk a t1 eq_refl b t2 Ek).
Qed.

Lemma preserves_try_except {A} (P : dj_locals -> Prop) (proj : A -> dj_locals)
    (m h : M A) :
  preserves P proj m -> preserves P proj h -> preserves P proj (try_except m h).
Proof.
  intros Hm Hh b t E. unfold try_except in E. destruct m as [[a|e] t1].
  - inversion E; subst. exact (Hm b t eq_refl).
  - destruct h as [r t2]. inversion E; subst. exact (Hh b t2 eq_refl).
Qed.

Lemma preserves_for_each {A} (P : dj_locals -> Prop)
    (body : A -> dj_locals -> M (flow * dj_locals)) (l : list A) :
  (forall x st, In x l -> P st -> preserves P snd (body x st)) ->
  forall st, P st -> preserves P (fun s => s) (for_each l body st).
Proof.
  induction l as [|x l IH]; intros Hbody st Hst; cbn [for_each].
  - now apply preserves_ret.
  - apply preserves_bind. intros [fl st'] t E. cbn [fst snd].
    pose proof (Hbody x st (or_introl eq_refl) Hst _ _ E) as Hst'. cbn [snd] in Hst'.
    destruct fl; [|now apply preserves_ret].
    apply IH; [|exact Hst']. intros y s Hy. apply Hbody. now right.
Qed.

Lemma ucar_type_subdirs_levels (ft : string) (L : list string) :
  List.length (ucar_type_subdirs ft L) = 1 -> In ft aws_levels.
Proof.
  unfold ucar_type_subdirs, aws_levels.
  destruct (String.eqb_spec ft "level1b") as [->|_]; [simpl; tauto|].
  destruct (String.eqb_spec ft "level2a") as [->|_]; [simpl; tauto|].
  destruct (String.eqb_spec ft "level2b") as [->|_]; [simpl; tauto|].
  discriminate.
Qed.

Lemma try_ls_shape ls (path : string) (lvl : loglevel) (msg : string)
    (r : option (list string)) (t : list event) :
  try_ls ls path lvl msg = (Ok r, t) ->
  match r with
  | Some l => ls path = Some l
  | None => ls path = None
  end.
Proof.
  unfold try_ls, try_except, s3_ls, bind, emit, ret, raise.
  destruct (ls path) as [l|]; intros H; inversion H; subst; reflexivity.
Qed.

Section Sweep.

Variable ls : string -> option (list string).
Variable isdir : string -> bool.
Variable listdir : string -> list string.
Variable reformatters : list (string * list (string * string)).
Variable valid_missions_aws : list string.
Variable get_receiver_satellites : string -> list (list (string * string)).
Variable re_search_group1 : string -> string -> option string.
Variable missions processing_centers file_types : list string.
Variable nonnominal liveupdate : bool.

(** The property of the locals, the days it is stated for, and what each
    assignment of the sweep has to keep of it. *)
Variable P : dj_locals -> Prop.
Variable D : date -> Prop.

Hypothesis P_subdirs : forall st l, P st -> P (set_subdirs st l).
Hypothesis P_level : forall st l, P st -> P (set_level st l).
Hypothesis P_jpl_file_type :
  forall st ty, P st -> In ty jpl_file_types -> P (set_jpl_file_type st ty).
Hypothesis P_UCARprefix :
  forall st p, P st -> (forall q, UCARprefix st = Some q -> q = p) ->
               P (set_UCARprefix st p).
Hypothesis P_ROMSAFprefix :
  forall st p, P st -> (forall q, ROMSAFprefix st = Some q -> q = p) ->
               P (set_ROMSAFprefix st p).
Hypothesis P_JPLprefix :
  forall st p, P st -> JPLprefix st = None -> liveupdate = false ->
               P (set_JPLprefix st p).
Hypothesis P_EUMETSATprefix :
  forall st p, P st -> EUMETSATprefix st = None -> liveupdate = true ->
               P (set_EUMETSATprefix st p).
Hypothesis P_ucar_job :
  forall st d m ft path n,
    P st -> D d -> In m missions -> In "ucar" processing_centers ->
    In ft file_types -> In ft aws_levels ->
    P (append_job st (job_dict_ucar_order ft "ucar" m (date_iso d) path n)).
Hypothesis P_eumetsat_job :
  forall st d m path n,
    P st -> D d -> In m missions -> In "eumetsat" processing_centers ->
    In "level1b" file_types ->
    P (append_job st (job_dict_ucar_order "level1b" "eumetsat" m (date_iso d) path n)).
Hypothesis P_romsaf_job :
  forall st d m ft path n,
    P st -> D d -> In m missions -> In "romsaf" processing_centers ->
    In ft file_types -> ft = "level2a" \/ ft = "level2b" -> 0 < n ->
    P (append_job st (job_dict_romsaf_order (date_iso d) m "romsaf" ft path n)).
Hypothesis P_jpl_job :
  forall st d m ty path n,
    P st -> D d -> In m missions -> In "jpl" processing_centers ->
    jpl_file_type st = Some ty -> 0 < n ->
    P (append_job st (job_dict_romsaf_order (date_iso d) m "jpl" ty path n)).

Ltac pres_step :=
  match goal with
  | |- preserves _ _ (ret _) => apply preserves_ret; cbn [fst snd]
  | |- preserves _ _ (raise _) => apply preserves_raise
  | |- preserves _ _ (bind _ _) => apply preserves_bind; intros ? ? ?
  end.

(** *** UCAR *)

Lemma ucar_day_job_preserves d mission file_type the_prefix the_subdirs st :
  P st -> D d -> In mission missions -> In "ucar" processing_centers ->
  In file_type file_types ->
  preserves P snd (ucar_day_job ls re_search_group1 d mission file_type the_prefix
                     the_subdirs st).
Proof.
  intros Hst Hd Hm Hc Hft. unfold ucar_day_job.
  destruct (Nat.eqb (List.length (ucar_type_subdirs file_type the_subdirs)) 1) eqn:E;
    cbn [negb].
  - apply Nat.eqb_eq, ucar_type_subdirs_levels in E.
    do 3 pres_step. match goal with |- preserves _ _ (match ?x with _ => _ end) =>
      destruct x end.
    + do 2 pres_step. apply P_ucar_job; auto.
    + pres_step. auto.
  - do 2 pres_step. auto.
Qed.

Lemma ucar_version_preserves d mission file_type the_prefix pv st :
  P st -> D d -> In mission missions -> In "ucar" processing_centers ->
  In file_type file_types ->
  preserves P snd (ucar_version ls re_search_group1 d mission file_type the_prefix pv st).
Proof.
  intros Hst Hd Hm Hc Hft. unfold ucar_version.
  do 3 (apply preserves_bind; intros ? ? ?).
  apply preserves_bind; intros found ? ?.
  destruct found; [now apply ucar_day_job_preserves|now apply preserves_ret].
Qed.

Lemma ucar_mission_preserves d mission file_type the_prefix m st :
  P st -> D d -> In mission missions -> In "ucar" processing_centers ->
  In file_type file_types ->
  preserves P snd (ucar_mission ls re_search_group1 d mission file_type the_prefix m st).
Proof.
  intros Hst Hd Hm Hc Hft. unfold ucar_mission.
  apply preserves_bind; intros versions ? ?.
  destruct versions as [pvs|]; [|now apply preserves_ret].
  apply preserves_bind; intros st' tfe Efe.
  apply preserves_ret. cbn [snd].
  refine (preserves_for_each P _ pvs _ st Hst st' tfe Efe).
  intros pv s _ Hs. now apply ucar_version_preserves.
Qed.

Lemma ucar_file_type_preserves d mission the_prefix file_type st :
  P st -> D d -> In mission missions -> In "ucar" processing_centers ->
  In file_type file_types ->
  preserves P snd (ucar_file_type ls get_receiver_satellites re_search_group1
                     d mission the_prefix file_type st).
Proof.
  intros Hst Hd Hm Hc Hft. unfold ucar_file_type.
  apply preserves_bind; intros ms ? ?.
  apply preserves_bind; intros st' tfe Efe.
  apply preserves_ret. cbn [snd].
  refine (preserves_for_each P _ ms _ _ _ st' tfe Efe).
  - intros um s _ Hs. now apply ucar_mission_preserves.
  - destruct (String.eqb file_type "level1b"); [now apply P_level|].
    destruct (str_in file_type ["level2a"; "level2b"]); [now apply P_level|exact Hst].
Qed.

Lemma ucar_branch_preserves d mission st :
  P st -> D d -> In mission missions ->
  preserves P (fun s => s)
    (ucar_branch ls reformatters valid_missions_aws get_receiver_satellites
       re_search_group1 processing_centers file_types liveupdate d mission st).
Proof.
  intros Hst Hd Hm. unfold ucar_branch.
  destruct (str_in "ucar" processing_centers) eqn:Ec; cbn [andb];
    [|now apply preserves_ret].
  apply str_in_In in Ec.
  destruct (str_in mission valid_missions_aws); [|now apply preserves_ret].
  apply preserves_bind; intros p tp Ep.
  refine (preserves_for_each P _ file_types _ (set_UCARprefix st p) _).
  - intros ft s Hft Hs. now apply ucar_file_type_preserves.
  - apply P_UCARprefix; [exact Hst|]. intros q Hq. rewrite Hq in Ep.
    now inversion Ep.
Qed.

(** *** ROM SAF *)

Lemma romsaf_day_preserves d mission file_type fullpath path paths st :
  P st -> D d -> In mission missions -> In "romsaf" processing_centers ->
  In file_type file_types -> file_type = "level2a" \/ file_type = "level2b" ->
  preserves P (fun s => s) (romsaf_day d mission file_type fullpath path paths st).
Proof.
  intros Hst Hd Hm Hc Hft Hl. unfold romsaf_day.
  destruct (Nat.ltb_spec 0 (List.length (filter re_search_nc paths))).
  - do 2 pres_step. apply P_romsaf_job; auto.
  - do 2 pres_step. exact Hst.
Qed.

Lemma romsaf_file_type_preserves d mission the_prefix file_type st :
  P st -> D d -> In mission missions -> In "romsaf" processing_centers ->
  In file_type file_types ->
  preserves P snd (romsaf_file_type ls re_search_group1 nonnominal d mission the_prefix
                     file_type st).
Proof.
  intros Hst Hd Hm Hc Hft. unfold romsaf_file_type.
  assert (Hl : (if String.eqb file_type "level2a" then True
                else if String.eqb file_type "level2b" then True else False) ->
               file_type = "level2a" \/ file_type = "level2b").
  { destruct (String.eqb_spec file_type "level2a"); [auto|].
    destruct (String.eqb_spec file_type "level2b"); [auto|tauto]. }
  destruct (String.eqb file_type "level2a") eqn:E2a;
    [|destruct (String.eqb file_type "level2b") eqn:E2b; [|now apply preserves_ret]].
  all: specialize (Hl I).
  all: apply preserves_bind; intros the_subdirs ? ?.
  all: match goal with
       | |- preserves _ _ (if ?b then _ else _) => destruct b
       end; [do 2 pres_step; exact Hst|].
  all: apply preserves_bind; intros the_dir ? ?.
  all: apply preserves_bind; intros path ? ?.
  all: apply preserves_bind; intros listed ? ?.
  all: destruct listed as [paths|]; [|now apply preserves_ret].
  all: apply preserves_bind; intros st1 tr1 Er1.
  all: pose proof (romsaf_day_preserves _ _ _ _ _ _ _ Hst Hd Hm Hc Hft Hl _ _ Er1)
         as Hst1.
  all: destruct nonnominal; [|now apply preserves_ret].
  all: apply preserves_bind; intros path2 ? ?.
  all: apply preserves_bind; intros listed2 ? ?.
  all: destruct listed2 as [paths2|]; [|now apply preserves_ret].
  all: apply preserves_bind; intros st2 tr2 Er2.
  all: pose proof (romsaf_day_preserves _ _ _ _ _ _ _ Hst1 Hd Hm Hc Hft Hl _ _ Er2)
         as Hst2.
  all: now apply preserves_ret.
Qed.

Lemma romsaf_mission_preserves d mission the_prefix m st :
  P st -> D d -> In mission missions -> In "romsaf" processing_centers ->
  preserves P snd (romsaf_mission ls re_search_group1 file_types nonnominal liveupdate
                     d mission the_prefix m st).
Proof.
  intros Hst Hd Hm Hc. unfold romsaf_mission.
  apply preserves_bind; intros st1 tr1 Er1.
  assert (Hst1 : P st1).
  { revert Er1. apply (preserves_try_except P (fun s => s)).
    - do 2 pres_step. now apply P_subdirs.
    - do 2 pres_step. exact Hst. }
  apply preserves_bind; intros st2 tr2 Er2.
  apply preserves_ret. cbn [snd].
  refine (preserves_for_each P _ file_types _ st1 Hst1 st2 tr2 Er2).
  intros ft s Hft Hs. now apply romsaf_file_type_preserves.
Qed.

Lemma romsaf_branch_preserves d mission st :
  P st -> D d -> In mission missions ->
  preserves P (fun s => s)
    (romsaf_branch ls reformatters valid_missions_aws get_receiver_satellites
       re_search_group1 processing_centers file_types nonnominal liveupdate
       d mission st).
Proof.
  intros Hst Hd Hm. unfold romsaf_branch.
  destruct (str_in "romsaf" processing_centers) eqn:Ec; cbn [andb];
    [|now apply preserves_ret].
  apply str_in_In in Ec.
  destruct (str_in mission valid_missions_aws); [|now apply preserves_ret].
  apply preserves_bind; intros p tp Ep.
  apply preserves_bind; intros ms ? ?.
  refine (preserves_for_each P _ ms _ (set_ROMSAFprefix st p) _).
  - intros rm s _ Hs. now apply romsaf_mission_preserves.
  - apply P_ROMSAFprefix; [exact Hst|]. intros q Hq. rewrite Hq in Ep.
    now inversion Ep.
Qed.

(** *** JPL *)

Lemma jpl_file_type_body_preserves d mission the_prefix file_type st :
  P st -> D d -> In mission missions -> In "jpl" processing_centers ->
  preserves P snd (jpl_file_type_body ls isdir listdir d mission the_prefix file_type st).
Proof.
  intros Hst Hd Hm Hc. unfold jpl_file_type_body.
  apply preserves_bind; intros st1 tr1 Er1.
  assert (Hst1 : P st1).
  { revert Er1. generalize tr1. generalize st1.
    change (preserves P (fun s => s)
              (if String.eqb file_type "level1b"
               then ret (set_jpl_file_type st "calibratedPhase")
               else if String.eqb file_type "level2a"
                    then ret (set_jpl_file_type st "refractivityRetrieval")
                    else if String.eqb file_type "level2b"
                         then ret (set_jpl_file_type st "atmosphericRetrieval")
                         else LOGGER_error
                                ("File type " +++ String dquote file_type
                                 +++ String dquote " for processing center "
                                 +++ String dquote "jpl"
                                 +++ String dquote " is unrecognized.") ;;;
                              ret st)).
    destruct (String.eqb file_type "level1b");
      [pres_step; apply P_jpl_file_type; [exact Hst|simpl; tauto]|].
    destruct (String.eqb file_type "level2a");
      [pres_step; apply P_jpl_file_type; [exact Hst|simpl; tauto]|].
    destruct (String.eqb file_type "level2b");
      [pres_step; apply P_jpl_file_type; [exact Hst|simpl; tauto]|].
    do 2 pres_step. exact Hst. }
  apply preserves_bind; intros the_type tb Eb.
  assert (Hty : jpl_file_type st1 = Some the_type).
  { unfold bound in Eb. destruct (jpl_file_type st1); inversion Eb. reflexivity. }
  apply preserves_bind; intros listed ? ?.
  destruct listed as [files|]; [|now apply preserves_ret].
  destruct (Nat.ltb_spec 0 (List.length (filter re_search_nc files))).
  - do 2 pres_step. apply P_jpl_job; auto.
  - do 2 pres_step. exact Hst1.
Qed.

Lemma jpl_branch_preserves d mission st :
  P st -> D d -> In mission missions ->
  preserves P snd
    (jpl_branch ls isdir listdir reformatters valid_missions_aws
       processing_centers file_types liveupdate d mission st).
Proof.
  intros Hst Hd Hm. unfold jpl_branch.
  destruct (str_in "jpl" processing_centers) eqn:Ec; cbn [andb];
    [|now apply preserves_ret].
  apply str_in_In in Ec.
  destruct (str_in mission valid_missions_aws); [|now apply preserves_ret].
  destruct (JPLprefix st) as [p|] eqn:Ep.
  - apply preserves_bind; intros st' tfe Efe. apply preserves_ret. cbn [snd].
    refine (preserves_for_each P _ file_types _ st Hst st' tfe Efe).
    intros ft s _ Hs. now apply jpl_file_type_body_preserves.
  - destruct liveupdate eqn:El; [do 2 pres_step; exact Hst|].
    apply preserves_bind; intros b ? ?.
    apply preserves_bind; intros st' tfe Efe. apply preserves_ret. cbn [snd].
    refine (preserves_for_each P _ file_types _ (set_JPLprefix st ("s3://" +++ b))
              _ st' tfe Efe).
    + intros ft s _ Hs. now apply jpl_file_type_body_preserves.
    + now apply P_JPLprefix.
Qed.

(** *** EUMETSAT *)

Lemma eumetsat_version_preserves d mission the_prefix pv st :
  P st -> D d -> In mission missions -> In "eumetsat" processing_centers ->
  In "level1b" file_types ->
  preserves P snd (eumetsat_version ls re_search_group1 d mission "level1b" the_prefix
                     pv st).
Proof.
  intros Hst Hd Hm Hc Hft. unfold eumetsat_version.
  do 2 pres_step.
  match goal with |- preserves _ _ (match ?x with _ => _ end) => destruct x end;
    [|now apply preserves_ret].
  match goal with |- preserves _ _ (if ?b then _ else _) => destruct b end.
  - do 2 pres_step. now apply P_subdirs.
  - do 3 pres_step.
    match goal with |- preserves _ _ (match ?x with _ => _ end) => destruct x end.
    + do 2 pres_step. apply P_eumetsat_job; auto.
    + pres_step. now apply P_subdirs.
Qed.

Lemma eumetsat_mission_preserves d mission the_prefix m st :
  P st -> D d -> In mission missions -> In "eumetsat" processing_centers ->
  In "level1b" file_types ->
  preserves P snd (eumetsat_mission ls re_search_group1 d mission "level1b" the_prefix
                     m st).
Proof.
  intros Hst Hd Hm Hc Hft. unfold eumetsat_mission.
  apply preserves_bind; intros versions ? ?.
  destruct versions as [pvs|]; [|now apply preserves_ret].
  apply preserves_bind; intros st' tfe Efe.
  apply preserves_ret. cbn [snd].
  refine (preserves_for_each P _ pvs _ st Hst st' tfe Efe).
  intros pv s _ Hs. now apply eumetsat_version_preserves.
Qed.

Lemma eumetsat_file_type_preserves d mission the_prefix file_type st :
  P st -> D d -> In mission missions -> In "eumetsat" processing_centers ->
  In file_type file_types ->
  preserves P snd (eumetsat_file_type ls get_receiver_satellites re_search_group1
                     d mission the_prefix file_type st).
Proof.
  intros Hst Hd Hm Hc Hft. unfold eumetsat_file_type.
  destruct (String.eqb_spec file_type "level1b") as [->|_];
    [|do 2 pres_step; exact Hst].
  apply preserves_bind; intros ms ? ?.
  apply preserves_bind; intros st' tfe Efe.
  apply preserves_ret. cbn [snd].
  refine (preserves_for_each P _ ms _ (set_level st "level1b") _ st' tfe Efe).
  - intros em s _ Hs. now apply eumetsat_mission_preserves.
  - now apply P_level.
Qed.

Lemma eumetsat_branch_preserves d mission st :
  P st -> D d -> In mission missions ->
  preserves P snd
    (eumetsat_branch ls reformatters valid_missions_aws get_receiver_satellites
       re_search_group1 processing_centers file_types liveupdate d mission st).
Proof.
  intros Hst Hd Hm. unfold eumetsat_branch.
  destruct (str_in "eumetsat" processing_centers) eqn:Ec; cbn [andb];
    [|now apply preserves_ret].
  apply str_in_In in Ec.
  destruct (str_in mission valid_missions_aws); [|now apply preserves_ret].
  destruct (EUMETSATprefix st) as [p|] eqn:Ep.
  - apply preserves_bind; intros st' tfe Efe. apply preserves_ret. cbn [snd].
    refine (preserves_for_each P _ file_types _ st Hst st' tfe Efe).
    intros ft s Hft Hs. now apply eumetsat_file_type_preserves.
  - destruct liveupdate eqn:El; [|do 2 pres_step; exact Hst].
    apply preserves_bind; intros b ? ?.
    apply preserves_bind; intros st' tfe Efe. apply preserves_ret. cbn [snd].
    refine (preserves_for_each P _ file_types _
              (set_EUMETSATprefix st ("s3://" +++ b +++ "/untarred")) _ st' tfe Efe).
    + intros ft s Hft Hs. now apply eumetsat_file_type_preserves.
    + now apply P_EUMETSATprefix.
Qed.

(** *** The sweep *)

Lemma mission_body_preserves d mission st :
  P st -> D d -> In mission missions ->
  preserves P snd
    (mission_body ls isdir listdir reformatters valid_missions_aws
       get_receiver_satellites re_search_group1 processing_centers file_types
       nonnominal liveupdate d mission st).
Proof.
  intros Hst Hd Hm. unfold mission_body.
  apply preserves_bind; intros st1 tr1 Er1.
  pose proof (ucar_branch_preserves d mission st Hst Hd Hm _ _ Er1) as Hst1.
  apply preserves_bind; intros st2 tr2 Er2.
  pose proof (romsaf_branch_preserves d mission st1 Hst1 Hd Hm _ _ Er2) as Hst2.
  apply preserves_bind; intros [fl st3] tr3 Er3.
  pose proof (jpl_branch_preserves d mission st2 Hst2 Hd Hm _ _ Er3) as Hst3.
  cbn [fst snd] in *.
  destruct fl; [now apply eumetsat_branch_preserves|now apply preserves_ret].
Qed.

Lemma day_preserves d st :
  P st -> D d ->
  preserves P (fun s => s)
    (for_each missions
       (mission_body ls isdir listdir reformatters valid_missions_aws
          get_receiver_satellites re_search_group1 processing_centers file_types
          nonnominal liveupdate d) st).
Proof.
  intros Hst Hd. apply preserves_for_each; [|exact Hst].
  intros m s Hm Hs. now apply mission_body_preserves.
Qed.

(** The sweep keeps [P] when [D] holds of every day it visits. *)
Lemma while_dates_preserves (first last : date) :
  (forall d, visited first last d -> D d) ->
  forall fuel i st st' t,
    P st ->
    while_dates ls isdir listdir reformatters valid_missions_aws
      get_receiver_satellites re_search_group1 missions processing_centers
      file_types nonnominal liveupdate fuel (Nat.iter i next_day first) last st
    = Some (Ok st', t) ->
    P st'.
Proof.
  intros HD. induction fuel as [|fuel IH]; intros i st st' t Hst E;
    [discriminate E|].
  cbn [while_dates] in E.
  destruct (date_leb (Nat.iter i next_day first) last) eqn:El.
  - destruct (for_each missions _ st) as [[st1|e] t1] eqn:E1; [|discriminate E].
    assert (Hd : D (Nat.iter i next_day first)) by (apply HD; exists i; auto).
    pose proof (day_preserves _ st Hst Hd st1 t1 E1) as Hst1.
    change (next_day (Nat.iter i next_day first))
      with (Nat.iter (S i) next_day first) in E.
    destruct (while_dates _ _ _ _ _ _ _ _ _ _ _ _ fuel
                (Nat.iter (S i) next_day first) last st1)
      as [[r t2]|] eqn:E2; [|discriminate E].
    inversion E; subst. exact (IH _ _ _ _ Hst1 E2).
  - inversion E; subst. exact Hst.
Qed.

End Sweep.

(* ===================================================================== *)
(** ** The jobs of definejobs answer the request *)
(* ===================================================================== *)

Section JobsRequested.

Variables first last : date.
Variable missions processing_centers file_types : list string.

Let R := jobs_requested first last missions processing_centers file_types.

Lemma jobs_requested_set (st st' : dj_locals) :
  dj_jobs st' = dj_jobs st -> jpl_file_type st' = jpl_file_type st ->
  R st -> R st'.
Proof. unfold R, jobs_requested. intros -> ->. tauto. Qed.

Lemma jobs_requested_append (st : dj_locals) (job : pyval) :
  R st -> requested_job first last missions processing_centers file_types job ->
  R (append_job st job).
Proof.
  unfold R, jobs_requested. intros [H1 H2] Hj. cbn [append_job dj_jobs jpl_file_type].
  split; [|exact H2]. apply Forall_app. split; [exact H1|].
  constructor; [exact Hj|constructor].
Qed.

End JobsRequested.

(** X15. Every job in the dictionary that definejobs returns answers the
    request: its mission is one of the requested missions, its processing
    center one of the requested centers, its date a day of the range, its
    fields are the six that the branch of its center writes; the file type
    of a UCAR, ROM SAF or EUMETSAT job is a requested one (level2a or
    level2b for ROM SAF, level1b for EUMETSAT), that of a JPL job is the JPL
    name of the retrieval; a ROM SAF or JPL job has at least one file. *)
Theorem definejobs_jobs_answer_the_request :
  forall (ls : string -> option (list string)) (isdir : string -> bool)
         (listdir : string -> list string)
         (reformatters : list (string * list (string * string)))
         (valid_missions_aws : list string)
         (get_receiver_satellites : string -> list (list (string * string)))
         (re_search_group1 : string -> string -> option string)
         (missions processing_centers file_types : list string)
         (nonnominal liveupdate : bool) (fuel : nat) (first last : date)
         (UCARprefix ROMSAFprefix JPLprefix EUMETSATprefix : option string)
         (session : option Session) (job_definitions : pyval) (t : list event),
    definejobs ls isdir listdir reformatters valid_missions_aws
      get_receiver_satellites re_search_group1 missions processing_centers
      file_types nonnominal liveupdate fuel (first, last)
      UCARprefix ROMSAFprefix JPLprefix EUMETSATprefix session
    = Some (Ok job_definitions, t) ->
    job_definitions = PInt 1
    \/ exists the_prefixes the_jobs,
         job_definitions
         = PDict [("prefixes", PDict the_prefixes); ("jobs", PList the_jobs)]
         /\ Forall (requested_job first last missions processing_centers file_types)
              the_jobs.
Proof.
  intros ls isdir listdir reformatters valid get_sats re missions pcs fts
         nonnominal liveupdate fuel first last p1 p2 p3 p4 session v t H.
  unfold definejobs in H.
  destruct (check_input reformatters valid missions pcs fts) as [msg|].
  - inversion H; subst. now left.
  - right. destruct (establish_s3fs session) as [[[]|e] t0]; [|discriminate H].
    match type of H with
    | match ?w with _ => _ end = _ => destruct w as [[[st|e] t1]|] eqn:Ew
    end; try discriminate H.
    inversion H; subst. eexists; eexists. split; [reflexivity|].
    cbn [fst snd] in Ew.
    assert (HR : jobs_requested first last missions pcs fts st).
    { refine (while_dates_preserves ls isdir listdir reformatters valid get_sats re
                missions pcs fts nonnominal liveupdate
                (jobs_requested first last missions pcs fts) (visited first last)
                _ _ _ _ _ _ _ _ _ _ _ first last (fun d Hd => Hd) fuel 0 _ st t1 _ Ew).
      - intros s l. now apply jobs_requested_set.
      - intros s l. now apply jobs_requested_set.
      - intros s ty [H1 H2] Hty. split; [exact H1|].
        cbn [set_jpl_file_type jpl_file_type]. intros ty' E. now inversion E; subst.
      - intros s p Hs _. revert Hs. now apply jobs_requested_set.
      - intros s p Hs _. revert Hs. now apply jobs_requested_set.
      - intros s p Hs _ _. revert Hs. now apply jobs_requested_set.
      - intros s p Hs _ _. revert Hs. now apply jobs_requested_set.
      - intros s d m ft path n Hs Hd Hm Hc Hft Hl.
        apply jobs_requested_append; [exact Hs|]. now apply ucar_job.
      - intros s d m path n Hs Hd Hm Hc Hft.
        apply jobs_requested_append; [exact Hs|]. now apply eumetsat_job.
      - intros s d m ft path n Hs Hd Hm Hc Hft Hl Hn.
        apply jobs_requested_append; [exact Hs|]. now apply romsaf_job.
      - intros s d m ty path n Hs Hd Hm Hc Hty Hn.
        apply jobs_requested_append; [exact Hs|]. apply jpl_job; auto.
        destruct Hs as [_ Hs]. now apply Hs.
      - split; [constructor|]. cbn [jpl_file_type]. discriminate. }
    exact (proj1 HR).
Qed.

Lemma definejobs_jobs_answer_the_request_witness :
  a_ucar_result = PInt 1
  \/ exists the_prefixes the_jobs,
       a_ucar_result
       = PDict [("prefixes", PDict the_prefixes); ("jobs", PList the_jobs)]
       /\ Forall (requested_job feb_1_2009 feb_1_2009 ["cosmic1"] ["ucar"] ["level1b"])
            the_jobs.
Proof.
  eapply (definejobs_jobs_answer_the_request ucar_archive (fun _ => false)
            (fun _ => []) some_reformatters some_missions some_satellites some_re
            ["cosmic1"] ["ucar"] ["level1b"] false false 2 feb_1_2009 feb_1_2009
            None None None None (Some a_session)).
  vm_compute. reflexivity.
Defined.

(* ===================================================================== *)
(** ** A break that leaves the loop over the missions *)
(* ===================================================================== *)

Lemma for_each_break_first {A S : Type} (body : A -> S -> M (flow * S))
    (x : A) (l : list A) (s : S) :
  (forall fl s' t, body x s = (Ok (fl, s'), t) -> fl = Break) ->
  for_each (x :: l) body s = for_each [x] body s.
Proof.
  intros H. cbn [for_each]. unfold bind.
  destruct (body x s) as [[[fl s']|e] t] eqn:E; [|reflexivity].
  rewrite (H fl s' t eq_refl). reflexivity.
Qed.

Lemma for_each_single_break {A S : Type} (body : A -> S -> M (flow * S))
    (x : A) (s s' : S) (t : list event) :
  for_each [x] body s = (Ok s', t) ->
  exists fl, body x s = (Ok (fl, s'), t).
Proof.
  cbn [for_each]. unfold bind, ret.
  destruct (body x s) as [[[fl s1]|e] t1]; [|discriminate].
  destruct fl; cbn [fst snd]; intros H; inversion H; subst;
    rewrite app_nil_r; eauto.
Qed.

Lemma check_input_first_mission
    (reformatters : list (string * list (string * string)))
    (valid pcs fts : list string) (m : string) (rest : list string) :
  check_input reformatters valid (m :: rest) pcs fts = None ->
  check_input reformatters valid [m] pcs fts = None.
Proof.
  unfold check_input.
  destruct (find _ pcs); [discriminate|].
  destruct (find _ fts); [discriminate|].
  cbn [find]. destruct (negb (str_in m valid)); [discriminate|reflexivity].
Qed.

Section FirstMissionOnly.

Variable ls : string -> option (list string).
Variable isdir : string -> bool.
Variable listdir : string -> list string.
Variable reformatters : list (string * list (string * string)).
Variable valid_missions_aws : list string.
Variable get_receiver_satellites : string -> list (list (string * string)).
Variable re_search_group1 : string -> string -> option string.
Variable processing_centers file_types : list string.
Variable nonnominal liveupdate : bool.
Variable m : string.
Variable rest : list string.

(** A property of the locals under which the body of the loop over the
    missions, run for the first mission, ends in a break and keeps it. *)
Variable Q : dj_locals -> Prop.
Hypothesis Q_breaks :
  forall d st fl s t,
    Q st ->
    mission_body ls isdir listdir reformatters valid_missions_aws
      get_receiver_satellites re_search_group1 processing_centers file_types
      nonnominal liveupdate d m st = (Ok (fl, s), t) ->
    fl = Break /\ Q s.

Lemma while_dates_first_mission_only (last : date) :
  forall fuel d st,
    Q st ->
    while_dates ls isdir listdir reformatters valid_missions_aws
      get_receiver_satellites re_search_group1 (m :: rest) processing_centers
      file_types nonnominal liveupdate fuel d last st
    = while_dates ls isdir listdir reformatters valid_missions_aws
        get_receiver_satellites re_search_group1 [m] processing_centers
        file_types nonnominal liveupdate fuel d last st.
Proof.
  induction fuel as [|fuel IH]; intros d st Hst; [reflexivity|].
  cbn [while_dates]. destruct (date_leb d last); [|reflexivity].
  rewrite for_each_break_first
    by (intros fl s t E; exact (proj1 (Q_breaks d st fl s t Hst E))).
  destruct (for_each [m] _ st) as [[st'|e] t] eqn:E; [|reflexivity].
  destruct (for_each_single_break _ _ _ _ _ E) as [fl Eb].
  now rewrite (IH (next_day d) st' (proj2 (Q_breaks d st fl st' t Hst Eb))).
Qed.

Lemma definejobs_first_mission_only (fuel : nat) (daterange : date * date)
    (p1 p2 p3 p4 : option string) (session : option Session) :
  Q (dj_initial p1 p2 p3 p4) ->
  check_input reformatters valid_missions_aws (m :: rest) processing_centers
    file_types = None ->
  definejobs ls isdir listdir reformatters valid_missions_aws
    get_receiver_satellites re_search_group1 (m :: rest) processing_centers
    file_types nonnominal liveupdate fuel daterange p1 p2 p3 p4 session
  = definejobs ls isdir listdir reformatters valid_missions_aws
      get_receiver_satellites re_search_group1 [m] processing_centers
      file_types nonnominal liveupdate fuel daterange p1 p2 p3 p4 session.
Proof.
  intros HQ Hc. unfold definejobs.
  rewrite Hc, (check_input_first_mission _ _ _ _ _ _ Hc).
  destruct (establish_s3fs session) as [[[]|e] t0]; [|reflexivity].
  pose proof (while_dates_first_mission_only (snd daterange) fuel (fst daterange)
                _ HQ) as Hw.
  unfold dj_initial in Hw. now rewrite Hw.
Qed.

End FirstMissionOnly.

Ltac side_conditions P :=
  try exact I; try (now left);
  try (unfold P; intros; cbn [set_subdirs set_level set_jpl_file_type set_UCARprefix
                               set_ROMSAFprefix set_JPLprefix set_EUMETSATprefix
                               append_job JPLprefix EUMETSATprefix];
       first [assumption|discriminate]).

Section Breaks.

Variable ls : string -> option (list string).
Variable isdir : string -> bool.
Variable listdir : string -> list string.
Variable reformatters : list (string * list (string * string)).
Variable valid_missions_aws : list string.
Variable get_receiver_satellites : string -> list (list (string * string)).
Variable re_search_group1 : string -> string -> option string.
Variable processing_centers file_types : list string.
Variable nonnominal : bool.
Variable m : string.
Hypothesis m_valid : In m valid_missions_aws.

(** With liveupdate, JPL requested and no JPL prefix, the body ends in the
    break of the JPL branch. *)
Lemma mission_body_breaks_at_jpl (d : date) (st s : dj_locals) (fl : flow)
    (t : list event) :
  In "jpl" processing_centers ->
  JPLprefix st = None ->
  mission_body ls isdir listdir reformatters valid_missions_aws
    get_receiver_satellites re_search_group1 processing_centers file_types
    nonnominal true d m st = (Ok (fl, s), t) ->
  fl = Break /\ JPLprefix s = None.
Proof.
  intros Hc Hst E. unfold mission_body in E.
  set (P := fun st : dj_locals => JPLprefix st = None).
  destruct (ucar_branch _ _ _ _ _ _ _ true d m st) as [[st1|e] t1] eqn:E1;
    [|discriminate E].
  assert (H1 : P st1).
  { refine ((_ : preserves P (fun s => s) _) st1 t1 E1).
    eapply ucar_branch_preserves with (missions := [m]) (D := fun _ : date => True);
      side_conditions P. }
  rewrite bind_Ok in E.
  destruct (romsaf_branch _ _ _ _ _ _ _ _ true d m st1) as [[st2|e] t2] eqn:E2;
    [|discriminate E].
  assert (H2 : P st2).
  { refine ((_ : preserves P (fun s => s) _) st2 t2 E2).
    eapply romsaf_branch_preserves with (missions := [m]) (D := fun _ : date => True);
      side_conditions P. }
  rewrite bind_Ok in E. cbn [fst snd] in E.
  unfold jpl_branch in E.
  rewrite (proj2 (str_in_In _ _) Hc), (proj2 (str_in_In _ _) m_valid) in E.
  cbn [andb] in E. unfold P in H2. rewrite H2 in E.
  unfold LOGGER_error, emit, bind, ret in E. cbn [fst snd] in E.
  inversion E; subst. split; [reflexivity|exact H2].
Qed.

(** Without liveupdate, EUMETSAT requested and no EUMETSAT prefix, the body
    ends in a break: that of the EUMETSAT branch, if not the JPL one. *)
Lemma mission_body_breaks_at_eumetsat (d : date) (st s : dj_locals) (fl : flow)
    (t : list event) :
  In "eumetsat" processing_centers ->
  EUMETSATprefix st = None ->
  mission_body ls isdir listdir reformatters valid_missions_aws
    get_receiver_satellites re_search_group1 processing_centers file_types
    nonnominal false d m st = (Ok (fl, s), t) ->
  fl = Break /\ EUMETSATprefix s = None.
Proof.
  intros Hc Hst E. unfold mission_body in E.
  set (P := fun st : dj_locals => EUMETSATprefix st = None).
  destruct (ucar_branch _ _ _ _ _ _ _ false d m st) as [[st1|e] t1] eqn:E1;
    [|discriminate E].
  assert (H1 : P st1).
  { refine ((_ : preserves P (fun s => s) _) st1 t1 E1).
    eapply ucar_branch_preserves with (missions := [m]) (D := fun _ : date => True);
      side_conditions P. }
  rewrite bind_Ok in E.
  destruct (romsaf_branch _ _ _ _ _ _ _ _ false d m st1) as [[st2|e] t2] eqn:E2;
    [|discriminate E].
  assert (H2 : P st2).
  { refine ((_ : preserves P (fun s => s) _) st2 t2 E2).
    eapply romsaf_branch_preserves with (missions := [m]) (D := fun _ : date => True);
      side_conditions P. }
  rewrite bind_Ok in E. cbn [fst snd] in E.
  destruct (jpl_branch _ _ _ _ _ _ _ false d m st2) as [[[fl3 st3]|e] t3] eqn:E3;
    [|discriminate E].
  assert (H3 : P st3).
  { refine ((_ : preserves P snd _) (fl3, st3) t3 E3).
    eapply jpl_branch_preserves with (missions := [m]) (D := fun _ : date => True);
      side_conditions P. }
  rewrite bind_Ok in E. cbn [fst snd] in E.
  destruct fl3.
  - unfold eumetsat_branch in E.
    rewrite (proj2 (str_in_In _ _) Hc), (proj2 (str_in_In _ _) m_valid) in E.
    cbn [andb] in E. unfold P in H3. rewrite H3 in E.
    unfold LOGGER_error, emit, bind, ret in E. cbn [fst snd] in E.
    inversion E; subst. split; [reflexivity|exact H3].
  - unfold ret in E. cbn [fst snd] in E. inversion E; subst.
    split; [reflexivity|exact H3].
Qed.

End Breaks.

Lemma valid_request_first
    (reformatters : list (string * list (string * string)))
    (valid pcs fts : list string) (m : string) (rest : list string) :
  valid_request reformatters valid (m :: rest) pcs fts -> In m valid.
Proof. intros (_ & _ & H). now inversion H. Qed.

(** X16. With liveupdate set, JPL among the requested centers and no JPL
    prefix given, the break of the JPL branch leaves the loop over the
    missions on every day: definejobs returns for a list of missions what it
    returns for the first of them alone, so that no mission after the first
    is scanned for any center. *)
Theorem jpl_liveupdate_scans_first_mission_only :
  forall (ls : string -> option (list string)) (isdir : string -> bool)
         (listdir : string -> list string)
         (reformatters : list (string * list (string * string)))
         (valid_missions_aws : list string)
         (get_receiver_satellites : string -> list (list (string * string)))
         (re_search_group1 : string -> string -> option string)
         (m : string) (rest processing_centers file_types : list string)
         (nonnominal : bool) (fuel : nat) (daterange : date * date)
         (UCARprefix ROMSAFprefix EUMETSATprefix : option string)
         (session : option Session),
    valid_request reformatters valid_missions_aws (m :: rest) processing_centers
      file_types ->
    In "jpl" processing_centers ->
    definejobs ls isdir listdir reformatters valid_missions_aws
      get_receiver_satellites re_search_group1 (m :: rest) processing_centers
      file_types nonnominal true fuel daterange
      UCARprefix ROMSAFprefix None EUMETSATprefix session
    = definejobs ls isdir listdir reformatters valid_missions_aws
        get_receiver_satellites re_search_group1 [m] processing_centers
        file_types nonnominal true fuel daterange
        UCARprefix ROMSAFprefix None EUMETSATprefix session.
Proof.
  intros ls isdir listdir reformatters valid get_sats re m rest pcs fts
         nonnominal fuel daterange p1 p2 p4 session Hv Hc.
  apply definejobs_first_mission_only with (Q := fun st => JPLprefix st = None).
  - intros d st fl s t Hst E.
    exact (mission_body_breaks_at_jpl ls isdir listdir reformatters valid get_sats
             re pcs fts nonnominal m (valid_request_first _ _ _ _ _ _ Hv)
             d st s fl t Hc Hst E).
  - reflexivity.
  - now apply check_input_valid.
Qed.

Lemma jpl_liveupdate_scans_first_mission_only_witness :
  definejobs no_archive (fun _ => false) (fun _ => []) four_reformatters
    some_missions four_satellites some_re ["cosmic1"; "metop"] ["ucar"; "jpl"]
    ["level1b"] false true 2 (feb_1_2009, feb_1_2009) None None None None
    (Some a_session)
  = definejobs no_archive (fun _ => false) (fun _ => []) four_reformatters
      some_missions four_satellites some_re ["cosmic1"] ["ucar"; "jpl"]
      ["level1b"] false true 2 (feb_1_2009, feb_1_2009) None None None None
      (Some a_session).
Proof.
  apply (jpl_liveupdate_scans_first_mission_only no_archive (fun _ => false)
           (fun _ => []) four_reformatters some_missions four_satellites some_re
           "cosmic1" ["metop"] ["ucar"; "jpl"] ["level1b"] false 2
           (feb_1_2009, feb_1_2009) None None None (Some a_session)).
  - repeat split; repeat constructor; simpl; tauto.
  - simpl; tauto.
Defined.

(** X17. Without liveupdate, EUMETSAT among the requested centers and no
    EUMETSAT prefix given, a break leaves the loop over the missions on every
    day: definejobs returns for a list of missions what it returns for the
    first of them alone, and so does createjobdefinitionsjson, which never
    sets liveupdate. *)
Theorem eumetsat_archive_scans_first_mission_only :
  forall (ls : string -> option (list string)) (isdir : string -> bool)
         (listdir : string -> list string)
         (reformatters : list (string * list (string * string)))
         (valid_missions_aws : list string)
         (get_receiver_satellites : string -> list (list (string * string)))
         (re_search_group1 : string -> string -> option string)
         (m : string) (rest processing_centers file_types : list string)
         (nonnominal : bool) (fuel : nat) (daterange : date * date)
         (UCARprefix ROMSAFprefix JPLprefix : option string)
         (session : option Session) (jsonfile : string),
    valid_request reformatters valid_missions_aws (m :: rest) processing_centers
      file_types ->
    In "eumetsat" processing_centers ->
    definejobs ls isdir listdir reformatters valid_missions_aws
      get_receiver_satellites re_search_group1 (m :: rest) processing_centers
      file_types nonnominal false fuel daterange
      UCARprefix ROMSAFprefix JPLprefix None session
    = definejobs ls isdir listdir reformatters valid_missions_aws
        get_receiver_satellites re_search_group1 [m] processing_centers
        file_types nonnominal false fuel daterange
        UCARprefix ROMSAFprefix JPLprefix None session
    /\ createjobdefinitionsjson ls isdir listdir reformatters valid_missions_aws
         get_receiver_satellites re_search_group1 fuel daterange (m :: rest)
         processing_centers file_types jsonfile
         UCARprefix ROMSAFprefix JPLprefix None session
       = createjobdefinitionsjson ls isdir listdir reformatters valid_missions_aws
           get_receiver_satellites re_search_group1 fuel daterange [m]
           processing_centers file_types jsonfile
           UCARprefix ROMSAFprefix JPLprefix None session.
Proof.
  intros ls isdir listdir reformatters valid get_sats re m rest pcs fts
         nonnominal fuel daterange p1 p2 p3 session jsonfile Hv Hc.
  assert (E : forall nn,
             definejobs ls isdir listdir reformatters valid get_sats re (m :: rest)
               pcs fts nn false fuel daterange p1 p2 p3 None session
             = definejobs ls isdir listdir reformatters valid get_sats re [m]
                 pcs fts nn false fuel daterange p1 p2 p3 None session).
  { intros nn.
    apply definejobs_first_mission_only with (Q := fun st => EUMETSATprefix st = None).
    - intros d st fl s t Hst E.
      exact (mission_body_breaks_at_eumetsat ls isdir listdir reformatters valid
               get_sats re pcs fts nn m (valid_request_first _ _ _ _ _ _ Hv)
               d st s fl t Hc Hst E).
    - reflexivity.
    - now apply check_input_valid. }
  split; [apply E|]. unfold createjobdefinitionsjson. now rewrite E.
Qed.

Lemma eumetsat_archive_scans_first_mission_only_witness :
  definejobs no_archive (fun _ => false) (fun _ => []) four_reformatters
    some_missions four_satellites some_re ["cosmic1"; "metop"] ["ucar"; "eumetsat"]
    ["level1b"] false false 2 (feb_1_2009, feb_1_2009) None None None None
    (Some a_session)
  = definejobs no_archive (fun _ => false) (fun _ => []) four_reformatters
      some_missions four_satellites some_re ["cosmic1"] ["ucar"; "eumetsat"]
      ["level1b"] false false 2 (feb_1_2009, feb_1_2009) None None None None
      (Some a_session)
  /\ createjobdefinitionsjson no_archive (fun _ => false) (fun _ => [])
       four_reformatters some_missions four_satellites some_re 2
       (feb_1_2009, feb_1_2009) ["cosmic1"; "metop"] ["ucar"; "eumetsat"]
       ["level1b"] "jobs.json" None None None None (Some a_session)
     = createjobdefinitionsjson no_archive (fun _ => false) (fun _ => [])
         four_reformatters some_missions four_satellites some_re 2
         (feb_1_2009, feb_1_2009) ["cosmic1"] ["ucar"; "eumetsat"]
         ["level1b"] "jobs.json" None None None None (Some a_session).
Proof.
  apply (eumetsat_archive_scans_first_mission_only no_archive (fun _ => false)
           (fun _ => []) four_reformatters some_missions four_satellites some_re
           "cosmic1" ["metop"] ["ucar"; "eumetsat"] ["level1b"] false 2
           (feb_1_2009, feb_1_2009) None None None (Some a_session) "jobs.json").
  - repeat split; repeat constructor; simpl; tauto.
  - simpl; tauto.
Defined.

(* ===================================================================== *)
(** ** Local variables that a branch reads before it has bound them *)
(* ===================================================================== *)

Lemma not_In_str_in (s : string) (l : list string) : ~ In s l -> str_in s l = false.
Proof.
  intros H. destruct (str_in s l) eqn:E; [|reflexivity].
  apply str_in_In in E. contradiction.
Qed.

Lemma romsaf_mission_unbound_subdirs
    (ls : string -> option (list string))
    (re : string -> string -> option string) (ft : string) (fts : list string)
    (nonnominal : bool) (d : date) (mission p rm : string) (st : dj_locals) :
  subdirs st = None ->
  ls (romsaf_year_directory p rm d) = None ->
  ft = "level2a" \/ ft = "level2b" ->
  romsaf_mission ls re (ft :: fts) nonnominal false d mission p rm st
  = (Raise (UnboundLocalError "subdirs"),
     [Ls (romsaf_year_directory p rm d);
      Log INFO ("*** " +++ romsaf_year_directory p rm d +++ " does not exist.")]).
Proof.
  intros Hsub Hls Hft. unfold romsaf_mission.
  fold (romsaf_year_directory p rm d).
  unfold s3_ls. rewrite Hls.
  unfold try_except, bind, emit, raise, ret, LOGGER_info, emit. cbn [app].
  cbn [for_each]. unfold romsaf_file_type.
  destruct Hft as [-> | ->]; cbn [String.eqb Ascii.eqb Bool.eqb];
    rewrite Hsub; reflexivity.
Qed.

Section UnboundLocals.

Variable ls : string -> option (list string).
Variable isdir : string -> bool.
Variable listdir : string -> list string.
Variable reformatters : list (string * list (string * string)).
Variable valid_missions_aws : list string.
Variable get_receiver_satellites : string -> list (list (string * string)).
Variable re_search_group1 : string -> string -> option string.
Variable processing_centers : list string.
Variable nonnominal : bool.

Lemma mission_body_romsaf_unbound_subdirs (d : date) (m ft : string)
    (fts : list string) (st : dj_locals) (r : list (string * string))
    (b rm : string) (rms : list string) :
  ~ In "ucar" processing_centers -> In "romsaf" processing_centers ->
  In m valid_missions_aws ->
  ft = "level2a" \/ ft = "level2b" ->
  assoc "romsaf" reformatters = Some r -> assoc "archiveBucket" r = Some b ->
  center_missions get_receiver_satellites "romsaf" m = (Ok (rm :: rms), []) ->
  ROMSAFprefix st = None -> subdirs st = None ->
  ls (romsaf_year_directory ("s3://" +++ b) rm d) = None ->
  mission_body ls isdir listdir reformatters valid_missions_aws
    get_receiver_satellites re_search_group1 processing_centers (ft :: fts)
    nonnominal false d m st
  = (Raise (UnboundLocalError "subdirs"),
     [Ls (romsaf_year_directory ("s3://" +++ b) rm d);
      Log INFO ("*** " +++ romsaf_year_directory ("s3://" +++ b) rm d
                +++ " does not exist.")]).
Proof.
  intros Hu Hc Hm Hft Hr Hb Hcm Hp Hsub Hls.
  unfold mission_body, ucar_branch.
  rewrite (not_In_str_in _ _ Hu). cbn [andb]. rewrite bind_ret_l.
  unfold romsaf_branch.
  rewrite (proj2 (str_in_In _ _) Hc), (proj2 (str_in_In _ _) Hm). cbn [andb].
  rewrite Hp. unfold registry. rewrite Hr, Hb. rewrite !bind_ret_l.
  rewrite Hcm, bind_ret_l_raw. cbn [for_each].
  rewrite (romsaf_mission_unbound_subdirs ls re_search_group1 ft fts nonnominal d m
             ("s3://" +++ b) rm (set_ROMSAFprefix st ("s3://" +++ b)) Hsub Hls Hft).
  reflexivity.
Qed.

(** X18. A year directory of the ROM SAF archive that cannot be listed is
    not skipped when nothing has been listed before it: with UCAR not
    requested, ROM SAF requested from its archive bucket and level2a or
    level2b as the first file type, definejobs logs that the directory does
    not exist and then raises UnboundLocalError for the subdirectories it
    never got. *)
Theorem romsaf_missing_year_directory_raises :
  forall (m : string) (ms : list string) (ft : string) (fts : list string)
         (fuel : nat) (first last : date)
         (UCARprefix JPLprefix EUMETSATprefix : option string) (s : Session)
         (r : list (string * string)) (b rm : string) (rms : list string),
    valid_request reformatters valid_missions_aws (m :: ms) processing_centers
      (ft :: fts) ->
    ~ In "ucar" processing_centers -> In "romsaf" processing_centers ->
    ft = "level2a" \/ ft = "level2b" ->
    assoc "romsaf" reformatters = Some r -> assoc "archiveBucket" r = Some b ->
    center_missions get_receiver_satellites "romsaf" m = (Ok (rm :: rms), []) ->
    date_leb first last = true ->
    ls (romsaf_year_directory ("s3://" +++ b) rm first) = None ->
    definejobs ls isdir listdir reformatters valid_missions_aws
      get_receiver_satellites re_search_group1 (m :: ms) processing_centers
      (ft :: fts) nonnominal false (S fuel) (first, last)
      UCARprefix None JPLprefix EUMETSATprefix (Some s)
    = Some (Raise (UnboundLocalError "subdirs"),
            [Ls (romsaf_year_directory ("s3://" +++ b) rm first);
             Log INFO ("*** " +++ romsaf_year_directory ("s3://" +++ b) rm first
                       +++ " does not exist.")]).
Proof.
  intros m ms ft fts fuel first last p1 p3 p4 s r b rm rms
         Hv Hu Hc Hft Hr Hb Hcm Hd Hls.
  unfold definejobs. rewrite (check_input_valid _ _ _ _ _ Hv).
  unfold establish_s3fs, session_region_name. rewrite bind_ret_l.
  unfold ret at 1. cbn [fst snd while_dates]. rewrite Hd. cbn [for_each].
  pose proof (mission_body_romsaf_unbound_subdirs first m ft fts
                (dj_initial p1 None p3 p4) r b rm rms
                Hu Hc (valid_request_first _ _ _ _ _ _ Hv) Hft Hr Hb Hcm
                eq_refl eq_refl Hls) as Hmb.
  unfold dj_initial in Hmb. rewrite Hmb. reflexivity.
Qed.

Lemma jpl_file_type_body_unbound (d : date) (mission p ft : string)
    (st : dj_locals) :
  ~ In ft aws_levels -> jpl_file_type st = None ->
  jpl_file_type_body ls isdir listdir d mission p ft st
  = (Raise (UnboundLocalError "jpl_file_type"), [Log ERROR (jpl_unrecognized ft)]).
Proof.
  intros Hft Hty. unfold jpl_file_type_body.
  assert (H1 : String.eqb ft "level1b" = false)
    by (apply String.eqb_neq; intros ->; apply Hft; simpl; tauto).
  assert (H2 : String.eqb ft "level2a" = false)
    by (apply String.eqb_neq; intros ->; apply Hft; simpl; tauto).
  assert (H3 : String.eqb ft "level2b" = false)
    by (apply String.eqb_neq; intros ->; apply Hft; simpl; tauto).
  rewrite H1, H2, H3. fold (jpl_unrecognized ft).
  unfold LOGGER_error, emit, bind, ret. cbn [fst snd].
  rewrite Hty. reflexivity.
Qed.

(** X19. The input check takes every key of a center in the registry for a
    file type, the bucket names among them.  With only JPL requested, from
    its archive bucket, and a first file type that passes the check without
    being level1b, level2a or level2b, definejobs logs the file type as
    unrecognized and then raises UnboundLocalError for the JPL file type it
    never chose. *)
Theorem jpl_unrecognized_file_type_raises :
  forall (m : string) (ms : list string) (ft : string) (fts : list string)
         (fuel : nat) (first last : date)
         (UCARprefix ROMSAFprefix EUMETSATprefix : option string) (s : Session)
         (r : list (string * string)) (b : string),
    valid_request reformatters valid_missions_aws (m :: ms) processing_centers
      (ft :: fts) ->
    ~ In "ucar" processing_centers -> ~ In "romsaf" processing_centers ->
    In "jpl" processing_centers ->
    ~ In ft aws_levels ->
    assoc "jpl" reformatters = Some r -> assoc "archiveBucket" r = Some b ->
    date_leb first last = true ->
    definejobs ls isdir listdir reformatters valid_missions_aws
      get_receiver_satellites re_search_group1 (m :: ms) processing_centers
      (ft :: fts) nonnominal false (S fuel) (first, last)
      UCARprefix ROMSAFprefix None EUMETSATprefix (Some s)
    = Some (Raise (UnboundLocalError "jpl_file_type"),
            [Log ERROR (jpl_unrecognized ft)]).
Proof.
  intros m ms ft fts fuel first last p1 p2 p4 s r b
         Hv Hu Hro Hc Hft Hr Hb Hd.
  unfold definejobs. rewrite (check_input_valid _ _ _ _ _ Hv).
  unfold establish_s3fs, session_region_name. rewrite bind_ret_l.
  unfold ret at 1. cbn [fst snd while_dates]. rewrite Hd. cbn [for_each].
  unfold mission_body, ucar_branch, romsaf_branch.
  rewrite (not_In_str_in _ _ Hu), (not_In_str_in _ _ Hro). cbn [andb].
  rewrite !bind_ret_l. unfold jpl_branch.
  rewrite (proj2 (str_in_In _ _) Hc),
          (proj2 (str_in_In _ _) (valid_request_first _ _ _ _ _ _ Hv)).
  cbn [andb JPLprefix]. unfold registry. rewrite Hr, Hb, bind_ret_l.
  cbn [for_each].
  pose proof (jpl_file_type_body_unbound first m ("s3://" +++ b) ft
                (set_JPLprefix (dj_initial p1 p2 None p4) ("s3://" +++ b)) Hft eq_refl)
    as Hjb.
  unfold dj_initial in Hjb. rewrite Hjb. reflexivity.
Qed.

End UnboundLocals.

Lemma romsaf_missing_year_directory_raises_witness :
  definejobs no_archive (fun _ => false) (fun _ => []) four_reformatters
    some_missions four_satellites some_re ["cosmic1"] ["romsaf"] ["level2a"]
    false false 1 (feb_1_2009, feb_1_2009) None None None None (Some a_session)
  = Some (Raise (UnboundLocalError "subdirs"),
          [Ls (romsaf_year_directory ("s3://" +++ "romsaf-bucket") "cosmic" feb_1_2009);
           Log INFO ("*** "
                     +++ romsaf_year_directory ("s3://" +++ "romsaf-bucket") "cosmic"
                           feb_1_2009
                     +++ " does not exist.")]).
Proof.
  apply (romsaf_missing_year_directory_raises no_archive (fun _ => false)
           (fun _ => []) four_reformatters some_missions four_satellites some_re
           ["romsaf"] false "cosmic1" [] "level2a" [] 0 feb_1_2009 feb_1_2009
           None None None a_session
           [("archiveBucket", "romsaf-bucket"); ("liveupdateBucket", "romsaf-live");
            ("level2a", "level2a2aws"); ("level2b", "level2b2aws")]
           "romsaf-bucket" "cosmic" []).
  - repeat split; repeat constructor; simpl; tauto.
  - simpl. intuition discriminate.
  - simpl; tauto.
  - now left.
  - reflexivity.
  - reflexivity.
  - reflexivity.
  - reflexivity.
  - reflexivity.
Defined.

Lemma jpl_unrecognized_file_type_raises_witness :
  definejobs no_archive (fun _ => false) (fun _ => []) four_reformatters
    some_missions four_satellites some_re ["cosmic1"] ["jpl"] ["archiveBucket"]
    false false 1 (feb_1_2009, feb_1_2009) None None None None (Some a_session)
  = Some (Raise (UnboundLocalError "jpl_file_type"),
          [Log ERROR (jpl_unrecognized "archiveBucket")]).
Proof.
  apply (jpl_unrecognized_file_type_raises no_archive (fun _ => false) (fun _ => [])
           four_reformatters some_missions four_satellites some_re ["jpl"] false
           "cosmic1" [] "archiveBucket" [] 0 feb_1_2009 feb_1_2009
           None None None a_session
           [("archiveBucket", "jpl-bucket");
            ("level1b", "level1b2aws"); ("level2a", "level2a2aws");
            ("level2b", "level2b2aws")] "jpl-bucket").
  - repeat split; repeat constructor; simpl; tauto.
  - simpl. intuition discriminate.
  - simpl. intuition discriminate.
  - simpl; tauto.
  - simpl. intuition discriminate.
  - reflexivity.
  - reflexivity.
  - reflexivity.
Defined.

(* ===================================================================== *)
(** ** sorted( list( set( ... ) ) ) *)
(* ===================================================================== *)

Lemma ascii_compare_lt_trans (a b c : ascii) :
  Ascii.compare a b = Lt -> Ascii.compare b c = Lt -> Ascii.compare a c = Lt.
Proof.
  unfold Ascii.compare. rewrite !N.compare_lt_iff. intros H1 H2.
  now apply N.lt_trans with (N_of_ascii b).
Qed.

Lemma str_lt_trans (a b c : string) : str_lt a b -> str_lt b c -> str_lt a c.
Proof.
  unfold str_lt. revert b c. induction a as [|x a IH]; intros b c H1 H2.
  - destruct b as [|y b]; [discriminate H1|].
    destruct c as [|z c]; [discriminate H2|reflexivity].
  - destruct b as [|y b]; [discriminate H1|].
    destruct c as [|z c]; [discriminate H2|].
    + simpl in H1, H2 |- *.
      destruct (Ascii.compare x y) eqn:Exy; try discriminate H1.
      * apply Ascii.compare_eq_iff in Exy. rewrite Exy.
        destruct (Ascii.compare y z); try discriminate H2; [|reflexivity].
        now apply IH with b.
      * destruct (Ascii.compare y z) eqn:Eyz; try discriminate H2.
        -- apply Ascii.compare_eq_iff in Eyz. rewrite <- Eyz, Exy. reflexivity.
        -- now rewrite (ascii_compare_lt_trans x y z Exy Eyz).
Qed.

Lemma insert_sorted_In (s x : string) (l : list string) :
  In x (insert_sorted s l) <-> x = s \/ In x l.
Proof.
  induction l as [|y l IH]; cbn [insert_sorted].
  - simpl. intuition.
  - destruct (String.compare s y) eqn:E.
    + apply String.compare_eq_iff in E. subst y. simpl. intuition.
    + simpl. intuition.
    + simpl. rewrite IH. intuition.
Qed.

Lemma insert_sorted_HdRel (s y : string) (l : list string) :
  str_lt y s -> HdRel str_lt y l -> HdRel str_lt y (insert_sorted s l).
Proof.
  intros Hys Hl. destruct l as [|z l]; cbn [insert_sorted].
  - now constructor.
  - destruct (String.compare s z); [exact Hl|now constructor|].
    constructor. now inversion Hl.
Qed.

Lemma insert_sorted_Sorted (s : string) (l : list string) :
  Sorted str_lt l -> Sorted str_lt (insert_sorted s l).
Proof.
  induction 1 as [|y l Hl IH Hy]; cbn [insert_sorted].
  - repeat constructor.
  - destruct (String.compare s y) eqn:E.
    + now constructor.
    + constructor; [now constructor|]. now constructor.
    + constructor; [exact IH|]. apply insert_sorted_HdRel; [|exact Hy].
      unfold str_lt. rewrite String.compare_antisym, E. reflexivity.
Qed.

Lemma sorted_set_In (x : string) (l : list string) : In x (sorted_set l) <-> In x l.
Proof.
  unfold sorted_set. induction l as [|y l IH]; cbn [fold_right]; [tauto|].
  rewrite insert_sorted_In, IH. simpl. intuition.
Qed.

Lemma sorted_set_sorted (l : list string) : StronglySorted str_lt (sorted_set l).
Proof.
  apply Sorted_StronglySorted; [exact str_lt_trans|].
  unfold sorted_set. induction l as [|y l IH]; cbn [fold_right];
    [constructor|now apply insert_sorted_Sorted].
Qed.

(** X20. The partner missions definejobs loops over for a center and an AWS
    mission come in strictly ascending order, so none twice, and they are
    exactly the mission names the satellites of the AWS mission have for
    that center. *)
Theorem center_missions_sorted_set :
  forall (get_receiver_satellites : string -> list (list (string * string)))
         (center mission : string) (names : list string) (t : list event),
    center_missions get_receiver_satellites center mission = (Ok names, t) ->
    StronglySorted str_lt names
    /\ forall x, In x names
                 <-> exists sat, In sat (get_receiver_satellites mission)
                                 /\ assoc center sat = Some x.
Proof.
  intros get_sats center mission names t. unfold center_missions.
  generalize (get_sats mission) as sats. intros sats.
  match goal with
  | |- bind ?c _ = _ -> _ => destruct c as [[l|e] t1] eqn:Ec
  end; [|discriminate].
  rewrite bind_Ok. cbn [fst snd ret]. intros H. inversion H; subst. clear H.
  split; [apply sorted_set_sorted|]. intros x. rewrite sorted_set_In.
  revert l t1 Ec. induction sats as [|sat sats IH]; intros l t1 Ec.
  - inversion Ec; subst. simpl. split; [tauto|]. intros (sat & [] & _).
  - destruct (assoc center sat) as [nm|] eqn:Ea; [|discriminate Ec].
    match type of Ec with
    | bind ?c _ = _ => destruct c as [[l'|e] t2] eqn:Ec'
    end; [|discriminate Ec].
    rewrite bind_Ok in Ec. cbn [fst snd ret] in Ec. inversion Ec; subst.
    specialize (IH l' t2 eq_refl). simpl. rewrite IH. split.
    + intros [<-|(sat' & Hin & Hs)]; [exists sat; auto|exists sat'; auto].
    + intros (sat' & [<-|Hin] & Hs); [left; congruence|right; eauto].
Qed.

Lemma center_missions_sorted_set_witness :
  StronglySorted str_lt ["metopa"; "metopb"]
  /\ forall x, In x ["metopa"; "metopb"]
               <-> exists sat, In sat (four_satellites "metop")
                               /\ assoc "ucar" sat = Some x.
Proof.
  apply (center_missions_sorted_set four_satellites "ucar" "metop"
           ["metopa"; "metopb"] []).
  reflexivity.
Defined.

(* ===================================================================== *)
(** ** The directory of a JPL job, from definejobs to the iterator *)
(* ===================================================================== *)

Lemma str_upto_length (n : nat) (p : string) :
  String.length (str_upto n p) = n -> n <= String.length p.
Proof.
  revert p. induction n as [|n IH]; intros p H; [lia|].
  destruct p as [|c p]; [discriminate H|].
  simpl in H |- *. apply le_n_S, IH. lia.
Qed.

Lemma os_path_join_relative (a b : string) :
  a <> EmptyString -> str_endswith "/" a = false -> relative_name b = true ->
  os_path_join a b = a +++ "/" +++ b.
Proof.
  intros Ha He Hb. unfold os_path_join.
  destruct b as [|c b]; [discriminate Hb|].
  cbn [relative_name] in Hb. cbn [str_startswith].
  apply negb_true_iff in Hb. rewrite Hb. cbn [andb].
  rewrite He, orb_false_r.
  destruct (String.eqb_spec a EmptyString); [contradiction|reflexivity].
Qed.

Lemma bind_Ok_inv {A B} (m : M A) (k : A -> M B) (b : B) (t : list event) :
  bind m k = (Ok b, t) ->
  exists a t1 t2, m = (Ok a, t1) /\ k a = (Ok b, t2) /\ t = t1 ++ t2.
Proof.
  unfold bind. destruct m as [[a|e] t1]; [|discriminate].
  destruct (k a) as [r t2] eqn:Ek. intros H. inversion H; subst.
  exists a, t1, t2. auto.
Qed.

(** X21. A job of the JPL branch on an S3 prefix names its directory
    relative to the prefix as mission/file type/YYYY/MM/DD, whatever the
    number of components of the prefix: joined to the prefix again, as the
    iterator does, it is the directory definejobs listed, and the number of
    files of the job is the number of tuples the iterator returns for it. *)
Theorem jpl_job_directory_round_trip :
  forall (ls : string -> option (list string)) (isdir : string -> bool)
         (listdir : string -> list string) (d : date)
         (mission the_prefix file_type : string) (st st' : dj_locals) (fl : flow)
         (t : list event),
    str_upto 5 the_prefix = "s3://" -> str_endswith "/" the_prefix = false ->
    relative_name mission = true ->
    jpl_file_type_body ls isdir listdir d mission the_prefix file_type st
    = (Ok (fl, st'), t) ->
    dj_jobs st' = dj_jobs st
    \/ exists the_type files job,
         dj_jobs st' = dj_jobs st ++ [job]
         /\ job = job_dict_romsaf_order (date_iso d) mission "jpl" the_type
                    (jpl_relative_dir mission the_type d)
                    (List.length (filter re_search_nc files))
         /\ In (Ls (os_path_join the_prefix (jpl_relative_dir mission the_type d))) t
         /\ describes ls [("jpl", PStr the_prefix)] job
              (jpl_listed the_prefix mission the_type d files)
         /\ List.length (tuples_of (jpl_listed the_prefix mission the_type d files))
            = List.length (filter re_search_nc files)
         /\ 0 < List.length (filter re_search_nc files).
Proof.
  intros ls isdir listdir d mission p ft st st' fl t Hs3 Hend Hm E.
  assert (Hlen : 5 <= String.length p)
    by (apply str_upto_length; now rewrite Hs3).
  assert (Hp : p <> EmptyString) by (intros ->; simpl in Hlen; lia).
  unfold jpl_file_type_body in E.
  apply bind_Ok_inv in E. destruct E as (st1 & t1 & t1' & E1 & E & ->).
  assert (Hjobs1 : dj_jobs st1 = dj_jobs st).
  { revert E1. unfold LOGGER_error, emit, bind, ret.
    destruct (String.eqb ft "level1b"); [intros H; now inversion H|].
    destruct (String.eqb ft "level2a"); [intros H; now inversion H|].
    destruct (String.eqb ft "level2b"); intros H; now inversion H. }
  apply bind_Ok_inv in E. destruct E as (ty & tb & tb' & Eb & E & ->).
  rewrite Hs3 in E. cbn [String.eqb Ascii.eqb Bool.eqb] in E.
  cbn [str_join] in E. fold (jpl_relative_dir mission ty d) in E.
  set (rel := jpl_relative_dir mission ty d) in *.
  assert (Hrel : relative_name rel = true).
  { unfold rel, jpl_relative_dir. destruct mission; [discriminate Hm|exact Hm]. }
  set (path := p +++ "/" +++ rel) in *.
  assert (Hdir : str_join "/"
                   (skipn (List.length (str_split "/" (str_from 5 p)))
                          (str_split "/" (str_from 5 path))) = rel).
  { unfold path. rewrite (str_from_app 5 p _ Hlen).
    change ("/" +++ rel) with (String "/"%char rel).
    rewrite str_split_app, skipn_app, skipn_all, Nat.sub_diag.
    cbn [skipn app]. apply str_join_split. }
  rewrite Hdir in E.
  assert (Hjoin : os_path_join p rel = path)
    by (now apply os_path_join_relative).
  apply bind_Ok_inv in E. destruct E as (listed & t2 & t2' & E2 & E & ->).
  pose proof (try_ls_shape ls _ _ _ _ _ E2) as Hls.
  assert (Hin : In (Ls path) t2).
  { revert E2. unfold try_ls, try_except, s3_ls, bind, emit, ret, raise.
    destruct (ls path); intros H; inversion H; subst; simpl; tauto. }
  destruct listed as [files|].
  - destruct (Nat.ltb_spec 0 (List.length (filter re_search_nc files))) as [Hn|Hn].
    + right. unfold LOGGER_info, emit, bind, ret in E. cbn [fst snd] in E.
      inversion E; subst fl st' t2'. clear E. exists ty, files.
      eexists. split; [cbn [append_job dj_jobs]; now rewrite Hjobs1|].
      split; [reflexivity|]. split.
      { fold rel. rewrite Hjoin. apply in_or_app. right. apply in_or_app. right.
        apply in_or_app. now left. }
      split.
      { eexists. repeat split; try reflexivity.
        cbn [jpl_listed lj_root lj_dir lj_files]. fold rel. now rewrite Hjoin. }
      split; [|exact Hn].
      unfold tuples_of. now rewrite length_map.
    + left. unfold LOGGER_info, emit, bind, ret in E. cbn [fst snd] in E.
      inversion E; subst. exact Hjobs1.
  - left. unfold ret in E. inversion E; subst. exact Hjobs1.
Qed.

Lemma jpl_job_directory_round_trip_witness :
  dj_jobs
    (append_job (set_jpl_file_type no_locals "calibratedPhase")
       (job_dict_romsaf_order "2009-02-01" "cosmic1" "jpl" "calibratedPhase"
          "cosmic1/calibratedPhase/2009/02/01" 2))
  = dj_jobs no_locals
  \/ exists the_type files job,
       dj_jobs
         (append_job (set_jpl_file_type no_locals "calibratedPhase")
            (job_dict_romsaf_order "2009-02-01" "cosmic1" "jpl" "calibratedPhase"
               "cosmic1/calibratedPhase/2009/02/01" 2))
       = dj_jobs no_locals ++ [job]
       /\ job = job_dict_romsaf_order (date_iso feb_1_2009) "cosmic1" "jpl" the_type
                  (jpl_relative_dir "cosmic1" the_type feb_1_2009)
                  (List.length (filter re_search_nc files))
       /\ In (Ls (os_path_join "s3://jpl-bucket"
                    (jpl_relative_dir "cosmic1" the_type feb_1_2009)))
            [Ls "s3://jpl-bucket/cosmic1/calibratedPhase/2009/02/01";
             Log INFO
               (json_dumps None
                  (job_dict_romsaf_order "2009-02-01" "cosmic1" "jpl"
                     "calibratedPhase" "cosmic1/calibratedPhase/2009/02/01" 2))]
       /\ describes jpl_archive [("jpl", PStr "s3://jpl-bucket")] job
            (jpl_listed "s3://jpl-bucket" "cosmic1" the_type feb_1_2009 files)
       /\ List.length
            (tuples_of (jpl_listed "s3://jpl-bucket" "cosmic1" the_type feb_1_2009 files))
          = List.length (filter re_search_nc files)
       /\ 0 < List.length (filter re_search_nc files).
Proof.
  apply (jpl_job_directory_round_trip jpl_archive (fun _ => false) (fun _ => [])
           feb_1_2009 "cosmic1" "s3://jpl-bucket" "level1b" no_locals
           (append_job (set_jpl_file_type no_locals "calibratedPhase")
              (job_dict_romsaf_order "2009-02-01" "cosmic1" "jpl" "calibratedPhase"
                 "cosmic1/calibratedPhase/2009/02/01" 2))
           Continue).
  - reflexivity.
  - reflexivity.
  - reflexivity.
  - vm_compute. reflexivity.
Defined.

(* ===================================================================== *)
(** ** find_mission_year_range *)
(* ===================================================================== *)

Lemma f_bind_Returned_inv {A B} (m : F A) (k : A -> F B) (b : B)
    (t : list console) :
  f_bind m k = (Returned b, t) ->
  exists a t1 t2, m = (Returned a, t1) /\ k a = (Returned b, t2) /\ t = t1 ++ t2.
Proof.
  unfold f_bind. destruct m as [[a|e|c] t1]; try discriminate.
  destruct (k a) as [r t2] eqn:Ek. intros H. inversion H; subst.
  exists a, t1, t2. auto.
Qed.

Lemma from_a_listing_app ls (t1 t2 : list console) (y : string) :
  from_a_listing ls t1 y \/ from_a_listing ls t2 y -> from_a_listing ls (t1 ++ t2) y.
Proof.
  intros [(p & l & e & H & Hr)|(p & l & e & H & Hr)]; exists p, l, e;
    (split; [apply in_or_app; auto|exact Hr]).
Qed.

Section YearRangeFacts.

Variable ls : string -> option (list string).

(** The names gathered are those already there and names from listings of
    the trace. *)
Let grows (s s' : list string) (t : list console) : Prop :=
  forall y, In y s' -> In y s \/ from_a_listing ls t y.

Lemma f_ls_grows (path : string) (s l : list string) (t : list console) :
  f_ls ls path = (Returned l, t) -> grows s (append_tails s l) t.
Proof.
  unfold f_ls. destruct (ls path) as [l'|] eqn:E; [|discriminate].
  intros H. inversion H; subst. intros y Hy. unfold append_tails in Hy.
  apply in_app_or in Hy. destruct Hy as [Hy|Hy]; [now left|right].
  apply in_map_iff in Hy. destruct Hy as (e & He & Hin).
  exists path, l, e. simpl. auto.
Qed.

Lemma f_for_grows {A} (body : A -> list string -> F (list string)) (l : list A) :
  (forall x s s' t, body x s = (Returned s', t) -> grows s s' t) ->
  forall s s' t, f_for l body s = (Returned s', t) -> grows s s' t.
Proof.
  intros Hbody. induction l as [|x l IH]; intros s s' t E; cbn [f_for] in E.
  - inversion E; subst. intros y Hy. now left.
  - apply f_bind_Returned_inv in E. destruct E as (s1 & t1 & t2 & E1 & E2 & ->).
    intros y Hy. destruct (IH _ _ _ E2 y Hy) as [H|H].
    + destruct (Hbody _ _ _ _ E1 y H) as [H'|H']; [now left|right].
      apply from_a_listing_app. now left.
    + right. apply from_a_listing_app. now right.
Qed.

Lemma level_body_grows (mission pc : string) (lu : bool) (pv level : string)
    (s s' : list string) (t : list console) :
  level_body ls mission pc lu pv level s = (Returned s', t) -> grows s s' t.
Proof.
  unfold level_body. destruct (_ && _).
  - intros H. inversion H; subst. intros y Hy. now left.
  - intros H. apply f_bind_Returned_inv in H.
    destruct H as (l & t1 & t2 & E1 & E2 & ->). inversion E2; subst.
    rewrite app_nil_r. exact (f_ls_grows _ _ _ _ E1).
Qed.

Lemma receiver_body_grows (cp mission pc : string) (lu : bool) (receiver : string)
    (s s' : list string) (t : list console) :
  receiver_body ls cp mission pc lu receiver s = (Returned s', t) -> grows s s' t.
Proof.
  unfold receiver_body. intros H. apply f_bind_Returned_inv in H.
  destruct H as (pvs & t1 & t2 & E1 & E2 & ->).
  intros y Hy.
  assert (Hg : grows s s' t2).
  { revert E2. apply f_for_grows. intros pv s0 s1 t0.
    apply f_for_grows. intros level. apply level_body_grows. }
  destruct (Hg y Hy) as [H|H]; [now left|right].
  apply from_a_listing_app. now right.
Qed.

End YearRangeFacts.

(** X22. The years find_mission_year_range returns are in strictly ascending
    order of their names, each once, and each is the last component of an
    entry of a listing the function made. *)
Theorem find_mission_year_range_years :
  forall (ls : string -> option (list string))
         (reformatters : list (string * list (string * string)))
         (version : pyval) (mission processing_center : string) (liveupdate : bool)
         (years : list string) (t : list console),
    find_mission_year_range ls reformatters version mission processing_center
      liveupdate = (Returned years, t) ->
    StronglySorted str_lt years
    /\ forall y, In y years -> from_a_listing ls t y.
Proof.
  intros ls reformatters version mission pc lu years t H.
  unfold find_mission_year_range in H.
  apply f_bind_Returned_inv in H. destruct H as (cp & t1 & t2 & _ & H & ->).
  apply f_bind_Returned_inv in H. destruct H as (yl & t3 & t4 & E & H & ->).
  inversion H; subst. clear H. split; [apply sorted_set_sorted|].
  intros y Hy. apply (proj1 (sorted_set_In _ _)) in Hy. rewrite app_nil_r.
  apply from_a_listing_app. right.
  assert (Hg : forall y, In y yl -> In y [] \/ from_a_listing ls t3 y).
  { destruct (String.eqb pc "romsaf").
    - apply f_bind_Returned_inv in E. destruct E as ([] & t5 & t6 & _ & E & ->).
      apply f_bind_Returned_inv in E. destruct E as (l & t7 & t8 & E1 & E2 & ->).
      inversion E2; subst. rewrite app_nil_r. intros y' Hy'.
      destruct (f_ls_grows ls _ [] _ _ E1 y' Hy') as [Hn|Hl]; [now left|right].
      apply from_a_listing_app. now right.
    - destruct (String.eqb pc "jpl").
      + apply f_bind_Returned_inv in E. destruct E as (l & t7 & t8 & E1 & E2 & ->).
        inversion E2; subst. rewrite app_nil_r.
        exact (f_ls_grows ls _ [] _ _ E1).
      + revert E. apply f_for_grows. intros receiver s s' t0.
        apply receiver_body_grows. }
  destruct (Hg y Hy) as [[]|Hl]. exact Hl.
Qed.

Lemma find_mission_year_range_years_witness :
  StronglySorted str_lt ["1995"; "1996"; "1997"]
  /\ forall y, In y ["1995"; "1996"; "1997"] ->
               from_a_listing years_archive
                 [Listing "s3://ucar-bucket/gpsmet";
                  Listing "ucar-bucket/gpsmet/v1/level1b";
                  Listing "ucar-bucket/gpsmet/v1/level2";
                  Listing "s3://ucar-bucket/gpsmetas";
                  Listing "ucar-bucket/gpsmetas/v1/level1b";
                  Listing "ucar-bucket/gpsmetas/v1/level2"] y.
Proof.
  apply (find_mission_year_range_years years_archive some_reformatters PNone
           "gpsmet" "ucar" false).
  vm_compute. reflexivity.
Defined.

(** X23. For JPL with liveupdate, and for EUMETSAT without, the function
    lists nothing: where the registry has the bucket of the center it prints
    one line and ends the program with exit status 0. *)
Theorem find_mission_year_range_exits :
  forall (ls : string -> option (list string))
         (reformatters : list (string * list (string * string)))
         (version : pyval) (mission processing_center : string) (liveupdate : bool)
         (r : list (string * string)) (b : string),
    (processing_center = "jpl" /\ liveupdate = true
     /\ assoc "liveupdateBucket" r = Some b)
    \/ (processing_center = "eumetsat" /\ liveupdate = false
        /\ assoc "archiveBucket" r = Some b) ->
    assoc processing_center reformatters = Some r ->
    exists line,
      find_mission_year_range ls reformatters version mission processing_center
        liveupdate = (Exited 0, [Printed line]).
Proof.
  intros ls reformatters version mission pc lu r b Hcase Hr.
  unfold find_mission_year_range, center_prefix_of, f_registry.
  destruct Hcase as [(-> & -> & Hb)|(-> & -> & Hb)]; rewrite Hr, Hb;
    eexists; reflexivity.
Qed.

Lemma find_mission_year_range_exits_witness :
  exists line,
    find_mission_year_range no_archive
      [("jpl", [("archiveBucket", "jpl-bucket"); ("liveupdateBucket", "jpl-live")])]
      PNone "cosmic1" "jpl" true
    = (Exited 0, [Printed line]).
Proof.
  apply (find_mission_year_range_exits no_archive
           [("jpl", [("archiveBucket", "jpl-bucket"); ("liveupdateBucket", "jpl-live")])]
           PNone "cosmic1" "jpl" true
           [("archiveBucket", "jpl-bucket"); ("liveupdateBucket", "jpl-live")]
           "jpl-live").
  - left. repeat split.
  - reflexivity.
Defined.

(* ===================================================================== *)
(** ** The iterator after its end *)
(* ===================================================================== *)

Lemma never_stops_bind {A B} (m : M A) (k : A -> M B) :
  never_stops m -> (forall a, never_stops (k a)) -> never_stops (bind m k).
Proof.
  intros Hm Hk e t E. unfold bind in E. destruct m as [[a|e'] t1].
  - destruct (k a) as [r t2] eqn:Ek. inversion E; subst. exact (Hk a e t2 Ek).
  - inversion E; subst. exact (Hm e t eq_refl).
Qed.

Lemma never_stops_ret {A} (a : A) : never_stops (ret a).
Proof. intros e t E. discriminate E. Qed.

Lemma py_getitem_never_stops (c k : pyval) : never_stops (py_getitem c k).
Proof.
  intros e t. unfold py_getitem, ret, raise.
  repeat match goal with
         | |- context [match ?x with _ => _ end] => destruct x
         end; intros E; inversion E; discriminate.
Qed.

Lemma os_fspath_never_stops (v : pyval) : never_stops (os_fspath v).
Proof. intros e t. destruct v; intros E; inversion E; discriminate. Qed.

Lemma loadfiles_never_stops ls (p job : pyval) : never_stops (loadfiles ls p job).
Proof.
  unfold loadfiles.
  do 4 (apply never_stops_bind; [apply py_getitem_never_stops|intros ?]).
  do 2 (apply never_stops_bind; [apply os_fspath_never_stops|intros ?]).
  apply never_stops_bind.
  - intros e t. unfold s3_ls, bind, emit, ret, raise.
    destruct (ls _); intros E; inversion E; discriminate.
  - intros files. apply never_stops_bind; [|intros ?; apply never_stops_ret].
    intros e t. unfold LOGGER_error, emit, ret.
    destruct (Nat.eqb _ 0); intros E; discriminate E.
Qed.

Lemma next_tuple_never_stops (self self' : DASKjobs) (e : exn) (t : list event) :
  next_tuple self = (self', (Raise e, t)) -> e <> StopIteration.
Proof.
  unfold next_tuple.
  match goal with
  | |- match ?m with _ => _ end = _ -> _ =>
      assert (H : never_stops m); [|destruct m as [[x|e'] t'] eqn:Em]
  end.
  - do 4 (apply never_stops_bind; [apply py_getitem_never_stops|intros ?]).
    apply never_stops_bind.
    { intros e' t'. destruct (inputfiles self); intros E; inversion E; discriminate. }
    intros f. apply never_stops_bind.
    { intros e' t'. unfold rootpath_split, ret, raise.
      destruct a2; intros E; inversion E; discriminate. }
    intros rs. apply never_stops_bind; [|intros ?; apply never_stops_ret].
    intros e' t'. unfold ret, raise. destruct a2; intros E; inversion E; discriminate.
  - intros E. inversion E.
  - intros E. inversion E; subst. exact (H e t eq_refl).
Qed.

(** X24. When a request to the iterator has raised StopIteration, the
    iterator is left without jobs, and a further request does not raise
    StopIteration again: it raises IndexError, from popping the empty list of
    jobs. *)
Theorem next_after_StopIteration_raises_IndexError :
  forall (ls : string -> option (list string)) (it it' : DASKjobs) (t : list event),
    DASKjobs_next ls it = (it', (Raise StopIteration, t)) ->
    jobs it' = [] /\ inputfiles it' = []
    /\ DASKjobs_next ls it' = (it', (Raise (IndexError "pop from empty list"), [])).
Proof.
  intros ls it it' t E. unfold DASKjobs_next in E.
  destruct (Nat.eqb (List.length (inputfiles it)) 0) eqn:E0.
  - assert (Hf : inputfiles it = [])
      by (apply Nat.eqb_eq in E0; now destruct (inputfiles it)).
    destruct (jobs it) as [|job0 rest]; [discriminate E|].
    destruct rest as [|job1 rest].
    + cbn [List.length Nat.eqb] in E. inversion E; subst.
      cbn [jobs inputfiles]. rewrite Hf. repeat split.
    + exfalso. cbn [List.length Nat.eqb] in E.
      rewrite py_getitem_first, bind_ret_l in E.
      destruct (loadfiles ls (prefixes it) job1) as [[files|e] t1] eqn:El.
      * destruct (next_tuple _) as [self3 [r t']] eqn:En. inversion E; subst.
        now apply (next_tuple_never_stops _ _ _ _ En).
      * inversion E; subst. now apply (loadfiles_never_stops ls _ _ _ _ El).
  - exfalso. now apply (next_tuple_never_stops _ _ _ _ E).
Qed.

Lemma next_after_StopIteration_raises_IndexError_witness :
  jobs {| jobs := []; prefixes := PDict [("ucar", PStr "s3://bucket")];
          inputfiles := [] |} = []
  /\ inputfiles {| jobs := []; prefixes := PDict [("ucar", PStr "s3://bucket")];
                   inputfiles := [] |} = []
  /\ DASKjobs_next an_archive
       {| jobs := []; prefixes := PDict [("ucar", PStr "s3://bucket")];
          inputfiles := [] |}
     = ({| jobs := []; prefixes := PDict [("ucar", PStr "s3://bucket")];
           inputfiles := [] |},
        (Raise (IndexError "pop from empty list"), [])).
Proof.
  apply (next_after_StopIteration_raises_IndexError an_archive
           {| jobs := [a_job "three" 3]; prefixes := PDict [("ucar", PStr "s3://bucket")];
              inputfiles := [] |}
           {| jobs := []; prefixes := PDict [("ucar", PStr "s3://bucket")];
              inputfiles := [] |} []).
  reflexivity.
Defined.

(* ===================================================================== *)
(** ** The UCAR branch stops at the first processing version with a job *)
(* ===================================================================== *)

Lemma try_ls_trace ls (path : string) (lvl : loglevel) (msg : string)
    (l : list string) (t : list event) :
  try_ls ls path lvl msg = (Ok (Some l), t) -> In (Ls path) t.
Proof.
  unfold try_ls, try_except, s3_ls, bind, emit, ret, raise.
  destruct (ls path); intros H; inversion H; subst; simpl; tauto.
Qed.

Section UcarOneJob.

Variable ls : string -> option (list string).
Variable re_search_group1 : string -> string -> option string.
Variable d : date.
Variables mission file_type the_prefix : string.

Lemma ucar_day_job_outcome (L : list string) (st st' : dj_locals) (fl : flow)
    (t : list event) :
  ucar_day_job ls re_search_group1 d mission file_type the_prefix L st
  = (Ok (fl, st'), t) ->
  (fl = Continue /\ dj_jobs st' = dj_jobs st)
  \/ (fl = Break /\ one_ucar_job_more ls d mission file_type st st' t).
Proof.
  unfold ucar_day_job. intros E.
  destruct (negb (Nat.eqb (List.length (ucar_type_subdirs file_type L)) 1)).
  - left. unfold LOGGER_info, emit, bind, ret in E. inversion E; subst. auto.
  - apply bind_Ok_inv in E. destruct E as (dir & t1 & t1' & _ & E & ->).
    apply bind_Ok_inv in E. destruct E as (path & t2 & t2' & _ & E & ->).
    apply bind_Ok_inv in E. destruct E as (listed & t3 & t3' & E3 & E & ->).
    destruct listed as [files|].
    + right. pose proof (try_ls_shape _ _ _ _ _ _ E3) as Hls.
      pose proof (try_ls_trace _ _ _ _ _ _ E3) as Hin.
      unfold LOGGER_info, emit, bind, ret in E. inversion E; subst.
      split; [reflexivity|]. exists dir, files, path. cbn [append_job dj_jobs set_subdirs].
      split; [reflexivity|]. split; [exact Hls|].
      apply in_or_app. right. apply in_or_app. right. apply in_or_app. now left.
    + left. unfold ret in E. inversion E; subst. auto.
Qed.

Lemma ucar_version_outcome (pv : string) (st st' : dj_locals) (fl : flow)
    (t : list event) :
  ucar_version ls re_search_group1 d mission file_type the_prefix pv st
  = (Ok (fl, st'), t) ->
  (fl = Continue /\ dj_jobs st' = dj_jobs st)
  \/ (fl = Break /\ one_ucar_job_more ls d mission file_type st st' t).
Proof.
  unfold ucar_version. intros E.
  apply bind_Ok_inv in E. destruct E as (sl & t1 & t1' & _ & E & ->).
  apply bind_Ok_inv in E. destruct E as (first & t2 & t2' & _ & E & ->).
  apply bind_Ok_inv in E. destruct E as (lvl & t3 & t3' & _ & E & ->).
  apply bind_Ok_inv in E. destruct E as (found & t4 & t4' & _ & E & ->).
  destruct found as [L|].
  - destruct (ucar_day_job_outcome _ _ _ _ _ E) as [H|[Hb (dir & files & path & H1 & H2 & H3)]];
      [now left|right].
    split; [exact Hb|]. exists dir, files, path. repeat split; try assumption.
    repeat (apply in_or_app; right). exact H3.
  - left. unfold ret in E. inversion E; subst. auto.
Qed.

Lemma ucar_versions_outcome (pvs : list string) :
  forall (st st' : dj_locals) (t : list event),
    for_each pvs (ucar_version ls re_search_group1 d mission file_type the_prefix) st
    = (Ok st', t) ->
    dj_jobs st' = dj_jobs st \/ one_ucar_job_more ls d mission file_type st st' t.
Proof.
  induction pvs as [|pv pvs IH]; intros st st' t E; cbn [for_each] in E.
  - inversion E; subst. now left.
  - apply bind_Ok_inv in E. destruct E as ([fl st1] & t1 & t2 & E1 & E & ->).
    cbn [fst snd] in E.
    destruct (ucar_version_outcome _ _ _ _ _ E1)
      as [[-> Hj]|[-> (dir & files & path & H1 & H2 & H3)]].
    + destruct (IH _ _ _ E) as [H|(dir & files & path & H1 & H2 & H3)].
      * left. congruence.
      * right. exists dir, files, path. rewrite <- Hj.
        repeat split; try assumption. apply in_or_app. now right.
    + unfold ret in E. inversion E; subst. right. exists dir, files, path.
      rewrite app_nil_r. auto.
Qed.

End UcarOneJob.

(** X25. For one UCAR mission name, day and file type, the loop over the
    processing versions gives at most one job, that of the first version that
    has one: the loop ends with it.  The number of files of that job is the
    number of all the entries of a directory that was listed, whatever their
    names. *)
Theorem ucar_mission_gives_at_most_one_job :
  forall (ls : string -> option (list string))
         (re_search_group1 : string -> string -> option string) (d : date)
         (mission file_type the_prefix UCARmission : string)
         (st st' : dj_locals) (fl : flow) (t : list event),
    ucar_mission ls re_search_group1 d mission file_type the_prefix UCARmission st
    = (Ok (fl, st'), t) ->
    dj_jobs st' = dj_jobs st \/ one_ucar_job_more ls d mission file_type st st' t.
Proof.
  intros ls re d mission ft p um st st' fl t E. unfold ucar_mission in E.
  apply bind_Ok_inv in E. destruct E as (versions & t1 & t2 & _ & E & ->).
  destruct versions as [pvs|].
  - apply bind_Ok_inv in E. destruct E as (st1 & t3 & t4 & E3 & E & ->).
    unfold ret in E. inversion E; subst.
    destruct (ucar_versions_outcome ls re d mission ft p pvs _ _ _ E3)
      as [H|(dir & files & path & H1 & H2 & H3)]; [now left|right].
    exists dir, files, path. repeat split; try assumption.
    apply in_or_app. right. apply in_or_app. now left.
  - unfold ret in E. inversion E; subst. now left.
Qed.

Lemma ucar_mission_gives_at_most_one_job_witness :
  dj_jobs (append_job
             (set_subdirs (set_level no_locals "level1b")
                ["ucar-bucket/cosmic1/repro2013/level1b/2009/032/atmPhs_repro2013_2009_032"])
             (job_dict_ucar_order "level1b" "ucar" "cosmic1" "2009-02-01"
                "cosmic1/repro2013/level1b/2009/032/atmPhs_repro2013_2009_032" 0))
  = dj_jobs (set_level no_locals "level1b")
  \/ one_ucar_job_more ucar_archive feb_1_2009 "cosmic1" "level1b"
       (set_level no_locals "level1b")
       (append_job
          (set_subdirs (set_level no_locals "level1b")
             ["ucar-bucket/cosmic1/repro2013/level1b/2009/032/atmPhs_repro2013_2009_032"])
          (job_dict_ucar_order "level1b" "ucar" "cosmic1" "2009-02-01"
             "cosmic1/repro2013/level1b/2009/032/atmPhs_repro2013_2009_032" 0))
       [Ls "s3://ucar-bucket/cosmic1"; Ls "ucar-bucket/cosmic1/repro2013";
        Ls "ucar-bucket/cosmic1/repro2013/level1b/2009/032";
        Ls "ucar-bucket/cosmic1/repro2013/level1b/2009/032/atmPhs_repro2013_2009_032";
        Log INFO
          (json_dumps None
             (job_dict_ucar_order "level1b" "ucar" "cosmic1" "2009-02-01"
                "cosmic1/repro2013/level1b/2009/032/atmPhs_repro2013_2009_032" 0))].
Proof.
  apply (ucar_mission_gives_at_most_one_job ucar_archive some_re feb_1_2009
           "cosmic1" "level1b" "s3://ucar-bucket" "cosmic1"
           (set_level no_locals "level1b") _ Continue).
  vm_compute. reflexivity.
Defined.

(* ===================================================================== *)
(** ** definejobs only reads *)
(* ===================================================================== *)

Lemma quiet_bind {A B} (m : M A) (k : A -> M B) :
  quiet m -> (forall a, quiet (k a)) -> quiet (bind m k).
Proof. apply bind_no_storage. Qed.

Lemma quiet_try_except {A} (m h : M A) : quiet m -> quiet h -> quiet (try_except m h).
Proof.
  unfold quiet, try_except. intros Hm Hh. destruct m as [[a|e] t]; [exact Hm|].
  destruct h as [r t']. cbn [snd] in *. now rewrite storage_effects_app, Hm, Hh.
Qed.

Lemma quiet_try_except_as {A} (m : M A) (h : exn -> M A) :
  quiet m -> (forall e, quiet (h e)) -> quiet (try_except_as m h).
Proof.
  unfold quiet, try_except_as. intros Hm Hh. destruct m as [[a|e] t]; [exact Hm|].
  specialize (Hh e). destruct (h e) as [r t']. cbn [snd] in *.
  now rewrite storage_effects_app, Hm, Hh.
Qed.

Lemma quiet_for_each {A S} (body : A -> S -> M (flow * S)) (l : list A) :
  (forall x s, quiet (body x s)) -> forall s, quiet (for_each l body s).
Proof.
  intros Hbody. induction l as [|x l IH]; intros s; cbn [for_each]; [reflexivity|].
  apply quiet_bind; [apply Hbody|]. intros [[] s']; cbn [fst snd];
    [apply IH|reflexivity].
Qed.

Lemma quiet_s3_ls ls (path : string) : quiet (s3_ls ls path).
Proof. unfold quiet, s3_ls, bind, emit, ret, raise. destruct (ls path); reflexivity. Qed.

Lemma quiet_try_ls ls (path : string) (lvl : loglevel) (msg : string) :
  quiet (try_ls ls path lvl msg).
Proof.
  unfold try_ls. apply quiet_try_except; [|reflexivity].
  apply quiet_bind; [apply quiet_s3_ls|reflexivity].
Qed.

Lemma quiet_registry (reformatters : list (string * list (string * string)))
    (center key : string) : quiet (registry reformatters center key).
Proof.
  unfold quiet, registry. destruct (assoc center reformatters) as [r|]; [|reflexivity].
  destruct (assoc key r); reflexivity.
Qed.

Lemma quiet_no_events {A} (m : M A) : snd m = [] -> quiet m.
Proof. unfold quiet. now intros ->. Qed.

Lemma quiet_center_missions
    (get_receiver_satellites : string -> list (list (string * string)))
    (center mission : string) :
  quiet (center_missions get_receiver_satellites center mission).
Proof.
  unfold center_missions. apply quiet_bind; [|reflexivity].
  induction (get_receiver_satellites mission) as [|sat sats IH]; [reflexivity|].
  destruct (assoc center sat); [|reflexivity].
  apply quiet_bind; [exact IH|reflexivity].
Qed.

Lemma quiet_group1 (re : string -> string -> option string) (pattern s : string) :
  quiet (group1 re pattern s).
Proof. unfold quiet, group1. destruct (re pattern s); reflexivity. Qed.

Lemma quiet_bound {A} (name : string) (v : option A) : quiet (bound name v).
Proof. destruct v; reflexivity. Qed.

Lemma quiet_first_item {A} (l : list A) : quiet (first_item l).
Proof. destruct l; reflexivity. Qed.

Create HintDb quiet_db.

Ltac quiet_step :=
  match goal with
  | |- quiet (bind _ _) => apply quiet_bind; [|intros ?]
  | |- quiet (for_each _ _ _) => apply quiet_for_each; intros ? ?
  | |- quiet (try_ls _ _ _ _) => apply quiet_try_ls
  | |- quiet (s3_ls _ _) => apply quiet_s3_ls
  | |- quiet (try_except _ _) => apply quiet_try_except
  | |- quiet (try_except_as _ _) => apply quiet_try_except_as; [|intros ?]
  | |- quiet (registry _ _ _) => apply quiet_registry
  | |- quiet (center_missions _ _ _) => apply quiet_center_missions
  | |- quiet (group1 _ _ _) => apply quiet_group1
  | |- quiet (bound _ _) => apply quiet_bound
  | |- quiet (first_item _) => apply quiet_first_item
  | |- quiet (ret _) => reflexivity
  | |- quiet (raise _) => reflexivity
  | |- quiet (LOGGER_info _) => reflexivity
  | |- quiet (LOGGER_error _) => reflexivity
  | |- quiet (emit (IsDir _)) => reflexivity
  | |- quiet (emit (ListDir _)) => reflexivity
  | |- quiet (if ?b then _ else _) => destruct b
  | |- quiet (match ?x with _ => _ end) => destruct x
  | |- quiet _ => solve [auto with quiet_db]
  end.

Ltac quiet_all f := unfold f; cbv zeta; repeat quiet_step.

Section DefinejobsQuiet.

Variable ls : string -> option (list string).
Variable isdir : string -> bool.
Variable listdir : string -> list string.
Variable reformatters : list (string * list (string * string)).
Variable valid_missions_aws : list string.
Variable get_receiver_satellites : string -> list (list (string * string)).
Variable re_search_group1 : string -> string -> option string.
Variable missions processing_centers file_types : list string.
Variable nonnominal liveupdate : bool.

Lemma ucar_day_job_quiet d mission file_type the_prefix the_subdirs st :
  quiet (ucar_day_job ls re_search_group1 d mission file_type the_prefix
           the_subdirs st).
Proof. quiet_all ucar_day_job. Qed.
#[local] Hint Resolve ucar_day_job_quiet : quiet_db.

Lemma ucar_version_quiet d mission file_type the_prefix pv st :
  quiet (ucar_version ls re_search_group1 d mission file_type the_prefix pv st).
Proof. quiet_all ucar_version. Qed.
#[local] Hint Resolve ucar_version_quiet : quiet_db.

Lemma ucar_mission_quiet d mission file_type the_prefix m st :
  quiet (ucar_mission ls re_search_group1 d mission file_type the_prefix m st).
Proof. quiet_all ucar_mission. Qed.
#[local] Hint Resolve ucar_mission_quiet : quiet_db.

Lemma ucar_file_type_quiet d mission the_prefix file_type st :
  quiet (ucar_file_type ls get_receiver_satellites re_search_group1
           d mission the_prefix file_type st).
Proof. quiet_all ucar_file_type. Qed.
#[local] Hint Resolve ucar_file_type_quiet : quiet_db.

Lemma ucar_branch_quiet d mission st :
  quiet (ucar_branch ls reformatters valid_missions_aws get_receiver_satellites
           re_search_group1 processing_centers file_types liveupdate d mission st).
Proof. quiet_all ucar_branch. Qed.

Lemma romsaf_day_quiet d mission file_type fullpath path paths st :
  quiet (romsaf_day d mission file_type fullpath path paths st).
Proof. quiet_all romsaf_day. Qed.
#[local] Hint Resolve romsaf_day_quiet : quiet_db.

Lemma romsaf_file_type_quiet d mission the_prefix file_type st :
  quiet (romsaf_file_type ls re_search_group1 nonnominal d mission the_prefix
           file_type st).
Proof. quiet_all romsaf_file_type. Qed.
#[local] Hint Resolve romsaf_file_type_quiet : quiet_db.

Lemma romsaf_mission_quiet d mission the_prefix m st :
  quiet (romsaf_mission ls re_search_group1 file_types nonnominal liveupdate
           d mission the_prefix m st).
Proof. quiet_all romsaf_mission. Qed.
#[local] Hint Resolve romsaf_mission_quiet : quiet_db.

Lemma romsaf_branch_quiet d mission st :
  quiet (romsaf_branch ls reformatters valid_missions_aws get_receiver_satellites
           re_search_group1 processing_centers file_types nonnominal liveupdate
           d mission st).
Proof. quiet_all romsaf_branch. Qed.

Lemma jpl_file_type_body_quiet d mission the_prefix file_type st :
  quiet (jpl_file_type_body ls isdir listdir d mission the_prefix file_type st).
Proof. quiet_all jpl_file_type_body. Qed.
#[local] Hint Resolve jpl_file_type_body_quiet : quiet_db.

Lemma jpl_branch_quiet d mission st :
  quiet (jpl_branch ls isdir listdir reformatters valid_missions_aws
           processing_centers file_types liveupdate d mission st).
Proof. quiet_all jpl_branch. Qed.

Lemma eumetsat_version_quiet d mission file_type the_prefix pv st :
  quiet (eumetsat_version ls re_search_group1 d mission file_type the_prefix pv st).
Proof. quiet_all eumetsat_version. Qed.
#[local] Hint Resolve eumetsat_version_quiet : quiet_db.

Lemma eumetsat_mission_quiet d mission file_type the_prefix m st :
  quiet (eumetsat_mission ls re_search_group1 d mission file_type the_prefix m st).
Proof. quiet_all eumetsat_mission. Qed.
#[local] Hint Resolve eumetsat_mission_quiet : quiet_db.

Lemma eumetsat_file_type_quiet d mission the_prefix file_type st :
  quiet (eumetsat_file_type ls get_receiver_satellites re_search_group1
           d mission the_prefix file_type st).
Proof. quiet_all eumetsat_file_type. Qed.
#[local] Hint Resolve eumetsat_file_type_quiet : quiet_db.

Lemma eumetsat_branch_quiet d mission st :
  quiet (eumetsat_branch ls reformatters valid_missions_aws get_receiver_satellites
           re_search_group1 processing_centers file_types liveupdate d mission st).
Proof. quiet_all eumetsat_branch. Qed.

Lemma mission_body_quiet d mission st :
  quiet (mission_body ls isdir listdir reformatters valid_missions_aws
           get_receiver_satellites re_search_group1 processing_centers file_types
           nonnominal liveupdate d mission st).
Proof.
  unfold mission_body.
  apply quiet_bind; [apply ucar_branch_quiet|intros st1].
  apply quiet_bind; [apply romsaf_branch_quiet|intros st2].
  apply quiet_bind; [apply jpl_branch_quiet|intros fs].
  destruct (fst fs); [apply eumetsat_branch_quiet|reflexivity].
Qed.

Lemma while_dates_quiet (fuel : nat) :
  forall d last st r t,
    while_dates ls isdir listdir reformatters valid_missions_aws
      get_receiver_satellites re_search_group1 missions processing_centers
      file_types nonnominal liveupdate fuel d last st = Some (r, t) ->
    storage_effects t = [].
Proof.
  induction fuel as [|fuel IH]; intros d last st r t E; [discriminate E|].
  cbn [while_dates] in E. destruct (date_leb d last).
  - pose proof (quiet_for_each _ missions
                  (fun m s => mission_body_quiet d m s) st) as Hq.
    unfold quiet in Hq.
    destruct (for_each missions _ st) as [[st1|e] t1]; cbn [snd] in Hq.
    + destruct (while_dates _ _ _ _ _ _ _ _ _ _ _ _ fuel (next_day d) last st1)
        as [[r2 t2]|] eqn:E2; [|discriminate E].
      inversion E; subst. rewrite storage_effects_app, Hq, (IH _ _ _ _ _ E2).
      reflexivity.
    + inversion E; subst. exact Hq.
  - inversion E; subst. reflexivity.
Qed.

End DefinejobsQuiet.

Lemma definejobs_storage_effects :
  forall (ls : string -> option (list string)) (isdir : string -> bool)
         (listdir : string -> list string)
         (reformatters : list (string * list (string * string)))
         (valid_missions_aws : list string)
         (get_receiver_satellites : string -> list (list (string * string)))
         (re_search_group1 : string -> string -> option string)
         (missions processing_centers file_types : list string)
         (nonnominal liveupdate : bool) (fuel : nat) (daterange : date * date)
         (UCARprefix ROMSAFprefix JPLprefix EUMETSATprefix : option string)
         (session : option Session) r t,
    definejobs ls isdir listdir reformatters valid_missions_aws
      get_receiver_satellites re_search_group1 missions processing_centers
      file_types nonnominal liveupdate fuel daterange
      UCARprefix ROMSAFprefix JPLprefix EUMETSATprefix session = Some (r, t) ->
    storage_effects t = [].
Proof.
  intros ls isdir listdir reformatters valid get_sats re missions pcs fts
         nonnominal liveupdate fuel daterange p1 p2 p3 p4 session r t E.
  unfold definejobs in E.
  destruct (check_input _ _ _ _ _); [inversion E; reflexivity|].
  destruct (establish_s3fs session) as [[[]|e] t0] eqn:Es.
  - assert (t0 = []) by (destruct session; inversion Es; reflexivity). subst t0.
    match type of E with
    | match ?w with _ => _ end = _ => destruct w as [[[st|e] t1]|] eqn:Ew
    end; try discriminate E.
    + inversion E; subst. cbn [app]. rewrite storage_effects_app.
      rewrite (while_dates_quiet _ _ _ _ _ _ _ _ _ _ _ _ _ _ _ _ _ _ Ew).
      reflexivity.
    + inversion E; subst. cbn [app].
      exact (while_dates_quiet _ _ _ _ _ _ _ _ _ _ _ _ _ _ _ _ _ _ Ew).
  - destruct session; inversion Es. inversion E; subst. reflexivity.
Qed.

(** X26. definejobs only reads: whatever it returns or raises, it has written
    no file, uploaded nothing and removed nothing. *)
Theorem definejobs_writes_nothing :
  forall (ls : string -> option (list string)) (isdir : string -> bool)
         (listdir : string -> list string)
         (reformatters : list (string * list (string * string)))
         (valid_missions_aws : list string)
         (get_receiver_satellites : string -> list (list (string * string)))
         (re_search_group1 : string -> string -> option string)
         (missions processing_centers file_types : list string)
         (nonnominal liveupdate : bool) (fuel : nat) (daterange : date * date)
         (UCARprefix ROMSAFprefix JPLprefix EUMETSATprefix : option string)
         (session : option Session) r t,
    definejobs ls isdir listdir reformatters valid_missions_aws
      get_receiver_satellites re_search_group1 missions processing_centers
      file_types nonnominal liveupdate fuel daterange
      UCARprefix ROMSAFprefix JPLprefix EUMETSATprefix session = Some (r, t) ->
    Forall (fun ev => is_storage ev = false) t.
Proof.
  intros ls isdir listdir reformatters valid get_sats re missions pcs fts
         nonnominal liveupdate fuel daterange p1 p2 p3 p4 session r t E.
  apply definejobs_storage_effects in E. unfold storage_effects in E.
  apply Forall_forall. intros ev Hev.
  destruct (is_storage ev) eqn:Hs; [|reflexivity].
  assert (Hin : In ev (filter is_storage t)) by (apply filter_In; auto).
  rewrite E in Hin. destruct Hin.
Qed.

Lemma definejobs_writes_nothing_witness :
  exists r t,
    definejobs ucar_archive (fun _ => false) (fun _ => []) some_reformatters
      some_missions some_satellites some_re ["cosmic1"] ["ucar"] ["level1b"]
      false false 2 (feb_1_2009, feb_1_2009) None None None None (Some a_session)
    = Some (r, t)
    /\ t <> [] /\ Forall (fun ev => is_storage ev = false) t.
Proof.
  eexists. eexists. split; [vm_compute; reflexivity|].
  split; [discriminate|].
  eapply (definejobs_writes_nothing ucar_archive (fun _ => false) (fun _ => [])
            some_reformatters some_missions some_satellites some_re
            ["cosmic1"] ["ucar"] ["level1b"] false false 2
            (feb_1_2009, feb_1_2009) None None None None (Some a_session)).
  vm_compute. reflexivity.
Defined.

(** X27. createjobdefinitionsjson writes to its JSON file and to nothing else:
    every file written is the JSON file, nothing is uploaded and nothing is
    removed, whatever definejobs found. *)
Theorem createjobdefinitionsjson_writes_only_its_file :
  forall (ls : string -> option (list string)) (isdir : string -> bool)
         (listdir : string -> list string)
         (reformatters : list (string * list (string * string)))
         (valid_missions_aws : list string)
         (get_receiver_satellites : string -> list (list (string * string)))
         (re_search_group1 : string -> string -> option string)
         (missions processing_centers file_types : list string)
         (fuel : nat) (daterange : date * date)
         (UCARprefix ROMSAFprefix JPLprefix EUMETSATprefix : option string)
         (session : option Session) (jsonfile : string) r t,
    createjobdefinitionsjson ls isdir listdir reformatters valid_missions_aws
      get_receiver_satellites re_search_group1 fuel daterange missions
      processing_centers file_types jsonfile
      UCARprefix ROMSAFprefix JPLprefix EUMETSATprefix session = Some (r, t) ->
    forall ev, In ev t -> is_storage ev = true ->
               exists text, ev = FileWrite jsonfile text.
Proof.
  intros ls isdir listdir reformatters valid get_sats re missions pcs fts
         fuel daterange p1 p2 p3 p4 session jsonfile r t E ev Hin Hs.
  assert (Hev : In ev (storage_effects t))
    by (unfold storage_effects; apply filter_In; auto).
  clear Hin Hs. unfold createjobdefinitionsjson in E.
  destruct (definejobs _ _ _ _ _ _ _ _ _ _ _ _ _ _ _ _ _ _ _)
    as [[[v|e] t0]|] eqn:Ed; try discriminate E.
  - inversion E; subst. pose proof (definejobs_storage_effects _ _ _ _ _ _ _ _ _ _ _ _ _ _ _ _ _ _ _ _ _ Ed) as H0.
    change (FileWrite jsonfile EmptyString :: t0 ++ _)
      with ([FileWrite jsonfile EmptyString] ++ t0 ++
            [Log INFO ("Writing to JSON file " +++ jsonfile +++ ".");
             FileWrite jsonfile (json_dumps (Some "  ") v)]) in Hev.
    rewrite !storage_effects_app, H0 in Hev. simpl in Hev.
    destruct Hev as [<-|[<-|[]]]; eauto.
  - inversion E; subst. pose proof (definejobs_storage_effects _ _ _ _ _ _ _ _ _ _ _ _ _ _ _ _ _ _ _ _ _ Ed) as H0.
    change (FileWrite jsonfile EmptyString :: t0)
      with ([FileWrite jsonfile EmptyString] ++ t0) in Hev.
    rewrite storage_effects_app, H0 in Hev. simpl in Hev.
    destruct Hev as [<-|[]]; eauto.
Qed.

Lemma createjobdefinitionsjson_writes_only_its_file_witness :
  exists r t,
    createjobdefinitionsjson ucar_archive (fun _ => false) (fun _ => [])
      some_reformatters some_missions some_satellites some_re 2
      (feb_1_2009, feb_1_2009) ["cosmic1"] ["ucar"] ["level1b"] "jobs.json"
      None None None None (Some a_session) = Some (r, t)
    /\ forall ev, In ev t -> is_storage ev = true ->
                  exists text, ev = FileWrite "jobs.json" text.
Proof.
  eexists. eexists. split; [vm_compute; reflexivity|].
  eapply (createjobdefinitionsjson_writes_only_its_file ucar_archive
            (fun _ => false) (fun _ => []) some_reformatters some_missions
            some_satellites some_re ["cosmic1"] ["ucar"] ["level1b"] 2
            (feb_1_2009, feb_1_2009) None None None None (Some a_session)
            "jobs.json").
  vm_compute. reflexivity.
Defined.

(* ===================================================================== *)
(** ** define_batchprocess_jobs on an iterator that returns no tuple *)
(* ===================================================================== *)

(** The first request raises StopIteration exactly when the iterator holds
    one job and no file of it. *)
Lemma first_next_stops_iff ls (it it' : DASKjobs) (e : exn) (t : list event) :
  DASKjobs_next ls it = (it', (Raise e, t)) ->
  e = StopIteration <-> inputfiles it = [] /\ exists job, jobs it = [job].
Proof.
  intros E. unfold DASKjobs_next in E.
  destruct (Nat.eqb (List.length (inputfiles it)) 0) eqn:E0.
  - assert (Hf : inputfiles it = [])
      by (apply Nat.eqb_eq in E0; now destruct (inputfiles it)).
    destruct (jobs it) as [|job0 rest].
    + inversion E; subst. split; [discriminate|].
      intros [_ [job H]]. discriminate H.
    + destruct rest as [|job1 rest].
      * cbn [List.length Nat.eqb] in E. inversion E; subst.
        split; [intros _; split; [exact Hf|now exists job0]|reflexivity].
      * cbn [List.length Nat.eqb] in E.
        rewrite py_getitem_first, bind_ret_l in E.
        assert (Hne : e <> StopIteration).
        { destruct (loadfiles ls (prefixes it) job1) as [[files|e1] t1] eqn:El.
          - destruct (next_tuple _) as [self3 [r t']] eqn:En. inversion E; subst.
            exact (next_tuple_never_stops _ _ _ _ En).
          - inversion E; subst. exact (loadfiles_never_stops ls _ _ _ _ El). }
        split; [intros H; contradiction|].
        intros [_ [job H]]. discriminate H.
  - split.
    + intros ->. exfalso. now apply (next_tuple_never_stops _ _ _ _ E).
    + intros [Hf _]. rewrite Hf in E0. discriminate E0.
Qed.

(** C10. An iterator that is built and returns no tuple is one whose first
    [__next__] fails.  When it fails with StopIteration, which happens exactly
    when the iterator holds a single job and no file of it, the loop body
    never binds [out] and the test after the loop raises UnboundLocalError.
    When it fails with another error, that error leaves the call from inside
    the loop and the test after the loop is not reached.  Either way the call
    fails and writes nothing. *)
Theorem define_batchprocess_jobs_unbound_out :
  forall (ls : string -> option (list string)) (template : Z -> string)
         (job_definitions : pyval) (jobsperfile : Z) (session : option Session)
         (it it' : DASKjobs) (e : exn) (t0 t1 : list event) (fuel : nat),
    DASKjobs_init ls job_definitions session = (Ok it, t0) ->
    DASKjobs_next ls it = (it', (Raise e, t1)) ->
    define_batchprocess_jobs ls template (S fuel) job_definitions jobsperfile session
    = Some (Raise match e with
                  | StopIteration => UnboundLocalError "out"
                  | _ => e
                  end, t0 ++ t1)
    /\ storage_effects (t0 ++ t1) = []
    /\ (e = StopIteration <-> inputfiles it = [] /\ exists job, jobs it = [job]).
Proof.
  intros ls template jd k session it it' e t0 t1 fuel Hinit Hnext.
  split; [|split].
  - unfold define_batchprocess_jobs. rewrite Hinit. cbn [for_loop].
    rewrite Hnext. destruct e; try reflexivity.
    cbn. rewrite app_nil_r. reflexivity.
  - pose proof (DASKjobs_init_no_storage ls jd session) as H0.
    pose proof (DASKjobs_next_no_storage ls it) as H1.
    rewrite Hinit in H0. rewrite Hnext in H1. simpl in H0, H1.
    rewrite storage_effects_app, H0, H1. reflexivity.
  - exact (first_next_stops_iff ls it it' e t1 Hnext).
Qed.

Lemma define_batchprocess_jobs_unbound_out_witness :
  exists it it' t0 t1,
    DASKjobs_init an_archive (a_job_set [a_job "empty1" 2]) (Some a_session)
    = (Ok it, t0)
    /\ DASKjobs_next an_archive it = (it', (Raise StopIteration, t1))
    /\ define_batchprocess_jobs an_archive a_template 1
         (a_job_set [a_job "empty1" 2]) 3 (Some a_session)
       = Some (Raise (UnboundLocalError "out"), t0 ++ t1)
    /\ storage_effects (t0 ++ t1) = []
    /\ (StopIteration = StopIteration
        <-> inputfiles it = [] /\ exists job, jobs it = [job]).
Proof.
  do 4 eexists.
  split; [vm_compute; reflexivity|]. split; [vm_compute; reflexivity|].
  eapply (define_batchprocess_jobs_unbound_out an_archive a_template
            (a_job_set [a_job "empty1" 2]) 3 (Some a_session) _ _
            StopIteration _ _ 0).
  - vm_compute. reflexivity.
  - vm_compute. reflexivity.
Defined.

(** C10, the counterexample. A job set of two jobs whose file lists both
    resolve empty also makes an iterator that returns no tuple, yet the call
    does not reach the test after the loop: the first [__next__] drops the
    first job, loads the empty list of the second and indexes it, and the
    IndexError leaves the call from inside the loop.  The call fails, but not
    with UnboundLocalError. *)
Lemma two_empty_jobs_fail_inside_the_loop :
  exists it it' t0 t1,
    DASKjobs_init an_archive (a_job_set [a_job "empty1" 2; a_job "empty2" 1])
      (Some a_session) = (Ok it, t0)
    /\ inputfiles it = []
    /\ DASKjobs_next an_archive it
       = (it', (Raise (IndexError "list index out of range"), t1))
    /\ define_batchprocess_jobs an_archive a_template 1
         (a_job_set [a_job "empty1" 2; a_job "empty2" 1]) 3 (Some a_session)
       = Some (Raise (IndexError "list index out of range"), t0 ++ t1)
    /\ (forall t,
          define_batchprocess_jobs an_archive a_template 1
            (a_job_set [a_job "empty1" 2; a_job "empty2" 1]) 3 (Some a_session)
          <> Some (Raise (UnboundLocalError "out"), t)).
Proof.
  do 4 eexists.
  split; [vm_compute; reflexivity|]. split; [reflexivity|].
  split; [vm_compute; reflexivity|]. split; [vm_compute; reflexivity|].
  intros t. vm_compute. discriminate.
Qed.
